(** * Budget tracker: parsers, categorization engine and analytics

    A shallow embedding of the TypeScript sources
    [lib/parsers/qfx.ts], [lib/parsers/csv.ts], [lib/categorization/engine.ts],
    [lib/analytics/calculator.ts], [lib/utils.ts], of the entry point of the
    parsers [lib/parsers/index.ts], and of the reducer of
    [context/AppContext.tsx] with the actions [uploadFiles] and
    [categorizeTransaction] of its provider.

    Conventions of the embedding.
    - A JavaScript [number] that the code computes with is a binary64
      float ([PrimFloat.float]); the operators [+ - * /], [<], [<=],
      [Math.abs] are the IEEE operations of the kernel.
    - A [number] that is integral by construction (an array length, the
      time value of a valid [Date]) is kept as [nat] or [Z] and injected by
      [Z2Number], which rounds to nearest even as the conversions of the
      language do.
    - A string is a sequence of code units below 256.
    - What the platform or a third-party library provides ([Date],
      [RegExp], [crypto.subtle], number formatting, date-fns) is a field
      of the record [Host]; Papa Parse is an argument of [parseCSV]; the
      properties that a plain object inherits and the collation of
      [localeCompare] are the fields of the record [Realm].
    - A transaction object lives in a store, and an array of transactions
      holds references into it: a method that assigns to a transaction
      writes the store, and the methods of the calculator are given both as
      functions of the objects and as computations on the store. *)

From Stdlib Require Import ZArith NArith List String Ascii Bool Lia Floats.
From Stdlib Require Import Permutation Sorted.
Import ListNotations.

Set Warnings "-inexact-float,-register-all".

(** ** ECMAScript numbers, strings and arrays *)

Module JS.

Definition Number := float.

(** The Number value of an integer: round to nearest, ties to even. *)
Definition Z2Number (z : Z) : Number :=
  SF2Prim (binary_normalize prec emax z 0 false).

Definition nat2Number (n : nat) : Number := Z2Number (Z.of_nat n).

Definition isNaN (x : Number) : bool := PrimFloat.is_nan x.

(** The Number value of the decimal [m * 10 ^ e10], correctly rounded. *)
Definition decimal2Number (neg : bool) (m : N) (e10 : Z) : Number :=
  match m with
  | N0 => if neg then (- 0)%float else 0%float
  | Npos p =>
      let x :=
        if (0 <=? e10)%Z
        then binary_normalize prec emax (Zpos p * 10 ^ e10) 0 false
        else SFdiv prec emax (S754_finite false p 0)
                   (S754_finite false (Z.to_pos (10 ^ (- e10))) 0)
      in if neg then (- SF2Prim x)%float else SF2Prim x
  end.

Definition code (c : ascii) : nat := nat_of_ascii c.

Definition isDigit (c : ascii) : bool :=
  (48 <=? code c)%nat && (code c <=? 57)%nat.

Definition isUpper (c : ascii) : bool :=
  (65 <=? code c)%nat && (code c <=? 90)%nat.

Definition isLower (c : ascii) : bool :=
  (97 <=? code c)%nat && (code c <=? 122)%nat.

(** [WhiteSpace] and [LineTerminator] code units below 256. *)
Definition isWhiteSpace (c : ascii) : bool :=
  let n := code c in
  ((9 <=? n)%nat && (n <=? 13)%nat) || (n =? 32)%nat || (n =? 160)%nat.

Definition toUpper (c : ascii) : ascii :=
  if isLower c then ascii_of_nat (code c - 32) else c.

Fixpoint trimStart (s : string) : string :=
  match s with
  | String c s' => if isWhiteSpace c then trimStart s' else s
  | EmptyString => EmptyString
  end.

Fixpoint trimEnd (s : string) : string :=
  match s with
  | String c s' =>
      match trimEnd s' with
      | EmptyString => if isWhiteSpace c then EmptyString else String c EmptyString
      | t => String c t
      end
  | EmptyString => EmptyString
  end.

Definition trim (s : string) : string := trimEnd (trimStart s).

(** [s.startsWith(p)], with the rest of [s] after [p]. *)
Fixpoint stripPrefix (p s : string) : option string :=
  match p, s with
  | EmptyString, _ => Some s
  | String a p', String b s' => if Ascii.eqb a b then stripPrefix p' s' else None
  | String _ _, EmptyString => None
  end.

Definition startsWith (p s : string) : bool :=
  match stripPrefix p s with
  | Some _ => true
  | None => false
  end.

(** The longest prefix of digits, as a list of digit values, and the rest. *)
Fixpoint spanDigits (s : string) : list N * string :=
  match s with
  | String c s' =>
      if isDigit c
      then let '(ds, r) := spanDigits s' in (N.of_nat (code c - 48) :: ds, r)
      else ([], s)
  | EmptyString => ([], EmptyString)
  end.

Definition digitsValue (ds : list N) : N :=
  fold_left (fun acc d => (acc * 10 + d)%N) ds 0%N.

(** The optional sign of a numeric literal: [true] for a minus. *)
Definition spanSign (s : string) : bool * string :=
  match s with
  | String "-" s' => (true, s')
  | String "+" s' => (false, s')
  | _ => (false, s)
  end.

(** The optional exponent part [e] or [E], sign, digits; it is part of
    the literal only when at least one digit follows. *)
Definition spanExponent (s : string) : Z :=
  match s with
  | String c s' =>
      if Ascii.eqb c "e" || Ascii.eqb c "E"
      then let '(neg, s'') := spanSign s' in
           match spanDigits s'' with
           | ([], _) => 0%Z
           | (ds, _) => let e := Z.of_N (digitsValue ds) in if neg then (- e)%Z else e
           end
      else 0%Z
  | EmptyString => 0%Z
  end.

(** [parseFloat(s)]: leading white space is skipped, the longest prefix
    that is a [StrDecimalLiteral] is read, [NaN] when there is none. *)
Definition parseFloat (s : string) : Number :=
  let '(neg, s1) := spanSign (trimStart s) in
  match stripPrefix "Infinity" s1 with
  | Some _ => if neg then neg_infinity else infinity
  | None =>
      let '(ip, s2) := spanDigits s1 in
      let '(fp, s3) :=
        match s2 with
        | String "." s2' => spanDigits s2'
        | _ => ([], s2)
        end in
      match ip ++ fp with
      | [] => nan
      | ds => decimal2Number neg (digitsValue ds)
                (spanExponent s3 - Z.of_nat (List.length fp))
      end
  end.

(** [parseInt(s, 10)]: the value of the longest signed digit prefix
    after leading white space; [None] stands for [NaN]. *)
Definition parseInt (s : string) : option Z :=
  let '(neg, s1) := spanSign (trimStart s) in
  match spanDigits s1 with
  | ([], _) => None
  | (ds, _) => let v := Z.of_N (digitsValue ds) in Some (if neg then (- v)%Z else v)
  end.

(** [s.split(sep)] for a one-character separator. *)
Fixpoint split (sep : ascii) (s : string) : list string :=
  match s with
  | EmptyString => [EmptyString]
  | String c s' =>
      if Ascii.eqb c sep then EmptyString :: split sep s'
      else match split sep s' with
           | p :: ps => String c p :: ps
           | [] => [String c EmptyString]
           end
  end.

(** [s.replace(/c/g, '')]: every occurrence of one character removed. *)
Fixpoint removeChar (x : ascii) (s : string) : string :=
  match s with
  | EmptyString => EmptyString
  | String c s' => if Ascii.eqb c x then removeChar x s' else String c (removeChar x s')
  end.

Section ArraySort.
Context {A : Type}.
  (** [negative a b] holds when the comparator returns a negative number
      on [(a, b)], that is when [a] has to come before [b]. *)
Variable negative : A -> A -> bool.

Fixpoint insertSorted (x : A) (l : list A) : list A :=
    match l with
    | [] => [x]
    | y :: l' => if negative y x then y :: insertSorted x l' else x :: y :: l'
    end.

  (** [Array.prototype.sort(cmp)]: a stable sort. *)
Definition sort (l : list A) : list A := fold_right insertSorted [] l.
End ArraySort.

End JS.

Import JS.

(** ** The data model ([types/index.ts]) *)

(** The time value of a valid [Date], in milliseconds since the epoch. An
    invalid [Date] is never stored: both parsers drop the record. *)
Definition Date := Z.

Inductive TransactionType := DEBIT | CREDIT.

Inductive Source := QFX | CSV.

Module Transaction.
Record t := mk {
    id : string;
    date : Date;
    description : string;
    amount : Number;
    type : TransactionType;
    categoryId : option string;
    isExcluded : bool;
    source : Source;
    sourceFile : option string;
    accountId : option string;
    transactionId : option string;
    memo : option string;
    isManuallyCategorized : bool
  }.

  (** [txn.categoryId = c] *)
Definition setCategoryId (c : option string) (x : t) : t :=
    mk (id x) (date x) (description x) (amount x) (type x) c (isExcluded x)
       (source x) (sourceFile x) (accountId x) (transactionId x) (memo x)
       (isManuallyCategorized x).

  (** [{ ...t, isExcluded }] *)
Definition withIsExcluded (b : bool) (x : t) : t :=
    mk (id x) (date x) (description x) (amount x) (type x) (categoryId x) b
       (source x) (sourceFile x) (accountId x) (transactionId x) (memo x)
       (isManuallyCategorized x).
End Transaction.

(** The transaction objects of the heap: a reference to one is its index.
    An array of transactions holds references, and two of its elements may
    be one object. *)
Definition Store := list Transaction.t.

(** [store[ref] = x] *)
Fixpoint assign (ref : nat) (x : Transaction.t) (store : Store) : Store :=
  match store, ref with
  | [], _ => []
  | _ :: rest, O => x :: rest
  | y :: rest, S ref' => y :: assign ref' x rest
  end.

Module CategoryPattern.
Record t := mk {
    id : string;
    pattern : string;
    priority : Number;
    enabled : bool;
    isDefault : bool
  }.
End CategoryPattern.

Module Category.
Record t := mk {
    id : string;
    name : string;
    patterns : list CategoryPattern.t
  }.
End Category.

Module CategorizationRule.
Record t := mk {
    id : string;
    categoryId : string;
    pattern : string;
    priority : Number;
    enabled : bool
  }.
End CategorizationRule.

Module RepeatedExpense.
Record t := mk {
    merchantPattern : string;
    occurrences : nat;
    averageAmount : Number;
    totalAmount : Number;
    transactionIds : list string;
    isLikelySubscription : bool;
    estimatedMonthly : option Number
  }.
End RepeatedExpense.

Module OverallStats.
Record t := mk {
    totalDebits : Number;
    totalCredits : Number;
    net : Number;
    transactionCount : nat;
    dateRange : option (Date * Date);
    monthCount : nat;
    averageMonthlyExpenses : Number
  }.
End OverallStats.

Inductive Severity := error | warning.

Module ParseError.
Record t := mk {
    line : option Z;
    field : option string;
    message : string;
    severity : Severity
  }.
End ParseError.

Module ParseResult.
Record t := mk {
    transactions : list Transaction.t;
    errors : list ParseError.t
  }.
End ParseResult.

(** ** A JavaScript [Map] with string keys

    Entries are kept in insertion order, which is the order [forEach]
    visits them in. *)

Module StringMap.
Section Entries.
Context {V : Type}.

Definition t := list (string * V).

Definition has (k : string) (m : t) : bool :=
  existsb (fun e => String.eqb (fst e) k) m.

Definition get (k : string) (m : t) : option V :=
  option_map snd (find (fun e => String.eqb (fst e) k) m).

Definition set (k : string) (v : V) (m : t) : t :=
  if has k m
  then map (fun e => if String.eqb (fst e) k then (fst e, v) else e) m
  else m ++ [(k, v)].

(** A mutation of the value stored under [k], as [m.get(k).push(x)] is. *)
Definition update (k : string) (f : V -> V) (m : t) : t :=
  map (fun e => if String.eqb (fst e) k then (fst e, f (snd e)) else e) m.

End Entries.
Arguments t : clear implicits.
End StringMap.

(** ** Papa Parse

    What [Papa.parse(content, { header: true, ... })] hands to the
    callbacks: the rows bound to the header names and the row errors to
    [complete], or a fatal error to [error]. *)

Module Papa.
Record RowError := mkRowError {
  row : option Z;
  message : string
}.

Inductive outcome :=
| Complete (data : list (StringMap.t string)) (errors : list RowError)
| Fatal (message : string).
End Papa.

(** ** The platform *)

Module Host.
Record t := mk {
    (** [crypto.subtle.digest('SHA-256', bytes)], when [crypto.subtle] exists. *)
    subtleDigest : option (list Byte.byte -> list Byte.byte);
    (** [new Date(year, month, day).getTime()] in the local time zone;
        an argument or a result [None] stands for [NaN]. *)
    dateLocal : option Z -> option Z -> option Z -> option Date;
    (** [new Date(isoString).getTime()] *)
    dateParse : string -> option Date;
    (** [date.toISOString()] *)
    toISOString : Date -> string;
    (** [String(x)], the template-literal conversion of a Number. *)
    numberToString : Number -> string;
    (** date-fns [format(date, 'yyyy-MM')] *)
    formatYearMonth : Date -> string;
    (** [new RegExp(pattern, 'i').test(text)]; [None] when the constructor throws. *)
    regExpTest : string -> string -> option bool;
    (** The text of the [parsererror] element that [DOMParser] returns for
        markup that is not well-formed. *)
    parserErrorText : string -> string;
    (** [Date.now()] at the call. *)
    now : Z;
    (** [Math.random().toString(36).substr(2, 9)] at the call. *)
    random : string
  }.

(** The same platform at another time: the clock and the random source
    have moved. *)
Definition later (now' : Z) (random' : string) (h : t) : t :=
  mk (subtleDigest h) (dateLocal h) (dateParse h) (toISOString h) (numberToString h)
     (formatYearMonth h) (regExpTest h) (parserErrorText h) now' random'.
End Host.

(** ** The analytics calculator ([lib/analytics/calculator.ts]) *)

Module AnalyticsCalculator.

(** [ensureDate]: a [Date] is returned as it is. *)
Definition ensureDate (d : Date) : Date := d.

Definition getTime (d : Date) : Z := d.

(** [/SQ \*/gi] matches at the head of [s]. *)
Definition matchesSQ (s : string) : bool :=
  match s with
  | String a (String b (String c (String d _))) =>
      Ascii.eqb (toUpper a) "S" && Ascii.eqb (toUpper b) "Q"
      && Ascii.eqb c " " && Ascii.eqb d "*"
  | _ => false
  end.

(** [s.replace(/SQ \*/gi, '')]; [skip] counts the characters of a match
    that are still to be dropped. *)
Fixpoint removeSQ (skip : nat) (s : string) : string :=
  match s with
  | EmptyString => EmptyString
  | String c s' =>
      match skip with
      | S k => removeSQ k s'
      | O => if matchesSQ s then removeSQ 3 s' else String c (removeSQ 0 s')
      end
  end.

(** [s.replace(/\d{10,}/g, '')]; [run] is the run of digits read so far. *)
Fixpoint removeLongNumbers (run : string) (s : string) : string :=
  let flush := if (10 <=? String.length run)%nat then EmptyString else run in
  match s with
  | EmptyString => flush
  | String c s' =>
      if isDigit c then removeLongNumbers (run ++ String c EmptyString) s'
      else flush ++ String c (removeLongNumbers EmptyString s')
  end.

(** The length of the match of [/[A-Z]{2}\d{4,}/] at the head of [s]. *)
Definition locationCodeAt (s : string) : option nat :=
  match s with
  | String a (String b r) =>
      let n := List.length (fst (spanDigits r)) in
      if isUpper a && isUpper b && (4 <=? n)%nat then Some (2 + n)%nat else None
  | _ => None
  end.

(** [s.replace(/[A-Z]{2}\d{4,}/g, '')] *)
Fixpoint removeLocationCodes (skip : nat) (s : string) : string :=
  match s with
  | EmptyString => EmptyString
  | String c s' =>
      match skip with
      | S k => removeLocationCodes k s'
      | O => match locationCodeAt s with
             | Some n => removeLocationCodes (n - 1) s'
             | None => String c (removeLocationCodes 0 s')
             end
      end
  end.

Definition normalizeMerchant (description : string) : string :=
  substring 0 30
    (trim (removeLocationCodes 0 (removeLongNumbers EmptyString (removeSQ 0 description)))).

Definition isDebit (t : Transaction.t) : bool :=
  match Transaction.type t with DEBIT => true | CREDIT => false end.

(** The body of the [forEach] of [groupByMerchant]. *)
Definition addToGroup (groups : StringMap.t (list Transaction.t)) (txn : Transaction.t)
  : StringMap.t (list Transaction.t) :=
  let merchant := normalizeMerchant (Transaction.description txn) in
  let groups := if negb (StringMap.has merchant groups)
                then StringMap.set merchant [] groups else groups in
  StringMap.update merchant (fun g => g ++ [txn]) groups.

Definition groupByMerchant (transactions : list Transaction.t)
  : StringMap.t (list Transaction.t) :=
  fold_left addToGroup
    (filter (fun t => isDebit t && negb (Transaction.isExcluded t)) transactions)
    [].

(** [xs.reduce((a, b) => a + b, 0)] *)
Definition sum (xs : list Number) : Number :=
  fold_left (fun a b => (a + b)%float) xs 0%float.

Definition sumAmounts (transactions : list Transaction.t) : Number :=
  fold_left (fun s t => (s + Transaction.amount t)%float) transactions 0%float.

(** [1000 * 60 * 60 * 24] *)
Definition msPerDay : Number := (1000 * 60 * 60 * 24)%float.

(** The loop over [i = 1 .. dates.length - 1]. *)
Fixpoint intervals (dates : list Z) : list Number :=
  match dates with
  | a :: (b :: _) as rest => (Z2Number (b - a) / msPerDay)%float :: intervals rest
  | _ => []
  end.

(** The comparator [(a, b) => a - b] is negative. *)
Definition ascending (a b : Z) : bool := (a - b <? 0)%Z.

Definition isLikelySubscription (transactions : list Transaction.t) : bool :=
  if (List.length transactions <? 2)%nat then false
  else
    let dates := sort ascending
                      (map (fun t => getTime (ensureDate (Transaction.date t))) transactions) in
    let ivs := intervals dates in
    if (List.length ivs =? 0)%nat then false
    else
      let avgInterval := (sum ivs / nat2Number (List.length ivs))%float in
      (25 <=? avgInterval)%float && (avgInterval <=? 35)%float.

Definition absAmounts (txns : list Transaction.t) : list Number :=
  map (fun t => abs (Transaction.amount t)) txns.

Definition average (amounts : list Number) : Number :=
  (sum amounts / nat2Number (List.length amounts))%float.

(** [amounts.every(amt => Math.abs(amt - avgAmount) / avgAmount <= 0.1)] *)
Definition isSimilar (amounts : list Number) : bool :=
  let avgAmount := average amounts in
  forallb (fun amt => (abs (amt - avgAmount) / avgAmount <=? 0.1)%float) amounts.

(** The entry pushed for a group that passed both tests. *)
Definition repeatedExpense (merchant : string) (txns : list Transaction.t)
  : RepeatedExpense.t :=
  let amounts := absAmounts txns in
  let avgAmount := average amounts in
  let likely := isLikelySubscription txns in
  RepeatedExpense.mk merchant (List.length txns) avgAmount (sum amounts)
    (map Transaction.id txns) likely (if likely then Some avgAmount else None).

(** The body of [groups.forEach((txns, merchant) => ...)]: what one group
    pushes onto [repeated]. *)
Definition visitGroup (entry : string * list Transaction.t) : list RepeatedExpense.t :=
  let '(merchant, txns) := entry in
  if (List.length txns <? 2)%nat then []
  else if isSimilar (absAmounts txns) then [repeatedExpense merchant txns]
  else [].

(** The comparator [(a, b) => b.totalAmount - a.totalAmount] is negative. *)
Definition byTotalDescending (a b : RepeatedExpense.t) : bool :=
  (RepeatedExpense.totalAmount b - RepeatedExpense.totalAmount a <? 0)%float.

Definition detectRepeatedExpenses (transactions : list Transaction.t)
  : list RepeatedExpense.t :=
  let groups := groupByMerchant transactions in
  let repeated := flat_map visitGroup groups in
  sort byTotalDescending repeated.

(** [Math.min(...xs)] and [Math.max(...xs)] on a non-empty array. *)
Definition minimum (x : Z) (xs : list Z) : Z := fold_left Z.min xs x.
Definition maximum (x : Z) (xs : list Z) : Z := fold_left Z.max xs x.

(** [new Set(keys).size] *)
Definition distinctCount (keys : list string) : nat :=
  List.length (nodup string_dec keys).

Definition computeOverallStats (host : Host.t) (transactions : list Transaction.t)
  : OverallStats.t :=
  let nonExcluded := filter (fun t => negb (Transaction.isExcluded t)) transactions in
  let expenses := filter isDebit nonExcluded in
  let totalDebits := abs (sumAmounts expenses) in
  let dateRange :=
    match map (fun t => getTime (ensureDate (Transaction.date t))) nonExcluded with
    | [] => None
    | d :: ds => Some (minimum d ds, maximum d ds)
    end in
  let monthCount :=
    distinctCount
      (map (fun t => Host.formatYearMonth host (ensureDate (Transaction.date t))) nonExcluded) in
  OverallStats.mk totalDebits 0%float 0%float (List.length nonExcluded) dateRange monthCount
    (if (0 <? monthCount)%nat then (totalDebits / nat2Number monthCount)%float else 0%float).

(** The objects that the elements of an array refer to. *)
Definition objects (store : Store) (transactions : list nat) : list Transaction.t :=
  flat_map (fun ref => match nth_error store ref with
                       | Some object => [object]
                       | None => []
                       end) transactions.

End AnalyticsCalculator.

(** ** Identifiers ([lib/utils.ts]) *)

Module Utils.

(** [ToInt32] *)
Definition toInt32 (z : Z) : Z := ((z + 2 ^ 31) mod 2 ^ 32 - 2 ^ 31)%Z.

(** One round of the fallback hash:
    [hash = ((hash << 5) - hash) + char; hash = hash & hash]. *)
Definition hashStep (hash : Z) (char : ascii) : Z :=
  toInt32 (toInt32 (hash * 32) - hash + Z.of_nat (code char)).

Fixpoint hashLoop (hash : Z) (key : string) : Z :=
  match key with
  | EmptyString => hash
  | String c key' => hashLoop (hashStep hash c) key'
  end.

Definition digitChar (d : Z) : ascii :=
  if (d <? 10)%Z then ascii_of_nat (48 + Z.to_nat d) else ascii_of_nat (87 + Z.to_nat d).

Fixpoint digitsIn (radix : Z) (fuel : nat) (n : Z) (acc : string) : string :=
  match fuel with
  | O => acc
  | S fuel' =>
      let acc' := String (digitChar (n mod radix)) acc in
      if (n <? radix)%Z then acc' else digitsIn radix fuel' (n / radix) acc'
  end.

(** [n.toString(radix)] for an integer [n >= 0]. *)
Definition toStringRadix (radix : Z) (n : Z) : string :=
  digitsIn radix (S (Z.to_nat (Z.log2 n))) n EmptyString.

(** [Math.abs(hash).toString(36)] *)
Definition simpleHash (key : string) : string :=
  toStringRadix 36 (Z.abs (hashLoop 0 key)).

(** [new TextEncoder().encode(key)]: UTF-8. *)
Fixpoint utf8 (s : string) : list Byte.byte :=
  match s with
  | EmptyString => []
  | String c s' =>
      let n := N_of_ascii c in
      if (n <? 128)%N then byte_of_ascii c :: utf8 s'
      else byte_of_ascii (ascii_of_N (192 + n / 64))
           :: byte_of_ascii (ascii_of_N (128 + n mod 64)) :: utf8 s'
  end.

(** [b.toString(16).padStart(2, '0')], joined. *)
Definition hex (bytes : list Byte.byte) : string :=
  fold_right
    (fun b acc =>
       let n := Z.of_N (Byte.to_N b) in
       String (digitChar (n / 16)) (String (digitChar (n mod 16)) acc))
    EmptyString bytes.

(** [accountId || ''] *)
Definition orEmpty (s : option string) : string :=
  match s with Some x => x | None => EmptyString end.

Definition transactionKey (host : Host.t) (date : Date) (amount : Number)
  (description : string) (accountId : option string) : string :=
  Host.toISOString host date ++ "_" ++ Host.numberToString host amount ++ "_"
    ++ description ++ "_" ++ orEmpty accountId.

Definition generateTransactionId (host : Host.t) (date : Date) (amount : Number)
  (description : string) (accountId : option string) : string :=
  let key := transactionKey host date amount description accountId in
  match Host.subtleDigest host with
  | Some digest => hex (digest (utf8 key))
  | None => simpleHash key
  end.

(** [s.lastIndexOf('.')]: the parts before and after the last dot. *)
Fixpoint splitLastDot (s : string) : option (string * string) :=
  match s with
  | EmptyString => None
  | String c s' =>
      match splitLastDot s' with
      | Some (a, b) => Some (String c a, b)
      | None => if Ascii.eqb c "." then Some (EmptyString, s') else None
      end
  end.

(** [truncateFilename(filename)] with the default [maxLength = 20]. *)
Definition truncateFilename (filename : string) : string :=
  let maxLength := 20%nat in
  if (String.length filename <=? maxLength)%nat then filename
  else
    let '(nameWithoutExt, extension) :=
      match splitLastDot filename with
      | Some (a, b) => (a, String "." b)
      | None => (filename, EmptyString)
      end in
    if (maxLength <=? String.length extension + 3)%nat then "..." ++ extension
    else
      let availableLength := (maxLength - String.length extension - 3)%nat in
      "..." ++ substring (String.length nameWithoutExt - availableLength) availableLength
                 nameWithoutExt
        ++ extension.

End Utils.

(** ** The categorization engine ([lib/categorization/engine.ts]) *)

Module CategorizationEngine.

Record t := mk {
  categories : list Category.t;
  rules : list CategorizationRule.t;
  descriptionMappings : StringMap.t string
}.

(** An entry of [allPatterns] or of [legacyMatches]. *)
Record PatternMatch := mkMatch {
  categoryId : string;
  priority : Number;
  pattern : string
}.

(** The two nested loops that collect the enabled patterns of every category. *)
Definition allPatterns (engine : t) : list PatternMatch :=
  flat_map
    (fun category =>
       map (fun p => mkMatch (Category.id category) (CategoryPattern.priority p)
                             (CategoryPattern.pattern p))
           (filter CategoryPattern.enabled (Category.patterns category)))
    (categories engine).

Definition legacyMatches (engine : t) : list PatternMatch :=
  map (fun r => mkMatch (CategorizationRule.categoryId r) (CategorizationRule.priority r)
                        (CategorizationRule.pattern r))
      (filter CategorizationRule.enabled (rules engine)).

(** The loop [for (const item of items)]: the first item whose pattern
    compiles and matches returns; a pattern that does not compile is skipped. *)
Fixpoint firstMatch (host : Host.t) (description : string) (items : list PatternMatch)
  : option string :=
  match items with
  | [] => None
  | item :: rest =>
      match Host.regExpTest host (pattern item) description with
      | Some true => Some (categoryId item)
      | _ => firstMatch host description rest
      end
  end.

(** The comparator [(a, b) => a.priority - b.priority] is negative. *)
Definition byPriority (a b : PatternMatch) : bool :=
  (priority a - priority b <? 0)%float.

Definition categorize (host : Host.t) (engine : t) (transaction : Transaction.t)
  : option string :=
  match StringMap.get (Transaction.description transaction) (descriptionMappings engine) with
  | Some (String c s) => Some (String c s)
  | _ =>
      let sorted := sort byPriority (allPatterns engine) in
      match firstMatch host (Transaction.description transaction) sorted with
      | Some c => Some c
      | None => firstMatch host (Transaction.description transaction) (legacyMatches engine)
      end
  end.

(** [!txn.categoryId]: absent, or the empty string. *)
Definition noCategory (txn : Transaction.t) : bool :=
  match Transaction.categoryId txn with
  | Some (String _ _) => false
  | _ => true
  end.

(** One step of the [forEach] of [batchCategorize]: the object that
    [txn] refers to is read, and its [categoryId] is written when it is
    neither manually categorized nor categorized yet. *)
Definition categorizeInPlace (host : Host.t) (engine : t) (store : Store) (txn : nat)
  : Store :=
  match nth_error store txn with
  | Some object =>
      if negb (Transaction.isManuallyCategorized object) && noCategory object
      then assign txn (Transaction.setCategoryId (categorize host engine object) object) store
      else store
  | None => store
  end.

(** [batchCategorize(transactions)] returns nothing: its effect is on the
    objects that the elements of the array refer to. *)
Definition batchCategorize (host : Host.t) (engine : t) (transactions : list nat)
  (store : Store) : Store :=
  fold_left (categorizeInPlace host engine) transactions store.

(** A character of [/[.*+?^${}()|[\]\\]/]. *)
Definition isRegExpSpecial (c : ascii) : bool :=
  existsb (Nat.eqb (code c))
    [46; 42; 43; 63; 94; 36; 123; 125; 40; 41; 124; 91; 93; 92]%nat.

(** [s.replace(/[.*+?^${}()|[\]\\]/g, '\\$&')] *)
Fixpoint escapeRegExp (s : string) : string :=
  match s with
  | EmptyString => EmptyString
  | String c s' =>
      if isRegExpSpecial c then String (ascii_of_nat 92) (String c (escapeRegExp s'))
      else String c (escapeRegExp s')
  end.

(** The three replacements, [trim] and [substring(0, 30)] are those of
    [normalizeMerchant] of the calculator, written once more in the engine. *)
Definition extractMerchantPattern (description : string) : string :=
  escapeRegExp (AnalyticsCalculator.normalizeMerchant description).

(** [generateId()] of [lib/utils.ts]. *)
Definition generateId (host : Host.t) : string :=
  ((if (Host.now host <? 0)%Z then "-" else "")
   ++ Utils.toStringRadix 10 (Z.abs (Host.now host)) ++ "-" ++ Host.random host)%string.

Definition learnFromManualCategorization (host : Host.t) (transaction : Transaction.t)
  (categoryId : string) : CategorizationRule.t :=
  CategorizationRule.mk (generateId host) categoryId
    (extractMerchantPattern (Transaction.description transaction)) 100%float true.

End CategorizationEngine.

(** ** Computations on the heap

    A method that is given an array of transactions gets references to
    objects of the heap: what it reads of a transaction it reads in the
    store, and what it assigns to one it writes there. *)

Module Heap.

(** A computation that returns an [A] and leaves a store. *)
Definition M (A : Type) : Type := Store -> A * Store.

Definition ret {A : Type} (a : A) : M A := fun store => (a, store).

Definition bind {A B : Type} (m : M A) (f : A -> M B) : M B :=
  fun store => let '(a, store') := m store in f a store'.

(** The object that [ref] refers to, as the store has it; [None] for a
    reference to no object, which an array of transactions does not hold. *)
Definition read (ref : nat) : M (option Transaction.t) :=
  fun store => (nth_error store ref, store).

(** An assignment to a field of the object that [ref] refers to, which
    becomes [x]. *)
Definition write (ref : nat) (x : Transaction.t) : M unit :=
  fun store => (tt, assign ref x store).

(** A loop over an array with the body [f]. *)
Fixpoint foldM {S A : Type} (f : S -> A -> M S) (l : list A) (s : S) : M S :=
  match l with
  | [] => ret s
  | a :: l' => bind (f s a) (foldM f l')
  end.

(** [array.map(f)] for a callback [f] that reads the heap. *)
Definition mapM {A B : Type} (f : A -> M B) (l : list A) : M (list B) :=
  foldM (fun out a => bind (f a) (fun b => ret (out ++ [b]))) l [].

(** [transactions.filter(p)], [transactions.map(f)] and
    [transactions.reduce(f, init)] for callbacks that read the transaction
    they are given and nothing else. *)
Definition filterObjects (p : Transaction.t -> bool) (transactions : list nat)
  : M (list nat) :=
  foldM (fun kept ref =>
           bind (read ref)
             (fun o => ret match o with
                           | Some object => if p object then kept ++ [ref] else kept
                           | None => kept
                           end))
        transactions [].

Definition mapObjects {B : Type} (f : Transaction.t -> B) (transactions : list nat)
  : M (list B) :=
  foldM (fun out ref =>
           bind (read ref)
             (fun o => ret match o with
                           | Some object => out ++ [f object]
                           | None => out
                           end))
        transactions [].

Definition reduceObjects {S : Type} (f : S -> Transaction.t -> S) (transactions : list nat)
  (init : S) : M S :=
  foldM (fun s ref =>
           bind (read ref)
             (fun o => ret match o with
                           | Some object => f s object
                           | None => s
                           end))
        transactions init.

(** The computation leaves the store as it finds it. *)
Definition readOnly {A : Type} (m : M A) : Prop := forall store, snd (m store) = store.

End Heap.

(** ** What the calculator takes from the language

    The properties that a plain object inherits, and the collation of
    [localeCompare]. *)

Module Realm.
Record t := mk {
    (** For a key that [{}] inherits from [Object.prototype], as
        [constructor], [toString] or [__proto__], the string that the value
        found there becomes when a Number is added to it; [None] for any
        other key. *)
    inheritedText : string -> option string;
    (** [a.localeCompare(b)] *)
    localeCompare : string -> string -> Number
  }.
End Realm.

(** ** The object [totals] of the category totals

    A plain object used as a [Record<string, number>]: its own properties
    in the order of their enumeration, the keys that are array indices
    first and in ascending order, the others in the order of their
    creation. A value is a Number, or a string when the key is one that
    the object inherits. *)

Module Totals.
Local Open Scope string_scope.

Inductive value := number (x : Number) | text (s : string).

Definition t := list (string * value).

(** The array index that [key] is: a canonical numeric string below
    [2^32 - 1]. *)
Definition arrayIndex (key : string) : option N :=
  match spanDigits key with
  | (d :: ds, EmptyString) =>
      let n := digitsValue (d :: ds) in
      if (negb (N.eqb d 0) || (List.length ds =? 0)%nat) && (n <? 4294967295)%N
      then Some n else None
  | _ => None
  end.

(** The own property [key]. *)
Definition own (key : string) (totals : t) : option value :=
  option_map snd (find (fun e => String.eqb (fst e) key) totals).

(** The place of a new own property. *)
Fixpoint create (key : string) (v : value) (totals : t) : t :=
  match totals with
  | [] => [(key, v)]
  | (k, w) :: rest =>
      match arrayIndex key, arrayIndex k with
      | Some n, Some m => if (n <? m)%N then (key, v) :: totals else (k, w) :: create key v rest
      | Some _, None => (key, v) :: totals
      | None, _ => (k, w) :: create key v rest
      end
  end.

(** [totals[key] = v]. The key [__proto__] of [Object.prototype] is an
    accessor, whose setter ignores a value that is no object; the other
    properties there are writable data properties, which an assignment
    shadows. *)
Definition assignTo (realm : Realm.t) (key : string) (v : value) (totals : t) : t :=
  match own key totals with
  | Some _ => map (fun e => if String.eqb (fst e) key then (fst e, v) else e) totals
  | None =>
      match String.eqb key "__proto__", Realm.inheritedText realm key with
      | true, Some _ => totals
      | _, _ => create key v totals
      end
  end.

(** [(totals[key] || 0) + amount] *)
Definition added (host : Host.t) (realm : Realm.t) (key : string) (totals : t)
  (amount : Number) : value :=
  match own key totals with
  | Some (number x) =>
      number ((if isNaN x || (x =? 0)%float then 0 else x) + amount)%float
  | Some (text EmptyString) => number (0 + amount)%float
  | Some (text s) => text (s ++ Host.numberToString host amount)
  | None =>
      match Realm.inheritedText realm key with
      | Some s => text (s ++ Host.numberToString host amount)
      | None => number (0 + amount)%float
      end
  end.

End Totals.

Module MonthlySummary.
Record t := mk {
    month : string;
    totalDebits : Number;
    totalCredits : Number;
    net : Number;
    categoryTotals : Totals.t;
    transactionCount : nat
  }.
End MonthlySummary.

Module DerivedAnalytics.
Record t := mk {
    monthlySummaries : list MonthlySummary.t;
    categoryTotals : Totals.t;
    repeatedExpenses : list RepeatedExpense.t;
    overallStats : OverallStats.t
  }.
End DerivedAnalytics.

(** ** The analytics calculator on the heap

    The methods of [new AnalyticsCalculator(transactions)] for an array of
    references. The arrays that they sort or push onto ([dates],
    [repeated], [summaries], the arrays of the groups) are arrays that they
    have built. *)

Module HeapCalculator.
Import Heap AnalyticsCalculator.
Local Open Scope string_scope.

(** The body of the [forEach] of [groupByMerchant] and of [groupByMonth],
    for the key [key] of the transaction. *)
Definition addToGroup (key : Transaction.t -> string) (groups : StringMap.t (list nat))
  (txn : nat) : M (StringMap.t (list nat)) :=
  bind (read txn)
    (fun o =>
       ret match o with
           | Some object =>
               let groups := if negb (StringMap.has (key object) groups)
                             then StringMap.set (key object) [] groups else groups in
               StringMap.update (key object) (fun g => g ++ [txn])%list groups
           | None => groups
           end).

Definition groupByMonth (host : Host.t) (transactions : list nat)
  : M (StringMap.t (list nat)) :=
  foldM (addToGroup (fun t => Host.formatYearMonth host (ensureDate (Transaction.date t))))
    transactions [].

Definition groupByMerchant (transactions : list nat) : M (StringMap.t (list nat)) :=
  bind (filterObjects (fun t => isDebit t && negb (Transaction.isExcluded t)) transactions)
    (fun debits =>
       foldM (addToGroup (fun t => normalizeMerchant (Transaction.description t))) debits []).

Definition sumAmounts (transactions : list nat) : M Number :=
  reduceObjects (fun sum t => (sum + Transaction.amount t)%float) transactions 0%float.

Definition isLikelySubscription (transactions : list nat) : M bool :=
  if (List.length transactions <? 2)%nat then ret false
  else
    bind (mapObjects (fun t => getTime (ensureDate (Transaction.date t))) transactions)
      (fun times =>
         let dates := sort ascending times in
         let ivs := intervals dates in
         if (List.length ivs =? 0)%nat then ret false
         else
           let avgInterval := (sum ivs / nat2Number (List.length ivs))%float in
           ret ((25 <=? avgInterval)%float && (avgInterval <=? 35)%float)).

(** The body of [groups.forEach((txns, merchant) => ...)]. *)
Definition visitGroup (repeated : list RepeatedExpense.t) (entry : string * list nat)
  : M (list RepeatedExpense.t) :=
  let '(merchant, txns) := entry in
  if (List.length txns <? 2)%nat then ret repeated
  else
    bind (mapObjects (fun t => abs (Transaction.amount t)) txns)
      (fun amounts =>
         let avgAmount := average amounts in
         if isSimilar amounts
         then
           bind (isLikelySubscription txns)
             (fun likely =>
                bind (mapObjects Transaction.id txns)
                  (fun transactionIds =>
                     ret (repeated
                          ++ [RepeatedExpense.mk merchant (List.length txns) avgAmount
                                (sum amounts) transactionIds likely
                                (if likely then Some avgAmount else None)])%list))
         else ret repeated).

Definition detectRepeatedExpenses (transactions : list nat) : M (list RepeatedExpense.t) :=
  bind (groupByMerchant transactions)
    (fun groups =>
       bind (foldM visitGroup groups [])
         (fun repeated => ret (sort byTotalDescending repeated))).

Definition computeOverallStats (host : Host.t) (transactions : list nat)
  : M OverallStats.t :=
  bind (filterObjects (fun t => negb (Transaction.isExcluded t)) transactions)
    (fun nonExcluded =>
       bind (filterObjects isDebit nonExcluded)
         (fun expenses =>
            bind (sumAmounts expenses)
              (fun total =>
                 let totalDebits := abs total in
                 bind (if (0 <? List.length nonExcluded)%nat
                       then bind (mapObjects (fun t => getTime (ensureDate (Transaction.date t)))
                                    nonExcluded)
                              (fun dates =>
                                 ret match dates with
                                     | [] => None
                                     | d :: ds => Some (minimum d ds, maximum d ds)
                                     end)
                       else ret None)
                   (fun dateRange =>
                      bind (mapObjects
                              (fun t => Host.formatYearMonth host
                                          (ensureDate (Transaction.date t)))
                              nonExcluded)
                        (fun months =>
                           let monthCount := distinctCount months in
                           ret (OverallStats.mk totalDebits 0%float 0%float
                                  (List.length nonExcluded) dateRange monthCount
                                  (if (0 <? monthCount)%nat
                                   then (totalDebits / nat2Number monthCount)%float
                                   else 0%float))))))).

(** The body of the [forEach] of [computeCategoryTotalsForTransactions]. *)
Definition addToTotals (host : Host.t) (realm : Realm.t) (totals : Totals.t)
  (t : Transaction.t) : Totals.t :=
  let categoryId :=
    match Transaction.categoryId t with
    | Some (String c s) => String c s
    | _ => "uncategorized"
    end in
  Totals.assignTo realm categoryId
    (Totals.added host realm categoryId totals (abs (Transaction.amount t))) totals.

Definition computeCategoryTotalsForTransactions (host : Host.t) (realm : Realm.t)
  (transactions : list nat) : M Totals.t :=
  bind (filterObjects isDebit transactions)
    (fun debits => reduceObjects (addToTotals host realm) debits []).

Definition computeCategoryTotals (host : Host.t) (realm : Realm.t) (transactions : list nat)
  : M Totals.t :=
  bind (filterObjects (fun t => negb (Transaction.isExcluded t)) transactions)
    (computeCategoryTotalsForTransactions host realm).

(** The callback of the [map] over the entries of [byMonth]. *)
Definition summarize (host : Host.t) (realm : Realm.t) (entry : string * list nat)
  : M MonthlySummary.t :=
  let '(month, txns) := entry in
  bind (filterObjects (fun t => negb (Transaction.isExcluded t)) txns)
    (fun nonExcluded =>
       bind (filterObjects isDebit nonExcluded)
         (fun expenses =>
            bind (sumAmounts expenses)
              (fun totalDebits =>
                 bind (computeCategoryTotalsForTransactions host realm nonExcluded)
                   (fun categoryTotals =>
                      ret (MonthlySummary.mk month totalDebits 0%float 0%float
                             categoryTotals (List.length nonExcluded)))))).

(** The comparator [(a, b) => a.month.localeCompare(b.month)] is negative. *)
Definition byMonth (realm : Realm.t) (a b : MonthlySummary.t) : bool :=
  (Realm.localeCompare realm (MonthlySummary.month a) (MonthlySummary.month b) <? 0)%float.

Definition computeMonthlySummaries (host : Host.t) (realm : Realm.t)
  (transactions : list nat) : M (list MonthlySummary.t) :=
  bind (groupByMonth host transactions)
    (fun groups =>
       bind (mapM (summarize host realm) groups)
         (fun summaries => ret (sort (byMonth realm) summaries))).

Definition computeAll (host : Host.t) (realm : Realm.t) (transactions : list nat)
  : M DerivedAnalytics.t :=
  bind (computeMonthlySummaries host realm transactions)
    (fun monthlySummaries =>
       bind (computeCategoryTotals host realm transactions)
         (fun categoryTotals =>
            bind (detectRepeatedExpenses transactions)
              (fun repeatedExpenses =>
                 bind (computeOverallStats host transactions)
                   (fun overallStats =>
                      ret (DerivedAnalytics.mk monthlySummaries categoryTotals
                             repeatedExpenses overallStats))))).

End HeapCalculator.

(** ** The engine on the heap *)

Module HeapEngine.
Import Heap.

(** The body of the [forEach] of [batchCategorize]. *)
Definition visit (host : Host.t) (engine : CategorizationEngine.t) (_ : unit) (txn : nat)
  : M unit :=
  bind (read txn)
    (fun o =>
       match o with
       | Some object =>
           if negb (Transaction.isManuallyCategorized object)
              && CategorizationEngine.noCategory object
           then write txn
                  (Transaction.setCategoryId
                     (CategorizationEngine.categorize host engine object) object)
           else ret tt
       | None => ret tt
       end).

Definition batchCategorize (host : Host.t) (engine : CategorizationEngine.t)
  (transactions : list nat) : M unit :=
  foldM (visit host engine) transactions tt.

End HeapEngine.

(** ** The reducer ([context/AppContext.tsx], case [ADD_TRANSACTIONS]) *)

Module AppContext.

(** [state.transactions] after the action: the payload without the
    transactions whose id the state already has, appended. *)
Definition addTransactions (stateTransactions payload : list Transaction.t)
  : list Transaction.t :=
  let existingIds := map Transaction.id stateTransactions in
  let newTransactions :=
    filter (fun t => negb (existsb (String.eqb (Transaction.id t)) existingIds)) payload in
  stateTransactions ++ newTransactions.

End AppContext.

(** ** The CSV parser ([lib/parsers/csv.ts]) *)

Module CsvParser.
Local Open Scope string_scope.

(** [!s] on a value that is a string or [undefined]. *)
Definition missing (s : option string) : bool :=
  match s with
  | Some (String _ _) => false
  | _ => true
  end.

Definition parseCSVDate (host : Host.t) (dateStr : string) : option Date :=
  match dateStr with
  | EmptyString => None
  | _ =>
      match split "/" dateStr with
      | [p0; p1; p2] =>
          let month := option_map (fun m => (m - 1)%Z) (parseInt p0) in
          let day := parseInt p1 in
          let year := parseInt p2 in
          Host.dateLocal host year month day
      | _ => None
      end
  end.

(** The body of the loop over [data.entries()]: the transaction pushed, or
    the error pushed before [continue]. *)
Definition parseRow (host : Host.t) (index : Z) (record : StringMap.t string)
  : Transaction.t + ParseError.t :=
  let transDate := StringMap.get "Trans. Date" record in
  let description := StringMap.get "Description" record in
  let amountStr := StringMap.get "Amount" record in
  let category := StringMap.get "Category" record in
  if missing transDate || missing description || missing amountStr
  then inr (ParseError.mk (Some (index + 2)%Z) None
              "Missing required fields (Trans. Date, Description, or Amount)" warning)
  else
    let transDate := Utils.orEmpty transDate in
    let description := Utils.orEmpty description in
    let amountStr := Utils.orEmpty amountStr in
    match parseCSVDate host transDate with
    | None => inr (ParseError.mk (Some (index + 2)%Z) (Some "Trans. Date")
                     ("Invalid date format: " ++ transDate) error)
    | Some date =>
        let amount := parseFloat (removeChar "," amountStr) in
        if isNaN amount
        then inr (ParseError.mk (Some (index + 2)%Z) (Some "Amount")
                    ("Invalid amount: " ++ amountStr) error)
        else
          let normalizedAmount := (- amount)%float in
          let type := if (normalizedAmount <? 0)%float then DEBIT else CREDIT in
          let id := Utils.generateTransactionId host date normalizedAmount description None in
          inl (Transaction.mk id date (trim description) normalizedAmount type None false
                 CSV None None None
                 (if missing category then None
                  else Some ("Original category: " ++ Utils.orEmpty category))
                 false)
    end.

Fixpoint parseRows (host : Host.t) (index : Z) (data : list (StringMap.t string))
  : list Transaction.t * list ParseError.t :=
  match data with
  | [] => ([], [])
  | record :: rest =>
      let '(transactions, errors) := parseRows host (index + 1) rest in
      match parseRow host index record with
      | inl t => (t :: transactions, errors)
      | inr e => (transactions, e :: errors)
      end
  end.

(** The [complete] callback. *)
Definition complete (host : Host.t) (data : list (StringMap.t string))
  (parseErrors : list Papa.RowError) : ParseResult.t :=
  let errors0 :=
    map (fun e => ParseError.mk (Papa.row e) None (Papa.message e) error) parseErrors in
  let '(transactions, errors1) := parseRows host 0 data in
  let errors2 :=
    match transactions, data with
    | [], _ :: _ => [ParseError.mk None None "No valid transactions found in CSV file" error]
    | _, _ => []
    end in
  ParseResult.mk transactions (errors0 ++ errors1 ++ errors2)%list.

(** [papaParse] is [Papa.parse(_, { header: true, skipEmptyLines: true,
    transformHeader: h => h.trim(), ... })]. *)
Definition parseCSV (host : Host.t) (papaParse : string -> Papa.outcome) (content : string)
  : ParseResult.t :=
  match papaParse content with
  | Papa.Complete data parseErrors => complete host data parseErrors
  | Papa.Fatal message =>
      ParseResult.mk [] [ParseError.mk None None ("Error parsing CSV file: " ++ message) error]
  end.

End CsvParser.

(** ** The document object model

    The part of [DOMParser] and of the selector API that [parseQFX] uses.
    The markup read here is made of start tags, end tags and character
    data: what [convertOFXToXML] writes. A tag with attributes, a comment
    or a processing instruction is a parse error here: the converter closes
    each of them with an end tag that repeats them, which is one for
    [DOMParser] too. *)

Module DOM.
Local Open Scope string_scope.

Inductive node :=
| Text (data : string)
| Element (tagName : string) (childNodes : list node).

(** The text before the first [x] and the text after it. *)
Fixpoint splitAt (x : ascii) (s : string) : option (string * string) :=
  match s with
  | EmptyString => None
  | String c s' =>
      if Ascii.eqb c x then Some (EmptyString, s')
      else match splitAt x s' with
           | Some (a, b) => Some (String c a, b)
           | None => None
           end
  end.

(** The character data up to the next tag, and the rest. *)
Fixpoint spanText (s : string) : string * string :=
  match s with
  | EmptyString => (EmptyString, EmptyString)
  | String c s' =>
      if Ascii.eqb c "<" then (EmptyString, s)
      else let '(a, b) := spanText s' in (String c a, b)
  end.

(** [S]: space, tab, carriage return, line feed. *)
Definition isSpace (c : ascii) : bool :=
  let n := code c in (n =? 32)%nat || (n =? 9)%nat || (n =? 13)%nat || (n =? 10)%nat.

Fixpoint allSpace (s : string) : bool :=
  match s with
  | EmptyString => true
  | String c s' => isSpace c && allSpace s'
  end.

Fixpoint trimEndSpace (s : string) : string :=
  match s with
  | String c s' =>
      match trimEndSpace s' with
      | EmptyString => if isSpace c then EmptyString else String c EmptyString
      | t => String c t
      end
  | EmptyString => EmptyString
  end.

(** [NameStartChar] and [NameChar] below 256, the colon apart: a prefixed
    name needs a namespace declaration, which this markup cannot hold. *)
Definition isNameStartChar (c : ascii) : bool :=
  let n := code c in
  isUpper c || isLower c || (n =? 95)%nat
  || ((192 <=? n)%nat && negb (n =? 215)%nat && negb (n =? 247)%nat).

Definition isNameChar (c : ascii) : bool :=
  let n := code c in
  isNameStartChar c || isDigit c || (n =? 45)%nat || (n =? 46)%nat || (n =? 183)%nat.

Fixpoint allNameChars (s : string) : bool :=
  match s with
  | EmptyString => true
  | String c s' => isNameChar c && allNameChars s'
  end.

Definition isName (s : string) : bool :=
  match s with
  | EmptyString => false
  | String c s' => isNameStartChar c && allNameChars s'
  end.

(** [Char] below 256. *)
Definition isChar (c : ascii) : bool :=
  let n := code c in (32 <=? n)%nat || (n =? 9)%nat || (n =? 10)%nat || (n =? 13)%nat.

Definition hexDigitValue (c : ascii) : option N :=
  let n := code c in
  if isDigit c then Some (N.of_nat (n - 48))
  else if (97 <=? n)%nat && (n <=? 102)%nat then Some (N.of_nat (n - 87))
  else if (65 <=? n)%nat && (n <=? 70)%nat then Some (N.of_nat (n - 55))
  else None.

Fixpoint hexValue (acc : N) (s : string) : option N :=
  match s with
  | EmptyString => Some acc
  | String c s' =>
      match hexDigitValue c with
      | Some d => hexValue (acc * 16 + d)%N s'
      | None => None
      end
  end.

Definition charOfCode (n : N) : option ascii :=
  if (n <? 256)%N && isChar (ascii_of_N n) then Some (ascii_of_N n) else None.

(** The character a reference [&name;] stands for: the five predefined
    entities and the character references. *)
Definition reference (name : string) : option ascii :=
  match name with
  | "amp" => Some "&"%char
  | "lt" => Some "<"%char
  | "gt" => Some ">"%char
  | "quot" => Some (ascii_of_nat 34)
  | "apos" => Some "'"%char
  | String "#" (String "x" (String c h)) =>
      match hexValue 0 (String c h) with
      | Some n => charOfCode n
      | None => None
      end
  | String "#" (String c d) =>
      match spanDigits (String c d) with
      | (ds, EmptyString) => charOfCode (digitsValue ds)
      | _ => None
      end
  | _ => None
  end.

(** The value of character data: references replaced, line ends
    normalized; [None] when it is not well-formed. *)
Fixpoint charData (skip : nat) (s : string) : option string :=
  match s with
  | EmptyString => Some EmptyString
  | String c s' =>
      match skip with
      | S k => charData k s'
      | O =>
          if Ascii.eqb c "&" then
            match splitAt ";" s' with
            | Some (name, _) =>
                match reference name with
                | Some ch => option_map (String ch) (charData (S (String.length name)) s')
                | None => None
                end
            | None => None
            end
          else if Ascii.eqb c "]" && startsWith "]>" s' then None
          else if (code c =? 13)%nat then
            option_map (String (ascii_of_nat 10))
              (charData
                 (if startsWith (String (ascii_of_nat 10) EmptyString) s' then 1 else 0) s')
          else if isChar c then option_map (String c) (charData 0 s')
          else None
      end
  end.

(** An element that is still open: its name and its children so far, the
    last one first. *)
Definition frame := (string * list node)%type.

Definition addChild (n : node) (stack : list frame) : list frame :=
  match stack with
  | (name, kids) :: rest => (name, n :: kids) :: rest
  | [] => []
  end.

(** The parser at a tag: an end tag closes the element that is open, which
    must have its name; a start tag opens an element, below the one that is
    open or as the document element. *)
Definition tag (content : string) (stack : list frame) (root : option node)
  : option (list frame * option node) :=
  match content with
  | String c name =>
      if Ascii.eqb c "/" then
        match stack with
        | (open, kids) :: stack' =>
            if String.eqb open (trimEndSpace name) then
              let el := Element open (rev kids) in
              match stack' with
              | [] => Some ([], Some el)
              | _ :: _ => Some (addChild el stack', root)
              end
            else None
        | [] => None
        end
      else
        match stack, root with
        | [], Some _ => None
        | _, _ =>
            if isName (trimEndSpace content)
            then Some ((trimEndSpace content, []) :: stack, root)
            else None
        end
  | EmptyString => None
  end.

(** The parser at character data: a text node of the element that is
    open, or white space around the document element. *)
Definition characters (text : string) (stack : list frame) (root : option node)
  : option (list frame * option node) :=
  match charData 0 text with
  | None => None
  | Some data =>
      match stack with
      | [] => if allSpace text then Some ([], root) else None
      | _ :: _ => Some (addChild (Text data) stack, root)
      end
  end.

(** Every round reads a tag or the character data up to the next tag, so
    that [fuel] rounds are enough when [fuel] is above the length of the text. *)
Fixpoint parseLoop (fuel : nat) (s : string) (stack : list frame) (root : option node)
  : option node :=
  match fuel with
  | O => None
  | S fuel' =>
      match s with
      | EmptyString =>
          match stack with
          | [] => root
          | _ :: _ => None
          end
      | String c rest =>
          if Ascii.eqb c "<" then
            match splitAt ">" rest with
            | None => None
            | Some (content, rest') =>
                match tag content stack root with
                | Some (stack', root') => parseLoop fuel' rest' stack' root'
                | None => None
                end
            end
          else
            let '(text, rest') := spanText s in
            match characters text stack root with
            | Some (stack', root') => parseLoop fuel' rest' stack' root'
            | None => None
            end
      end
  end.

(** The document element of well-formed markup. *)
Definition parseXML (xml : string) : option node :=
  parseLoop (S (String.length xml)) xml [] None.

Inductive document :=
| ParserError (text : string)
| Document (documentElement : node).

(** [new DOMParser().parseFromString(xml, 'text/xml')] *)
Definition parseFromString (host : Host.t) (xml : string) : document :=
  match parseXML xml with
  | Some root => Document root
  | None => ParserError (Host.parserErrorText host xml)
  end.

(** The elements below a node, in document order. *)
Fixpoint descendants (n : node) : list node :=
  match n with
  | Text _ => []
  | Element _ kids =>
      flat_map (fun k => match k with
                         | Text _ => []
                         | Element _ _ => k :: descendants k
                         end) kids
  end.

Fixpoint textContent (n : node) : string :=
  match n with
  | Text data => data
  | Element _ kids => fold_right (fun k acc => textContent k ++ acc) EmptyString kids
  end.

Definition hasTagName (name : string) (n : node) : bool :=
  match n with
  | Element t _ => String.eqb t name
  | Text _ => false
  end.

(** [element.querySelectorAll(name)] and [element.querySelector(name)] for
    a type selector. *)
Definition querySelectorAll (name : string) (element : node) : list node :=
  filter (hasTagName name) (descendants element).

Definition querySelector (name : string) (element : node) : option node :=
  List.hd_error (querySelectorAll name element).

(** The elements of a document: its document element and what is below. *)
Definition elements (root : node) : list node := root :: descendants root.

(** [xmlDoc.querySelectorAll(name)] *)
Definition documentQuerySelectorAll (name : string) (root : node) : list node :=
  filter (hasTagName name) (elements root).

(** The elements [inner] below an element [outer], in document order, [inside]
    telling whether an ancestor [outer] was met. *)
Fixpoint selectBelow (outer inner : string) (inside : bool) (n : node) : list node :=
  match n with
  | Text _ => []
  | Element t kids =>
      (if inside && String.eqb t inner then [n] else [])
        ++ flat_map (selectBelow outer inner (inside || String.eqb t outer)) kids
  end%list.

(** [xmlDoc.querySelector('outer inner')], the descendant combinator. *)
Definition documentQuerySelectorBelow (outer inner : string) (root : node) : option node :=
  List.hd_error (selectBelow outer inner false root).

End DOM.

(** ** The QFX parser ([lib/parsers/qfx.ts]) *)

Module QfxParser.
Local Open Scope string_scope.

Definition containerTags : list string :=
  [ "OFX"; "SIGNONMSGSRSV1"; "SONRS"; "STATUS"; "FI";
    "BANKMSGSRSV1"; "STMTTRNRS"; "STMTRS"; "BANKACCTFROM"; "BANKTRANLIST";
    "STMTTRN"; "LEDGERBAL"; "AVAILBAL";
    "CREDITCARDMSGSRSV1"; "CCSTMTTRNRS"; "CCSTMTRS"; "CCACCTFROM" ].

(** [containerTags.has(tag)] *)
Definition isContainer (tag : string) : bool := existsb (String.eqb tag) containerTags.

Definition startTag (name : string) : string := "<" ++ name ++ ">".
Definition endTag (name : string) : string := "</" ++ name ++ ">".

(** The loop of the closing-tag branch; the top of the stack is the head
    of the list. *)
Fixpoint closeUntil (tagName : string) (tagStack : list string) (result : string)
  : list string * string :=
  match tagStack with
  | [] => ([], result)
  | openTag :: rest =>
      let result := if negb (isContainer openTag) then result ++ endTag openTag else result in
      if String.eqb openTag tagName then (rest, result ++ endTag tagName)
      else closeUntil tagName rest result
  end.

(** The opening-tag branch. *)
Definition openElement (tagName : string) (tagStack : list string) (result : string)
  : list string * string :=
  let '(tagStack, result) :=
    match tagStack with
    | leafTag :: rest =>
        if negb (isContainer leafTag) then (rest, result ++ endTag leafTag)
        else (tagStack, result)
    | [] => (tagStack, result)
    end in
  (tagName :: tagStack, result ++ startTag tagName).

(** The two branches on [tagContent.startsWith('/')]. *)
Definition processTag (tagContent : string) (tagStack : list string) (result : string)
  : list string * string :=
  match tagContent with
  | String c tagName =>
      if Ascii.eqb c "/" then closeUntil tagName tagStack result
      else openElement tagContent tagStack result
  | EmptyString => openElement tagContent tagStack result
  end.

(** The loop [while (i < sgml.length)]; [sgml] is the text from index [i]
    on, and every round moves [i] forward, so [fuel] rounds are enough when
    [fuel] is the length of the text. *)
Fixpoint convertLoop (fuel : nat) (sgml : string) (tagStack : list string) (result : string)
  : list string * string :=
  match fuel with
  | O => (tagStack, result)
  | S fuel' =>
      match sgml with
      | EmptyString => (tagStack, result)
      | String c rest =>
          if Ascii.eqb c "<" then
            match DOM.splitAt ">" rest with
            | None => (tagStack, result)
            | Some (tagContent, rest') =>
                let '(tagStack, result) := processTag tagContent tagStack result in
                convertLoop fuel' rest' tagStack result
            end
          else convertLoop fuel' rest tagStack (result ++ String c EmptyString)
      end
  end.

(** The last loop: every tag still open is closed. *)
Fixpoint closeAll (tagStack : list string) (result : string) : string :=
  match tagStack with
  | [] => result
  | tag :: rest => closeAll rest (result ++ endTag tag)
  end.

Definition convertOFXToXML (sgml : string) : string :=
  let '(tagStack, result) := convertLoop (String.length sgml) sgml [] EmptyString in
  closeAll tagStack result.

(** [content.substring(content.indexOf(needle))], when [needle] occurs. *)
Fixpoint suffixFrom (needle : string) (content : string) : option string :=
  match stripPrefix needle content with
  | Some _ => Some content
  | None =>
      match content with
      | EmptyString => None
      | String _ content' => suffixFrom needle content'
      end
  end.

(** [extractXMLFromOFX]; [None] when it throws. *)
Definition extractXMLFromOFX (content : string) : option string :=
  option_map convertOFXToXML (suffixFrom "<OFX>" content).

(** [String(n)] for the result of [parseInt]. *)
Definition intToString (n : option Z) : string :=
  match n with
  | None => "NaN"
  | Some z =>
      if (z <? 0)%Z then "-" ++ Utils.toStringRadix 10 (- z) else Utils.toStringRadix 10 z
  end.

(** [s.padStart(2, '0')] *)
Definition padStart2 (s : string) : string :=
  match String.length s with
  | 0%nat => "00"
  | 1%nat => "0" ++ s
  | _ => s
  end.

Definition parseOFXDate (host : Host.t) (dateStr : string) : option Date :=
  match dateStr with
  | EmptyString => None
  | _ =>
      let cleaned := List.hd EmptyString (split "." (List.hd EmptyString (split "[" dateStr))) in
      let year := parseInt (substring 0 4 cleaned) in
      let month := parseInt (substring 4 2 cleaned) in
      let day := parseInt (substring 6 2 cleaned) in
      let isoString :=
        intToString year ++ "-" ++ padStart2 (intToString month) ++ "-"
          ++ padStart2 (intToString day) ++ "T00:00:00.000Z" in
      Host.dateParse host isoString
  end.

Definition entities : StringMap.t string :=
  [ ("&amp;", "&"); ("&lt;", "<"); ("&gt;", ">");
    ("&quot;", String (ascii_of_nat 34) EmptyString); ("&#39;", "'") ].

Definition isEntityChar (c : ascii) : bool :=
  isLower c || isUpper c || isDigit c || Ascii.eqb c "#".

Fixpoint spanEntityChars (s : string) : string * string :=
  match s with
  | String c s' =>
      if isEntityChar c then let '(a, b) := spanEntityChars s' in (String c a, b)
      else (EmptyString, s)
  | EmptyString => (EmptyString, EmptyString)
  end.

(** The match of [/&[a-z0-9#]+;/i] that starts at an ampersand followed by [s]. *)
Definition entityAt (s : string) : option string :=
  match spanEntityChars s with
  | (String c run, String ";" _) => Some ("&" ++ String c run ++ ";")
  | _ => None
  end.

Fixpoint replaceEntities (skip : nat) (text : string) : string :=
  match text with
  | EmptyString => EmptyString
  | String c text' =>
      match skip with
      | S k => replaceEntities k text'
      | O =>
          match (if Ascii.eqb c "&" then entityAt text' else None) with
          | Some m =>
              (match StringMap.get m entities with
               | Some (String d r) => String d r
               | _ => m
               end) ++ replaceEntities (String.length m - 1) text'
          | None => String c (replaceEntities 0 text')
          end
      end
  end.

Definition decodeHTMLEntities (text : string) : string := replaceEntities 0 text.

(** [element.querySelector(name)?.textContent] *)
Definition fieldText (name : string) (element : DOM.node) : option string :=
  option_map DOM.textContent (DOM.querySelector name element).

(** [value || fallback] on a string that may be undefined. *)
Definition orElse (value : option string) (fallback : string) : string :=
  match value with
  | Some (String c s) => String c s
  | _ => fallback
  end.

(** [value || undefined] *)
Definition orUndefined (value : option string) : option string :=
  match value with
  | Some (String c s) => Some (String c s)
  | _ => None
  end.

(** The body of the loop over the [STMTTRN] elements: the transaction
    pushed, or the error pushed before [continue]. *)
Definition parseTransaction (host : Host.t) (filename accountId : option string)
  (txnElement : DOM.node) : Transaction.t + ParseError.t :=
  let trnType := orElse (fieldText "TRNTYPE" txnElement) EmptyString in
  let dtPosted := orElse (fieldText "DTPOSTED" txnElement) EmptyString in
  let trnAmt := orElse (fieldText "TRNAMT" txnElement) EmptyString in
  let fitId := orElse (fieldText "FITID" txnElement) EmptyString in
  let name := orElse (fieldText "NAME" txnElement) "Unknown" in
  let memo := orUndefined (fieldText "MEMO" txnElement) in
  match parseOFXDate host dtPosted with
  | None => inr (ParseError.mk None (Some "DTPOSTED") ("Invalid date format: " ++ dtPosted) error)
  | Some date =>
      let amount := parseFloat trnAmt in
      if isNaN amount
      then inr (ParseError.mk None (Some "TRNAMT") ("Invalid amount: " ++ trnAmt) error)
      else
        let description := decodeHTMLEntities name in
        let id := Utils.generateTransactionId host date amount description accountId in
        let normalizedType := if (amount <? 0)%float then DEBIT else CREDIT in
        inl (Transaction.mk id date description amount normalizedType None false QFX
               (option_map Utils.truncateFilename (orUndefined filename))
               accountId (Some fitId) memo false)
  end.

Fixpoint parseTransactions (host : Host.t) (filename accountId : option string)
  (elements : list DOM.node) : list Transaction.t * list ParseError.t :=
  match elements with
  | [] => ([], [])
  | txnElement :: rest =>
      let '(transactions, errors) := parseTransactions host filename accountId rest in
      match parseTransaction host filename accountId txnElement with
      | inl t => (t :: transactions, errors)
      | inr e => (transactions, e :: errors)
      end
  end.

(** What the outer [catch] pushes for [throw new Error(message)]. *)
Definition thrown (message : string) : ParseResult.t :=
  ParseResult.mk []
    [ParseError.mk None None ("Error parsing QFX file: Error: " ++ message) error].

(** The body of [parseQFX] from [DOMParser] on: what it reads in the
    markup that [extractXMLFromOFX] returned. *)
Definition readMarkup (host : Host.t) (filename : option string) (xmlContent : string)
  : ParseResult.t :=
  match DOM.parseFromString host xmlContent with
  | DOM.ParserError text => thrown ("Failed to parse OFX XML: " ++ text)
  | DOM.Document xmlDoc =>
      match DOM.documentQuerySelectorAll "parsererror" xmlDoc with
      | parserError :: _ =>
          thrown ("Failed to parse OFX XML: " ++ DOM.textContent parserError)
      | [] =>
          let bankAcctId :=
            option_map DOM.textContent
              (DOM.documentQuerySelectorBelow "BANKACCTFROM" "ACCTID" xmlDoc) in
          let ccAcctId :=
            option_map DOM.textContent
              (DOM.documentQuerySelectorBelow "CCACCTFROM" "ACCTID" xmlDoc) in
          let accountId :=
            match orUndefined bankAcctId with
            | Some a => Some a
            | None => orUndefined ccAcctId
            end in
          match DOM.documentQuerySelectorAll "STMTTRN" xmlDoc with
          | [] =>
              ParseResult.mk []
                [ParseError.mk None None "No transactions found in QFX file" warning]
          | stmtTrnElements =>
              let '(transactions, errors) :=
                parseTransactions host filename accountId stmtTrnElements in
              ParseResult.mk transactions
                (errors ++
                 match transactions with
                 | [] => [ParseError.mk None None
                            "No valid transactions found in QFX file" error]
                 | _ :: _ => []
                 end)%list
          end
      end
  end.

Definition parseQFX (host : Host.t) (content : string) (filename : option string)
  : ParseResult.t :=
  match extractXMLFromOFX content with
  | None => thrown "Invalid OFX file: <OFX> tag not found"
  | Some xmlContent => readMarkup host filename xmlContent
  end.

End QfxParser.

(** ** A host to run the code on

    The built-ins as ECMAScript defines them, for a page in the UTC time
    zone that is not served in a secure context, so that [crypto.subtle] is
    undefined. *)

Module UtcHost.
Local Open Scope string_scope.
Local Open Scope Z_scope.

Definition msPerDay : Z := 86400000.

(** The day number of a date of the proleptic Gregorian calendar; [m] is
    1 to 12. *)
Definition daysFromCivil (y m d : Z) : Z :=
  let y' := if m <=? 2 then y - 1 else y in
  let era := y' / 400 in
  let yoe := y' - era * 400 in
  let doy := (153 * (if 2 <? m then m - 3 else m + 9) + 2) / 5 + d - 1 in
  let doe := yoe * 365 + yoe / 4 - yoe / 100 + doy in
  era * 146097 + doe - 719468.

(** The year, month (1 to 12) and day of a day number. *)
Definition civilFromDays (z : Z) : Z * Z * Z :=
  let z := z + 719468 in
  let era := z / 146097 in
  let doe := z - era * 146097 in
  let yoe := (doe - doe / 1460 + doe / 36524 - doe / 146096) / 365 in
  let doy := doe - (365 * yoe + yoe / 4 - yoe / 100) in
  let mp := (5 * doy + 2) / 153 in
  let d := doy - (153 * mp + 2) / 5 + 1 in
  let m := if mp <? 10 then mp + 3 else mp - 9 in
  (if m <=? 2 then yoe + era * 400 + 1 else yoe + era * 400, m, d).

(** [TimeClip] *)
Definition timeClip (t : Z) : option Date :=
  if Z.abs t <=? 8640000000000000 then Some t else None.

(** [new Date(year, month, day)]: [MakeDay], [MakeDate], [TimeClip]. *)
Definition dateLocal (year month day : option Z) : option Date :=
  match year, month, day with
  | Some y, Some m, Some d =>
      let yr := if (0 <=? y) && (y <=? 99) then 1900 + y else y in
      let ym := yr + m / 12 in
      let mn := m mod 12 in
      timeClip ((daysFromCivil ym (mn + 1) 1 + d - 1) * msPerDay)
  | _, _, _ => None
  end.

(** The value of [n] digits at the head of [s], and the rest. *)
Fixpoint digits (n : nat) (acc : Z) (s : string) : option (Z * string) :=
  match n with
  | O => Some (acc, s)
  | S n' =>
      match s with
      | String c s' =>
          if isDigit c then digits n' (acc * 10 + Z.of_nat (code c - 48)) s' else None
      | EmptyString => None
      end
  end.

Definition expect (c : ascii) (s : string) : option string :=
  match s with
  | String c' s' => if Ascii.eqb c c' then Some s' else None
  | EmptyString => None
  end.

Definition daysInMonth (y m : Z) : Z :=
  daysFromCivil (if m =? 12 then y + 1 else y) (if m =? 12 then 1 else m + 1) 1
  - daysFromCivil y m 1.

(** [new Date(s)] for the date-time form [YYYY-MM-DDTHH:mm:ss.sssZ]; a
    field out of its range makes the string illegal. Any other string is
    left to the implementation by the language, and is illegal here. *)
Definition dateParse (s : string) : option Date :=
  match digits 4 0 s with
  | Some (y, s) =>
  match expect "-" s with Some s =>
  match digits 2 0 s with Some (m, s) =>
  match expect "-" s with Some s =>
  match digits 2 0 s with Some (d, s) =>
  match expect "T" s with Some s =>
  match digits 2 0 s with Some (hh, s) =>
  match expect ":" s with Some s =>
  match digits 2 0 s with Some (mm, s) =>
  match expect ":" s with Some s =>
  match digits 2 0 s with Some (ss, s) =>
  match expect "." s with Some s =>
  match digits 3 0 s with Some (ms, s) =>
  match s with
  | "Z"%string =>
      if (1 <=? m) && (m <=? 12) && (1 <=? d) && (d <=? daysInMonth y m)
         && ((hh <=? 23) || ((hh =? 24) && (mm =? 0) && (ss =? 0) && (ms =? 0)))
         && (mm <=? 59) && (ss <=? 59)
      then timeClip (daysFromCivil y m d * msPerDay
                     + ((hh * 60 + mm) * 60 + ss) * 1000 + ms)
      else None
  | _ => None
  end
  | None => None end | None => None end | None => None end | None => None end
  | None => None end | None => None end | None => None end | None => None end
  | None => None end | None => None end | None => None end | None => None end
  | None => None
  end.

(** The decimal digits of [n >= 0], at least [width] of them. *)
Definition padded (width : nat) (n : Z) : string :=
  let s := Utils.toStringRadix 10 n in
  Nat.iter (width - String.length s) (String "0") s.

Definition toISOString (t : Date) : string :=
  let '(y, m, d) := civilFromDays (t / msPerDay) in
  let r := t mod msPerDay in
  (if (0 <=? y) && (y <=? 9999) then padded 4 y
   else (if y <? 0 then "-" else "+") ++ padded 6 (Z.abs y))
  ++ "-" ++ padded 2 m ++ "-" ++ padded 2 d
  ++ "T" ++ padded 2 (r / 3600000) ++ ":" ++ padded 2 (r / 60000 mod 60)
  ++ ":" ++ padded 2 (r / 1000 mod 60) ++ "." ++ padded 3 (r mod 1000) ++ "Z".

(** date-fns [format(date, 'yyyy-MM')]: the year of the era, four digits
    at least. *)
Definition formatYearMonth (t : Date) : string :=
  let '(y, m, _) := civilFromDays (t / msPerDay) in
  padded 4 (if 0 <? y then y else 1 - y) ++ "-" ++ padded 2 m.

(** [x * 10 ^ j] for [x = m * 2 ^ e], as a fraction. *)
Definition scaled (m : positive) (e j : Z) : Z * Z :=
  (Zpos m * 2 ^ Z.max e 0 * 10 ^ Z.max j 0, 2 ^ Z.max (- e) 0 * 10 ^ Z.max (- j) 0).

(** The least [n >= j] with [m * 2 ^ e < 10 ^ n], searched upwards. *)
Fixpoint decimalExponent (fuel : nat) (m : positive) (e j : Z) : Z :=
  match fuel with
  | O => j
  | S fuel' =>
      let '(num, den) := scaled m e (- j) in
      if den <=? num then decimalExponent fuel' m e (j + 1) else j
  end.

(** The shortest significand [s] of [k] digits or more with
    [s * 10 ^ (n - k)] read back as [x], the closest one to [x] when there
    are two: the integers [n], [k], [s] of [Number::toString]. *)
Fixpoint shortest (fuel : nat) (x : Number) (m : positive) (e n k : Z) : Z * Z :=
  let '(num, den) := scaled m e (k - n) in
  let lo := num / den in
  let r := num mod den in
  let back s := PrimFloat.Leibniz.eqb (decimal2Number false (Z.to_N s) (n - k)) x in
  let pick :=
    match back lo, back (lo + 1) with
    | true, false => Some lo
    | false, true => Some (lo + 1)
    | true, true =>
        Some (if 2 * r <? den then lo
              else if den <? 2 * r then lo + 1
              else if Z.even lo then lo else lo + 1)
    | false, false => None
    end in
  match pick, fuel with
  | Some s, _ => (s, k)
  | None, S fuel' => shortest fuel' x m e n (k + 1)
  | None, O => (lo, k)
  end.

Definition repeat0 (n : Z) : string := Nat.iter (Z.to_nat n) (String "0") EmptyString.

(** [Number::toString] on [x = m * 2 ^ e]. *)
Definition positiveToString (x : Number) (m : positive) (e : Z) : string :=
  let n0 := decimalExponent 8 m e ((Z.log2 (Zpos m) + e) * 30103 / 100000 - 3) in
  let '(s0, k0) := shortest 17 x m e n0 1 in
  let '(s, k, n) := if s0 =? 10 ^ k0 then (1, 1, n0 + 1) else (s0, k0, n0) in
  let ds := Utils.toStringRadix 10 s in
  if (k <=? n) && (n <=? 21) then ds ++ repeat0 (n - k)
  else if (0 <? n) && (n <=? 21)
  then substring 0 (Z.to_nat n) ds ++ "." ++ substring (Z.to_nat n) (Z.to_nat (k - n)) ds
  else if (-6 <? n) && (n <=? 0) then "0." ++ repeat0 (- n) ++ ds
  else
    let ex := (if n - 1 <? 0 then "-" else "+") ++ Utils.toStringRadix 10 (Z.abs (n - 1)) in
    if k =? 1 then ds ++ "e" ++ ex
    else substring 0 1 ds ++ "." ++ substring 1 (Z.to_nat (k - 1)) ds ++ "e" ++ ex.

Definition numberToString (x : Number) : string :=
  match Prim2SF x with
  | S754_nan => "NaN"
  | S754_zero _ => "0"
  | S754_infinity sign => if sign then "-Infinity" else "Infinity"
  | S754_finite sign m e => (if sign then "-" else "") ++ positiveToString (abs x) m e
  end.

Definition toUpperLatin1 (c : ascii) : ascii :=
  let n := code c in
  if isLower c || ((224 <=? n)%nat && (n <=? 254)%nat && negb (n =? 247)%nat)
  then ascii_of_nat (n - 32) else c.

Fixpoint prefixNoCase (p s : string) : bool :=
  match p, s with
  | EmptyString, _ => true
  | String a p', String b s' =>
      Ascii.eqb (toUpperLatin1 a) (toUpperLatin1 b) && prefixNoCase p' s'
  | String _ _, EmptyString => false
  end.

Fixpoint containsNoCase (p s : string) : bool :=
  prefixNoCase p s
  || match s with
     | EmptyString => false
     | String _ s' => containsNoCase p s'
     end.

(** A character that is itself in a pattern: not one of [\ ^ $ . * + ? ( ) [ ] { } |]. *)
Definition isLiteralChar (c : ascii) : bool :=
  negb (existsb (Nat.eqb (code c))
          [92; 94; 36; 46; 42; 43; 63; 40; 41; 91; 93; 123; 125; 124]%nat).

Fixpoint isLiteral (p : string) : bool :=
  match p with
  | EmptyString => true
  | String c p' => isLiteralChar c && isLiteral p'
  end.

(** [new RegExp(pattern, 'i').test(text)] for a pattern without
    metacharacters, which matches where the text contains it, case apart.
    The other patterns are outside this host: it answers for them as for
    one that does not compile. *)
Definition regExpTest (pattern text : string) : option bool :=
  if isLiteral pattern then Some (containsNoCase pattern text) else None.

Definition host : Host.t :=
  Host.mk None dateLocal dateParse toISOString numberToString formatYearMonth regExpTest
    (fun _ => "XML Parsing Error") 1736553600000 "4fzyo82mv".

End UtcHost.

(** ** The words of the specification

    Definitions written from the specification, to state what the code
    is compared with. *)

Module Spec.

(** The debit, non-excluded transactions whose normalized merchant key is
    [key], in the order of the collection. *)
Definition merchantGroup (key : string) (transactions : list Transaction.t)
  : list Transaction.t :=
  filter
    (fun t =>
       AnalyticsCalculator.isDebit t && negb (Transaction.isExcluded t)
       && String.eqb (AnalyticsCalculator.normalizeMerchant (Transaction.description t)) key)
    transactions.

(** The mean of the absolute amounts of a group. *)
Definition meanAbsoluteAmount (group : list Transaction.t) : Number :=
  (fold_left PrimFloat.add (map (fun t => abs (Transaction.amount t)) group) 0
   / nat2Number (List.length group))%float.

(** Every member is within 10% of the mean, relative to the mean. *)
Definition withinTolerance (group : list Transaction.t) : bool :=
  forallb
    (fun t =>
       (abs (abs (Transaction.amount t) - meanAbsoluteAmount group)
        / meanAbsoluteAmount group <=? 0.1)%float)
    group.

(** The average gap in the words of the claim, in exact arithmetic: the
    gaps between consecutive dates, in milliseconds, their sum, and the test
    that their average lies between 25 and 35 days, both included. *)
Definition gaps (dates : list Date) : list Z :=
  map (fun p => (snd p - fst p)%Z) (combine dates (tl dates)).

Definition totalGap (dates : list Date) : Z := fold_right Z.add 0%Z (gaps dates).

Definition averagesMonthly (dates : list Date) : bool :=
  let count := Z.of_nat (List.length (gaps dates)) in
  (0 <? count)%Z
  && (25 * 86400000 * count <=? totalGap dates)%Z
  && (totalGap dates <=? 35 * 86400000 * count)%Z.

(** The average gap in Number arithmetic: each gap is the quotient of the
    difference in milliseconds by 86400000, the gaps are added from 0 in
    their order and the sum is divided by their number, every operation
    rounded to the nearest Number. *)
Definition numberGaps (dates : list Date) : list Number :=
  map (fun p => (Z2Number (snd p - fst p) / 86400000)%float) (combine dates (tl dates)).

Definition numberAverageGap (dates : list Date) : Number :=
  (fold_left PrimFloat.add (numberGaps dates) 0
   / nat2Number (List.length (numberGaps dates)))%float.

(** The flat legacy rule list under the policy of the category patterns:
    the enabled rules in ascending priority, declaration order breaking
    ties, the first whose pattern matches. *)
Definition legacyFallback (host : Host.t) (engine : CategorizationEngine.t)
  (description : string) : option string :=
  CategorizationEngine.firstMatch host description
    (sort CategorizationEngine.byPriority (CategorizationEngine.legacyMatches engine)).

(** The sign convention of the unified model: a negative amount is a
    debit, any other amount, zero included, a credit. *)
Definition signConvention (t : Transaction.t) : Prop :=
  ((Transaction.amount t <? 0)%float = true <-> Transaction.type t = DEBIT)
  /\ ((Transaction.amount t =? 0)%float = true -> Transaction.type t = CREDIT).

(** The closed interval of 25 to 35 days. *)
Definition roughlyMonthly (days : Number) : bool :=
  (25 <=? days)%float && (days <=? 35)%float.

End Spec.

(** ** Tag soup

    The fragments of the round trip, as trees: a leaf is a tag with the
    text up to the next tag, a container a tag with text, children, its end
    tag, and the text up to the next tag. *)

Module TagSoup.
Local Open Scope string_scope.

Inductive fragment :=
| Leaf (name : string) (value : string)
| Container (name : string) (lead : string) (children : list fragment) (trail : string).

(** The fragment as the bank writes it: no end tag for a leaf. *)
Fixpoint soup (f : fragment) : string :=
  match f with
  | Leaf name value => QfxParser.startTag name ++ value
  | Container name lead children trail =>
      QfxParser.startTag name ++ lead
        ++ fold_right (fun c rest => soup c ++ rest) EmptyString children
        ++ QfxParser.endTag name ++ trail
  end.

(** The equivalent fragment with every element closed. *)
Fixpoint closed (f : fragment) : string :=
  match f with
  | Leaf name value => QfxParser.startTag name ++ value ++ QfxParser.endTag name
  | Container name lead children trail =>
      QfxParser.startTag name ++ lead
        ++ fold_right (fun c rest => closed c ++ rest) EmptyString children
        ++ QfxParser.endTag name ++ trail
  end.

(** Text that stands for itself in markup: characters of XML other than
    the angle brackets, the ampersand and the carriage return. *)
Fixpoint plainText (s : string) : bool :=
  match s with
  | EmptyString => true
  | String c s' =>
      DOM.isChar c
      && negb (Ascii.eqb c "<" || Ascii.eqb c ">" || Ascii.eqb c "&"
               || Ascii.eqb c (ascii_of_nat 13))
      && plainText s'
  end.

(** The containers carry the known container names, the leaves names that
    are not container names, and the text is plain. *)
Fixpoint wellFormed (f : fragment) : bool :=
  match f with
  | Leaf name value =>
      DOM.isName name && negb (QfxParser.isContainer name) && plainText value
  | Container name lead children trail =>
      QfxParser.isContainer name && plainText lead && plainText trail
      && forallb wellFormed children
  end.

(** The text after the end tag of the fragment. *)
Definition after (f : fragment) : string :=
  match f with
  | Leaf _ _ => EmptyString
  | Container _ _ _ trail => trail
  end.

(** A text node, when there is text. *)
Definition textNode (s : string) : list DOM.node :=
  match s with
  | EmptyString => []
  | _ => [DOM.Text s]
  end.

(** The element that the fragment stands for. *)
Fixpoint element (f : fragment) : DOM.node :=
  match f with
  | Leaf name value => DOM.Element name (textNode value)
  | Container name lead children _ =>
      DOM.Element name
        (textNode lead ++ flat_map (fun c => element c :: textNode (after c)) children)%list
  end.

End TagSoup.

(** ** Examples *)

Module Examples.
Local Open Scope string_scope.

(** A debit that is neither excluded nor categorized, [day] days after the epoch. *)
Definition debit (id : string) (day : Z) (description : string) (amount : Number)
  : Transaction.t :=
  Transaction.mk id (day * 86400000)%Z description amount DEBIT None false CSV
    None None None None false.
Arguments debit id%_string day%_Z description%_string amount%_float.

(** Three charges of one merchant, 30 days apart. *)
Definition monthly : list Transaction.t :=
  [ debit "t1" 0 "NETFLIX.COM" (-9.49); debit "t2" 30 "NETFLIX.COM" (-9.49);
    debit "t3" 60 "NETFLIX.COM" (-9.50) ].

(** The same charges, 10 days apart. *)
Definition tenDays : list Transaction.t :=
  [ debit "t1" 0 "NETFLIX.COM" (-9.49); debit "t2" 10 "NETFLIX.COM" (-9.49);
    debit "t3" 20 "NETFLIX.COM" (-9.50) ].

(** The platform of [UtcHost] in a time zone [offset] milliseconds behind
    Greenwich all year: local midnight comes [offset] later, and the local
    month is the month of the time [offset] earlier. *)
Definition zoneHost (offset : Z) : Host.t :=
  Host.mk (Host.subtleDigest UtcHost.host)
    (fun year month day =>
       match UtcHost.dateLocal year month day with
       | Some t => UtcHost.timeClip (t + offset)%Z
       | None => None
       end)
    UtcHost.dateParse UtcHost.toISOString UtcHost.numberToString
    (fun t => UtcHost.formatYearMonth (t - offset)%Z)
    UtcHost.regExpTest (Host.parserErrorText UtcHost.host)
    (Host.now UtcHost.host) (Host.random UtcHost.host).

(** Honolulu: ten hours behind Greenwich, without daylight saving time. *)
Definition honolulu : Host.t := zoneHost 36000000.

(** A realm: the properties of [Object.prototype] with the text of a
    built-in function as V8 writes it, and strings compared by their code
    units, which is how [localeCompare] orders the months [yyyy-MM]. *)
Definition realm : Realm.t :=
  Realm.mk
    (fun key =>
       if String.eqb key "__proto__" then Some "[object Object]"
       else if String.eqb key "constructor" then Some "function Object() { [native code] }"
       else if existsb (String.eqb key)
                 [ "hasOwnProperty"; "isPrototypeOf"; "propertyIsEnumerable";
                   "toLocaleString"; "toString"; "valueOf"; "__defineGetter__";
                   "__defineSetter__"; "__lookupGetter__"; "__lookupSetter__" ]
            then Some ("function " ++ key ++ "() { [native code] }")
            else None)
    (fun a b => match String.compare a b with
                | Lt => (-1)%float
                | Eq => 0%float
                | Gt => 1%float
                end).

(** A debit at the time value [time]. *)
Definition charge (id : string) (time : Z) (description : string) (amount : Number)
  : Transaction.t :=
  Transaction.mk id time description amount DEBIT None false CSV None None None None false.
Arguments charge id%_string time%_Z description%_string amount%_float.

(** Eleven charges on the midnights, in New York, of 1 and 23 March, 20
    April, 15 May, 9 June, 2 and 29 July, 26 August, 17 September, 14 October
    and 6 November 2025: 22, 28, 25, 25, 23, 27, 28, 22, 27 and 23 days
    apart, the first gap an hour short and the last an hour long by the
    change to and from daylight saving time, 250 days in all. *)
Definition daylight : list Transaction.t :=
  [ charge "d1" 1740805200000 "GYM" (-40); charge "d2" 1742702400000 "GYM" (-40);
    charge "d3" 1745121600000 "GYM" (-40); charge "d4" 1747281600000 "GYM" (-40);
    charge "d5" 1749441600000 "GYM" (-40); charge "d6" 1751428800000 "GYM" (-40);
    charge "d7" 1753761600000 "GYM" (-40); charge "d8" 1756180800000 "GYM" (-40);
    charge "d9" 1758081600000 "GYM" (-40); charge "d10" 1760414400000 "GYM" (-40);
    charge "d11" 1762405200000 "GYM" (-40) ].

(** Amounts 100, 109.99 and 91: the mean is 100.33. *)
Definition near : list Transaction.t :=
  [ debit "a1" 0 "GYM" (-100); debit "a2" 7 "GYM" (-109.99); debit "a3" 14 "GYM" (-91) ].

(** Amounts 100 and 115: the mean is 107.5, each is 7.5 away from it. *)
Definition apart15 : list Transaction.t :=
  [ debit "b1" 0 "GYM" (-100); debit "b2" 7 "GYM" (-115) ].

(** Amounts 100 and 125: the mean is 112.5, each is 12.5 away from it. *)
Definition apart25 : list Transaction.t :=
  [ debit "c1" 0 "GYM" (-100); debit "c2" 7 "GYM" (-125) ].

(** An uncategorized purchase. *)
Definition purchase (description : string) : Transaction.t :=
  Transaction.mk "p1" 1736553600000%Z description (-12.5)%float DEBIT None false QFX
    None None None None false.

(** Two legacy rules, the second with the lower priority number. *)
Definition legacyEngine : CategorizationEngine.t :=
  CategorizationEngine.mk []
    [ CategorizationRule.mk "r2" "groceries" "market" 15%float true;
      CategorizationRule.mk "r3" "restaurants" "cafe" 10%float true ]
    [].

(** The row [01/11/2025,01/11/2025,MERCHANT X,19.01,Restaurants], the
    third and the last field quoted, as Papa Parse binds it to the header
    [Trans. Date,Post Date,Description,Amount,Category]. *)
Definition csvRow : StringMap.t string :=
  [ ("Trans. Date", "01/11/2025"); ("Post Date", "01/11/2025");
    ("Description", "MERCHANT X"); ("Amount", "19.01"); ("Category", "Restaurants") ].

(** Two rows whose amounts carry thousands separators: a purchase of
    1,234.56 and a refund of 1,000.00, which the bank writes as negative. *)
Definition csvRowThousands : StringMap.t string :=
  [ ("Trans. Date", "01/12/2025"); ("Post Date", "01/13/2025");
    ("Description", "FURNITURE, INC"); ("Amount", "1,234.56"); ("Category", "Home") ].

Definition csvRowRefund : StringMap.t string :=
  [ ("Trans. Date", "01/14/2025"); ("Post Date", "01/15/2025");
    ("Description", "FURNITURE, INC"); ("Amount", "-1,000.00"); ("Category", "Home") ].

Definition newline : string := String (ascii_of_nat 10) EmptyString.

(** A statement with a debit and a credit, one tag a line. *)
Definition statement : string :=
  concat newline
    [ "OFXHEADER:100"; "DATA:OFXSGML"; "VERSION:102"; "";
      "<OFX>"; "<BANKMSGSRSV1>"; "<STMTTRNRS>"; "<STMTRS>"; "<CURDEF>USD";
      "<BANKACCTFROM>"; "<BANKID>021000021"; "<ACCTID>000123"; "<ACCTTYPE>CHECKING";
      "</BANKACCTFROM>";
      "<BANKTRANLIST>";
      "<STMTTRN>"; "<TRNTYPE>DEBIT"; "<DTPOSTED>20250111120000[0:GMT]"; "<TRNAMT>-19.01";
      "<FITID>202501110001"; "<NAME>MERCHANT X"; "</STMTTRN>";
      "<STMTTRN>"; "<TRNTYPE>CREDIT"; "<DTPOSTED>20250115120000.000"; "<TRNAMT>250.00";
      "<FITID>202501150001"; "<NAME>PAYROLL"; "<MEMO>January"; "</STMTTRN>";
      "</BANKTRANLIST>"; "</STMTRS>"; "</STMTTRNRS>"; "</BANKMSGSRSV1>"; "</OFX>"; "" ].

(** One purchase as tag soup, the tags separated by [separator]: by a
    line feed in a formatted file, by nothing in an unformatted one. *)
Definition purchaseSoup (separator : string) : string :=
  concat separator
    [ "<OFX>"; "<BANKTRANLIST>";
      "<STMTTRN>"; "<TRNTYPE>DEBIT"; "<DTPOSTED>20250111120000[0:GMT]"; "<TRNAMT>-19.01";
      "<FITID>202501110001"; "<NAME>MERCHANT X"; "<MEMO>Lunch"; "</STMTTRN>";
      "</BANKTRANLIST>"; "</OFX>" ].

(** The same purchase with every element closed by hand, an element a line. *)
Definition purchaseClosed : string :=
  concat newline
    [ "<OFX>"; "<BANKTRANLIST>";
      "<STMTTRN>"; "<TRNTYPE>DEBIT</TRNTYPE>"; "<DTPOSTED>20250111120000[0:GMT]</DTPOSTED>";
      "<TRNAMT>-19.01</TRNAMT>"; "<FITID>202501110001</FITID>"; "<NAME>MERCHANT X</NAME>";
      "<MEMO>Lunch</MEMO>"; "</STMTTRN>";
      "</BANKTRANLIST>"; "</OFX>" ].


(** A container in a container, with two leaves in a row, and the PAYROLL
    credit of the statement above. *)
Definition payroll : TagSoup.fragment :=
  TagSoup.Container "OFX" ""
    [ TagSoup.Container "BANKTRANLIST" ""
        [ TagSoup.Container "STMTTRN" ""
            [ TagSoup.Leaf "TRNTYPE" "CREDIT"; TagSoup.Leaf "DTPOSTED" "20250115120000.000";
              TagSoup.Leaf "TRNAMT" "250.00"; TagSoup.Leaf "FITID" "202501150001";
              TagSoup.Leaf "NAME" "PAYROLL"; TagSoup.Leaf "MEMO" "January" ] "" ] "" ] "".

End Examples.

(** ** Invariants of the loops *)

Module Invariants.

Definition keyOf (t : Transaction.t) : string :=
  AnalyticsCalculator.normalizeMerchant (Transaction.description t).

(** The entries of the map of [groupByMerchant] after the transactions
    [seen]: the non-empty classes of the key. *)
Definition classes (groups : StringMap.t (list Transaction.t)) (seen : list Transaction.t)
  : Prop :=
  forall k g, In (k, g) groups <->
              g = filter (fun t => String.eqb (keyOf t) k) seen /\ g <> [].

(** The transaction is one that [batchCategorize] writes to. *)
Definition eligible (t : Transaction.t) : bool :=
  negb (Transaction.isManuallyCategorized t) && CategorizationEngine.noCategory t.

(** The object [t] once [batchCategorize] has visited it. *)
Definition visited (host : Host.t) (engine : CategorizationEngine.t) (t : Transaction.t)
  : Transaction.t :=
  if eligible t
  then Transaction.setCategoryId (CategorizationEngine.categorize host engine t) t
  else t.

(** The loop of [convertOFXToXML] on the text that is left, with all the
    rounds it needs. *)
Definition run (sgml : string) (tagStack : list string) (result : string)
  : list string * string :=
  QfxParser.convertLoop (String.length sgml) sgml tagStack result.

(** The leaf that a fragment leaves open on the stack. *)
Definition pending (f : TagSoup.fragment) : list string :=
  match f with
  | TagSoup.Leaf name _ => [name]
  | TagSoup.Container _ _ _ _ => []
  end.

(** What the loop has written when it has read the soup of a fragment. *)
Definition written (f : TagSoup.fragment) : string :=
  match f with
  | TagSoup.Leaf name value => (QfxParser.startTag name ++ value)%string
  | TagSoup.Container _ _ _ _ => TagSoup.closed f
  end.

(** The end tags of the leaves of a stack segment. *)
Definition endTags (names : list string) : string :=
  fold_right (fun n rest => (QfxParser.endTag n ++ rest)%string) EmptyString names.

(** The leaf left open after a row of fragments, [p] being open before it. *)
Fixpoint pendingAfter (p : list string) (fs : list TagSoup.fragment) : list string :=
  match fs with
  | [] => p
  | f :: fs' => pendingAfter (pending f) fs'
  end.

(** What the loop has written when it has read the soup of a row of
    fragments, [p] being open before it. *)
Fixpoint writtenAll (p : list string) (fs : list TagSoup.fragment) : string :=
  match fs with
  | [] => EmptyString
  | f :: fs' => (endTags p ++ written f ++ writtenAll (pending f) fs')%string
  end.

(** The stack has no open leaf at its top. *)
Definition settled (tagStack : list string) : Prop :=
  match tagStack with
  | [] => True
  | top :: _ => QfxParser.isContainer top = true
  end.

(** No leaf is open, or one leaf is. *)
Definition openLeaf (p : list string) : Prop :=
  p = [] \/ exists m, p = [m] /\ QfxParser.isContainer m = false.

(** What the loop does on the soup of a fragment, whatever follows. *)
Definition repaired (f : TagSoup.fragment) : Prop :=
  forall p rest tagStack result,
    TagSoup.wellFormed f = true -> openLeaf p -> settled tagStack ->
    run (TagSoup.soup f ++ rest) (p ++ tagStack) result
    = run rest (pending f ++ tagStack) (result ++ endTags p ++ written f)%string.

(** The loop of [parseXML] on the text that is left, with all the rounds
    it needs. *)
Definition parse (xml : string) (stack : list DOM.frame) (root : option DOM.node)
  : option DOM.node :=
  DOM.parseLoop (S (String.length xml)) xml stack root.

(** The children added to the element that is open. *)
Definition addChildren (ns : list DOM.node) (stack : list DOM.frame) : list DOM.frame :=
  fold_left (fun st n => DOM.addChild n st) ns stack.

(** The text that is left starts with a tag, or nothing is left. *)
Definition atTag (s : string) : Prop :=
  match s with
  | EmptyString => True
  | String c _ => c = "<"%char
  end.

(** What the parser does on the closed form of a fragment below an element. *)
Definition parsed (f : TagSoup.fragment) : Prop :=
  forall rest name kids stack root,
    TagSoup.wellFormed f = true -> atTag rest ->
    parse (TagSoup.closed f ++ rest) ((name, kids) :: stack) root
    = parse rest
        ((name, rev (TagSoup.element f :: TagSoup.textNode (TagSoup.after f)) ++ kids)%list
           :: stack) root.

End Invariants.

(** ** More string methods *)

Module Strings.

(** [c.toLowerCase()] on a code unit below 256. *)
Definition toLower (c : ascii) : ascii :=
  let n := code c in
  if isUpper c || ((192 <=? n)%nat && (n <=? 222)%nat && negb (n =? 215)%nat)
  then ascii_of_nat (n + 32) else c.

Fixpoint toLowerCase (s : string) : string :=
  match s with
  | EmptyString => EmptyString
  | String c s' => String (toLower c) (toLowerCase s')
  end.

(** [s.endsWith(suffix)] *)
Definition endsWith (suffix s : string) : bool :=
  (String.length suffix <=? String.length s)%nat
  && String.eqb (substring (String.length s - String.length suffix) (String.length suffix) s)
       suffix.

(** [s.includes(needle)] *)
Fixpoint includes (needle s : string) : bool :=
  startsWith needle s
  || match s with
     | EmptyString => false
     | String _ s' => includes needle s'
     end.

(** No character of [s] is [c]. *)
Fixpoint without (c : ascii) (s : string) : bool :=
  match s with
  | EmptyString => true
  | String x s' => negb (Ascii.eqb x c) && without c s'
  end.

End Strings.

(** ** A JavaScript [Set] of strings

    The elements in insertion order, each one once. *)

Module StringSet.

Definition t := list string.

Definition has (x : string) (s : t) : bool := existsb (String.eqb x) s.

Definition add (x : string) (s : t) : t := if has x s then s else (s ++ [x])%list.

Definition delete (x : string) (s : t) : t := filter (fun y => negb (String.eqb y x)) s.

(** [new Set(xs)] *)
Definition ofArray (xs : list string) : t := fold_left (fun s x => add x s) xs [].

End StringSet.

(** ** Signatures ([lib/utils.ts]) *)

Module Signatures.
Local Open Scope string_scope.

Definition signatureKey (host : Host.t) (date : Date) (amount : Number) (description : string)
  : string :=
  Host.toISOString host date ++ "_" ++ Host.numberToString host amount ++ "_" ++ description.

Definition generateTransactionSignature (host : Host.t) (date : Date) (amount : Number)
  (description : string) : string :=
  let key := signatureKey host date amount description in
  match Host.subtleDigest host with
  | Some digest => Utils.hex (digest (Utils.utf8 key))
  | None => Utils.simpleHash key
  end.

(** The date of a stored transaction is a [Date]: the branch for a string
    is the one of a value that [JSON.parse] left as it was. *)
Definition generateTransactionSignatureSync (host : Host.t) (date : Date) (amount : Number)
  (description : string) : string :=
  Utils.simpleHash (signatureKey host date amount description).

End Signatures.

(** ** Queries of the engine ([lib/categorization/engine.ts]) *)

Module CategorizationQueries.

Definition getCategoryById (engine : CategorizationEngine.t) (categoryId : string)
  : option Category.t :=
  find (fun c => String.eqb (Category.id c) categoryId) (CategorizationEngine.categories engine).

Definition getUncategorizedTransactions (transactions : list Transaction.t)
  : list Transaction.t :=
  filter (fun t => CategorizationEngine.noCategory t && negb (Transaction.isExcluded t))
    transactions.

End CategorizationQueries.

(** ** The entry point of the parsers ([lib/parsers/index.ts]) *)

Module File.
(** A [File]: its name, and what [file.text()] resolves to, or the reason
    of its rejection as a string. *)
Record t := mk {
  name : string;
  text : string + string
}.
End File.

Module Parsers.
Local Open Scope string_scope.

Inductive FileFormat := QFX | CSV | UNKNOWN.

Definition detectFormat (filename content : string) : FileFormat :=
  let lowerFilename := Strings.toLowerCase filename in
  if Strings.endsWith ".qfx" lowerFilename then QFX
  else if Strings.endsWith ".csv" lowerFilename then CSV
  else if startsWith "OFXHEADER:" content || Strings.includes "<OFX>" content then QFX
  else if Strings.includes "Trans. Date,Post Date,Description,Amount,Category" content then CSV
  else UNKNOWN.

Definition parseFile (host : Host.t) (papaParse : string -> Papa.outcome) (file : File.t)
  : ParseResult.t :=
  match File.text file with
  | inl content =>
      match detectFormat (File.name file) content with
      | QFX => QfxParser.parseQFX host content (Some (File.name file))
      | CSV => CsvParser.parseCSV host papaParse content
      | UNKNOWN =>
          ParseResult.mk []
            [ParseError.mk None None
               ("Unknown file format: " ++ File.name file ++ ". Expected .qfx or .csv file.")
               error]
      end
  | inr reason =>
      ParseResult.mk []
        [ParseError.mk None None ("Error reading file " ++ File.name file ++ ": " ++ reason)
           error]
  end.

(** The body of the loop over [files]. *)
Definition addResult (host : Host.t) (papaParse : string -> Papa.outcome)
  (all : ParseResult.t) (file : File.t) : ParseResult.t :=
  let result := parseFile host papaParse file in
  ParseResult.mk
    (ParseResult.transactions all ++ ParseResult.transactions result)%list
    (ParseResult.errors all ++ ParseResult.errors result)%list.

Definition parseFiles (host : Host.t) (papaParse : string -> Papa.outcome)
  (files : list File.t) : ParseResult.t :=
  fold_left (addResult host papaParse) files (ParseResult.mk [] []).

End Parsers.

(** ** The state of the application ([types/index.ts]) *)

Module TimeWindowFilter.
Record t := mk {
  enabled : bool;
  startDate : option string;
  endDate : option string
}.

(** [{ enabled: false, startDate: null, endDate: null }] *)
Definition off : t := mk false None None.
End TimeWindowFilter.

Module Preferences.
(** The two lists of exclusions are absent in preferences written before
    they were introduced. *)
Record t := mk {
  categories : list Category.t;
  rules : list CategorizationRule.t;
  excludedTransactionSignatures : option (list string);
  excludedRepeatedExpensePatterns : option (list string);
  timeWindowFilter : option TimeWindowFilter.t;
  version : Number;
  lastModified : Date
}.

Definition withCategories (cs : list Category.t) (p : t) : t :=
  mk cs (rules p) (excludedTransactionSignatures p) (excludedRepeatedExpensePatterns p)
     (timeWindowFilter p) (version p) (lastModified p).

Definition withRules (rs : list CategorizationRule.t) (p : t) : t :=
  mk (categories p) rs (excludedTransactionSignatures p) (excludedRepeatedExpensePatterns p)
     (timeWindowFilter p) (version p) (lastModified p).

Definition withExclusions (signatures patterns : option (list string)) (p : t) : t :=
  mk (categories p) (rules p) signatures patterns (timeWindowFilter p) (version p)
     (lastModified p).

Definition withTimeWindowFilter (f : option TimeWindowFilter.t) (p : t) : t :=
  mk (categories p) (rules p) (excludedTransactionSignatures p)
     (excludedRepeatedExpensePatterns p) f (version p) (lastModified p).
End Preferences.

Module AppState.
Record t := mk {
  transactions : list Transaction.t;
  categories : list Category.t;
  rules : list CategorizationRule.t;
  preferences : Preferences.t;
  excludedIds : StringSet.t;
  excludedRepeatedExpenses : StringSet.t;
  manualOverrides : StringMap.t string;
  descriptionMappings : StringMap.t string;
  isLoading : bool;
  errors : list string;
  timeWindowFilter : TimeWindowFilter.t;
  selectedCategories : StringSet.t
}.

Definition withTransactions (ts : list Transaction.t) (s : t) : t :=
  mk ts (categories s) (rules s) (preferences s) (excludedIds s) (excludedRepeatedExpenses s)
     (manualOverrides s) (descriptionMappings s) (isLoading s) (errors s)
     (timeWindowFilter s) (selectedCategories s).

Definition withCategories (cs : list Category.t) (s : t) : t :=
  mk (transactions s) cs (rules s) (preferences s) (excludedIds s)
     (excludedRepeatedExpenses s) (manualOverrides s) (descriptionMappings s) (isLoading s)
     (errors s) (timeWindowFilter s) (selectedCategories s).

Definition withRules (rs : list CategorizationRule.t) (s : t) : t :=
  mk (transactions s) (categories s) rs (preferences s) (excludedIds s)
     (excludedRepeatedExpenses s) (manualOverrides s) (descriptionMappings s) (isLoading s)
     (errors s) (timeWindowFilter s) (selectedCategories s).

Definition withPreferences (p : Preferences.t) (s : t) : t :=
  mk (transactions s) (categories s) (rules s) p (excludedIds s)
     (excludedRepeatedExpenses s) (manualOverrides s) (descriptionMappings s) (isLoading s)
     (errors s) (timeWindowFilter s) (selectedCategories s).

Definition withExcludedIds (ids : StringSet.t) (s : t) : t :=
  mk (transactions s) (categories s) (rules s) (preferences s) ids
     (excludedRepeatedExpenses s) (manualOverrides s) (descriptionMappings s) (isLoading s)
     (errors s) (timeWindowFilter s) (selectedCategories s).

Definition withExcludedRepeatedExpenses (ps : StringSet.t) (s : t) : t :=
  mk (transactions s) (categories s) (rules s) (preferences s) (excludedIds s) ps
     (manualOverrides s) (descriptionMappings s) (isLoading s) (errors s)
     (timeWindowFilter s) (selectedCategories s).

Definition withManualOverrides (m : StringMap.t string) (s : t) : t :=
  mk (transactions s) (categories s) (rules s) (preferences s) (excludedIds s)
     (excludedRepeatedExpenses s) m (descriptionMappings s) (isLoading s) (errors s)
     (timeWindowFilter s) (selectedCategories s).

Definition withDescriptionMappings (m : StringMap.t string) (s : t) : t :=
  mk (transactions s) (categories s) (rules s) (preferences s) (excludedIds s)
     (excludedRepeatedExpenses s) (manualOverrides s) m (isLoading s) (errors s)
     (timeWindowFilter s) (selectedCategories s).

Definition withIsLoading (b : bool) (s : t) : t :=
  mk (transactions s) (categories s) (rules s) (preferences s) (excludedIds s)
     (excludedRepeatedExpenses s) (manualOverrides s) (descriptionMappings s) b (errors s)
     (timeWindowFilter s) (selectedCategories s).

Definition withErrors (es : list string) (s : t) : t :=
  mk (transactions s) (categories s) (rules s) (preferences s) (excludedIds s)
     (excludedRepeatedExpenses s) (manualOverrides s) (descriptionMappings s) (isLoading s)
     es (timeWindowFilter s) (selectedCategories s).

Definition withTimeWindowFilter (f : TimeWindowFilter.t) (s : t) : t :=
  mk (transactions s) (categories s) (rules s) (preferences s) (excludedIds s)
     (excludedRepeatedExpenses s) (manualOverrides s) (descriptionMappings s) (isLoading s)
     (errors s) f (selectedCategories s).

Definition withSelectedCategories (cs : StringSet.t) (s : t) : t :=
  mk (transactions s) (categories s) (rules s) (preferences s) (excludedIds s)
     (excludedRepeatedExpenses s) (manualOverrides s) (descriptionMappings s) (isLoading s)
     (errors s) (timeWindowFilter s) cs.
End AppState.

(** ** The reducer ([context/AppContext.tsx])

    The reducer as it is once exclusions are kept by signature in the
    preferences: all its cases. *)

Module AppReducer.

Inductive AppAction :=
| LOAD_DATA (transactions : list Transaction.t) (preferences : Preferences.t)
    (manualOverrides descriptionMappings : StringMap.t string)
| ADD_TRANSACTIONS (transactions : list Transaction.t) (errors : list string)
| CATEGORIZE_TRANSACTION (id categoryId description : string)
| RECATEGORIZE_TRANSACTIONS (preserveManual : bool)
| TOGGLE_EXCLUSION (payload : string)
| TOGGLE_REPEATED_EXPENSE_EXCLUSION (merchantPattern : string) (transactionIds : list string)
| ADD_CATEGORY (payload : Category.t)
| UPDATE_CATEGORY (payload : Category.t)
| DELETE_CATEGORY (payload : string)
| ADD_RULE (payload : CategorizationRule.t)
| DELETE_RULE (payload : string)
| UPDATE_RULE (payload : CategorizationRule.t)
| ADD_PATTERN (categoryId : string) (pattern : CategoryPattern.t)
| UPDATE_PATTERN (categoryId : string) (pattern : CategoryPattern.t)
| DELETE_PATTERN (categoryId patternId : string)
| REORDER_PATTERNS (categoryId : string) (patterns : list CategoryPattern.t)
| DELETE_DESCRIPTION_MAPPING (payload : string)
| UPDATE_TIME_WINDOW_FILTER (payload : TimeWindowFilter.t)
| TOGGLE_CATEGORY_FILTER (payload : string)
| CLEAR_CATEGORY_FILTER
| IMPORT_PREFERENCES (payload : Preferences.t)
| SET_LOADING (payload : bool)
| ADD_ERROR (payload : string)
| CLEAR_ERRORS
| CLEAR_TRANSACTIONS
| CLEAR_ALL.

(** [initialState]; its preferences are what [getDefaultPreferences()]
    returned when the module was loaded. *)
Definition initialState (defaultPreferences : Preferences.t) : AppState.t :=
  AppState.mk [] [] [] defaultPreferences [] [] [] [] false [] TimeWindowFilter.off [].

(** [generateTransactionSignatureSync(t.date, t.amount, t.description)] *)
Definition signatureOf (host : Host.t) (t : Transaction.t) : string :=
  Signatures.generateTransactionSignatureSync host (Transaction.date t)
    (Transaction.amount t) (Transaction.description t).

(** [xs || []] *)
Definition orEmptyArray (xs : option (list string)) : list string :=
  match xs with
  | Some l => l
  | None => []
  end.

(** [xs.includes(x)], and [xs.indexOf(x) >= 0]. *)
Definition includes (x : string) (xs : list string) : bool := existsb (String.eqb x) xs.

(** [xs.splice(xs.indexOf(x), 1)] when [x] occurs in [xs]. *)
Fixpoint removeFirst (x : string) (xs : list string) : list string :=
  match xs with
  | [] => []
  | y :: rest => if String.eqb y x then rest else y :: removeFirst x rest
  end.

(** [m.delete(k)] on a [Map]. *)
Definition mapDelete (k : string) (m : StringMap.t string) : StringMap.t string :=
  filter (fun e => negb (String.eqb (fst e) k)) m.

(** [{ ...t, categoryId, isManuallyCategorized }] *)
Definition withCategory (categoryId : option string) (isManuallyCategorized : bool)
  (x : Transaction.t) : Transaction.t :=
  Transaction.mk (Transaction.id x) (Transaction.date x) (Transaction.description x)
    (Transaction.amount x) (Transaction.type x) categoryId (Transaction.isExcluded x)
    (Transaction.source x) (Transaction.sourceFile x) (Transaction.accountId x)
    (Transaction.transactionId x) (Transaction.memo x) isManuallyCategorized.

(** [{ ...c, patterns }] *)
Definition withPatterns (patterns : list CategoryPattern.t) (c : Category.t) : Category.t :=
  Category.mk (Category.id c) (Category.name c) patterns.

(** The callback of the [map] of [LOAD_DATA] and of [ADD_TRANSACTIONS]:
    the copy of [t] that it returns, and the set of ids that it adds to. *)
Definition applyExclusion (host : Host.t) (signatureSet : StringSet.t) (t : Transaction.t)
  : Transaction.t :=
  Transaction.withIsExcluded (StringSet.has (signatureOf host t) signatureSet) t.

Definition collectExcluded (host : Host.t) (signatureSet : StringSet.t)
  (ids : StringSet.t) (t : Transaction.t) : StringSet.t :=
  if StringSet.has (signatureOf host t) signatureSet
  then StringSet.add (Transaction.id t) ids else ids.

(** The callback of the [map] of [RECATEGORIZE_TRANSACTIONS]. *)
Definition recategorize (host : Host.t) (engine : CategorizationEngine.t)
  (preserveManual : bool) (t : Transaction.t) : Transaction.t :=
  if Transaction.isExcluded t then t
  else if preserveManual && Transaction.isManuallyCategorized t then t
  else withCategory (CategorizationEngine.categorize host engine t)
         (preserveManual && Transaction.isManuallyCategorized t) t.

(** The callback of [affectedTransactions.forEach] in
    [TOGGLE_REPEATED_EXPENSE_EXCLUSION], on the pair of [nextSignatures] and
    [nextExcludedIds]. *)
Definition toggleAffected (host : Host.t) (isCurrentlyExcluded : bool)
  (next : list string * StringSet.t) (transaction : Transaction.t)
  : list string * StringSet.t :=
  let '(nextSignatures, nextExcludedIds) := next in
  let signature := signatureOf host transaction in
  if isCurrentlyExcluded
  then ((if includes signature nextSignatures
         then removeFirst signature nextSignatures else nextSignatures),
        StringSet.delete (Transaction.id transaction) nextExcludedIds)
  else ((if includes signature nextSignatures
         then nextSignatures else nextSignatures ++ [signature]),
        StringSet.add (Transaction.id transaction) nextExcludedIds).

(** The categories after [ADD_PATTERN], [UPDATE_PATTERN], [DELETE_PATTERN]
    and [REORDER_PATTERNS]: [change] is applied to the patterns of the
    category [categoryId]. *)
Definition changePatterns (categoryId : string)
  (change : list CategoryPattern.t -> list CategoryPattern.t) (categories : list Category.t)
  : list Category.t :=
  map (fun c => if String.eqb (Category.id c) categoryId
                then withPatterns (change (Category.patterns c)) c else c)
      categories.

(** [{ ...state, categories, preferences: { ...state.preferences, categories } }] *)
Definition setCategories (categories preferred : list Category.t) (state : AppState.t)
  : AppState.t :=
  AppState.withPreferences (Preferences.withCategories preferred (AppState.preferences state))
    (AppState.withCategories categories state).

Definition setRules (rules preferred : list CategorizationRule.t) (state : AppState.t)
  : AppState.t :=
  AppState.withPreferences (Preferences.withRules preferred (AppState.preferences state))
    (AppState.withRules rules state).

(** [appReducer(state, action)]; [None] when it throws, which an array
    spread does on a list of exclusions that is absent. *)
Definition appReducer (host : Host.t) (defaultPreferences : Preferences.t)
  (state : AppState.t) (action : AppAction) : option AppState.t :=
  match action with
  | LOAD_DATA transactions preferences manualOverrides descriptionMappings =>
      let signatureSet :=
        StringSet.ofArray (orEmptyArray (Preferences.excludedTransactionSignatures preferences)) in
      let patternSet :=
        StringSet.ofArray (orEmptyArray (Preferences.excludedRepeatedExpensePatterns preferences)) in
      let excludedIdsFromSignatures :=
        fold_left (collectExcluded host signatureSet) transactions [] in
      let transactionsWithExclusions := map (applyExclusion host signatureSet) transactions in
      Some (AppState.mk transactionsWithExclusions
              (Preferences.categories preferences) (Preferences.rules preferences) preferences
              excludedIdsFromSignatures patternSet manualOverrides descriptionMappings
              false (AppState.errors state)
              (match Preferences.timeWindowFilter preferences with
               | Some f => f
               | None => TimeWindowFilter.off
               end)
              (AppState.selectedCategories state))
  | ADD_TRANSACTIONS transactions errors =>
      let existingIds := StringSet.ofArray (map Transaction.id (AppState.transactions state)) in
      let newTransactions :=
        filter (fun t => negb (StringSet.has (Transaction.id t) existingIds)) transactions in
      let signatureSet :=
        StringSet.ofArray
          (orEmptyArray (Preferences.excludedTransactionSignatures (AppState.preferences state))) in
      let nextExcludedIds :=
        fold_left (collectExcluded host signatureSet) newTransactions
          (AppState.excludedIds state) in
      let transactionsWithExclusions := map (applyExclusion host signatureSet) newTransactions in
      Some (AppState.withErrors errors
              (AppState.withExcludedIds nextExcludedIds
                 (AppState.withTransactions
                    (AppState.transactions state ++ transactionsWithExclusions) state)))
  | CATEGORIZE_TRANSACTION id categoryId description =>
      let nextDescriptionMappings :=
        StringMap.set description categoryId (AppState.descriptionMappings state) in
      let updatedTransactions :=
        map (fun t => if String.eqb (Transaction.description t) description
                      then withCategory (Some categoryId) true t else t)
            (AppState.transactions state) in
      let nextManualOverrides := StringMap.set id categoryId (AppState.manualOverrides state) in
      Some (AppState.withDescriptionMappings nextDescriptionMappings
              (AppState.withManualOverrides nextManualOverrides
                 (AppState.withTransactions updatedTransactions state)))
  | RECATEGORIZE_TRANSACTIONS preserveManual =>
      let engine :=
        CategorizationEngine.mk (AppState.categories state) (AppState.rules state)
          (AppState.descriptionMappings state) in
      Some (AppState.withTransactions
              (map (recategorize host engine preserveManual) (AppState.transactions state))
              state)
  | TOGGLE_EXCLUSION payload =>
      match find (fun t => String.eqb (Transaction.id t) payload) (AppState.transactions state) with
      | None => Some state
      | Some transaction =>
          let signature := signatureOf host transaction in
          match Preferences.excludedTransactionSignatures (AppState.preferences state) with
          | None => None
          | Some signatures =>
              let nextSignatures :=
                if includes signature signatures
                then removeFirst signature signatures else signatures ++ [signature] in
              let nextExcludedIds :=
                if StringSet.has payload (AppState.excludedIds state)
                then StringSet.delete payload (AppState.excludedIds state)
                else StringSet.add payload (AppState.excludedIds state) in
              Some (AppState.withPreferences
                      (Preferences.withExclusions (Some nextSignatures)
                         (Preferences.excludedRepeatedExpensePatterns
                            (AppState.preferences state))
                         (AppState.preferences state))
                      (AppState.withExcludedIds nextExcludedIds
                         (AppState.withTransactions
                            (map (fun t =>
                                    if String.eqb (Transaction.id t) payload
                                    then Transaction.withIsExcluded
                                           (negb (Transaction.isExcluded t)) t
                                    else t)
                                 (AppState.transactions state))
                            state)))
          end
      end
  | TOGGLE_REPEATED_EXPENSE_EXCLUSION merchantPattern transactionIds =>
      let isCurrentlyExcluded :=
        StringSet.has merchantPattern (AppState.excludedRepeatedExpenses state) in
      let nextExcludedRepeated :=
        if isCurrentlyExcluded
        then StringSet.delete merchantPattern (AppState.excludedRepeatedExpenses state)
        else StringSet.add merchantPattern (AppState.excludedRepeatedExpenses state) in
      match Preferences.excludedRepeatedExpensePatterns (AppState.preferences state),
            Preferences.excludedTransactionSignatures (AppState.preferences state) with
      | Some patterns, Some signatures =>
          let nextPatterns :=
            if isCurrentlyExcluded
            then (if includes merchantPattern patterns
                  then removeFirst merchantPattern patterns else patterns)
            else (if includes merchantPattern patterns
                  then patterns else patterns ++ [merchantPattern]) in
          let affectedTransactions :=
            filter (fun t => includes (Transaction.id t) transactionIds)
                   (AppState.transactions state) in
          let '(nextSignatures, nextExcludedIds) :=
            fold_left (toggleAffected host isCurrentlyExcluded) affectedTransactions
              (signatures, AppState.excludedIds state) in
          let updatedTransactions :=
            map (fun t => if includes (Transaction.id t) transactionIds
                          then Transaction.withIsExcluded (negb isCurrentlyExcluded) t else t)
                (AppState.transactions state) in
          Some (AppState.withPreferences
                  (Preferences.withExclusions (Some nextSignatures) (Some nextPatterns)
                     (AppState.preferences state))
                  (AppState.withExcludedRepeatedExpenses nextExcludedRepeated
                     (AppState.withExcludedIds nextExcludedIds
                        (AppState.withTransactions updatedTransactions state))))
      | _, _ => None
      end
  | ADD_CATEGORY payload =>
      Some (setCategories (AppState.categories state ++ [payload])
              (Preferences.categories (AppState.preferences state) ++ [payload]) state)
  | UPDATE_CATEGORY payload =>
      let updatedCategories :=
        map (fun c => if String.eqb (Category.id c) (Category.id payload) then payload else c)
            (AppState.categories state) in
      Some (setCategories updatedCategories updatedCategories state)
  | DELETE_CATEGORY payload =>
      let keep := fun c => negb (String.eqb (Category.id c) payload) in
      Some (setCategories (filter keep (AppState.categories state))
              (filter keep (Preferences.categories (AppState.preferences state))) state)
  | ADD_PATTERN categoryId pattern =>
      let updated :=
        changePatterns categoryId (fun ps => ps ++ [pattern]) (AppState.categories state) in
      Some (setCategories updated updated state)
  | UPDATE_PATTERN categoryId pattern =>
      let updated :=
        changePatterns categoryId
          (map (fun p => if String.eqb (CategoryPattern.id p) (CategoryPattern.id pattern)
                         then pattern else p))
          (AppState.categories state) in
      Some (setCategories updated updated state)
  | DELETE_PATTERN categoryId patternId =>
      let updated :=
        changePatterns categoryId
          (filter (fun p => negb (String.eqb (CategoryPattern.id p) patternId)))
          (AppState.categories state) in
      Some (setCategories updated updated state)
  | REORDER_PATTERNS categoryId patterns =>
      let updated := changePatterns categoryId (fun _ => patterns) (AppState.categories state) in
      Some (setCategories updated updated state)
  | DELETE_DESCRIPTION_MAPPING payload =>
      Some (AppState.withDescriptionMappings
              (mapDelete payload (AppState.descriptionMappings state)) state)
  | ADD_RULE payload =>
      Some (setRules (AppState.rules state ++ [payload])
              (Preferences.rules (AppState.preferences state) ++ [payload]) state)
  | DELETE_RULE payload =>
      let keep := fun r => negb (String.eqb (CategorizationRule.id r) payload) in
      Some (setRules (filter keep (AppState.rules state))
              (filter keep (Preferences.rules (AppState.preferences state))) state)
  | UPDATE_RULE payload =>
      let replace :=
        map (fun r => if String.eqb (CategorizationRule.id r) (CategorizationRule.id payload)
                      then payload else r) in
      Some (setRules (replace (AppState.rules state))
              (replace (Preferences.rules (AppState.preferences state))) state)
  | UPDATE_TIME_WINDOW_FILTER payload =>
      Some (AppState.withPreferences
              (Preferences.withTimeWindowFilter (Some payload) (AppState.preferences state))
              (AppState.withTimeWindowFilter payload state))
  | TOGGLE_CATEGORY_FILTER payload =>
      Some (AppState.withSelectedCategories
              (if StringSet.has payload (AppState.selectedCategories state)
               then StringSet.delete payload (AppState.selectedCategories state)
               else StringSet.add payload (AppState.selectedCategories state))
              state)
  | CLEAR_CATEGORY_FILTER => Some (AppState.withSelectedCategories [] state)
  | IMPORT_PREFERENCES payload =>
      Some (AppState.withTimeWindowFilter
              (match Preferences.timeWindowFilter payload with
               | Some f => f
               | None => TimeWindowFilter.off
               end)
              (AppState.withRules (Preferences.rules payload)
                 (AppState.withCategories (Preferences.categories payload)
                    (AppState.withPreferences payload state))))
  | SET_LOADING payload => Some (AppState.withIsLoading payload state)
  | ADD_ERROR payload => Some (AppState.withErrors (AppState.errors state ++ [payload]) state)
  | CLEAR_ERRORS => Some (AppState.withErrors [] state)
  | CLEAR_TRANSACTIONS =>
      Some (AppState.withManualOverrides []
              (AppState.withExcludedRepeatedExpenses []
                 (AppState.withExcludedIds []
                    (AppState.withTransactions [] state))))
  | CLEAR_ALL => Some (initialState defaultPreferences)
  end.

End AppReducer.

(** ** The actions of the provider ([context/AppContext.tsx]) *)

Module AppProvider.

(** The actions dispatched one after the other. *)
Fixpoint dispatchAll (host : Host.t) (defaultPreferences : Preferences.t)
  (actions : list AppReducer.AppAction) (state : AppState.t) : option AppState.t :=
  match actions with
  | [] => Some state
  | action :: rest =>
      match AppReducer.appReducer host defaultPreferences state action with
      | Some state' => dispatchAll host defaultPreferences rest state'
      | None => None
      end
  end.

(** The engine that [uploadFiles] builds from the state that the actions
    were created for. *)
Definition engineOf (captured : AppState.t) : CategorizationEngine.t :=
  CategorizationEngine.mk (AppState.categories captured) (AppState.rules captured)
    (AppState.descriptionMappings captured).

(** What [uploadFiles(files)] dispatches. The transactions of the result
    are fresh objects, one for each element of the array, which
    [batchCategorize] writes to before they are dispatched. *)
Definition uploadActions (host : Host.t) (papaParse : string -> Papa.outcome)
  (files : list File.t) (captured : AppState.t) : list AppReducer.AppAction :=
  let result := Parsers.parseFiles host papaParse files in
  let messages := map ParseError.message (ParseResult.errors result) in
  [AppReducer.SET_LOADING true; AppReducer.CLEAR_ERRORS]
    ++ map AppReducer.ADD_ERROR messages
    ++ match ParseResult.transactions result with
       | [] => []
       | transactions =>
           [AppReducer.ADD_TRANSACTIONS
              (CategorizationEngine.batchCategorize host (engineOf captured)
                 (seq 0 (List.length transactions)) transactions)
              messages]
       end
    ++ [AppReducer.SET_LOADING false].

(** [uploadFiles(files)] of the actions created for the state [captured],
    its dispatches reduced from [state] on: the two differ when the state
    changed while the files were read. *)
Definition uploadFiles (host : Host.t) (defaultPreferences : Preferences.t)
  (papaParse : string -> Papa.outcome) (files : list File.t) (captured state : AppState.t)
  : option AppState.t :=
  dispatchAll host defaultPreferences (uploadActions host papaParse files captured) state.

(** [categorizeTransaction(id, categoryId)], called on the state that
    the actions were created for. *)
Definition categorizeTransaction (host : Host.t) (defaultPreferences : Preferences.t)
  (id categoryId : string) (state : AppState.t) : option AppState.t :=
  match find (fun t => String.eqb (Transaction.id t) id) (AppState.transactions state) with
  | Some transaction =>
      AppReducer.appReducer host defaultPreferences state
        (AppReducer.CATEGORIZE_TRANSACTION id categoryId (Transaction.description transaction))
  | None => Some state
  end.

End AppProvider.

Module Shapes.

(** [filename.substring(filename.lastIndexOf('.'))], or the empty string
    when there is no dot. *)
Definition extension (filename : string) : string :=
  match Utils.splitLastDot filename with
  | Some (_, b) => String "." b
  | None => EmptyString
  end.

(** A digit of base 36 in lower case. *)
Definition isBase36 (c : ascii) : bool := isDigit c || isLower c.

Fixpoint allBase36 (s : string) : bool :=
  match s with
  | EmptyString => true
  | String c s' => isBase36 c && allBase36 s'
  end.

Fixpoint allDigits (s : string) : bool :=
  match s with
  | EmptyString => true
  | String c s' => isDigit c && allDigits s'
  end.

End Shapes.

Module Matching.

(** [new RegExp(item.pattern, 'i').test(description)] returned [true]:
    the pattern was compiled and it matched. *)
Definition matches (host : Host.t) (description : string)
  (item : CategorizationEngine.PatternMatch) : bool :=
  match Host.regExpTest host (CategorizationEngine.pattern item) description with
  | Some true => true
  | _ => false
  end.

(** The category that the description mappings give, when it is one that
    [if (mappedCategoryId)] takes. *)
Definition mapped (engine : CategorizationEngine.t) (transaction : Transaction.t)
  : option string :=
  match StringMap.get (Transaction.description transaction)
          (CategorizationEngine.descriptionMappings engine) with
  | Some (String c s) => Some (String c s)
  | _ => None
  end.

(** The comparator of the sort orders [items] as the integers [rank] are
    ordered: it is a consistent comparator on them. *)
Definition ranked (rank : CategorizationEngine.PatternMatch -> Z)
  (items : list CategorizationEngine.PatternMatch) : Prop :=
  forall a b, In a items -> In b items ->
              CategorizationEngine.byPriority a b = (rank a <? rank b)%Z.

End Matching.

Module Samples.
Local Open Scope string_scope.

(** Two categories with patterns; the pattern declared first has the
    higher priority number, and one pattern is disabled. *)
Definition patternEngine : CategorizationEngine.t :=
  CategorizationEngine.mk
    [ Category.mk "groceries" "Groceries"
        [ CategoryPattern.mk "p1" "market" 15%float true true;
          CategoryPattern.mk "p2" "super" 5%float false true ];
      Category.mk "restaurants" "Restaurants & Dining"
        [ CategoryPattern.mk "p3" "cafe" 10%float true true;
          CategoryPattern.mk "p4" "supermarket cafe" 10%float true false ] ]
    [ CategorizationRule.mk "r7" "gas" "market" 1%float true ]
    [].

(** The priorities of [patternEngine] as integers. *)
Definition patternRank (item : CategorizationEngine.PatternMatch) : Z :=
  if (CategorizationEngine.priority item <? 12)%float then 10%Z else 15%Z.

(** Preferences with the two lists of exclusions, both empty. *)
Definition preferences : Preferences.t :=
  Preferences.mk [] [] (Some []) (Some []) None 1%float 1736553600000%Z.

(** Preferences as written before the lists of exclusions were introduced. *)
Definition oldPreferences : Preferences.t :=
  Preferences.mk [] [] None None None 1%float 1736553600000%Z.

(** A state with the three monthly charges of the examples. *)
Definition state : AppState.t :=
  AppState.mk Examples.monthly [] [] preferences [] [] [] [] false []
    TimeWindowFilter.off [].

End Samples.

(** ** Markup that closes its leaves *)

Module ClosedMarkup.
Local Open Scope string_scope.

Fixpoint hasLeaf (f : TagSoup.fragment) : bool :=
  match f with
  | TagSoup.Leaf _ _ => true
  | TagSoup.Container _ _ children _ => existsb hasLeaf children
  end.

(** The closed form of a fragment with the end tag of every leaf twice. *)
Fixpoint doubled (f : TagSoup.fragment) : string :=
  match f with
  | TagSoup.Leaf name value =>
      QfxParser.startTag name ++ value ++ QfxParser.endTag name ++ QfxParser.endTag name
  | TagSoup.Container name lead children trail =>
      QfxParser.startTag name ++ lead
        ++ fold_right (fun c rest => doubled c ++ rest) EmptyString children
        ++ QfxParser.endTag name ++ trail
  end.

(** What the loop of [convertOFXToXML] does on the closed form of a
    fragment, whatever follows. *)
Definition redone (f : TagSoup.fragment) : Prop :=
  forall rest tagStack result,
    TagSoup.wellFormed f = true -> Invariants.settled tagStack ->
    Invariants.run (TagSoup.closed f ++ rest) tagStack result
    = Invariants.run rest tagStack (result ++ doubled f).

(** What the parser does on the doubled form of a fragment with a leaf,
    below a container. *)
Definition refused (f : TagSoup.fragment) : Prop :=
  forall rest name kids stack root,
    TagSoup.wellFormed f = true -> hasLeaf f = true ->
    QfxParser.isContainer name = true ->
    Invariants.parse (doubled f ++ rest) ((name, kids) :: stack) root = None.

End ClosedMarkup.

(** ** Invariants of the state *)

Module Consistency.

(** The flags [isExcluded] and the set [excludedIds] tell the same: a
    stored transaction is flagged exactly when its id is in the set, and
    the set holds ids of stored transactions only. *)
Definition excludedAsListed (state : AppState.t) : Prop :=
  (forall t, In t (AppState.transactions state) ->
             Transaction.isExcluded t
             = StringSet.has (Transaction.id t) (AppState.excludedIds state))
  /\ (forall x, StringSet.has x (AppState.excludedIds state) = true ->
                In x (map Transaction.id (AppState.transactions state))).

(** The transactions that an action brings have ids of their own. *)
Definition bringsDistinctIds (action : AppReducer.AppAction) : Prop :=
  match action with
  | AppReducer.LOAD_DATA transactions _ _ _ => NoDup (map Transaction.id transactions)
  | AppReducer.ADD_TRANSACTIONS transactions _ => NoDup (map Transaction.id transactions)
  | _ => True
  end.

(** The categories and the rules of the state are those of its preferences. *)
Definition mirrored (state : AppState.t) : Prop :=
  AppState.categories state = Preferences.categories (AppState.preferences state)
  /\ AppState.rules state = Preferences.rules (AppState.preferences state).

(** What a parser read in the file for a transaction: all its fields but
    the category and the two flags. *)
Definition facts (t : Transaction.t)
  : string * Date * string * Number * TransactionType * Source
    * option string * option string * option string * option string :=
  (Transaction.id t, Transaction.date t, Transaction.description t, Transaction.amount t,
   Transaction.type t, Transaction.source t, Transaction.sourceFile t,
   Transaction.accountId t, Transaction.transactionId t, Transaction.memo t).

End Consistency.

(** * Proofs *)

(** ** Arrays *)

Section SortFacts.
Context {A : Type} (negative : A -> A -> bool).

Lemma insertSorted_perm (x : A) (l : list A) :
  Permutation (insertSorted negative x l) (x :: l).
Proof.
  induction l as [|y l IH]; simpl.
  - apply Permutation_refl.
  - destruct (negative y x).
    + rewrite IH. apply perm_swap.
    + apply Permutation_refl.
Qed.

Lemma sort_perm (l : list A) : Permutation (sort negative l) l.
Proof.
  induction l as [|x l IH]; simpl.
  - constructor.
  - rewrite insertSorted_perm. now constructor.
Qed.

Lemma sort_In (x : A) (l : list A) : In x (sort negative l) <-> In x l.
Proof.
  split; apply Permutation_in; [|symmetry]; apply sort_perm.
Qed.

Lemma sort_length (l : list A) : List.length (sort negative l) = List.length l.
Proof. apply Permutation_length, sort_perm. Qed.
End SortFacts.

Lemma insertSorted_Z_sorted (x : Z) (l : list Z) :
  Sorted Z.le l -> Sorted Z.le (insertSorted AnalyticsCalculator.ascending x l).
Proof.
  induction l as [|y l IH]; simpl; intros Hs.
  - repeat constructor.
  - unfold AnalyticsCalculator.ascending at 1. destruct (Z.ltb_spec (y - x) 0) as [Hlt|Hge].
    + inversion Hs as [|? ? Hs' Hhd]; subst.
      constructor; [now apply IH|].
      destruct l as [|z l]; simpl.
      * constructor. lia.
      * unfold AnalyticsCalculator.ascending. destruct (Z.ltb_spec (z - x) 0); constructor; try lia.
        inversion Hhd; subst. assumption.
    + constructor; [assumption|]. constructor. lia.
Qed.

Lemma sort_Z_sorted (l : list Z) : Sorted Z.le (sort AnalyticsCalculator.ascending l).
Proof.
  induction l as [|x l IH]; simpl.
  - constructor.
  - now apply insertSorted_Z_sorted.
Qed.

Lemma sorted_perm_unique (l1 l2 : list Z) :
  Sorted Z.le l1 -> Sorted Z.le l2 -> Permutation l1 l2 -> l1 = l2.
Proof.
  intros H1 H2.
  apply Sorted_StronglySorted in H1; [|intros a b c; apply Z.le_trans].
  apply Sorted_StronglySorted in H2; [|intros a b c; apply Z.le_trans].
  revert l2 H2. induction H1 as [|a l1 Hs1 IH Ha]; intros l2 H2 Hp.
  - apply Permutation_nil in Hp. now subst.
  - destruct H2 as [|b l2 Hs2 Hb].
    + apply Permutation_sym, Permutation_nil in Hp. discriminate.
    + assert (a = b) as ->.
      { assert (In a (b :: l2)) as Hin1 by (eapply Permutation_in; [exact Hp|now left]).
        assert (In b (a :: l1)) as Hin2
          by (eapply Permutation_in; [symmetry; exact Hp|now left]).
        rewrite Forall_forall in Ha, Hb.
        destruct Hin1 as [->|Hin1]; [reflexivity|].
        destruct Hin2 as [->|Hin2]; [reflexivity|].
        specialize (Ha _ Hin2). specialize (Hb _ Hin1). lia. }
      f_equal. apply IH; [assumption|]. now apply Permutation_cons_inv in Hp.
Qed.

(** ** The merchant groups *)

Section Groups.
Import AnalyticsCalculator.

Lemma has_true_iff {V} (k : string) (m : StringMap.t V) :
  StringMap.has k m = true <-> exists v, In (k, v) m.
Proof.
  unfold StringMap.has. rewrite existsb_exists. split.
  - intros [[k' v] [Hin Heq]]. simpl in Heq. apply String.eqb_eq in Heq. subst. eauto.
  - intros [v Hin]. exists (k, v). split; [assumption|]. simpl. apply String.eqb_refl.
Qed.

Lemma In_update {V} (k : string) (f : V -> V) (m : StringMap.t V) (k' : string) (v : V) :
  In (k', v) (StringMap.update k f m) <->
  exists v0, In (k', v0) m /\ v = if String.eqb k' k then f v0 else v0.
Proof.
  unfold StringMap.update. rewrite in_map_iff. split.
  - intros [[k0 v0] [Heq Hin]]. simpl in Heq.
    exists v0. destruct (String.eqb k0 k) eqn:E; inversion Heq; subst; rewrite ?E; auto.
  - intros [v0 [Hin ->]]. exists (k', v0). split; [|assumption]. simpl.
    now destruct (String.eqb k' k).
Qed.

(** What [addToGroup] does to the entries. *)
Lemma In_addToGroup (groups : StringMap.t (list Transaction.t)) (txn : Transaction.t)
  (k : string) (g : list Transaction.t) :
  In (k, g) (addToGroup groups txn) <->
  (exists g0, In (k, g0) groups /\ g = if String.eqb k (Invariants.keyOf txn) then g0 ++ [txn] else g0)
  \/ (StringMap.has (Invariants.keyOf txn) groups = false /\ k = Invariants.keyOf txn /\ g = [txn]).
Proof.
  unfold addToGroup. fold (Invariants.keyOf txn).
  destruct (StringMap.has (Invariants.keyOf txn) groups) eqn:Hhas; simpl.
  - rewrite In_update. split; [now left|]. intros [H|[H _]]; [assumption|discriminate].
  - unfold StringMap.set. rewrite Hhas. rewrite In_update. split.
    + intros [v0 [Hin ->]]. apply in_app_or in Hin. destruct Hin as [Hin|[Heq|[]]].
      * left. eauto.
      * inversion Heq; subst. right. rewrite String.eqb_refl. auto.
    + intros [[g0 [Hin ->]]|[_ [-> ->]]].
      * exists g0. split; [apply in_or_app; now left|reflexivity].
      * exists []. split; [apply in_or_app; right; now left|].
        now rewrite String.eqb_refl.
Qed.

Lemma classes_addToGroup groups seen txn :
  Invariants.classes groups seen -> Invariants.classes (addToGroup groups txn) (seen ++ [txn]).
Proof.
  intros Hc k g. rewrite In_addToGroup, filter_app. simpl.
  rewrite (String.eqb_sym (Invariants.keyOf txn) k).
  split.
  - intros [[g0 [Hin ->]]|[Hhas [-> ->]]].
    + apply Hc in Hin. destruct Hin as [-> Hne].
      destruct (String.eqb k (Invariants.keyOf txn)).
      * split; [reflexivity|]. now destruct (filter _ seen).
      * rewrite app_nil_r. auto.
    + rewrite String.eqb_refl.
      destruct (filter (fun t => String.eqb (Invariants.keyOf t) (Invariants.keyOf txn)) seen) as [|t0 l0] eqn:E.
      * split; [reflexivity|discriminate].
      * exfalso. assert (In (Invariants.keyOf txn, t0 :: l0) groups) as Hin
          by (apply Hc; split; [now rewrite E|discriminate]).
        assert (StringMap.has (Invariants.keyOf txn) groups = true) as Ht
          by (apply has_true_iff; eauto).
        congruence.
  - intros [-> Hne].
    destruct (String.eqb k (Invariants.keyOf txn)) eqn:E.
    + apply String.eqb_eq in E. subst k.
      destruct (StringMap.has (Invariants.keyOf txn) groups) eqn:Hhas.
      * left. apply has_true_iff in Hhas. destruct Hhas as [g0 Hin].
        exists g0. split; [assumption|]. apply Hc in Hin. destruct Hin as [-> _].
        reflexivity.
      * right. split; [reflexivity|]. split; [reflexivity|].
        destruct (filter (fun t => String.eqb (Invariants.keyOf t) (Invariants.keyOf txn)) seen) as [|t0 l0] eqn:E;
          [reflexivity|].
        exfalso. assert (In (Invariants.keyOf txn, t0 :: l0) groups) as Hin
          by (apply Hc; split; [now rewrite E|discriminate]).
        assert (StringMap.has (Invariants.keyOf txn) groups = true) as Ht
          by (apply has_true_iff; eauto).
        congruence.
    + left. rewrite app_nil_r in *. exists (filter (fun t => String.eqb (Invariants.keyOf t) k) seen).
      split; [|reflexivity]. apply Hc. auto.
Qed.

Lemma classes_fold (l : list Transaction.t) groups seen :
  Invariants.classes groups seen -> Invariants.classes (fold_left addToGroup l groups) (seen ++ l).
Proof.
  revert groups seen. induction l as [|t l IH]; intros groups seen Hc; simpl.
  - now rewrite app_nil_r.
  - replace (seen ++ t :: l) with ((seen ++ [t]) ++ l) by (now rewrite <- app_assoc).
    apply IH. now apply classes_addToGroup.
Qed.

(** The groups of [groupByMerchant] are the groups of the specification. *)
Lemma groupByMerchant_spec (transactions : list Transaction.t) (k : string)
  (g : list Transaction.t) :
  In (k, g) (groupByMerchant transactions) <->
  g = Spec.merchantGroup k transactions /\ g <> [].
Proof.
  unfold groupByMerchant.
  pose proof (classes_fold
                (filter (fun t => isDebit t && negb (Transaction.isExcluded t)) transactions)
                [] []) as Hc.
  simpl in Hc.
  assert (Invariants.classes [] []) as H0
    by (intros k' g'; simpl; split; [intros []|intros [-> H]; now apply H]).
  specialize (Hc H0 k g). rewrite Hc.
  unfold Spec.merchantGroup.
  assert (filter (fun t => String.eqb (Invariants.keyOf t) k)
            (filter (fun t => isDebit t && negb (Transaction.isExcluded t)) transactions)
          = filter (fun t => isDebit t && negb (Transaction.isExcluded t)
                             && String.eqb (normalizeMerchant (Transaction.description t)) k)
              transactions) as ->.
  { clear. induction transactions as [|t l IH]; simpl; [reflexivity|].
    destruct (isDebit t && negb (Transaction.isExcluded t)); simpl; [|exact IH].
    unfold Invariants.keyOf at 1. destruct (String.eqb _ k); [now rewrite IH|exact IH]. }
  reflexivity.
Qed.

End Groups.

(** ** Repeated expenses *)

Section Repeated.
Import AnalyticsCalculator.

Lemma meanAbsoluteAmount_average (g : list Transaction.t) :
  Spec.meanAbsoluteAmount g = average (absAmounts g).
Proof.
  unfold Spec.meanAbsoluteAmount, average, absAmounts, sum.
  now rewrite length_map.
Qed.

Lemma forallb_over_map {A B} (f : B -> bool) (h : A -> B) (l : list A) :
  forallb f (map h l) = forallb (fun x => f (h x)) l.
Proof. induction l as [|x l IH]; simpl; [reflexivity|now rewrite IH]. Qed.

Lemma withinTolerance_isSimilar (g : list Transaction.t) :
  Spec.withinTolerance g = isSimilar (absAmounts g).
Proof.
  unfold Spec.withinTolerance, isSimilar. rewrite meanAbsoluteAmount_average.
  generalize (average (absAmounts g)). intros avg.
  unfold absAmounts. rewrite forallb_over_map. reflexivity.
Qed.

(** The entries reported are those of the groups of two members or more
    that pass the similarity test. *)
Lemma In_detectRepeatedExpenses (transactions : list Transaction.t) (r : RepeatedExpense.t) :
  In r (detectRepeatedExpenses transactions) <->
  exists k,
    r = repeatedExpense k (Spec.merchantGroup k transactions)
    /\ 2 <= List.length (Spec.merchantGroup k transactions)
    /\ Spec.withinTolerance (Spec.merchantGroup k transactions) = true.
Proof.
  unfold detectRepeatedExpenses. rewrite sort_In, in_flat_map. split.
  - intros [[k g] [Hin Hv]]. apply groupByMerchant_spec in Hin. destruct Hin as [-> _].
    exists k. simpl in Hv. rewrite withinTolerance_isSimilar.
    destruct (Nat.ltb_spec (List.length (Spec.merchantGroup k transactions)) 2);
      [contradiction|].
    destruct (isSimilar _); [|contradiction].
    destruct Hv as [<-|[]]. auto.
  - intros [k [-> [Hlen Hsim]]]. exists (k, Spec.merchantGroup k transactions). split.
    + apply groupByMerchant_spec. split; [reflexivity|].
      destruct (Spec.merchantGroup k transactions); [simpl in Hlen; lia|discriminate].
    + simpl. rewrite <- withinTolerance_isSimilar, Hsim.
      destruct (Nat.ltb_spec (List.length (Spec.merchantGroup k transactions)) 2); [lia|].
      now left.
Qed.

Lemma intervals_numberGaps (dates : list Z) :
  intervals dates = Spec.numberGaps dates.
Proof.
  unfold Spec.numberGaps.
  induction dates as [|a [|b rest] IH]; try reflexivity.
  change (intervals (a :: b :: rest))
    with ((Z2Number (b - a) / msPerDay)%float :: intervals (b :: rest)).
  rewrite IH. reflexivity.
Qed.

Lemma numberGaps_length (dates : list Z) :
  List.length (Spec.numberGaps dates) = pred (List.length dates).
Proof.
  unfold Spec.numberGaps. rewrite length_map, length_combine.
  destruct dates as [|a dates]; [reflexivity|].
  cbn [tl List.length pred]. apply Nat.min_r. unfold Date. lia.
Qed.

(** On a group of two or more, [isLikelySubscription] is the test of the
    specification on the dates in ascending order. *)
Lemma isLikelySubscription_spec (g : list Transaction.t) (dates : list Date) :
  2 <= List.length g ->
  Permutation dates (map Transaction.date g) ->
  Sorted Z.le dates ->
  isLikelySubscription g = Spec.roughlyMonthly (Spec.numberAverageGap dates).
Proof.
  intros Hlen Hperm Hsorted. unfold isLikelySubscription.
  destruct (Nat.ltb_spec (List.length g) 2); [lia|].
  assert (sort ascending (map (fun t => getTime (ensureDate (Transaction.date t))) g) = dates)
    as ->.
  { apply sorted_perm_unique; [apply sort_Z_sorted|assumption|].
    rewrite sort_perm. symmetry. exact Hperm. }
  rewrite intervals_numberGaps.
  assert (List.length dates = List.length g) as Hl
    by (rewrite (Permutation_length Hperm); apply length_map).
  destruct (Nat.eqb_spec (List.length (Spec.numberGaps dates)) 0) as [E|_].
  - rewrite numberGaps_length in E. unfold Date in *. lia.
  - reflexivity.
Qed.

End Repeated.

Local Open Scope string_scope.

(** ** Claims on the analytics calculator *)

(** C4, as the claim states it: a group whose consecutive gaps average
    25 days would be a likely subscription. The eleven charges of
    [Examples.daylight] are 250 days apart in all, so that their ten gaps
    average exactly 25 days; the calculator adds the gaps as Numbers, gets
    24.999999999999996 for their average and reports the group as no
    subscription, without [estimatedMonthly]. *)
Lemma exact_average_of_25_days_is_not_monthly :
  2 <= List.length (Spec.merchantGroup "GYM" Examples.daylight)
  /\ Spec.withinTolerance (Spec.merchantGroup "GYM" Examples.daylight) = true
  /\ Sorted Z.le (map Transaction.date (Spec.merchantGroup "GYM" Examples.daylight))
  /\ Spec.totalGap (map Transaction.date (Spec.merchantGroup "GYM" Examples.daylight))
     = (25 * 86400000 * 10)%Z
  /\ Spec.averagesMonthly (map Transaction.date (Spec.merchantGroup "GYM" Examples.daylight))
     = true
  /\ map (fun r => (RepeatedExpense.merchantPattern r, RepeatedExpense.occurrences r,
                    RepeatedExpense.isLikelySubscription r,
                    RepeatedExpense.estimatedMonthly r))
       (AnalyticsCalculator.detectRepeatedExpenses Examples.daylight)
     = [("GYM", 11, false, None)]
  /\ Spec.numberAverageGap
       (map Transaction.date (Spec.merchantGroup "GYM" Examples.daylight))
     = 24.999999999999996%float.
Proof.
  split; [vm_compute; lia|]. split; [vm_compute; reflexivity|].
  split; [repeat constructor; vm_compute; discriminate|].
  repeat split; vm_compute; reflexivity.
Qed.

(** C4, amended. A group of two or more debit transactions with one
    normalized merchant key that passes the similarity test is reported; its
    entry has [isLikelySubscription = true] exactly when the average of
    the gaps between consecutive dates, taken in ascending order and
    computed in Number arithmetic (each gap the quotient of the difference
    in milliseconds by 86400000, the gaps added from 0 in their order, the
    sum divided by their number), lies in the closed interval of 25 to 35
    days; [estimatedMonthly] is then the mean absolute amount of the
    group, and is absent otherwise. *)
Theorem likely_subscription_iff_monthly_gaps
  (transactions : list Transaction.t) (key : string) :
  2 <= List.length (Spec.merchantGroup key transactions) ->
  Spec.withinTolerance (Spec.merchantGroup key transactions) = true ->
  (exists r, In r (AnalyticsCalculator.detectRepeatedExpenses transactions)
             /\ RepeatedExpense.merchantPattern r = key)
  /\ forall r,
       In r (AnalyticsCalculator.detectRepeatedExpenses transactions) ->
       RepeatedExpense.merchantPattern r = key ->
       (forall dates,
           Permutation dates (map Transaction.date (Spec.merchantGroup key transactions)) ->
           Sorted Z.le dates ->
           RepeatedExpense.isLikelySubscription r
           = Spec.roughlyMonthly (Spec.numberAverageGap dates))
       /\ RepeatedExpense.estimatedMonthly r
          = if RepeatedExpense.isLikelySubscription r
            then Some (Spec.meanAbsoluteAmount (Spec.merchantGroup key transactions))
            else None.
Proof.
  intros Hlen Htol. split.
  - exists (AnalyticsCalculator.repeatedExpense key (Spec.merchantGroup key transactions)).
    split; [|reflexivity]. apply In_detectRepeatedExpenses. exists key. auto.
  - intros r Hin Hkey. apply In_detectRepeatedExpenses in Hin.
    destruct Hin as [k [-> [_ _]]]. simpl in Hkey. subst k. simpl. split.
    + intros dates Hperm Hsorted. now apply isLikelySubscription_spec.
    + now rewrite meanAbsoluteAmount_average.
Qed.

Lemma likely_subscription_witness :
  2 <= List.length (Spec.merchantGroup "NETFLIX.COM" Examples.monthly)
  /\ Spec.withinTolerance (Spec.merchantGroup "NETFLIX.COM" Examples.monthly) = true
  /\ map RepeatedExpense.isLikelySubscription
       (AnalyticsCalculator.detectRepeatedExpenses Examples.monthly) = [true]
  /\ map RepeatedExpense.isLikelySubscription
       (AnalyticsCalculator.detectRepeatedExpenses Examples.tenDays) = [false]
  /\ forall r,
       In r (AnalyticsCalculator.detectRepeatedExpenses Examples.monthly) ->
       RepeatedExpense.merchantPattern r = "NETFLIX.COM" ->
       (forall dates,
           Permutation dates
             (map Transaction.date (Spec.merchantGroup "NETFLIX.COM" Examples.monthly)) ->
           Sorted Z.le dates ->
           RepeatedExpense.isLikelySubscription r
           = Spec.roughlyMonthly (Spec.numberAverageGap dates))
       /\ RepeatedExpense.estimatedMonthly r
          = if RepeatedExpense.isLikelySubscription r
            then Some (Spec.meanAbsoluteAmount
                         (Spec.merchantGroup "NETFLIX.COM" Examples.monthly))
            else None.
Proof.
  split; [vm_compute; lia|]. split; [vm_compute; reflexivity|].
  split; [vm_compute; reflexivity|]. split; [vm_compute; reflexivity|].
  apply (likely_subscription_iff_monthly_gaps Examples.monthly "NETFLIX.COM").
  - vm_compute; lia.
  - vm_compute; reflexivity.
Defined.

(** C5, as the claim states its example: the group of amounts 100 and
    115 would contribute no entry. The code reports it. *)
Lemma apart15_is_reported :
  map RepeatedExpense.transactionIds
    (AnalyticsCalculator.detectRepeatedExpenses Examples.apart15) = [["b1"; "b2"]]
  /\ Spec.withinTolerance (Spec.merchantGroup "GYM" Examples.apart15) = true.
Proof. split; vm_compute; reflexivity. Qed.

(** C5, amended. A merchant group is reported if and only if it has two
    members or more and the absolute amount of every member is within 10%
    of the mean absolute amount of the group, relative to that mean; an
    entry lists every member of its group, and a group that fails a
    condition has no entry. Amounts 100, 109.99, 91 qualify, and so do 100,
    115 (7% from their mean 107.5); 100, 125 are dropped. *)
Theorem repeated_group_reported_iff (transactions : list Transaction.t) (key : string) :
  ((exists r, In r (AnalyticsCalculator.detectRepeatedExpenses transactions)
              /\ RepeatedExpense.merchantPattern r = key)
   <-> 2 <= List.length (Spec.merchantGroup key transactions)
       /\ Spec.withinTolerance (Spec.merchantGroup key transactions) = true)
  /\ (forall r, In r (AnalyticsCalculator.detectRepeatedExpenses transactions) ->
                RepeatedExpense.merchantPattern r = key ->
                RepeatedExpense.transactionIds r
                = map Transaction.id (Spec.merchantGroup key transactions))
  /\ map RepeatedExpense.transactionIds
       (AnalyticsCalculator.detectRepeatedExpenses Examples.near) = [["a1"; "a2"; "a3"]]
  /\ map RepeatedExpense.transactionIds
       (AnalyticsCalculator.detectRepeatedExpenses Examples.apart15) = [["b1"; "b2"]]
  /\ AnalyticsCalculator.detectRepeatedExpenses Examples.apart25 = [].
Proof.
  split; [|split; [|repeat split; vm_compute; reflexivity]].
  - split.
    + intros [r [Hin Hkey]]. apply In_detectRepeatedExpenses in Hin.
      destruct Hin as [k [-> H]]. simpl in Hkey. now subst k.
    + intros H. exists (AnalyticsCalculator.repeatedExpense key
                          (Spec.merchantGroup key transactions)).
      split; [|reflexivity]. apply In_detectRepeatedExpenses. exists key.
      split; [reflexivity|exact H].
  - intros r Hin Hkey. apply In_detectRepeatedExpenses in Hin.
    destruct Hin as [k [-> _]]. simpl in Hkey. now subst k.
Qed.

(** C9. On no transaction at all, the overall statistics have
    [monthCount = 0], [averageMonthlyExpenses = 0] and no [dateRange]; on
    any collection the average is the quotient only when [monthCount] is
    positive, and 0 otherwise, so that nothing is divided by zero. *)
Theorem overall_stats_of_nothing (host : Host.t) :
  OverallStats.monthCount (AnalyticsCalculator.computeOverallStats host []) = 0
  /\ OverallStats.averageMonthlyExpenses (AnalyticsCalculator.computeOverallStats host [])
     = 0%float
  /\ OverallStats.dateRange (AnalyticsCalculator.computeOverallStats host []) = None
  /\ forall transactions,
       let stats := AnalyticsCalculator.computeOverallStats host transactions in
       OverallStats.averageMonthlyExpenses stats
       = if (0 <? OverallStats.monthCount stats)%nat
         then (OverallStats.totalDebits stats / nat2Number (OverallStats.monthCount stats))%float
         else 0%float.
Proof.
  split; [reflexivity|]. split; [reflexivity|]. split; [reflexivity|].
  intros transactions. reflexivity.
Qed.

(** C10, as the claim states it: the average multiplied by the number
    of occurrences would be the total. On three charges of 9.49, 9.49 and
    9.50 the total is 28.48, the average 9.493333333333334, and their
    product 28.480000000000004. *)
Lemma average_times_occurrences_is_not_total :
  map (fun r =>
         (RepeatedExpense.averageAmount r * nat2Number (RepeatedExpense.occurrences r)
          =? RepeatedExpense.totalAmount r)%float)
      (AnalyticsCalculator.detectRepeatedExpenses Examples.monthly) = [false]
  /\ map RepeatedExpense.totalAmount
       (AnalyticsCalculator.detectRepeatedExpenses Examples.monthly) = [28.48%float]
  /\ map (fun r =>
            (RepeatedExpense.averageAmount r * nat2Number (RepeatedExpense.occurrences r))%float)
         (AnalyticsCalculator.detectRepeatedExpenses Examples.monthly)
     = [28.480000000000004%float].
Proof. repeat split; vm_compute; reflexivity. Qed.

(** C10, amended. Every entry reported has [occurrences] equal to the
    length of [transactionIds] and at least 2, [totalAmount] equal to the
    sum of the absolute amounts of the transactions of its group, and
    [averageAmount] equal to [totalAmount] divided by [occurrences]. *)
Theorem repeated_expense_invariants (transactions : list Transaction.t)
  (r : RepeatedExpense.t) :
  In r (AnalyticsCalculator.detectRepeatedExpenses transactions) ->
  RepeatedExpense.occurrences r = List.length (RepeatedExpense.transactionIds r)
  /\ 2 <= RepeatedExpense.occurrences r
  /\ RepeatedExpense.transactionIds r
     = map Transaction.id (Spec.merchantGroup (RepeatedExpense.merchantPattern r) transactions)
  /\ RepeatedExpense.totalAmount r
     = fold_left PrimFloat.add
         (map (fun t => abs (Transaction.amount t))
              (Spec.merchantGroup (RepeatedExpense.merchantPattern r) transactions))
         0%float
  /\ RepeatedExpense.averageAmount r
     = (RepeatedExpense.totalAmount r / nat2Number (RepeatedExpense.occurrences r))%float.
Proof.
  intros Hin. apply In_detectRepeatedExpenses in Hin. destruct Hin as [k [-> [Hlen _]]].
  simpl. rewrite length_map. repeat split; try assumption.
  unfold AnalyticsCalculator.average, AnalyticsCalculator.absAmounts.
  now rewrite length_map.
Qed.

Lemma repeated_expense_invariants_witness :
  In (AnalyticsCalculator.repeatedExpense "NETFLIX.COM" Examples.monthly)
     (AnalyticsCalculator.detectRepeatedExpenses Examples.monthly)
  /\ RepeatedExpense.averageAmount
       (AnalyticsCalculator.repeatedExpense "NETFLIX.COM" Examples.monthly)
     = (RepeatedExpense.totalAmount
          (AnalyticsCalculator.repeatedExpense "NETFLIX.COM" Examples.monthly)
        / nat2Number (RepeatedExpense.occurrences
                        (AnalyticsCalculator.repeatedExpense "NETFLIX.COM" Examples.monthly)))%float.
Proof.
  assert (In (AnalyticsCalculator.repeatedExpense "NETFLIX.COM" Examples.monthly)
             (AnalyticsCalculator.detectRepeatedExpenses Examples.monthly)) as Hin
    by (vm_compute; left; reflexivity).
  split; [exact Hin|].
  apply (repeated_expense_invariants Examples.monthly _ Hin).
Defined.

(** ** The categorization engine *)

Section Engine.
Import CategorizationEngine.
Variable host : Host.t.
Variable engine : CategorizationEngine.t.

Lemma categorize_setCategoryId (c : option string) (t : Transaction.t) :
  categorize host engine (Transaction.setCategoryId c t) = categorize host engine t.
Proof. reflexivity. Qed.

Lemma setCategoryId_twice (c d : option string) (t : Transaction.t) :
  Transaction.setCategoryId c (Transaction.setCategoryId d t) = Transaction.setCategoryId c t.
Proof. reflexivity. Qed.

(** Visiting an object again leaves it as the first visit left it. *)
Lemma visited_again (t : Transaction.t) :
  Invariants.visited host engine (Invariants.visited host engine t)
  = Invariants.visited host engine t.
Proof.
  unfold Invariants.visited at 2 3.
  destruct (Invariants.eligible t) eqn:E.
  - unfold Invariants.visited.
    destruct (Invariants.eligible (Transaction.setCategoryId _ t)); reflexivity.
  - unfold Invariants.visited. now rewrite E.
Qed.

Lemma assign_length (ref : nat) (x : Transaction.t) (store : Store) :
  List.length (assign ref x store) = List.length store.
Proof.
  revert ref. induction store as [|y store IH]; intros [|ref]; simpl; auto.
Qed.

Lemma nth_error_assign (ref ref' : nat) (x : Transaction.t) (store : Store) :
  nth_error (assign ref x store) ref'
  = if Nat.eqb ref' ref
    then match nth_error store ref with Some _ => Some x | None => None end
    else nth_error store ref'.
Proof.
  revert ref ref'. induction store as [|y store IH]; intros [|ref] [|ref']; simpl; auto.
  now destruct (Nat.eqb ref' ref).
Qed.

(** One visit, on the object referred to and on the others. *)
Lemma nth_error_categorizeInPlace (store : Store) (txn ref : nat) :
  nth_error (categorizeInPlace host engine store txn) ref
  = if Nat.eqb ref txn
    then option_map (Invariants.visited host engine) (nth_error store ref)
    else nth_error store ref.
Proof.
  unfold categorizeInPlace.
  destruct (Nat.eqb_spec ref txn) as [->|Hne].
  - destruct (nth_error store txn) as [object|] eqn:E; [|now rewrite E].
    simpl. unfold Invariants.visited, Invariants.eligible.
    destruct (negb (Transaction.isManuallyCategorized object) && noCategory object).
    + now rewrite nth_error_assign, Nat.eqb_refl, E.
    + exact E.
  - destruct (nth_error store txn) as [object|]; [|reflexivity].
    destruct (negb (Transaction.isManuallyCategorized object) && noCategory object);
      [|reflexivity].
    rewrite nth_error_assign. destruct (Nat.eqb_spec ref txn); [contradiction|reflexivity].
Qed.

(** The store after [batchCategorize]: the objects of the array are
    visited, once is as good as many times, the others are as they were. *)
Lemma nth_error_batchCategorize (transactions : list nat) (store : Store) (ref : nat) :
  nth_error (batchCategorize host engine transactions store) ref
  = if existsb (Nat.eqb ref) transactions
    then option_map (Invariants.visited host engine) (nth_error store ref)
    else nth_error store ref.
Proof.
  unfold batchCategorize. revert store.
  induction transactions as [|txn rest IH]; intros store; simpl; [reflexivity|].
  rewrite IH, nth_error_categorizeInPlace.
  destruct (Nat.eqb ref txn); simpl; [|reflexivity].
  destruct (existsb (Nat.eqb ref) rest); [|reflexivity].
  destruct (nth_error store ref); simpl; [|reflexivity].
  now rewrite visited_again.
Qed.

Lemma batchCategorize_length (transactions : list nat) (store : Store) :
  List.length (batchCategorize host engine transactions store) = List.length store.
Proof.
  unfold batchCategorize. revert store.
  induction transactions as [|txn rest IH]; intros store; simpl; [reflexivity|].
  rewrite IH. unfold categorizeInPlace.
  destruct (nth_error store txn) as [object|]; [|reflexivity].
  destruct (negb (Transaction.isManuallyCategorized object) && noCategory object);
    [apply assign_length|reflexivity].
Qed.

End Engine.

(** What [categorize] does when the memory table and the category
    patterns give nothing: the enabled legacy rules in the order of their
    declaration. *)
Lemma categorize_falls_back_in_declaration_order
  (host : Host.t) (engine : CategorizationEngine.t) (transaction : Transaction.t) :
  StringMap.get (Transaction.description transaction)
    (CategorizationEngine.descriptionMappings engine) = None ->
  CategorizationEngine.firstMatch host (Transaction.description transaction)
    (sort CategorizationEngine.byPriority (CategorizationEngine.allPatterns engine)) = None ->
  CategorizationEngine.categorize host engine transaction
  = CategorizationEngine.firstMatch host (Transaction.description transaction)
      (CategorizationEngine.legacyMatches engine).
Proof.
  intros Hmap Hpat. unfold CategorizationEngine.categorize. now rewrite Hmap, Hpat.
Qed.

(** C6. The claim has the legacy rules tried in ascending priority. The
    code tries them in the order of their declaration: with the rule
    [market] of priority 15 declared before the rule [cafe] of priority 10,
    the description SUPERMARKET CAFE, which no category pattern matches,
    gets the category of the first, where the policy of the claim gives
    that of the second. *)
Theorem legacy_rules_ignore_priority :
  CategorizationEngine.firstMatch UtcHost.host "SUPERMARKET CAFE"
    (sort CategorizationEngine.byPriority
       (CategorizationEngine.allPatterns Examples.legacyEngine)) = None
  /\ CategorizationEngine.categorize UtcHost.host Examples.legacyEngine
       (Examples.purchase "SUPERMARKET CAFE") = Some "groceries"
  /\ Spec.legacyFallback UtcHost.host Examples.legacyEngine "SUPERMARKET CAFE"
     = Some "restaurants".
Proof. repeat split; vm_compute; reflexivity. Qed.

(** ** The calculator and the heap *)

Section Frame.
Import Heap.

Lemma readOnly_ret {A : Type} (a : A) : readOnly (ret a).
Proof. intros store. reflexivity. Qed.

Lemma readOnly_read (ref : nat) : readOnly (read ref).
Proof. intros store. reflexivity. Qed.

Lemma readOnly_bind {A B : Type} (m : M A) (f : A -> M B) :
  readOnly m -> (forall a, readOnly (f a)) -> readOnly (bind m f).
Proof.
  intros Hm Hf store. unfold bind. specialize (Hm store).
  destruct (m store) as [a store']. cbn [snd] in Hm. subst store'. apply Hf.
Qed.

Lemma readOnly_foldM {S A : Type} (f : S -> A -> M S) (l : list A) :
  (forall s a, readOnly (f s a)) -> forall s, readOnly (foldM f l s).
Proof.
  intros Hf. induction l as [|a l IH]; intros s; cbn [foldM].
  - apply readOnly_ret.
  - apply readOnly_bind; [apply Hf|exact IH].
Qed.

Lemma readOnly_mapM {A B : Type} (f : A -> M B) (l : list A) :
  (forall a, readOnly (f a)) -> readOnly (mapM f l).
Proof.
  intros Hf. apply readOnly_foldM. intros s a.
  apply readOnly_bind; [apply Hf|intros b; apply readOnly_ret].
Qed.

Lemma readOnly_filterObjects (p : Transaction.t -> bool) (transactions : list nat) :
  readOnly (filterObjects p transactions).
Proof.
  apply readOnly_foldM. intros s a.
  apply readOnly_bind; [apply readOnly_read|intros o; apply readOnly_ret].
Qed.

Lemma readOnly_mapObjects {B : Type} (f : Transaction.t -> B) (transactions : list nat) :
  readOnly (mapObjects f transactions).
Proof.
  apply readOnly_foldM. intros s a.
  apply readOnly_bind; [apply readOnly_read|intros o; apply readOnly_ret].
Qed.

Lemma readOnly_reduceObjects {S : Type} (f : S -> Transaction.t -> S)
  (transactions : list nat) (init : S) :
  readOnly (reduceObjects f transactions init).
Proof.
  apply readOnly_foldM. intros s a.
  apply readOnly_bind; [apply readOnly_read|intros o; apply readOnly_ret].
Qed.

(** What a computation that leaves the store alone returns, and the store. *)
Lemma readOnly_run {A : Type} (m : M A) (store : Store) :
  readOnly m -> m store = (fst (m store), store).
Proof. intros H. specialize (H store). destruct (m store). cbn in *. now subst. Qed.

End Frame.

Create HintDb heap.

#[local] Hint Resolve readOnly_ret readOnly_read readOnly_filterObjects readOnly_mapObjects
  readOnly_reduceObjects : heap.

Ltac read_only :=
  repeat first
    [ solve [auto with heap]
    | apply readOnly_bind; [|intro]
    | apply readOnly_foldM; intros
    | apply readOnly_mapM; intros
    | match goal with
      | |- Heap.readOnly (if ?b then _ else _) => destruct b
      | |- Heap.readOnly (let '(_, _) := ?e in _) => destruct e
      end ].

Section CalculatorFrame.
Import Heap.
Variable host : Host.t.
Variable realm : Realm.t.

Lemma readOnly_addToGroup (key : Transaction.t -> string) (groups : StringMap.t (list nat))
  (txn : nat) :
  readOnly (HeapCalculator.addToGroup key groups txn).
Proof. unfold HeapCalculator.addToGroup. read_only. Qed.

Lemma readOnly_groupByMonth (transactions : list nat) :
  readOnly (HeapCalculator.groupByMonth host transactions).
Proof. apply readOnly_foldM. intros. apply readOnly_addToGroup. Qed.

Lemma readOnly_groupByMerchant (transactions : list nat) :
  readOnly (HeapCalculator.groupByMerchant transactions).
Proof.
  unfold HeapCalculator.groupByMerchant. apply readOnly_bind; [auto with heap|intros debits].
  apply readOnly_foldM. intros. apply readOnly_addToGroup.
Qed.

Lemma readOnly_sumAmounts (transactions : list nat) :
  readOnly (HeapCalculator.sumAmounts transactions).
Proof. apply readOnly_reduceObjects. Qed.

Lemma readOnly_isLikelySubscription (transactions : list nat) :
  readOnly (HeapCalculator.isLikelySubscription transactions).
Proof. unfold HeapCalculator.isLikelySubscription. read_only. Qed.

Lemma readOnly_visitGroup (repeated : list RepeatedExpense.t) (entry : string * list nat) :
  readOnly (HeapCalculator.visitGroup repeated entry).
Proof.
  unfold HeapCalculator.visitGroup. destruct entry as [merchant txns].
  destruct (List.length txns <? 2)%nat; [apply readOnly_ret|].
  apply readOnly_bind; [auto with heap|intros amounts].
  destruct (AnalyticsCalculator.isSimilar amounts); [|apply readOnly_ret].
  apply readOnly_bind; [apply readOnly_isLikelySubscription|intros likely].
  apply readOnly_bind; [auto with heap|intros ids]. apply readOnly_ret.
Qed.

Lemma readOnly_detectRepeatedExpenses (transactions : list nat) :
  readOnly (HeapCalculator.detectRepeatedExpenses transactions).
Proof.
  unfold HeapCalculator.detectRepeatedExpenses.
  apply readOnly_bind; [apply readOnly_groupByMerchant|intros groups].
  apply readOnly_bind; [|intros repeated; apply readOnly_ret].
  apply readOnly_foldM. intros. apply readOnly_visitGroup.
Qed.

Lemma readOnly_computeOverallStats (transactions : list nat) :
  readOnly (HeapCalculator.computeOverallStats host transactions).
Proof.
  unfold HeapCalculator.computeOverallStats.
  apply readOnly_bind; [auto with heap|intros nonExcluded].
  apply readOnly_bind; [auto with heap|intros expenses].
  apply readOnly_bind; [apply readOnly_sumAmounts|intros total].
  apply readOnly_bind.
  - destruct (0 <? List.length nonExcluded)%nat; [|apply readOnly_ret].
    apply readOnly_bind; [auto with heap|intros dates; apply readOnly_ret].
  - intros dateRange. apply readOnly_bind; [auto with heap|intros months; apply readOnly_ret].
Qed.

Lemma readOnly_computeCategoryTotalsForTransactions (transactions : list nat) :
  readOnly (HeapCalculator.computeCategoryTotalsForTransactions host realm transactions).
Proof.
  unfold HeapCalculator.computeCategoryTotalsForTransactions.
  apply readOnly_bind; [auto with heap|intros debits; auto with heap].
Qed.

Lemma readOnly_computeCategoryTotals (transactions : list nat) :
  readOnly (HeapCalculator.computeCategoryTotals host realm transactions).
Proof.
  unfold HeapCalculator.computeCategoryTotals.
  apply readOnly_bind; [auto with heap|intros nonExcluded].
  apply readOnly_computeCategoryTotalsForTransactions.
Qed.

Lemma readOnly_summarize (entry : string * list nat) :
  readOnly (HeapCalculator.summarize host realm entry).
Proof.
  unfold HeapCalculator.summarize. destruct entry as [month txns].
  apply readOnly_bind; [auto with heap|intros nonExcluded].
  apply readOnly_bind; [auto with heap|intros expenses].
  apply readOnly_bind; [apply readOnly_sumAmounts|intros totalDebits].
  apply readOnly_bind; [apply readOnly_computeCategoryTotalsForTransactions|].
  intros categoryTotals. apply readOnly_ret.
Qed.

Lemma readOnly_computeMonthlySummaries (transactions : list nat) :
  readOnly (HeapCalculator.computeMonthlySummaries host realm transactions).
Proof.
  unfold HeapCalculator.computeMonthlySummaries.
  apply readOnly_bind; [apply readOnly_groupByMonth|intros groups].
  apply readOnly_bind; [|intros summaries; apply readOnly_ret].
  apply readOnly_mapM. apply readOnly_summarize.
Qed.

Lemma readOnly_computeAll (transactions : list nat) :
  readOnly (HeapCalculator.computeAll host realm transactions).
Proof.
  unfold HeapCalculator.computeAll.
  apply readOnly_bind; [apply readOnly_computeMonthlySummaries|intros monthlySummaries].
  apply readOnly_bind; [apply readOnly_computeCategoryTotals|intros categoryTotals].
  apply readOnly_bind; [apply readOnly_detectRepeatedExpenses|intros repeatedExpenses].
  apply readOnly_bind; [apply readOnly_computeOverallStats|intros overallStats].
  apply readOnly_ret.
Qed.

End CalculatorFrame.

(** ** What the calculator returns on the heap *)

Section Values.
Import Heap.
Variable store : Store.

(** The reference is one to an object. *)
Let valid (ref : nat) : Prop := nth_error store ref <> None.

Lemma objects_app (a b : list nat) :
  AnalyticsCalculator.objects store (a ++ b)
  = (AnalyticsCalculator.objects store a ++ AnalyticsCalculator.objects store b)%list.
Proof. apply flat_map_app. Qed.

Lemma objects_length (refs : list nat) :
  Forall valid refs -> List.length (AnalyticsCalculator.objects store refs) = List.length refs.
Proof.
  induction 1 as [|ref refs Href _ IH]; [reflexivity|].
  cbn [AnalyticsCalculator.objects flat_map]. unfold valid in Href.
  destruct (nth_error store ref); [|contradiction].
  cbn [app List.length]. f_equal. exact IH.
Qed.

Lemma reduceObjects_objects {S : Type} (f : S -> Transaction.t -> S) (refs : list nat) :
  forall init,
    reduceObjects f refs init store
    = (fold_left f (AnalyticsCalculator.objects store refs) init, store).
Proof.
  unfold reduceObjects.
  induction refs as [|ref refs IH]; intros init; [reflexivity|].
  cbn [foldM AnalyticsCalculator.objects flat_map]. unfold bind at 1. unfold bind, read, ret.
  rewrite IH. destruct (nth_error store ref); reflexivity.
Qed.

Lemma mapObjects_from {B : Type} (f : Transaction.t -> B) (refs : list nat) :
  forall out,
    foldM (fun out ref =>
             bind (read ref)
               (fun o => ret match o with
                             | Some object => out ++ [f object]
                             | None => out
                             end)%list)
      refs out store
    = ((out ++ map f (AnalyticsCalculator.objects store refs))%list, store).
Proof.
  induction refs as [|ref refs IH]; intros out.
  - cbn. now rewrite app_nil_r.
  - cbn [foldM AnalyticsCalculator.objects flat_map]. unfold bind at 1. unfold bind, read, ret.
    rewrite IH. destruct (nth_error store ref); [|reflexivity].
    cbn [app map]. now rewrite <- app_assoc.
Qed.

Lemma mapObjects_objects {B : Type} (f : Transaction.t -> B) (refs : list nat) :
  mapObjects f refs store = (map f (AnalyticsCalculator.objects store refs), store).
Proof. unfold mapObjects. now rewrite mapObjects_from. Qed.

Lemma filterObjects_from (p : Transaction.t -> bool) (refs : list nat) :
  forall kept,
    Forall valid kept ->
    exists kept',
      foldM (fun kept ref =>
               bind (read ref)
                 (fun o => ret match o with
                               | Some object => if p object then kept ++ [ref] else kept
                               | None => kept
                               end)%list)
        refs kept store
      = (kept', store)
      /\ AnalyticsCalculator.objects store kept'
         = (AnalyticsCalculator.objects store kept
            ++ filter p (AnalyticsCalculator.objects store refs))%list
      /\ Forall valid kept'.
Proof.
  induction refs as [|ref refs IH]; intros kept Hkept.
  - exists kept. cbn. rewrite app_nil_r. auto.
  - cbn [foldM AnalyticsCalculator.objects flat_map]. unfold bind at 1. unfold bind at 1.
    unfold read at 1. unfold ret at 1.
    destruct (nth_error store ref) as [object|] eqn:E.
    + cbn [app filter]. destruct (p object) eqn:P.
      * destruct (IH (kept ++ [ref])%list) as (kept' & R & O & V).
        { apply Forall_app. split; [exact Hkept|]. constructor; [|constructor].
          unfold valid. now rewrite E. }
        exists kept'. split; [exact R|]. split; [|exact V].
        rewrite O, objects_app. cbn [AnalyticsCalculator.objects flat_map].
        rewrite E. cbn [app]. now rewrite <- app_assoc.
      * apply IH, Hkept.
    + cbn [app]. apply IH, Hkept.
Qed.

Lemma filterObjects_objects (p : Transaction.t -> bool) (refs : list nat) :
  exists kept,
    filterObjects p refs store = (kept, store)
    /\ AnalyticsCalculator.objects store kept
       = filter p (AnalyticsCalculator.objects store refs)
    /\ Forall valid kept.
Proof.
  destruct (filterObjects_from p refs [] (Forall_nil _)) as (kept & R & O & V).
  exists kept. auto.
Qed.

(** The groups of references and the groups of their objects. *)
Let objectGroups (groups : StringMap.t (list nat)) : StringMap.t (list Transaction.t) :=
  map (fun e => (fst e, AnalyticsCalculator.objects store (snd e))) groups.

Let validGroups (groups : StringMap.t (list nat)) : Prop :=
  Forall (fun e => Forall valid (snd e)) groups.

Lemma has_objectGroups (k : string) (groups : StringMap.t (list nat)) :
  StringMap.has k (objectGroups groups) = StringMap.has k groups.
Proof.
  unfold StringMap.has, objectGroups. induction groups as [|e groups IH]; [reflexivity|].
  cbn [map existsb fst]. now rewrite IH.
Qed.

Lemma addToGroup_objects (groups : StringMap.t (list nat)) (ref : nat) (object : Transaction.t) :
  nth_error store ref = Some object ->
  validGroups groups ->
  let key := fun t => AnalyticsCalculator.normalizeMerchant (Transaction.description t) in
  exists groups',
    HeapCalculator.addToGroup key groups ref store = (groups', store)
    /\ objectGroups groups' = AnalyticsCalculator.addToGroup (objectGroups groups) object
    /\ validGroups groups'.
Proof.
  intros E V key. unfold HeapCalculator.addToGroup, bind, read, ret. rewrite E.
  eexists. split; [reflexivity|].
  unfold AnalyticsCalculator.addToGroup. fold (key object). rewrite has_objectGroups.
  assert (U : forall g, validGroups g ->
                objectGroups (StringMap.update (key object) (fun l => l ++ [ref])%list g)
                = StringMap.update (key object) (fun l => l ++ [object])%list (objectGroups g)
                /\ validGroups (StringMap.update (key object) (fun l => l ++ [ref])%list g)).
  { induction g as [|e g IH]; intros Vg; [split; [reflexivity|constructor]|].
    inversion Vg as [|? ? Ve Vrest]; subst. destruct (IH Vrest) as [IH1 IH2].
    unfold StringMap.update, objectGroups in *. cbn [map fst snd].
    destruct (String.eqb (fst e) (key object)); cbn [fst snd].
    - split.
      + rewrite objects_app. cbn [AnalyticsCalculator.objects flat_map]. rewrite E.
        cbn [app]. f_equal. exact IH1.
      + constructor; [|exact IH2]. cbn [snd]. apply Forall_app. split; [exact Ve|].
        constructor; [|constructor]. unfold valid. now rewrite E.
    - split; [f_equal; exact IH1|constructor; [exact Ve|exact IH2]]. }
  destruct (StringMap.has (key object) groups) eqn:H; cbn [negb].
  - apply U, V.
  - assert (V' : validGroups (StringMap.set (key object) [] groups)).
    { unfold StringMap.set. rewrite H. apply Forall_app. split; [exact V|].
      constructor; [constructor|constructor]. }
    destruct (U _ V') as [U1 U2]. split; [|exact U2].
    rewrite U1. f_equal. unfold StringMap.set. rewrite H, has_objectGroups, H.
    unfold objectGroups. now rewrite map_app.
Qed.

Lemma groups_from (refs : list nat) :
  forall groups,
    validGroups groups ->
    let key := fun t => AnalyticsCalculator.normalizeMerchant (Transaction.description t) in
    exists groups',
      foldM (HeapCalculator.addToGroup key) refs groups store = (groups', store)
      /\ objectGroups groups'
         = fold_left AnalyticsCalculator.addToGroup (AnalyticsCalculator.objects store refs)
             (objectGroups groups)
      /\ validGroups groups'.
Proof.
  induction refs as [|ref refs IH]; intros groups V key.
  - exists groups. auto.
  - cbn [foldM AnalyticsCalculator.objects flat_map]. unfold bind at 1.
    destruct (nth_error store ref) as [object|] eqn:E.
    + destruct (addToGroup_objects groups ref object E V) as (g1 & R1 & O1 & V1).
      fold key in R1. rewrite R1. destruct (IH g1 V1) as (g2 & R2 & O2 & V2).
      exists g2. split; [exact R2|]. split; [|exact V2].
      cbn [app fold_left]. now rewrite O2, O1.
    + unfold HeapCalculator.addToGroup, bind, read, ret. rewrite E. cbn [app].
      apply IH, V.
Qed.

Lemma groupByMerchant_objects (refs : list nat) :
  exists groups,
    HeapCalculator.groupByMerchant refs store = (groups, store)
    /\ objectGroups groups
       = AnalyticsCalculator.groupByMerchant (AnalyticsCalculator.objects store refs)
    /\ validGroups groups.
Proof.
  unfold HeapCalculator.groupByMerchant, AnalyticsCalculator.groupByMerchant.
  destruct (filterObjects_objects
              (fun t => AnalyticsCalculator.isDebit t && negb (Transaction.isExcluded t)) refs)
    as (debits & R & O & _).
  unfold bind at 1. rewrite R.
  destruct (groups_from debits [] (Forall_nil _)) as (groups & R' & O' & V').
  exists groups. split; [exact R'|]. split; [|exact V']. now rewrite O', O.
Qed.

Lemma isLikelySubscription_objects (txns : list nat) :
  Forall valid txns ->
  HeapCalculator.isLikelySubscription txns store
  = (AnalyticsCalculator.isLikelySubscription (AnalyticsCalculator.objects store txns), store).
Proof.
  intros V. unfold HeapCalculator.isLikelySubscription, AnalyticsCalculator.isLikelySubscription.
  rewrite (objects_length txns V).
  destruct (List.length txns <? 2)%nat; [reflexivity|].
  unfold bind. rewrite mapObjects_objects.
  destruct (List.length _ =? 0)%nat; reflexivity.
Qed.

Lemma visitGroup_objects (repeated : list RepeatedExpense.t) (merchant : string)
  (txns : list nat) :
  Forall valid txns ->
  HeapCalculator.visitGroup repeated (merchant, txns) store
  = ((repeated
      ++ AnalyticsCalculator.visitGroup (merchant, AnalyticsCalculator.objects store txns))%list,
     store).
Proof.
  intros V. unfold HeapCalculator.visitGroup, AnalyticsCalculator.visitGroup.
  rewrite (objects_length txns V).
  destruct (List.length txns <? 2)%nat; [unfold ret; now rewrite app_nil_r|].
  unfold bind at 1. rewrite mapObjects_objects.
  fold (AnalyticsCalculator.absAmounts (AnalyticsCalculator.objects store txns)).
  destruct (AnalyticsCalculator.isSimilar _); [|unfold ret; now rewrite app_nil_r].
  unfold bind at 1. rewrite (isLikelySubscription_objects txns V).
  unfold bind at 1. rewrite mapObjects_objects. unfold ret.
  unfold AnalyticsCalculator.repeatedExpense. now rewrite (objects_length txns V).
Qed.

Lemma repeated_from (groups : StringMap.t (list nat)) :
  validGroups groups ->
  forall repeated,
    foldM HeapCalculator.visitGroup groups repeated store
    = ((repeated ++ flat_map AnalyticsCalculator.visitGroup (objectGroups groups))%list, store).
Proof.
  induction 1 as [|[merchant txns] groups Ve _ IH]; intros repeated.
  - cbn. now rewrite app_nil_r.
  - cbn [foldM]. unfold bind at 1. rewrite (visitGroup_objects _ _ _ Ve), IH.
    unfold objectGroups. cbn [map flat_map fst snd]. now rewrite <- app_assoc.
Qed.

Lemma detectRepeatedExpenses_objects (transactions : list nat) :
  HeapCalculator.detectRepeatedExpenses transactions store
  = (AnalyticsCalculator.detectRepeatedExpenses
       (AnalyticsCalculator.objects store transactions), store).
Proof.
  unfold HeapCalculator.detectRepeatedExpenses, AnalyticsCalculator.detectRepeatedExpenses.
  destruct (groupByMerchant_objects transactions) as (groups & R & O & V).
  unfold bind at 1. rewrite R. unfold bind at 1. rewrite (repeated_from groups V).
  unfold ret. cbn [app]. now rewrite O.
Qed.

Lemma computeOverallStats_objects (host : Host.t) (transactions : list nat) :
  HeapCalculator.computeOverallStats host transactions store
  = (AnalyticsCalculator.computeOverallStats host
       (AnalyticsCalculator.objects store transactions), store).
Proof.
  unfold HeapCalculator.computeOverallStats, AnalyticsCalculator.computeOverallStats.
  destruct (filterObjects_objects (fun t => negb (Transaction.isExcluded t)) transactions)
    as (nonExcluded & R1 & O1 & V1).
  unfold bind at 1. rewrite R1.
  destruct (filterObjects_objects AnalyticsCalculator.isDebit nonExcluded)
    as (expenses & R2 & O2 & V2).
  unfold bind at 1. rewrite R2.
  unfold bind at 1. unfold HeapCalculator.sumAmounts. rewrite reduceObjects_objects.
  unfold bind at 1.
  assert (D : (if (0 <? List.length nonExcluded)%nat
               then bind (mapObjects
                            (fun t => AnalyticsCalculator.getTime
                                        (AnalyticsCalculator.ensureDate (Transaction.date t)))
                            nonExcluded)
                      (fun dates =>
                         ret match dates with
                             | [] => None
                             | d :: ds =>
                                 Some (AnalyticsCalculator.minimum d ds,
                                       AnalyticsCalculator.maximum d ds)
                             end)
               else ret None) store
              = (match map (fun t => AnalyticsCalculator.getTime
                                       (AnalyticsCalculator.ensureDate (Transaction.date t)))
                         (AnalyticsCalculator.objects store nonExcluded) with
                 | [] => None
                 | d :: ds =>
                     Some (AnalyticsCalculator.minimum d ds, AnalyticsCalculator.maximum d ds)
                 end, store)).
  { pose proof (objects_length nonExcluded V1) as L.
    destruct nonExcluded as [|ref rest].
    - reflexivity.
    - cbn [List.length Nat.ltb Nat.leb]. unfold bind. now rewrite mapObjects_objects. }
  rewrite D. unfold bind at 1. rewrite mapObjects_objects. unfold ret.
  rewrite <- (objects_length nonExcluded V1), O2, O1. reflexivity.
Qed.

End Values.

(** [batchCategorize] of the engine as a computation on the heap. *)
Lemma batchCategorize_heap (host : Host.t) (engine : CategorizationEngine.t)
  (transactions : list nat) :
  forall store,
    HeapEngine.batchCategorize host engine transactions store
    = (tt, CategorizationEngine.batchCategorize host engine transactions store).
Proof.
  unfold HeapEngine.batchCategorize, CategorizationEngine.batchCategorize.
  induction transactions as [|txn rest IH]; intros store; [reflexivity|].
  cbn [Heap.foldM fold_left]. unfold Heap.bind at 1.
  assert (V : HeapEngine.visit host engine tt txn store
              = (tt, CategorizationEngine.categorizeInPlace host engine store txn)).
  { unfold HeapEngine.visit, CategorizationEngine.categorizeInPlace, Heap.bind, Heap.read.
    destruct (nth_error store txn) as [object|]; [|reflexivity].
    destruct (negb (Transaction.isManuallyCategorized object)
              && CategorizationEngine.noCategory object); reflexivity. }
  rewrite V. apply IH.
Qed.

(** C7, as the claim states it: no field of a transaction given to
    [batchCategorize] would change. The call writes [categoryId]. *)
Lemma batchCategorize_mutates_its_input :
  map Transaction.categoryId [Examples.purchase "SUPERMARKET CAFE"] = [None]
  /\ map Transaction.categoryId
       (CategorizationEngine.batchCategorize UtcHost.host Examples.legacyEngine [0]
          [Examples.purchase "SUPERMARKET CAFE"])
     = [Some "groceries"].
Proof. split; vm_compute; reflexivity. Qed.

(** C7, amended. No method of the analytics calculator mutates a
    transaction: on the heap, [computeAll], [computeMonthlySummaries],
    [computeCategoryTotals], [detectRepeatedExpenses] and
    [computeOverallStats] leave every object as it was, and the last two
    return what they return for the objects of the array. [batchCategorize]
    mutates in place: of every object of the store it leaves every field
    but [categoryId] as it was, and it writes [categoryId], with the value
    that [categorize] returns, for exactly the transactions of the array
    that are neither manually categorized nor categorized already. *)
Theorem batchCategorize_writes_categoryId_only
  (host : Host.t) (realm : Realm.t) (engine : CategorizationEngine.t)
  (transactions : list nat) (store : Store) (ref : nat) (before : Transaction.t) :
  nth_error store ref = Some before ->
  (exists after,
      nth_error (CategorizationEngine.batchCategorize host engine transactions store) ref
      = Some after
      /\ after = Transaction.setCategoryId (Transaction.categoryId after) before
      /\ Transaction.categoryId after
         = if existsb (Nat.eqb ref) transactions
              && negb (Transaction.isManuallyCategorized before)
              && CategorizationEngine.noCategory before
           then CategorizationEngine.categorize host engine before
           else Transaction.categoryId before)
  /\ List.length (CategorizationEngine.batchCategorize host engine transactions store)
     = List.length store
  /\ HeapEngine.batchCategorize host engine transactions store
     = (tt, CategorizationEngine.batchCategorize host engine transactions store)
  /\ snd (HeapCalculator.computeAll host realm transactions store) = store
  /\ snd (HeapCalculator.computeMonthlySummaries host realm transactions store) = store
  /\ snd (HeapCalculator.computeCategoryTotals host realm transactions store) = store
  /\ HeapCalculator.detectRepeatedExpenses transactions store
     = (AnalyticsCalculator.detectRepeatedExpenses
          (AnalyticsCalculator.objects store transactions), store)
  /\ HeapCalculator.computeOverallStats host transactions store
     = (AnalyticsCalculator.computeOverallStats host
          (AnalyticsCalculator.objects store transactions), store).
Proof.
  intros Hbefore. split; [|split; [apply batchCategorize_length|]].
  - rewrite nth_error_batchCategorize, Hbefore.
    destruct (existsb (Nat.eqb ref) transactions); simpl.
    + exists (Invariants.visited host engine before). split; [reflexivity|].
      unfold Invariants.visited, Invariants.eligible.
      destruct (negb (Transaction.isManuallyCategorized before)
                && CategorizationEngine.noCategory before); simpl.
      * split; reflexivity.
      * split; [now destruct before|reflexivity].
    + exists before. split; [reflexivity|]. split; [now destruct before|reflexivity].
  - split; [apply batchCategorize_heap|].
    split; [apply readOnly_computeAll|].
    split; [apply readOnly_computeMonthlySummaries|].
    split; [apply readOnly_computeCategoryTotals|].
    split; [apply detectRepeatedExpenses_objects|apply computeOverallStats_objects].
Qed.

Lemma batchCategorize_frame_witness :
  nth_error [Examples.purchase "SUPERMARKET CAFE"; Examples.purchase "RENT"] 1
  = Some (Examples.purchase "RENT")
  /\ (exists after,
         nth_error
           (CategorizationEngine.batchCategorize UtcHost.host Examples.legacyEngine [0; 1; 0]
              [Examples.purchase "SUPERMARKET CAFE"; Examples.purchase "RENT"]) 1
         = Some after
         /\ after = Transaction.setCategoryId (Transaction.categoryId after)
                      (Examples.purchase "RENT"))
  /\ snd (HeapCalculator.computeAll UtcHost.host Examples.realm [0; 1; 0]
            [Examples.purchase "SUPERMARKET CAFE"; Examples.purchase "RENT"])
     = [Examples.purchase "SUPERMARKET CAFE"; Examples.purchase "RENT"].
Proof.
  split; [reflexivity|].
  destruct (batchCategorize_writes_categoryId_only UtcHost.host Examples.realm
              Examples.legacyEngine
              [0; 1; 0] [Examples.purchase "SUPERMARKET CAFE"; Examples.purchase "RENT"]
              1 (Examples.purchase "RENT") eq_refl)
    as [[after [H1 [H2 _]]] [_ [_ [H3 _]]]].
  split; [exists after; split; assumption|exact H3].
Defined.

(** ** Fingerprints *)

Lemma parseTransactions_later (now' : Z) (random' : string) (host : Host.t)
  (filename accountId : option string) (elements : list DOM.node) :
  QfxParser.parseTransactions (Host.later now' random' host) filename accountId elements
  = QfxParser.parseTransactions host filename accountId elements.
Proof.
  induction elements as [|e rest IH]; simpl; [reflexivity|].
  rewrite IH. reflexivity.
Qed.

Lemma parseQFX_later (now' : Z) (random' : string) (host : Host.t)
  (content : string) (filename : option string) :
  QfxParser.parseQFX (Host.later now' random' host) content filename
  = QfxParser.parseQFX host content filename.
Proof.
  unfold QfxParser.parseQFX.
  destruct (QfxParser.extractXMLFromOFX content) as [xml|]; [|reflexivity].
  unfold QfxParser.readMarkup, DOM.parseFromString. destruct (DOM.parseXML xml) as [doc|]; [|reflexivity].
  destruct (DOM.documentQuerySelectorAll "parsererror" doc); [|reflexivity].
  destruct (DOM.documentQuerySelectorAll "STMTTRN" doc); [reflexivity|].
  now rewrite parseTransactions_later.
Qed.

Lemma parseRows_later (now' : Z) (random' : string) (host : Host.t) (index : Z)
  (data : list (StringMap.t string)) :
  CsvParser.parseRows (Host.later now' random' host) index data
  = CsvParser.parseRows host index data.
Proof.
  revert index. induction data as [|r rest IH]; intros index; simpl; [reflexivity|].
  rewrite IH. reflexivity.
Qed.

Lemma parseCSV_later (now' : Z) (random' : string) (host : Host.t)
  (papaParse : string -> Papa.outcome) (content : string) :
  CsvParser.parseCSV (Host.later now' random' host) papaParse content
  = CsvParser.parseCSV host papaParse content.
Proof.
  unfold CsvParser.parseCSV. destruct (papaParse content); [|reflexivity].
  unfold CsvParser.complete. now rewrite parseRows_later.
Qed.

(** A payload whose ids the state has already adds nothing. *)
Lemma addTransactions_known (state payload : list Transaction.t) :
  (forall t, In t payload -> In (Transaction.id t) (map Transaction.id state)) ->
  AppContext.addTransactions state payload = state.
Proof.
  intros Hknown. unfold AppContext.addTransactions.
  assert (filter (fun t => negb (existsb (String.eqb (Transaction.id t))
                                   (map Transaction.id state))) payload = []) as ->.
  { induction payload as [|t rest IH]; simpl; [reflexivity|].
    assert (existsb (String.eqb (Transaction.id t)) (map Transaction.id state) = true) as ->.
    { apply existsb_exists. exists (Transaction.id t). split.
      - apply Hknown. now left.
      - apply String.eqb_refl. }
    simpl. apply IH. intros t' Hin. apply Hknown. now right. }
  apply app_nil_r.
Qed.

(** After an import, the state has the id of every transaction of the payload. *)
Lemma addTransactions_has_ids (state payload : list Transaction.t) (t : Transaction.t) :
  In t payload ->
  In (Transaction.id t) (map Transaction.id (AppContext.addTransactions state payload)).
Proof.
  intros Hin. unfold AppContext.addTransactions. rewrite map_app. apply in_or_app.
  destruct (existsb (String.eqb (Transaction.id t)) (map Transaction.id state)) eqn:E.
  - left. apply existsb_exists in E. destruct E as [i [Hi Heq]].
    apply String.eqb_eq in Heq. now subst.
  - right. apply in_map. apply filter_In. split; [assumption|]. now rewrite E.
Qed.

(** The fingerprint on one platform, in one time zone: it is a function
    of the date, the amount, the description and the account id, whatever
    the clock and the random source have become between two calls; so two
    parses of one file there return the same transactions, ids included,
    and importing a payload whose ids are those of a payload already
    imported adds no transaction. *)
Theorem transaction_id_deterministic
  (host : Host.t) (date date' : Date) (amount amount' : Number)
  (description description' : string) (accountId accountId' : option string) :
  date = date' -> amount = amount' -> description = description' ->
  accountId = accountId' ->
  (forall now' random',
      Utils.generateTransactionId (Host.later now' random' host)
        date' amount' description' accountId'
      = Utils.generateTransactionId host date amount description accountId)
  /\ (forall now' random' content filename,
         QfxParser.parseQFX (Host.later now' random' host) content filename
         = QfxParser.parseQFX host content filename)
  /\ (forall now' random' papaParse content,
         CsvParser.parseCSV (Host.later now' random' host) papaParse content
         = CsvParser.parseCSV host papaParse content)
  /\ (forall state payload payload',
         map Transaction.id payload' = map Transaction.id payload ->
         AppContext.addTransactions (AppContext.addTransactions state payload) payload'
         = AppContext.addTransactions state payload).
Proof.
  intros -> -> -> ->. split; [reflexivity|]. split; [|split].
  - intros. apply parseQFX_later.
  - intros. apply parseCSV_later.
  - intros state payload payload' Hids. apply addTransactions_known.
    intros t Hin. apply (in_map Transaction.id) in Hin. rewrite Hids in Hin.
    apply in_map_iff in Hin. destruct Hin as [t0 [<- Hin0]].
    now apply addTransactions_has_ids.
Qed.

Lemma transaction_id_deterministic_witness :
  Utils.generateTransactionId (Host.later 1736640000000 "k3j9x0q1z" UtcHost.host)
    1736553600000%Z (-19.01)%float "MERCHANT X" None
  = Utils.generateTransactionId UtcHost.host
      1736553600000%Z (-19.01)%float "MERCHANT X" None
  /\ Utils.generateTransactionId UtcHost.host
       1736553600000%Z (-19.01)%float "MERCHANT X" None = "9inff9".
Proof.
  split.
  - apply (transaction_id_deterministic UtcHost.host _ _ _ _ _ _ _ _
             eq_refl eq_refl eq_refl eq_refl).
  - vm_compute. reflexivity.
Defined.

(** C8. The claim has a file that is parsed twice give the same ids, so
    that importing it again adds nothing. [parseCSVDate] builds the local
    midnight of the day: the row of 11 January 2025 gets the date
    2025-01-11T00:00:00.000Z on a platform in the zone of Greenwich and
    2025-01-11T10:00:00.000Z on one in Honolulu, the key of the fingerprint
    holds [toISOString] of the date, and the two ids differ; the reducer
    takes the second for a new transaction and stores the row twice. The
    dates of [parseOFXDate] are midnights of Greenwich on every platform,
    and the ids of a QFX statement are the same on both. *)
Theorem one_csv_row_gets_an_id_for_each_time_zone :
  map (fun t => (UtcHost.toISOString (Transaction.date t), Transaction.id t))
    (ParseResult.transactions
       (CsvParser.parseCSV UtcHost.host (fun _ => Papa.Complete [Examples.csvRow] [])
          "the file"))
  = [("2025-01-11T00:00:00.000Z", "9inff9")]
  /\ map (fun t => (UtcHost.toISOString (Transaction.date t), Transaction.id t))
       (ParseResult.transactions
          (CsvParser.parseCSV Examples.honolulu (fun _ => Papa.Complete [Examples.csvRow] [])
             "the file"))
     = [("2025-01-11T10:00:00.000Z", "nq42mk")]
  /\ map Transaction.id
       (AppContext.addTransactions
          (ParseResult.transactions
             (CsvParser.parseCSV UtcHost.host (fun _ => Papa.Complete [Examples.csvRow] [])
                "the file"))
          (ParseResult.transactions
             (CsvParser.parseCSV Examples.honolulu
                (fun _ => Papa.Complete [Examples.csvRow] []) "the file")))
     = ["9inff9"; "nq42mk"]
  /\ option_map (fun state => map Transaction.id (AppState.transactions state))
       (AppProvider.dispatchAll Examples.honolulu Samples.preferences
          [ AppReducer.ADD_TRANSACTIONS
              (ParseResult.transactions
                 (CsvParser.parseCSV UtcHost.host
                    (fun _ => Papa.Complete [Examples.csvRow] []) "the file")) [];
            AppReducer.ADD_TRANSACTIONS
              (ParseResult.transactions
                 (CsvParser.parseCSV Examples.honolulu
                    (fun _ => Papa.Complete [Examples.csvRow] []) "the file")) [] ]
          (AppReducer.initialState Samples.preferences))
     = Some ["9inff9"; "nq42mk"]
  /\ map Transaction.id
       (ParseResult.transactions (QfxParser.parseQFX Examples.honolulu Examples.statement None))
     = map Transaction.id
         (ParseResult.transactions (QfxParser.parseQFX UtcHost.host Examples.statement None)).
Proof. repeat split; vm_compute; reflexivity. Qed.

(** ** The sign convention *)

(** A Number equal to zero is not below zero. *)
Lemma eqb_zero_not_ltb (x : Number) :
  (x =? 0)%float = true -> (x <? 0)%float = false.
Proof.
  rewrite FloatAxioms.eqb_spec, ltb_spec. unfold SFeqb, SFltb.
  destruct (SFcompare (Prim2SF x) (Prim2SF 0)) as [[| |]|]; congruence.
Qed.

Lemma signConvention_intro (t : Transaction.t) :
  Transaction.type t = (if (Transaction.amount t <? 0)%float then DEBIT else CREDIT) ->
  Spec.signConvention t.
Proof.
  intros Htype. split.
  - rewrite Htype. destruct (Transaction.amount t <? 0)%float; split; congruence.
  - intros Hz. rewrite Htype, (eqb_zero_not_ltb _ Hz). reflexivity.
Qed.

Lemma parseTransaction_type (host : Host.t) (filename accountId : option string)
  (e : DOM.node) (t : Transaction.t) :
  QfxParser.parseTransaction host filename accountId e = inl t ->
  Transaction.type t = (if (Transaction.amount t <? 0)%float then DEBIT else CREDIT)
  /\ isNaN (Transaction.amount t) = false
  /\ Transaction.source t = QFX.
Proof.
  unfold QfxParser.parseTransaction.
  destruct (QfxParser.parseOFXDate _ _); [|discriminate].
  destruct (isNaN _) eqn:E; [discriminate|].
  intros H. inversion H; subst; clear H. simpl. auto.
Qed.

Lemma In_parseTransactions (host : Host.t) (filename accountId : option string)
  (elements : list DOM.node) (t : Transaction.t) :
  In t (fst (QfxParser.parseTransactions host filename accountId elements)) <->
  exists e, In e elements /\ QfxParser.parseTransaction host filename accountId e = inl t.
Proof.
  induction elements as [|e rest IH]; simpl.
  - split; [intros []|intros [e [[] _]]].
  - destruct (QfxParser.parseTransactions host filename accountId rest) as [ts es].
    simpl in IH.
    destruct (QfxParser.parseTransaction host filename accountId e) as [t0|err] eqn:E; simpl.
    + rewrite IH. split.
      * intros [->|[e' [Hin He']]]; [exists e; auto|exists e'; auto].
      * intros [e' [[->|Hin] He']].
        -- left. congruence.
        -- right. eauto.
    + rewrite IH. split.
      * intros [e' [Hin He']]. exists e'; auto.
      * intros [e' [[->|Hin] He']]; [congruence|eauto].
Qed.

(** A transaction of the result of [parseQFX] was pushed by the loop. *)
Lemma In_parseQFX (host : Host.t) (content : string) (filename : option string)
  (t : Transaction.t) :
  In t (ParseResult.transactions (QfxParser.parseQFX host content filename)) ->
  exists accountId e, QfxParser.parseTransaction host filename accountId e = inl t.
Proof.
  unfold QfxParser.parseQFX.
  destruct (QfxParser.extractXMLFromOFX content) as [xml|]; [|intros []].
  unfold QfxParser.readMarkup.
  destruct (DOM.parseFromString host xml) as [text|doc]; [intros []|].
  destruct (DOM.documentQuerySelectorAll "parsererror" doc); [|intros []].
  destruct (DOM.documentQuerySelectorAll "STMTTRN" doc) as [|e0 es] eqn:E; [intros []|].
  match goal with
  | |- context [QfxParser.parseTransactions host filename ?a ?l] =>
      pose proof (In_parseTransactions host filename a l t) as Hin;
      destruct (QfxParser.parseTransactions host filename a l) as [ts errs]
  end.
  simpl in *. intros Ht. apply Hin in Ht. destruct Ht as [e [_ He]]. eauto.
Qed.

Lemma parseRow_amount (host : Host.t) (index : Z) (record : StringMap.t string)
  (t : Transaction.t) :
  CsvParser.parseRow host index record = inl t ->
  exists amountStr,
    StringMap.get "Amount" record = Some amountStr
    /\ isNaN (parseFloat (removeChar "," amountStr)) = false
    /\ Transaction.amount t = (- parseFloat (removeChar "," amountStr))%float
    /\ Transaction.type t = (if (Transaction.amount t <? 0)%float then DEBIT else CREDIT)
    /\ Transaction.source t = CSV.
Proof.
  unfold CsvParser.parseRow.
  destruct (CsvParser.missing (StringMap.get "Trans. Date" record)
            || CsvParser.missing (StringMap.get "Description" record)
            || CsvParser.missing (StringMap.get "Amount" record)) eqn:Hm; [discriminate|].
  apply orb_false_iff in Hm. destruct Hm as [_ Hm].
  destruct (StringMap.get "Amount" record) as [amountStr|]; [|discriminate].
  simpl Utils.orEmpty.
  destruct (CsvParser.parseCSVDate _ _); [|discriminate].
  destruct (isNaN _) eqn:E; [discriminate|].
  intros H. inversion H; subst; clear H. exists amountStr. simpl. auto.
Qed.

(** The row number matters to the error that a row gets, not to its transaction. *)
Lemma parseRow_index (host : Host.t) (i j : Z) (record : StringMap.t string)
  (t : Transaction.t) :
  CsvParser.parseRow host i record = inl t -> CsvParser.parseRow host j record = inl t.
Proof.
  unfold CsvParser.parseRow.
  destruct (_ || _); [discriminate|].
  destruct (CsvParser.parseCSVDate _ _); [|discriminate].
  destruct (isNaN _); [discriminate|]. congruence.
Qed.

Lemma In_parseRows (host : Host.t) (index : Z) (data : list (StringMap.t string))
  (t : Transaction.t) :
  In t (fst (CsvParser.parseRows host index data)) <->
  exists record, In record data /\ CsvParser.parseRow host index record = inl t.
Proof.
  revert index. induction data as [|r rest IH]; intros index; simpl.
  - split; [intros []|intros [r [[] _]]].
  - specialize (IH (index + 1)%Z).
    destruct (CsvParser.parseRows host (index + 1) rest) as [ts es]. simpl in IH.
    assert (forall r', CsvParser.parseRow host (index + 1) r' = inl t
                       <-> CsvParser.parseRow host index r' = inl t) as Hidx
      by (intros r'; split; apply parseRow_index).
    destruct (CsvParser.parseRow host index r) as [t0|err] eqn:E; simpl.
    + rewrite IH. split.
      * intros [->|[r' [Hin Hr']]]; [exists r; auto|exists r'; rewrite <- Hidx; auto].
      * intros [r' [[->|Hin] Hr']].
        -- left. congruence.
        -- right. exists r'. rewrite Hidx. auto.
    + rewrite IH. split.
      * intros [r' [Hin Hr']]. exists r'. rewrite <- Hidx. auto.
      * intros [r' [[->|Hin] Hr']]; [congruence|].
        exists r'. rewrite Hidx. auto.
Qed.

Lemma In_parseCSV (host : Host.t) (papaParse : string -> Papa.outcome) (content : string)
  (t : Transaction.t) :
  In t (ParseResult.transactions (CsvParser.parseCSV host papaParse content)) ->
  exists i record, CsvParser.parseRow host i record = inl t.
Proof.
  unfold CsvParser.parseCSV. destruct (papaParse content) as [data errs|msg]; [|intros []].
  unfold CsvParser.complete.
  pose proof (In_parseRows host 0 data t) as Hin.
  destruct (CsvParser.parseRows host 0 data) as [ts es]. simpl in *.
  intros Ht. apply Hin in Ht. destruct Ht as [r [_ Hr]]. eauto.
Qed.

(** C1. Every transaction that either parser returns has a negative
    amount if and only if its type is DEBIT; one whose amount equals zero
    has the type CREDIT. *)
Theorem parsed_sign_convention
  (host : Host.t) (papaParse : string -> Papa.outcome) (content : string)
  (filename : option string) (t : Transaction.t) :
  In t (ParseResult.transactions (QfxParser.parseQFX host content filename))
  \/ In t (ParseResult.transactions (CsvParser.parseCSV host papaParse content)) ->
  ((Transaction.amount t <? 0)%float = true <-> Transaction.type t = DEBIT)
  /\ ((Transaction.amount t =? 0)%float = true -> Transaction.type t = CREDIT).
Proof.
  intros [Hin|Hin]; apply signConvention_intro.
  - apply In_parseQFX in Hin. destruct Hin as [accountId [e He]].
    now apply parseTransaction_type in He.
  - apply In_parseCSV in Hin. destruct Hin as [i [record Hr]].
    apply parseRow_amount in Hr. destruct Hr as [amountStr [_ [_ [_ [Htype _]]]]].
    exact Htype.
Qed.

Lemma parsed_sign_convention_witness :
  exists t,
    In t (ParseResult.transactions (QfxParser.parseQFX UtcHost.host Examples.statement None))
    /\ Transaction.type t = CREDIT
    /\ ((Transaction.amount t <? 0)%float = true <-> Transaction.type t = DEBIT)
    /\ ((Transaction.amount t =? 0)%float = true -> Transaction.type t = CREDIT).
Proof.
  eexists. split; [vm_compute; right; left; reflexivity|]. split; [reflexivity|].
  apply (parsed_sign_convention UtcHost.host (fun _ => Papa.Fatal "") Examples.statement None).
  left. vm_compute. right. left. reflexivity.
Defined.

(** [removeChar] deletes every occurrence of the character and nothing else. *)
Lemma removeChar_without (c : ascii) (s : string) :
  Strings.without c (removeChar c s) = true.
Proof.
  induction s as [|x s IH]; cbn [removeChar Strings.without]; [reflexivity|].
  destruct (Ascii.eqb x c) eqn:E; [exact IH|].
  cbn [Strings.without]. now rewrite E, IH.
Qed.

Lemma removeChar_kept (c : ascii) (s : string) :
  Strings.without c s = true -> removeChar c s = s.
Proof.
  induction s as [|x s IH]; cbn [removeChar Strings.without]; [reflexivity|].
  destruct (Ascii.eqb x c); [discriminate|]. cbn [negb andb]. intros H. now rewrite IH.
Qed.

Lemma removeChar_next (c : ascii) (a b : string) :
  Strings.without c a = true -> removeChar c (a ++ String c b) = (a ++ removeChar c b)%string.
Proof.
  induction a as [|x a IH]; cbn [removeChar Strings.without append].
  - now rewrite Ascii.eqb_refl.
  - destruct (Ascii.eqb x c); [discriminate|]. cbn [negb andb]. intros H. now rewrite IH.
Qed.

(** C2. Of the rows that Papa Parse hands over, every transaction of the
    result comes from a row whose [Amount], commas removed, parses as a
    number [a], and holds [-a] with the type that the sign of [-a] gives;
    and every row with its three required fields, a date that parses and
    such an amount has its transaction in the result. The row
    [01/11/2025,01/11/2025,MERCHANT X,19.01,Restaurants] gives the amount
    -19.01 and the type DEBIT; a row with the amount [1,234.56] gives
    -1234.56 and DEBIT, and one with [-1,000.00] gives 1000 and CREDIT.
    Removing the commas leaves no comma, keeps a text without comma as it
    is, and drops a comma between the text before it and the rest. *)
Theorem csv_amount_is_negated
  (host : Host.t) (papaParse : string -> Papa.outcome) (content : string)
  (data : list (StringMap.t string)) (parseErrors : list Papa.RowError) :
  papaParse content = Papa.Complete data parseErrors ->
  (forall t,
      In t (ParseResult.transactions (CsvParser.parseCSV host papaParse content)) ->
      exists record amountStr,
        In record data
        /\ StringMap.get "Amount" record = Some amountStr
        /\ isNaN (parseFloat (removeChar "," amountStr)) = false
        /\ Transaction.amount t = (- parseFloat (removeChar "," amountStr))%float
        /\ Transaction.type t
           = if (- parseFloat (removeChar "," amountStr) <? 0)%float then DEBIT else CREDIT)
  /\ (forall record transDate description amountStr date,
         In record data ->
         StringMap.get "Trans. Date" record = Some transDate -> transDate <> "" ->
         StringMap.get "Description" record = Some description -> description <> "" ->
         StringMap.get "Amount" record = Some amountStr -> amountStr <> "" ->
         CsvParser.parseCSVDate host transDate = Some date ->
         isNaN (parseFloat (removeChar "," amountStr)) = false ->
         exists t,
           In t (ParseResult.transactions (CsvParser.parseCSV host papaParse content))
           /\ Transaction.amount t = (- parseFloat (removeChar "," amountStr))%float
           /\ Transaction.type t
              = (if (- parseFloat (removeChar "," amountStr) <? 0)%float
                 then DEBIT else CREDIT)
           /\ Transaction.date t = date
           /\ Transaction.description t = trim description)
  /\ map (fun t => (Transaction.amount t, Transaction.type t))
         (ParseResult.transactions (CsvParser.complete UtcHost.host [Examples.csvRow] []))
     = [((-19.01)%float, DEBIT)]
  /\ map (fun t => (Transaction.amount t, Transaction.type t))
         (ParseResult.transactions
            (CsvParser.complete UtcHost.host
               [Examples.csvRowThousands; Examples.csvRowRefund] []))
     = [((-1234.56)%float, DEBIT); (1000%float, CREDIT)]
  /\ (forall amountStr, Strings.without "," (removeChar "," amountStr) = true)
  /\ (forall amountStr,
         Strings.without "," amountStr = true -> removeChar "," amountStr = amountStr)
  /\ (forall before rest,
         Strings.without "," before = true ->
         removeChar "," (before ++ String "," rest) = (before ++ removeChar "," rest)%string).
Proof.
  intros Hpapa. unfold CsvParser.parseCSV. rewrite Hpapa. unfold CsvParser.complete.
  pose proof (In_parseRows host 0 data) as Hrows.
  destruct (CsvParser.parseRows host 0 data) as [ts es]. simpl in *.
  split; [|split; [|split; [vm_compute; reflexivity|]]];
    [| |split; [vm_compute; reflexivity|]; split; [apply removeChar_without|];
        split; [apply removeChar_kept|apply removeChar_next]].
  - intros t Hin. apply Hrows in Hin. destruct Hin as [record [Hin Hr]].
    apply parseRow_amount in Hr.
    destruct Hr as [amountStr [Hget [Hnan [Hamount [Htype _]]]]].
    exists record, amountStr. rewrite Hamount in Htype. auto.
  - intros record transDate description amountStr date Hin Hd Hdne Hs Hsne Ha Hane Hdate Hnan.
    eexists. split.
    + apply Hrows. exists record. split; [exact Hin|].
      unfold CsvParser.parseRow. rewrite Hd, Hs, Ha.
      destruct transDate; [contradiction|]. destruct description; [contradiction|].
      destruct amountStr; [contradiction|]. simpl CsvParser.missing. simpl Utils.orEmpty.
      cbv beta iota. rewrite Hdate. cbv zeta. rewrite Hnan. reflexivity.
    + simpl. auto.
Qed.

Lemma csv_amount_is_negated_witness :
  exists t,
    In t (ParseResult.transactions
            (CsvParser.parseCSV UtcHost.host
               (fun _ => Papa.Complete [Examples.csvRow; Examples.csvRowThousands] [])
               "the file"))
    /\ Transaction.amount t = (-1234.56)%float
    /\ Transaction.type t = DEBIT
    /\ Transaction.date t = 1736640000000%Z
    /\ Transaction.description t = "FURNITURE, INC".
Proof.
  destruct (csv_amount_is_negated UtcHost.host
              (fun _ => Papa.Complete [Examples.csvRow; Examples.csvRowThousands] [])
              "the file" [Examples.csvRow; Examples.csvRowThousands] [] eq_refl)
    as [_ [H _]].
  destruct (H Examples.csvRowThousands "01/12/2025" "FURNITURE, INC" "1,234.56"
              1736640000000%Z)
    as (t & Hin & Hamount & Htype & Hdate & Hdescription).
  - right. now left.
  - reflexivity.
  - discriminate.
  - reflexivity.
  - discriminate.
  - reflexivity.
  - discriminate.
  - vm_compute. reflexivity.
  - vm_compute. reflexivity.
  - exists t. split; [exact Hin|]. split; [rewrite Hamount; vm_compute; reflexivity|].
    split; [rewrite Htype; vm_compute; reflexivity|]. split; [exact Hdate|].
    rewrite Hdescription. vm_compute. reflexivity.
Defined.

(** ** Strings *)

Lemma append_assoc (a b c : string) : (a ++ b) ++ c = a ++ (b ++ c).
Proof. induction a as [|x a IH]; simpl; [reflexivity|now rewrite IH]. Qed.

Lemma append_nil_r (a : string) : a ++ "" = a.
Proof. induction a as [|x a IH]; simpl; [reflexivity|now rewrite IH]. Qed.

Lemma append_length (a b : string) :
  String.length (a ++ b) = String.length a + String.length b.
Proof. induction a as [|x a IH]; simpl; [reflexivity|now rewrite IH]. Qed.

Lemma splitAt_length (x : ascii) (s a b : string) :
  DOM.splitAt x s = Some (a, b) -> String.length s = S (String.length a + String.length b).
Proof.
  revert a b. induction s as [|c s IH]; intros a b; simpl; [discriminate|].
  destruct (Ascii.eqb c x).
  - intros H. inversion H; subst. reflexivity.
  - destruct (DOM.splitAt x s) as [[a' b']|]; [|discriminate].
    intros H. inversion H; subst. simpl. now rewrite (IH a' b).
Qed.

(** A name holds neither an angle bracket nor a slash. *)
Lemma nameChar_not_special (c : ascii) :
  DOM.isNameChar c = true -> Ascii.eqb c ">" = false /\ Ascii.eqb c "/" = false.
Proof.
  intros H. split.
  - destruct (Ascii.eqb_spec c ">") as [->|]; [discriminate H|reflexivity].
  - destruct (Ascii.eqb_spec c "/") as [->|]; [discriminate H|reflexivity].
Qed.

Lemma splitAt_name (n rest : string) :
  DOM.allNameChars n = true -> DOM.splitAt ">" (n ++ String ">" rest) = Some (n, rest).
Proof.
  induction n as [|c n IH]; simpl; [reflexivity|].
  intros H. apply andb_true_iff in H. destruct H as [Hc Hn].
  destruct (nameChar_not_special c Hc) as [-> _]. now rewrite (IH Hn).
Qed.

Lemma isName_allNameChars (n : string) :
  DOM.isName n = true -> DOM.allNameChars n = true.
Proof.
  destruct n as [|c n]; simpl; [discriminate|].
  intros H. apply andb_true_iff in H. destruct H as [Hc Hn].
  unfold DOM.isNameChar. now rewrite Hc, Hn.
Qed.

(** The container names are names. *)
Lemma isContainer_isName (n : string) :
  QfxParser.isContainer n = true -> DOM.isName n = true.
Proof.
  unfold QfxParser.isContainer. rewrite existsb_exists.
  intros [x [Hin Heq]]. apply String.eqb_eq in Heq. subst x.
  simpl in Hin. repeat (destruct Hin as [<-|Hin]; [reflexivity|]). contradiction.
Qed.

(** ** The loop of [convertOFXToXML] *)

Lemma convertLoop_more (fuel : nat) :
  forall sgml tagStack result,
    String.length sgml <= fuel ->
    QfxParser.convertLoop (S fuel) sgml tagStack result
    = QfxParser.convertLoop fuel sgml tagStack result.
Proof.
  induction fuel as [|fuel IH]; intros sgml tagStack result Hlen.
  - destruct sgml; [reflexivity|simpl in Hlen; lia].
  - destruct sgml as [|c rest]; [reflexivity|]. simpl in Hlen.
    change (QfxParser.convertLoop (S (S fuel)) (String c rest) tagStack result)
      with (if Ascii.eqb c "<"
            then match DOM.splitAt ">" rest with
                 | None => (tagStack, result)
                 | Some (tagContent, rest') =>
                     let '(tagStack, result) :=
                       QfxParser.processTag tagContent tagStack result in
                     QfxParser.convertLoop (S fuel) rest' tagStack result
                 end
            else QfxParser.convertLoop (S fuel) rest tagStack (result ++ String c "")).
    change (QfxParser.convertLoop (S fuel) (String c rest) tagStack result)
      with (if Ascii.eqb c "<"
            then match DOM.splitAt ">" rest with
                 | None => (tagStack, result)
                 | Some (tagContent, rest') =>
                     let '(tagStack, result) :=
                       QfxParser.processTag tagContent tagStack result in
                     QfxParser.convertLoop fuel rest' tagStack result
                 end
            else QfxParser.convertLoop fuel rest tagStack (result ++ String c "")).
    destruct (Ascii.eqb c "<").
    + destruct (DOM.splitAt ">" rest) as [[tagContent rest']|] eqn:E; [|reflexivity].
      apply splitAt_length in E.
      destruct (QfxParser.processTag tagContent tagStack result).
      apply IH. lia.
    + apply IH. lia.
Qed.

Lemma convertLoop_enough (extra : nat) :
  forall sgml tagStack result,
    QfxParser.convertLoop (String.length sgml + extra) sgml tagStack result
    = Invariants.run sgml tagStack result.
Proof.
  induction extra as [|extra IH]; intros sgml tagStack result.
  - now rewrite Nat.add_0_r.
  - rewrite Nat.add_succ_r, convertLoop_more by lia. apply IH.
Qed.

Lemma run_nil (tagStack : list string) (result : string) :
  Invariants.run "" tagStack result = (tagStack, result).
Proof. reflexivity. Qed.

Lemma run_tag (tagContent rest rest' : string) (tagStack : list string) (result : string) :
  DOM.splitAt ">" rest = Some (tagContent, rest') ->
  Invariants.run (String "<" rest) tagStack result
  = Invariants.run rest' (fst (QfxParser.processTag tagContent tagStack result))
      (snd (QfxParser.processTag tagContent tagStack result)).
Proof.
  intros E. unfold Invariants.run at 1. simpl. rewrite E.
  destruct (QfxParser.processTag tagContent tagStack result) as [st r]. simpl.
  apply splitAt_length in E.
  replace (String.length rest)
    with (String.length rest' + S (String.length tagContent)) by lia.
  apply convertLoop_enough.
Qed.

Lemma run_text (text rest : string) (tagStack : list string) (result : string) :
  TagSoup.plainText text = true ->
  Invariants.run (text ++ rest) tagStack result
  = Invariants.run rest tagStack (result ++ text).
Proof.
  revert result. induction text as [|c text IH]; intros result; simpl.
  - now rewrite append_nil_r.
  - intros H. apply andb_true_iff in H. destruct H as [H Htext].
    apply andb_true_iff in H. destruct H as [_ H]. apply negb_true_iff in H.
    apply orb_false_iff in H. destruct H as [H _].
    apply orb_false_iff in H. destruct H as [H _].
    apply orb_false_iff in H. destruct H as [Hlt _].
    unfold Invariants.run at 1. simpl. rewrite Hlt.
    fold (Invariants.run (text ++ rest) tagStack (result ++ String c "")).
    rewrite IH by assumption. rewrite append_assoc. reflexivity.
Qed.

(** ** Induction on fragments *)

Lemma fragment_induction (P : TagSoup.fragment -> Prop) :
  (forall name value, P (TagSoup.Leaf name value)) ->
  (forall name lead children trail,
      Forall P children -> P (TagSoup.Container name lead children trail)) ->
  forall f, P f.
Proof.
  intros Hleaf Hcontainer.
  fix IH 1. intros [name value|name lead children trail].
  - apply Hleaf.
  - apply Hcontainer. induction children as [|c cs IHcs]; constructor.
    + apply IH.
    + exact IHcs.
Qed.

(** ** The repair of tag soup *)

Section Repair.
Import QfxParser TagSoup Invariants.

Lemma endTags_one (m : string) : endTags [m] = endTag m.
Proof. unfold endTags. cbn [fold_right]. apply append_nil_r. Qed.

Lemma openElement_closes_leaf (name : string) (p tagStack : list string) (result : string) :
  openLeaf p -> settled tagStack ->
  openElement name (p ++ tagStack) result
  = (name :: tagStack, result ++ endTags p ++ startTag name).
Proof.
  intros [->|[m [-> Hm]]] Hs; unfold openElement.
  - simpl. destruct tagStack as [|top rest]; [reflexivity|]. simpl in Hs. now rewrite Hs.
  - rewrite endTags_one. cbn [app]. rewrite Hm. cbn [negb].
    now rewrite append_assoc.
Qed.

Lemma closeUntil_container (name : string) (p tagStack : list string) (result : string) :
  openLeaf p -> isContainer name = true ->
  closeUntil name (p ++ name :: tagStack) result
  = (tagStack, result ++ endTags p ++ endTag name).
Proof.
  intros [->|[m [-> Hm]]] Hn.
  - simpl. now rewrite Hn, String.eqb_refl.
  - rewrite endTags_one. cbn [app closeUntil]. rewrite Hm, Hn, String.eqb_refl.
    cbn [negb]. destruct (String.eqb_spec m name) as [->|_]; [congruence|].
    now rewrite append_assoc.
Qed.

Lemma processTag_open (name : string) (tagStack : list string) (result : string) :
  DOM.isName name = true ->
  processTag name tagStack result = openElement name tagStack result.
Proof.
  destruct name as [|c name]; [reflexivity|]. simpl. intros H.
  apply andb_true_iff in H. destruct H as [Hc _].
  assert (DOM.isNameChar c = true) as Hn by (unfold DOM.isNameChar; now rewrite Hc).
  destruct (nameChar_not_special c Hn) as [_ ->]. reflexivity.
Qed.

(** The loop on a start tag. *)
Lemma run_startTag (name rest : string) (p tagStack : list string) (result : string) :
  DOM.isName name = true -> openLeaf p -> settled tagStack ->
  run (startTag name ++ rest) (p ++ tagStack) result
  = run rest (name :: tagStack) (result ++ endTags p ++ startTag name).
Proof.
  intros Hname Hp Hs. unfold startTag. simpl. rewrite append_assoc. simpl.
  rewrite (run_tag name _ rest) by (apply splitAt_name; now apply isName_allNameChars).
  now rewrite processTag_open, openElement_closes_leaf.
Qed.

(** The loop on the end tag of a container. *)
Lemma run_endTag (name rest : string) (p tagStack : list string) (result : string) :
  isContainer name = true -> openLeaf p ->
  run (endTag name ++ rest) (p ++ name :: tagStack) result
  = run rest tagStack (result ++ endTags p ++ endTag name).
Proof.
  intros Hname Hp. unfold endTag. simpl. rewrite append_assoc. simpl.
  rewrite (run_tag (String "/" name) _ rest).
  - simpl. now rewrite closeUntil_container.
  - simpl. rewrite splitAt_name; [reflexivity|].
    now apply isName_allNameChars, isContainer_isName.
Qed.

Lemma openLeaf_pending (f : fragment) : wellFormed f = true -> openLeaf (pending f).
Proof.
  destruct f as [name value|name lead children trail]; simpl; intros H.
  - right. exists name. split; [reflexivity|].
    apply andb_true_iff in H. destruct H as [H _].
    apply andb_true_iff in H. destruct H as [_ H]. now apply negb_true_iff in H.
  - now left.
Qed.

Lemma openLeaf_pendingAfter (p : list string) (fs : list fragment) :
  openLeaf p -> forallb wellFormed fs = true -> openLeaf (pendingAfter p fs).
Proof.
  revert p. induction fs as [|f fs IH]; intros p Hp Hwf; simpl; [assumption|].
  simpl in Hwf. apply andb_true_iff in Hwf. destruct Hwf as [Hf Hfs].
  apply IH; [now apply openLeaf_pending|assumption].
Qed.

(** The end tags that are still due make the row of closed fragments. *)
Lemma writtenAll_closed (p : list string) (fs : list fragment) :
  writtenAll p fs ++ endTags (pendingAfter p fs)
  = endTags p ++ fold_right (fun c rest => closed c ++ rest) "" fs.
Proof.
  revert p. induction fs as [|f fs IH]; intros p; cbn [writtenAll pendingAfter fold_right].
  - now rewrite append_nil_r.
  - rewrite !append_assoc, IH. f_equal.
    destruct f as [name value|name lead children trail].
    + cbn [written pending closed]. now rewrite endTags_one, !append_assoc.
    + reflexivity.
Qed.

Lemma repaired_row (fs : list fragment) :
  Forall repaired fs ->
  forall p rest tagStack result,
    forallb wellFormed fs = true -> openLeaf p -> settled tagStack ->
    run (fold_right (fun c rest => soup c ++ rest) "" fs ++ rest) (p ++ tagStack) result
    = run rest (pendingAfter p fs ++ tagStack) (result ++ writtenAll p fs).
Proof.
  induction 1 as [|f fs Hf _ IH]; intros p rest tagStack result Hwf Hp Hs; simpl.
  - now rewrite append_nil_r.
  - simpl in Hwf. apply andb_true_iff in Hwf. destruct Hwf as [Hwf Hwfs].
    rewrite append_assoc, Hf by assumption.
    rewrite IH by (try assumption; now apply openLeaf_pending).
    now rewrite !append_assoc.
Qed.

Lemma repaired_all (f : fragment) : repaired f.
Proof.
  induction f as [name value|name lead children trail IH] using fragment_induction;
    intros p rest tagStack result Hwf Hp Hs; simpl in Hwf.
  - apply andb_true_iff in Hwf. destruct Hwf as [Hwf Hvalue].
    apply andb_true_iff in Hwf. destruct Hwf as [Hname _].
    cbn [soup pending written]. rewrite append_assoc, run_startTag, run_text by assumption.
    now rewrite !append_assoc.
  - apply andb_true_iff in Hwf. destruct Hwf as [Hwf Hchildren].
    apply andb_true_iff in Hwf. destruct Hwf as [Hwf Htrail].
    apply andb_true_iff in Hwf. destruct Hwf as [Hname Hlead].
    cbn [soup pending written closed]. rewrite !append_assoc.
    rewrite run_startTag by (try assumption; now apply isContainer_isName).
    rewrite run_text by assumption.
    change (name :: tagStack) with ([] ++ name :: tagStack)%list.
    rewrite (repaired_row children IH [] _ (name :: tagStack));
      [|assumption|now left|exact Hname].
    rewrite run_endTag;
      [|assumption|apply openLeaf_pendingAfter; [now left|assumption]].
    rewrite run_text by assumption.
    change ([] ++ tagStack)%list with tagStack. f_equal.
    rewrite !append_assoc. do 4 f_equal.
    rewrite <- (append_assoc (writtenAll [] children)), writtenAll_closed.
    reflexivity.
Qed.

(** The repaired markup of a fragment is its closed form. *)
Lemma convertOFXToXML_soup (f : fragment) :
  wellFormed f = true -> convertOFXToXML (soup f) = closed f.
Proof.
  intros Hwf. unfold convertOFXToXML.
  fold (run (soup f) [] "").
  pose proof (repaired_all f [] "" [] "" Hwf (or_introl eq_refl) I) as H.
  rewrite append_nil_r in H. simpl in H. rewrite H, run_nil, app_nil_r.
  destruct f as [name value|name lead children trail]; simpl.
  - now rewrite !append_assoc.
  - reflexivity.
Qed.

End Repair.

(** ** The loop of [parseXML] *)

Lemma spanText_length (s a b : string) :
  DOM.spanText s = (a, b) -> String.length s = String.length a + String.length b.
Proof.
  revert a b. induction s as [|c s IH]; intros a b; simpl.
  - intros H. inversion H. reflexivity.
  - destruct (Ascii.eqb c "<").
    + intros H. inversion H. reflexivity.
    + destruct (DOM.spanText s) as [a' b']. intros H. inversion H; subst.
      simpl. now rewrite (IH a' b).
Qed.

Lemma parseLoop_step (fuel : nat) (c : ascii) (rest : string) (stack : list DOM.frame)
  (root : option DOM.node) :
  DOM.parseLoop (S fuel) (String c rest) stack root
  = if Ascii.eqb c "<"
    then match DOM.splitAt ">" rest with
         | None => None
         | Some (content, rest') =>
             match DOM.tag content stack root with
             | Some (stack', root') => DOM.parseLoop fuel rest' stack' root'
             | None => None
             end
         end
    else let '(text, rest') := DOM.spanText (String c rest) in
         match DOM.characters text stack root with
         | Some (stack', root') => DOM.parseLoop fuel rest' stack' root'
         | None => None
         end.
Proof. reflexivity. Qed.

Lemma parseLoop_more (fuel : nat) :
  forall xml stack root,
    String.length xml < fuel ->
    DOM.parseLoop (S fuel) xml stack root = DOM.parseLoop fuel xml stack root.
Proof.
  induction fuel as [|fuel IH]; intros xml stack root Hlen; [lia|].
  destruct xml as [|c rest]; [reflexivity|]. simpl in Hlen.
  rewrite (parseLoop_step (S fuel)), (parseLoop_step fuel).
  destruct (Ascii.eqb c "<") eqn:Ec.
  - destruct (DOM.splitAt ">" rest) as [[content rest']|] eqn:E; [|reflexivity].
    apply splitAt_length in E.
    destruct (DOM.tag content stack root) as [[stack' root']|]; [|reflexivity].
    apply IH. lia.
  - destruct (DOM.spanText (String c rest)) as [text rest'] eqn:E.
    assert (String.length rest' <= String.length rest) as Hle.
    { simpl in E. rewrite Ec in E. destruct (DOM.spanText rest) as [a b] eqn:E'.
      inversion E; subst. apply spanText_length in E'. lia. }
    destruct (DOM.characters text stack root) as [[stack' root']|]; [|reflexivity].
    apply IH. lia.
Qed.

Lemma parseLoop_enough (extra : nat) :
  forall xml stack root,
    DOM.parseLoop (S (String.length xml) + extra) xml stack root
    = Invariants.parse xml stack root.
Proof.
  induction extra as [|extra IH]; intros xml stack root.
  - now rewrite Nat.add_0_r.
  - rewrite Nat.add_succ_r, parseLoop_more by lia. apply IH.
Qed.

Lemma parse_tag (content rest rest' : string) (stack : list DOM.frame)
  (root : option DOM.node) :
  DOM.splitAt ">" rest = Some (content, rest') ->
  Invariants.parse (String "<" rest) stack root
  = match DOM.tag content stack root with
    | Some (stack', root') => Invariants.parse rest' stack' root'
    | None => None
    end.
Proof.
  intros E. unfold Invariants.parse at 1. rewrite parseLoop_step. simpl Ascii.eqb.
  cbv iota. rewrite E.
  destruct (DOM.tag content stack root) as [[stack' root']|]; [|reflexivity].
  apply splitAt_length in E.
  cbn [String.length].
  replace (S (String.length rest))
    with (S (String.length rest') + S (String.length content)) by lia.
  apply parseLoop_enough.
Qed.

Lemma startsWith_cons (a b : ascii) (p s : string) :
  startsWith (String a p) (String b s) = Ascii.eqb a b && startsWith p s.
Proof. unfold startsWith. cbn [stripPrefix]. now destruct (Ascii.eqb a b). Qed.

Lemma plainText_charData (text : string) :
  TagSoup.plainText text = true -> DOM.charData 0 text = Some text.
Proof.
  induction text as [|c text IH]; simpl; [reflexivity|].
  intros H. apply andb_true_iff in H. destruct H as [H Htext].
  apply andb_true_iff in H. destruct H as [Hchar H]. apply negb_true_iff in H.
  apply orb_false_iff in H. destruct H as [H Hcr].
  apply orb_false_iff in H. destruct H as [H Hamp].
  apply orb_false_iff in H. destruct H as [Hlt Hgt].
  rewrite Hamp.
  assert (Ascii.eqb c "]" && startsWith "]>" text = false) as ->.
  { destruct (Ascii.eqb c "]"); [|reflexivity]. rewrite andb_true_l.
    destruct text as [|d text]; [reflexivity|]. rewrite startsWith_cons.
    destruct (Ascii.eqb_spec "]" d) as [<-|]; [|reflexivity]. rewrite andb_true_l.
    destruct text as [|e text]; [reflexivity|]. rewrite startsWith_cons.
    destruct (Ascii.eqb_spec ">" e) as [<-|]; [|reflexivity].
    simpl in Htext. discriminate Htext. }
  assert ((code c =? 13)%nat = false) as ->.
  { destruct (Nat.eqb_spec (code c) 13) as [E|]; [|reflexivity].
    assert (c = ascii_of_nat 13) as ->
      by (rewrite <- E; unfold code; now rewrite ascii_nat_embedding).
    discriminate Hcr. }
  rewrite Hchar, (IH Htext). reflexivity.
Qed.

Lemma plainText_spanText (text rest : string) :
  TagSoup.plainText text = true -> Invariants.atTag rest ->
  DOM.spanText (text ++ rest) = (text, rest).
Proof.
  intros Htext Hrest. induction text as [|c text IH]; simpl.
  - destruct rest as [|d rest]; [reflexivity|]. simpl in Hrest. subst d. reflexivity.
  - simpl in Htext. apply andb_true_iff in Htext. destruct Htext as [H Htext].
    apply andb_true_iff in H. destruct H as [_ H]. apply negb_true_iff in H.
    apply orb_false_iff in H. destruct H as [H _].
    apply orb_false_iff in H. destruct H as [H _].
    apply orb_false_iff in H. destruct H as [-> _].
    now rewrite (IH Htext).
Qed.

(** The parser on plain text below an element. *)
Lemma parse_plainText (text rest : string) (fr : DOM.frame) (stack : list DOM.frame)
  (root : option DOM.node) :
  TagSoup.plainText text = true -> Invariants.atTag rest ->
  Invariants.parse (text ++ rest) (fr :: stack) root
  = Invariants.parse rest (Invariants.addChildren (TagSoup.textNode text) (fr :: stack)) root.
Proof.
  intros Htext Hrest. destruct text as [|c text]; [reflexivity|].
  pose proof (plainText_spanText _ _ Htext Hrest) as Hspan.
  pose proof (plainText_charData _ Htext) as Hdata.
  assert (Ascii.eqb c "<" = false) as Hc.
  { simpl in Htext. apply andb_true_iff in Htext. destruct Htext as [H _].
    apply andb_true_iff in H. destruct H as [_ H]. apply negb_true_iff in H.
    apply orb_false_iff in H. destruct H as [H _].
    apply orb_false_iff in H. destruct H as [H _].
    apply orb_false_iff in H. now destruct H as [-> _]. }
  unfold Invariants.parse at 1.
  change (String c text ++ rest) with (String c (text ++ rest)) at 2.
  rewrite parseLoop_step.
  change (String c (text ++ rest)) with (String c text ++ rest).
  rewrite Hc, Hspan. unfold DOM.characters. rewrite Hdata.
  rewrite append_length.
  replace (String.length (String c text) + String.length rest)
    with (S (String.length rest) + String.length text) by (simpl; lia).
  rewrite parseLoop_enough. reflexivity.
Qed.

Lemma nameChar_not_space (c : ascii) : DOM.isNameChar c = true -> DOM.isSpace c = false.
Proof.
  intros H. destruct c as [[] [] [] [] [] [] [] []]; try reflexivity; discriminate H.
Qed.

Lemma allNameChars_trimEndSpace (n : string) :
  DOM.allNameChars n = true -> DOM.trimEndSpace n = n.
Proof.
  induction n as [|c n IH]; [reflexivity|].
  cbn [DOM.allNameChars DOM.trimEndSpace]. intros H.
  apply andb_true_iff in H. destruct H as [Hc Hn]. rewrite (IH Hn).
  destruct n; [|reflexivity]. now rewrite (nameChar_not_space c Hc).
Qed.

Section Parsing.
Import TagSoup Invariants.

Lemma addChildren_frame (ns : list DOM.node) (name : string) (kids : list DOM.node)
  (stack : list DOM.frame) :
  addChildren ns ((name, kids) :: stack) = (name, rev ns ++ kids)%list :: stack.
Proof.
  revert kids. unfold addChildren. induction ns as [|n ns IH]; intros kids; simpl.
  - reflexivity.
  - rewrite IH. now rewrite <- app_assoc.
Qed.

(** The parser on a start tag, below an element or where the document
    element is still to come. *)
Lemma parse_startTag (name rest : string) (stack : list DOM.frame) (root : option DOM.node) :
  DOM.isName name = true -> stack <> [] \/ root = None ->
  parse (QfxParser.startTag name ++ rest) stack root = parse rest ((name, []) :: stack) root.
Proof.
  intros Hname Hroom. unfold QfxParser.startTag.
  change (("<" ++ name ++ ">") ++ rest) with (String "<" ((name ++ ">") ++ rest)).
  rewrite append_assoc.
  pose proof (isName_allNameChars _ Hname) as Hall.
  rewrite (parse_tag name _ rest) by (now apply splitAt_name).
  assert (DOM.tag name stack root = Some ((name, []) :: stack, root)) as ->; [|reflexivity].
  destruct name as [|c name]; [discriminate Hname|]. unfold DOM.tag.
  assert (Ascii.eqb c "/" = false) as ->.
  { cbn [DOM.allNameChars] in Hall. apply andb_true_iff in Hall.
    now apply nameChar_not_special. }
  rewrite (allNameChars_trimEndSpace _ Hall), Hname.
  destruct stack as [|fr stack]; [|reflexivity].
  destruct Hroom as [H| ->]; [contradiction|reflexivity].
Qed.

(** The parser on the end tag of the element that is open. *)
Lemma parse_endTag (name rest : string) (kids : list DOM.node) (stack : list DOM.frame)
  (root : option DOM.node) :
  DOM.isName name = true ->
  parse (QfxParser.endTag name ++ rest) ((name, kids) :: stack) root
  = match stack with
    | [] => parse rest [] (Some (DOM.Element name (rev kids)))
    | _ :: _ => parse rest (DOM.addChild (DOM.Element name (rev kids)) stack) root
    end.
Proof.
  intros Hname. unfold QfxParser.endTag.
  change (("</" ++ name ++ ">") ++ rest) with (String "<" ((String "/" name ++ ">") ++ rest)).
  rewrite append_assoc.
  pose proof (isName_allNameChars _ Hname) as Hall.
  rewrite (parse_tag (String "/" name) _ rest)
    by (cbn [append DOM.splitAt]; change (Ascii.eqb "/" ">") with false; cbv iota;
        now rewrite splitAt_name).
  unfold DOM.tag. change (Ascii.eqb "/" "/") with true. cbv iota.
  rewrite (allNameChars_trimEndSpace _ Hall), String.eqb_refl.
  destruct stack; reflexivity.
Qed.

(** The closed form of a row of fragments starts with a tag, when what
    follows it does. *)
Lemma atTag_closed (f : fragment) (rest : string) : atTag (closed f ++ rest).
Proof. destruct f; reflexivity. Qed.

Lemma atTag_row (fs : list fragment) (rest : string) :
  atTag rest -> atTag (fold_right (fun c r => closed c ++ r) "" fs ++ rest).
Proof.
  destruct fs as [|f fs]; [trivial|]. intros _. cbn [fold_right].
  rewrite append_assoc. apply atTag_closed.
Qed.

Lemma parsed_row (fs : list fragment) :
  Forall parsed fs ->
  forall rest name kids stack root,
    forallb wellFormed fs = true -> atTag rest ->
    parse (fold_right (fun c r => closed c ++ r) "" fs ++ rest) ((name, kids) :: stack) root
    = parse rest
        ((name, rev (flat_map (fun c => element c :: textNode (after c)) fs) ++ kids)%list
           :: stack) root.
Proof.
  induction 1 as [|f fs Hf _ IH]; intros rest name kids stack root Hwf Hrest.
  - reflexivity.
  - cbn [forallb] in Hwf. apply andb_true_iff in Hwf. destruct Hwf as [Hwf Hwfs].
    cbn [fold_right flat_map]. rewrite append_assoc.
    rewrite Hf by (try assumption; now apply atTag_row).
    rewrite IH by assumption.
    do 3 f_equal. rewrite rev_app_distr, <- app_assoc. reflexivity.
Qed.

Lemma wellFormed_name (f : fragment) :
  wellFormed f = true ->
  match f with
  | Leaf name _ => DOM.isName name = true
  | Container name _ _ _ => DOM.isName name = true
  end.
Proof.
  destruct f as [name value|name lead children trail]; cbn [wellFormed]; intros H.
  - apply andb_true_iff in H. destruct H as [H _].
    apply andb_true_iff in H. now destruct H.
  - apply andb_true_iff in H. destruct H as [H _].
    apply andb_true_iff in H. destruct H as [H _].
    apply andb_true_iff in H. destruct H as [H _]. now apply isContainer_isName.
Qed.

Lemma parsed_all (f : fragment) : parsed f.
Proof.
  induction f as [name value|name lead children trail IH] using fragment_induction;
    intros rest outer kids stack root Hwf Hrest;
    pose proof (wellFormed_name _ Hwf) as Hname; cbn [wellFormed] in Hwf.
  - apply andb_true_iff in Hwf. destruct Hwf as [_ Hvalue].
    cbn [closed element after textNode]. rewrite !append_assoc.
    rewrite parse_startTag by (try assumption; left; discriminate).
    rewrite parse_plainText by (try assumption; reflexivity).
    rewrite addChildren_frame, parse_endTag by assumption.
    cbn [DOM.addChild]. rewrite app_nil_r, rev_involutive. reflexivity.
  - apply andb_true_iff in Hwf. destruct Hwf as [Hwf Hchildren].
    apply andb_true_iff in Hwf. destruct Hwf as [Hwf Htrail].
    apply andb_true_iff in Hwf. destruct Hwf as [_ Hlead].
    cbn [closed element after]. rewrite !append_assoc.
    rewrite parse_startTag by (try assumption; left; discriminate).
    rewrite parse_plainText
      by (try assumption; apply atTag_row; reflexivity).
    rewrite addChildren_frame.
    rewrite (parsed_row children IH) by (try assumption; reflexivity).
    rewrite parse_endTag by assumption.
    cbn [DOM.addChild]. rewrite parse_plainText by assumption.
    rewrite addChildren_frame. do 3 f_equal.
    rewrite app_nil_r, rev_app_distr, !rev_involutive.
    cbn [rev]. now rewrite <- app_assoc.
Qed.

Lemma parse_space (text : string) (root : option DOM.node) :
  plainText text = true -> DOM.allSpace text = true -> parse text [] root = root.
Proof.
  intros Htext Hspace. destruct text as [|c text]; [reflexivity|].
  pose proof (plainText_spanText _ "" Htext I) as Hspan. rewrite append_nil_r in Hspan.
  pose proof (plainText_charData _ Htext) as Hdata.
  unfold parse. rewrite parseLoop_step.
  assert (Ascii.eqb c "<" = false) as ->.
  { cbn [plainText] in Htext. apply andb_true_iff in Htext. destruct Htext as [H _].
    apply andb_true_iff in H. destruct H as [_ H]. apply negb_true_iff in H.
    apply orb_false_iff in H. destruct H as [H _].
    apply orb_false_iff in H. destruct H as [H _].
    apply orb_false_iff in H. now destruct H. }
  rewrite Hspan. unfold DOM.characters. rewrite Hdata, Hspace. reflexivity.
Qed.

(** The closed form of a fragment parses, and to the element of the fragment. *)
Lemma parseXML_closed (f : fragment) :
  wellFormed f = true -> DOM.allSpace (after f) = true ->
  DOM.parseXML (closed f) = Some (element f).
Proof.
  intros Hwf Hspace. change (DOM.parseXML (closed f)) with (parse (closed f) [] None).
  pose proof (wellFormed_name _ Hwf) as Hname.
  destruct f as [name value|name lead children trail]; cbn [wellFormed] in Hwf.
  - apply andb_true_iff in Hwf. destruct Hwf as [_ Hvalue].
    cbn [closed element].
    rewrite parse_startTag by (try assumption; now right).
    rewrite parse_plainText by (try assumption; reflexivity).
    rewrite addChildren_frame.
    rewrite <- (append_nil_r (QfxParser.endTag name)), parse_endTag by assumption.
    rewrite app_nil_r, rev_involutive. reflexivity.
  - apply andb_true_iff in Hwf. destruct Hwf as [Hwf Hchildren].
    apply andb_true_iff in Hwf. destruct Hwf as [Hwf Htrail].
    apply andb_true_iff in Hwf. destruct Hwf as [_ Hlead].
    cbn [closed element after] in *.
    rewrite parse_startTag by (try assumption; now right).
    rewrite parse_plainText by (try assumption; apply atTag_row; reflexivity).
    rewrite addChildren_frame.
    rewrite (parsed_row children (proj2 (Forall_forall _ _) (fun x _ => parsed_all x)))
      by (try assumption; reflexivity).
    rewrite parse_endTag by assumption.
    rewrite parse_space by assumption.
    rewrite app_nil_r, rev_app_distr, !rev_involutive. reflexivity.
Qed.

End Parsing.

(** ** The round trip *)

(** The repair of tag soup. For every fragment made of containers with
    the known container names and of leaves, nested at will, a leaf followed
    by a sibling leaf included, the repaired markup is the fragment with
    every leaf closed where its text ends, at the next tag; it parses as
    well-formed markup, to the element tree of the fragment, in which the
    text of a leaf is all the text up to the next tag. *)
Theorem tag_soup_round_trip (f : TagSoup.fragment) :
  TagSoup.wellFormed f = true ->
  DOM.allSpace (TagSoup.after f) = true ->
  QfxParser.convertOFXToXML (TagSoup.soup f) = TagSoup.closed f
  /\ DOM.parseXML (QfxParser.convertOFXToXML (TagSoup.soup f)) = Some (TagSoup.element f)
  /\ DOM.parseXML (TagSoup.closed f) = Some (TagSoup.element f).
Proof.
  intros Hwf Hspace.
  pose proof (convertOFXToXML_soup f Hwf) as Hrepair.
  pose proof (parseXML_closed f Hwf Hspace) as Hparse.
  rewrite Hrepair. auto.
Qed.

Lemma tag_soup_round_trip_witness :
  TagSoup.wellFormed Examples.payroll = true
  /\ DOM.allSpace (TagSoup.after Examples.payroll) = true
  /\ QfxParser.convertOFXToXML (TagSoup.soup Examples.payroll)
     = TagSoup.closed Examples.payroll
  /\ DOM.parseXML (QfxParser.convertOFXToXML (TagSoup.soup Examples.payroll))
     = Some (TagSoup.element Examples.payroll)
  /\ map (fun t => (Transaction.description t, Transaction.amount t, Transaction.memo t))
       (ParseResult.transactions
          (QfxParser.parseQFX UtcHost.host (TagSoup.soup Examples.payroll) None))
     = [("PAYROLL", 250%float, Some "January")].
Proof.
  split; [reflexivity|]. split; [reflexivity|].
  destruct (tag_soup_round_trip Examples.payroll eq_refl eq_refl) as [H1 [H2 _]].
  split; [exact H1|]. split; [exact H2|]. vm_compute. reflexivity.
Defined.

(** C3. The claim has the parser read from the repaired tag soup the
    fields that it reads from the equivalent fragment with every element
    closed. The converter closes a leaf at the next tag, so that in a file
    with a tag a line the line feed belongs to the value: the parser reads
    the description MERCHANT X with a line feed at its end, and likewise
    the transaction id and the memo, where the fragment closed by hand
    holds MERCHANT X; the same statement without line feeds gives the
    fields without them, and another id. The fragment closed by hand, given
    to [parseQFX] itself, is rejected. *)
Theorem line_feeds_end_up_in_the_fields :
  map (fun t => (Transaction.description t, Transaction.transactionId t, Transaction.memo t,
                 Transaction.id t))
    (ParseResult.transactions
       (QfxParser.parseQFX UtcHost.host (Examples.purchaseSoup Examples.newline) None))
  = [("MERCHANT X" ++ Examples.newline, Some ("202501110001" ++ Examples.newline),
      Some ("Lunch" ++ Examples.newline), "axq09r")]
  /\ map (fun t => (Transaction.description t, Transaction.transactionId t, Transaction.memo t,
                    Transaction.id t))
       (ParseResult.transactions
          (QfxParser.parseQFX UtcHost.host (Examples.purchaseSoup "") None))
     = [("MERCHANT X", Some "202501110001", Some "Lunch", "9inff9")]
  /\ option_map (fun document =>
                   (option_map DOM.textContent (DOM.querySelector "NAME" document),
                    option_map DOM.textContent (DOM.querySelector "FITID" document),
                    option_map DOM.textContent (DOM.querySelector "MEMO" document)))
       (DOM.parseXML Examples.purchaseClosed)
     = Some (Some "MERCHANT X", Some "202501110001", Some "Lunch")
  /\ QfxParser.parseQFX UtcHost.host Examples.purchaseClosed None
     = ParseResult.mk []
         [ParseError.mk None None
            "Error parsing QFX file: Error: Failed to parse OFX XML: XML Parsing Error" error].
Proof. repeat split; vm_compute; reflexivity. Qed.

(** A leaf that comes with its end tag is closed twice: the end tag pops
    the leaf and writes its end tag as for any leaf above the tag looked
    for, then writes it again as the tag looked for. The markup does not
    parse. *)
Lemma explicit_leaf_end_tag_is_doubled :
  QfxParser.convertOFXToXML "<OFX><STMTTRN><NAME>X</NAME></STMTTRN></OFX>"
  = "<OFX><STMTTRN><NAME>X</NAME></NAME></STMTTRN></OFX>"
  /\ DOM.parseXML
       (QfxParser.convertOFXToXML "<OFX><STMTTRN><NAME>X</NAME></STMTTRN></OFX>") = None.
Proof. split; vm_compute; reflexivity. Qed.

(** * Further properties *)

Local Open Scope string_scope.

(** ** File names and identifiers *)

Lemma substring_length (n m : nat) (s : string) :
  String.length (substring n m s) = Nat.min m (String.length s - n).
Proof.
  revert n m. induction s as [|c s IH]; intros n m.
  - destruct n, m; reflexivity.
  - destruct n as [|n].
    + destruct m as [|m]; [reflexivity|]. cbn [substring String.length].
      rewrite IH. rewrite !Nat.sub_0_r. reflexivity.
    + cbn [substring String.length]. rewrite IH. reflexivity.
Qed.



Lemma toInt32_range (z : Z) : (- 2 ^ 31 <= Utils.toInt32 z < 2 ^ 31)%Z.
Proof.
  unfold Utils.toInt32.
  pose proof (Z.mod_pos_bound (z + 2 ^ 31) (2 ^ 32) ltac:(lia)). lia.
Qed.

Lemma hashLoop_range (key : string) :
  forall hash, (- 2 ^ 31 <= hash < 2 ^ 31)%Z ->
               (- 2 ^ 31 <= Utils.hashLoop hash key < 2 ^ 31)%Z.
Proof.
  induction key as [|c key IH]; intros hash H; cbn [Utils.hashLoop]; [exact H|].
  apply IH. unfold Utils.hashStep. apply toInt32_range.
Qed.

Lemma digitChar_base36 (d : Z) :
  (0 <= d < 36)%Z -> Shapes.isBase36 (Utils.digitChar d) = true.
Proof.
  intros H. assert (E : d = Z.of_nat (Z.to_nat d)) by lia.
  assert (L : Z.to_nat d < 36) by lia.
  rewrite E. generalize dependent (Z.to_nat d). intros n _ L.
  do 36 (destruct n as [|n]; [reflexivity|]). lia.
Qed.

Lemma digitsIn_base36 (fuel : nat) :
  forall n acc, (0 <= n)%Z -> Shapes.allBase36 acc = true ->
                Shapes.allBase36 (Utils.digitsIn 36 fuel n acc) = true.
Proof.
  induction fuel as [|fuel IH]; intros n acc Hn Hacc; cbn [Utils.digitsIn]; [exact Hacc|].
  assert (Hacc' : Shapes.allBase36 (String (Utils.digitChar (n mod 36)) acc) = true).
  { cbn [Shapes.allBase36]. rewrite Hacc, digitChar_base36; [reflexivity|].
    apply Z.mod_pos_bound. lia. }
  destruct (n <? 36)%Z; [exact Hacc'|].
  apply IH; [|exact Hacc']. apply Z.div_pos; lia.
Qed.

Lemma digitsIn_length (fuel : nat) :
  forall n acc k, (0 <= n < 36 ^ Z.of_nat (S k))%Z ->
                  String.length (Utils.digitsIn 36 fuel n acc) <= String.length acc + S k.
Proof.
  induction fuel as [|fuel IH]; intros n acc k Hn; cbn [Utils.digitsIn]; [lia|].
  destruct (Z.ltb_spec n 36) as [Hlt|Hge]; [cbn [String.length]; lia|].
  destruct k as [|k].
  - change (36 ^ Z.of_nat 1)%Z with 36%Z in Hn. lia.
  - specialize (IH (n / 36)%Z (String (Utils.digitChar (n mod 36)) acc) k).
    cbn [String.length] in IH.
    assert (0 <= n / 36 < 36 ^ Z.of_nat (S k))%Z.
    { split; [apply Z.div_pos; lia|].
      apply Z.div_lt_upper_bound; [lia|].
      replace (Z.of_nat (S (S k))) with (Z.succ (Z.of_nat (S k))) in Hn by lia.
      rewrite Z.pow_succ_r in Hn by lia. lia. }
    specialize (IH H). lia.
Qed.

Lemma digitsIn_nonempty (fuel : nat) (n : Z) (acc : string) :
  1 <= String.length (Utils.digitsIn 36 (S fuel) n acc).
Proof.
  cbn [Utils.digitsIn].
  assert (G : forall f m a, 1 <= String.length a ->
                            1 <= String.length (Utils.digitsIn 36 f m a)).
  { induction f as [|f IH]; intros m a Ha; cbn [Utils.digitsIn]; [exact Ha|].
    destruct (m <? 36)%Z; [cbn [String.length]; lia|].
    apply IH. cbn [String.length]. lia. }
  destruct (n <? 36)%Z; [cbn [String.length]; lia|].
  apply G. cbn [String.length]. lia.
Qed.

Lemma simpleHash_shape (key : string) :
  1 <= String.length (Utils.simpleHash key) <= 6
  /\ Shapes.allBase36 (Utils.simpleHash key) = true.
Proof.
  unfold Utils.simpleHash, Utils.toStringRadix.
  pose proof (hashLoop_range key 0%Z ltac:(lia)) as R.
  set (n := Z.abs (Utils.hashLoop 0 key)) in *.
  assert (Hn : (0 <= n < 36 ^ Z.of_nat 6)%Z).
  { change (36 ^ Z.of_nat 6)%Z with 2176782336%Z.
    change (2 ^ 31)%Z with 2147483648%Z in R. lia. }
  repeat split.
  - apply digitsIn_nonempty.
  - pose proof (digitsIn_length (S (Z.to_nat (Z.log2 n))) n "" 5 Hn) as L.
    cbn [String.length] in L. lia.
  - apply digitsIn_base36; [lia|reflexivity].
Qed.

Lemma hex_shape (bytes : list Byte.byte) :
  String.length (Utils.hex bytes) = 2 * List.length bytes
  /\ Shapes.allBase36 (Utils.hex bytes) = true.
Proof.
  induction bytes as [|b bytes [IH1 IH2]]; [split; reflexivity|].
  cbn [Utils.hex fold_right String.length List.length Shapes.allBase36].
  fold (Utils.hex bytes). split; [lia|].
  rewrite IH2.
  pose proof (Byte.to_N_bounded b) as Hb.
  assert (Hn : (0 <= Z.of_N (Byte.to_N b) < 256)%Z) by lia.
  rewrite !digitChar_base36; [reflexivity| |].
  - pose proof (Z.mod_pos_bound (Z.of_N (Byte.to_N b)) 16 ltac:(lia)). lia.
  - split; [apply Z.div_pos; lia|].
    apply Z.lt_trans with 16%Z; [apply Z.div_lt_upper_bound; lia|lia].
Qed.

(** X2. A transaction id is written in digits and lower-case letters. On
    a platform without [crypto.subtle] it has between 1 and 6 characters,
    as the signature of [generateTransactionSignatureSync] has on every
    platform; with [crypto.subtle] it has two characters for every byte of
    the digest. *)
Theorem transaction_ids_are_short_base36_words
  (host : Host.t) (date : Date) (amount : Number) (description : string)
  (accountId : option string) :
  let id := Utils.generateTransactionId host date amount description accountId in
  let signature := Signatures.generateTransactionSignatureSync host date amount description in
  Shapes.allBase36 id = true
  /\ match Host.subtleDigest host with
     | None => 1 <= String.length id <= 6
     | Some digest =>
         String.length id
         = 2 * List.length
                 (digest (Utils.utf8
                            (Utils.transactionKey host date amount description accountId)))
     end
  /\ Shapes.allBase36 signature = true
  /\ 1 <= String.length signature <= 6.
Proof.
  cbv zeta. unfold Utils.generateTransactionId, Signatures.generateTransactionSignatureSync.
  destruct (Host.subtleDigest host) as [digest|].
  - destruct (hex_shape
                (digest (Utils.utf8
                           (Utils.transactionKey host date amount description accountId))))
      as [L B].
    destruct (simpleHash_shape (Signatures.signatureKey host date amount description))
      as [L' B'].
    repeat split; try assumption; lia.
  - destruct (simpleHash_shape
                (Utils.transactionKey host date amount description accountId)) as [L B].
    destruct (simpleHash_shape (Signatures.signatureKey host date amount description))
      as [L' B'].
    repeat split; try assumption; lia.
Qed.

(** ** The engine *)

Section EngineFacts.
Variable host : Host.t.
Variable description : string.

Let m := Matching.matches host description.

Lemma firstMatch_find (items : list CategorizationEngine.PatternMatch) :
  CategorizationEngine.firstMatch host description items
  = option_map CategorizationEngine.categoryId (find m items).
Proof.
  induction items as [|item items IH]; [reflexivity|].
  cbn [CategorizationEngine.firstMatch find]. subst m. unfold Matching.matches.
  destruct (Host.regExpTest host (CategorizationEngine.pattern item) description)
    as [[|]|]; [reflexivity|exact IH|exact IH].
Qed.

Lemma firstMatch_none (items : list CategorizationEngine.PatternMatch) :
  CategorizationEngine.firstMatch host description items = None
  <-> forall item, In item items -> m item = false.
Proof.
  rewrite firstMatch_find. split.
  - intros H. destruct (find m items) eqn:E; [discriminate|]. now apply find_none.
  - intros H. destruct (find m items) as [x|] eqn:E; [|reflexivity].
    apply find_some in E. destruct E as [Hin Hm]. rewrite (H x Hin) in Hm. discriminate.
Qed.

Variable rank : CategorizationEngine.PatternMatch -> Z.

Let le (a b : CategorizationEngine.PatternMatch) : Prop := (rank a <= rank b)%Z.

Lemma insertSorted_ranked (x : CategorizationEngine.PatternMatch)
  (l : list CategorizationEngine.PatternMatch) :
  Matching.ranked rank (x :: l) ->
  Sorted.StronglySorted le l ->
  Sorted.StronglySorted le (insertSorted CategorizationEngine.byPriority x l)
  /\ find m (insertSorted CategorizationEngine.byPriority x l)
     = match find m l with
       | Some y => if (rank y <? rank x)%Z then Some y else if m x then Some x else Some y
       | None => if m x then Some x else None
       end.
Proof.
  intros R S. induction S as [|y l S IH F].
  - cbn [insertSorted find]. split; [repeat constructor|reflexivity].
  - cbn [insertSorted]. rewrite (R y x) by (simpl; auto).
    destruct (Z.ltb_spec (rank y) (rank x)) as [Hlt|Hge].
    + assert (R' : Matching.ranked rank (x :: l)).
      { intros a b Ha Hb. apply R; simpl in *; tauto. }
      destruct (IH R') as [IS IF]. split.
      * constructor; [exact IS|].
        apply Forall_forall. intros z Hz.
        apply (Permutation_in _ (insertSorted_perm _ x l)) in Hz.
        destruct Hz as [<-|Hz]; [subst le; simpl; lia|].
        rewrite Forall_forall in F. now apply F.
      * cbn [find]. destruct (m y) eqn:My.
        -- destruct (Z.ltb_spec (rank y) (rank x)); [reflexivity|lia].
        -- exact IF.
    + split.
      * constructor; [now constructor|].
        constructor; [exact Hge|].
        rewrite Forall_forall in F |- *. intros z Hz. specialize (F z Hz).
        subst le. simpl in *. lia.
      * cbn [find]. destruct (m x); [|].
        -- destruct (m y) eqn:My.
           ++ destruct (Z.ltb_spec (rank y) (rank x)); [lia|reflexivity].
           ++ destruct (find m l) as [z|] eqn:Ez; [|reflexivity].
              apply find_some in Ez. destruct Ez as [Hz _].
              rewrite Forall_forall in F. specialize (F z Hz). subst le. simpl in F.
              destruct (Z.ltb_spec (rank z) (rank x)); [lia|reflexivity].
        -- destruct (m y) eqn:My.
           ++ destruct (Z.ltb_spec (rank y) (rank x)); [lia|reflexivity].
           ++ destruct (find m l) as [z|] eqn:Ez; [|reflexivity].
              apply find_some in Ez. destruct Ez as [Hz _].
              rewrite Forall_forall in F. specialize (F z Hz). subst le. simpl in F.
              destruct (Z.ltb_spec (rank z) (rank x)); [lia|reflexivity].
Qed.

(** The first match of the sorted array is the match of least rank, and
    among the matches of that rank the one that was collected first. *)
Lemma sort_find_least (l : list CategorizationEngine.PatternMatch) :
  Matching.ranked rank l ->
  Sorted.StronglySorted le (sort CategorizationEngine.byPriority l)
  /\ match find m (sort CategorizationEngine.byPriority l) with
     | None => forall o, In o l -> m o = false
     | Some item =>
         exists before after,
           l = (before ++ item :: after)%list /\ m item = true
           /\ (forall o, In o before -> m o = true -> (rank item < rank o)%Z)
           /\ (forall o, In o after -> m o = true -> (rank item <= rank o)%Z)
     end.
Proof.
  induction l as [|x l IH]; intros R.
  - split; [constructor|]. cbn. intros o [].
  - assert (R' : Matching.ranked rank l).
    { intros a b Ha Hb. apply R; simpl; auto. }
    destruct (IH R') as [S C]. clear IH.
    assert (Rx : Matching.ranked rank (x :: sort CategorizationEngine.byPriority l)).
    { intros a b Ha Hb. apply R.
      - destruct Ha as [<-|Ha]; [now left|right]. now apply sort_In in Ha.
      - destruct Hb as [<-|Hb]; [now left|right]. now apply sort_In in Hb. }
    change (sort CategorizationEngine.byPriority (x :: l))
      with (insertSorted CategorizationEngine.byPriority x
              (sort CategorizationEngine.byPriority l)).
    destruct (insertSorted_ranked x _ Rx S) as [S' F']. split; [exact S'|].
    rewrite F'. clear F' S'.
    destruct (find m (sort CategorizationEngine.byPriority l)) as [y|] eqn:Ey.
    + destruct C as (before & after & El & My & Hb & Ha).
      destruct (Z.ltb_spec (rank y) (rank x)) as [Hlt|Hge].
      * exists (x :: before), after. subst l. repeat split; auto.
        intros o [<-|Ho] Hm; [exact Hlt|now apply Hb].
      * destruct (m x) eqn:Mx.
        -- exists [], l. repeat split; auto.
           ++ intros o [].
           ++ intros o Ho Hm. subst l. apply in_app_or in Ho.
              destruct Ho as [Ho|[<-|Ho]].
              ** specialize (Hb o Ho Hm). lia.
              ** exact Hge.
              ** specialize (Ha o Ho Hm). lia.
        -- exists (x :: before), after. subst l. repeat split; auto.
           intros o [<-|Ho] Hm; [congruence|now apply Hb].
    + destruct (m x) eqn:Mx.
      * exists [], l. repeat split; auto.
        -- intros o [].
        -- intros o Ho Hm. rewrite (C o Ho) in Hm. discriminate.
      * intros o [<-|Ho]; [exact Mx|now apply C].
Qed.

End EngineFacts.

Lemma In_allPatterns (engine : CategorizationEngine.t)
  (item : CategorizationEngine.PatternMatch) :
  In item (CategorizationEngine.allPatterns engine) <->
  exists category pattern,
    In category (CategorizationEngine.categories engine)
    /\ In pattern (Category.patterns category)
    /\ CategoryPattern.enabled pattern = true
    /\ item = CategorizationEngine.mkMatch (Category.id category)
                (CategoryPattern.priority pattern) (CategoryPattern.pattern pattern).
Proof.
  unfold CategorizationEngine.allPatterns. rewrite in_flat_map. split.
  - intros (category & Hc & Hi). apply in_map_iff in Hi.
    destruct Hi as (pattern & <- & Hp). apply filter_In in Hp.
    exists category, pattern. tauto.
  - intros (category & pattern & Hc & Hp & He & ->).
    exists category. split; [exact Hc|]. apply in_map_iff.
    exists pattern. split; [reflexivity|]. now apply filter_In.
Qed.

Lemma In_legacyMatches (engine : CategorizationEngine.t)
  (item : CategorizationEngine.PatternMatch) :
  In item (CategorizationEngine.legacyMatches engine) <->
  exists rule,
    In rule (CategorizationEngine.rules engine)
    /\ CategorizationRule.enabled rule = true
    /\ item = CategorizationEngine.mkMatch (CategorizationRule.categoryId rule)
                (CategorizationRule.priority rule) (CategorizationRule.pattern rule).
Proof.
  unfold CategorizationEngine.legacyMatches. rewrite in_map_iff. split.
  - intros (rule & <- & Hr). apply filter_In in Hr. exists rule. tauto.
  - intros (rule & Hr & He & ->). exists rule. split; [reflexivity|]. now apply filter_In.
Qed.

Lemma categorize_unmapped (host : Host.t) (engine : CategorizationEngine.t)
  (transaction : Transaction.t) :
  CategorizationEngine.categorize host engine transaction
  = match Matching.mapped engine transaction with
    | Some c => Some c
    | None =>
        match CategorizationEngine.firstMatch host (Transaction.description transaction)
                (sort CategorizationEngine.byPriority
                   (CategorizationEngine.allPatterns engine)) with
        | Some c => Some c
        | None =>
            CategorizationEngine.firstMatch host (Transaction.description transaction)
              (CategorizationEngine.legacyMatches engine)
        end
    end.
Proof.
  unfold CategorizationEngine.categorize, Matching.mapped.
  destruct (StringMap.get (Transaction.description transaction)
              (CategorizationEngine.descriptionMappings engine)) as [[|c s]|]; reflexivity.
Qed.

(** X3. [categorize] returns the category that the description mappings
    give to the description, when they give one that is not the empty
    string, whatever the patterns are; and it returns [undefined] exactly
    when there is no such mapping, no enabled pattern of a category matches
    the description and no enabled legacy rule does. *)
Theorem categorize_undefined_iff_nothing_matches
  (host : Host.t) (engine : CategorizationEngine.t) (transaction : Transaction.t) :
  (forall c, Matching.mapped engine transaction = Some c ->
             CategorizationEngine.categorize host engine transaction = Some c)
  /\ (CategorizationEngine.categorize host engine transaction = None
      <-> Matching.mapped engine transaction = None
          /\ (forall category pattern,
                 In category (CategorizationEngine.categories engine) ->
                 In pattern (Category.patterns category) ->
                 CategoryPattern.enabled pattern = true ->
                 Host.regExpTest host (CategoryPattern.pattern pattern)
                   (Transaction.description transaction) <> Some true)
          /\ (forall rule,
                 In rule (CategorizationEngine.rules engine) ->
                 CategorizationRule.enabled rule = true ->
                 Host.regExpTest host (CategorizationRule.pattern rule)
                   (Transaction.description transaction) <> Some true)).
Proof.
  rewrite categorize_unmapped. split.
  - intros c ->. reflexivity.
  - destruct (Matching.mapped engine transaction) as [c|].
    + split; [discriminate|]. intros [H _]. discriminate.
    + assert (N : forall item,
                 Matching.matches host (Transaction.description transaction) item = false
                 <-> Host.regExpTest host (CategorizationEngine.pattern item)
                       (Transaction.description transaction) <> Some true).
      { intros item. unfold Matching.matches.
        destruct (Host.regExpTest host (CategorizationEngine.pattern item)
                    (Transaction.description transaction)) as [[|]|];
          split; congruence. }
      destruct (CategorizationEngine.firstMatch host (Transaction.description transaction)
                  (sort CategorizationEngine.byPriority
                     (CategorizationEngine.allPatterns engine))) as [c|] eqn:E1.
      * split; [discriminate|]. intros (_ & H & _).
        assert (E : CategorizationEngine.firstMatch host
                      (Transaction.description transaction)
                      (sort CategorizationEngine.byPriority
                         (CategorizationEngine.allPatterns engine)) = None).
        { apply firstMatch_none. intros item Hi. apply sort_In in Hi.
          apply In_allPatterns in Hi. destruct Hi as (category & pattern & Hc & Hp & He & ->).
          apply N. cbn. now apply (H category pattern). }
        congruence.
      * rewrite firstMatch_none in E1 |- *. split.
        -- intros E2. split; [reflexivity|]. split.
           ++ intros category pattern Hc Hp He.
              specialize (E1 (CategorizationEngine.mkMatch (Category.id category)
                                (CategoryPattern.priority pattern)
                                (CategoryPattern.pattern pattern))).
              rewrite N in E1. apply E1. apply sort_In. apply In_allPatterns.
              now exists category, pattern.
           ++ intros rule Hr He.
              specialize (E2 (CategorizationEngine.mkMatch (CategorizationRule.categoryId rule)
                                (CategorizationRule.priority rule)
                                (CategorizationRule.pattern rule))).
              rewrite N in E2. apply E2. apply In_legacyMatches. now exists rule.
        -- intros (_ & _ & H) item Hi. apply In_legacyMatches in Hi.
           destruct Hi as (rule & Hr & He & ->). apply N. cbn. now apply H.
Qed.

(** X4. When no description mapping applies and an enabled pattern of a
    category matches, [categorize] returns the category of the matching
    pattern with the least priority number and, among the matching
    patterns with that number, of the one collected first (categories in
    their order, the patterns of a category in theirs); the legacy rules
    are not looked at. The priorities are such that the comparator of the
    sort is consistent: it orders the patterns as integers [rank] are
    ordered. *)
Theorem category_pattern_of_least_priority_wins
  (host : Host.t) (engine : CategorizationEngine.t) (transaction : Transaction.t)
  (rank : CategorizationEngine.PatternMatch -> Z) :
  Matching.ranked rank (CategorizationEngine.allPatterns engine) ->
  Matching.mapped engine transaction = None ->
  (exists item,
      In item (CategorizationEngine.allPatterns engine)
      /\ Matching.matches host (Transaction.description transaction) item = true) ->
  exists before item after,
    CategorizationEngine.allPatterns engine = (before ++ item :: after)%list
    /\ Matching.matches host (Transaction.description transaction) item = true
    /\ (forall o, In o before ->
                  Matching.matches host (Transaction.description transaction) o = true ->
                  (rank item < rank o)%Z)
    /\ (forall o, In o after ->
                  Matching.matches host (Transaction.description transaction) o = true ->
                  (rank item <= rank o)%Z)
    /\ CategorizationEngine.categorize host engine transaction
       = Some (CategorizationEngine.categoryId item).
Proof.
  intros R M (witness & Hin & Hm).
  destruct (sort_find_least host (Transaction.description transaction) rank _ R) as [_ C].
  rewrite categorize_unmapped, M, firstMatch_find.
  destruct (find (Matching.matches host (Transaction.description transaction))
              (sort CategorizationEngine.byPriority (CategorizationEngine.allPatterns engine)))
    as [item|].
  - destruct C as (before & after & E & Mi & Hb & Ha).
    exists before, item, after. repeat split; assumption.
  - rewrite (C witness Hin) in Hm. discriminate.
Qed.

Lemma category_pattern_of_least_priority_wins_witness :
  Matching.ranked Samples.patternRank (CategorizationEngine.allPatterns Samples.patternEngine)
  /\ Matching.mapped Samples.patternEngine (Examples.purchase "SUPERMARKET CAFE") = None
  /\ CategorizationEngine.categorize UtcHost.host Samples.patternEngine
       (Examples.purchase "SUPERMARKET CAFE") = Some "restaurants"
  /\ exists before item after,
       CategorizationEngine.allPatterns Samples.patternEngine = (before ++ item :: after)%list
       /\ CategorizationEngine.categorize UtcHost.host Samples.patternEngine
            (Examples.purchase "SUPERMARKET CAFE")
          = Some (CategorizationEngine.categoryId item).
Proof.
  assert (R : Matching.ranked Samples.patternRank
                (CategorizationEngine.allPatterns Samples.patternEngine)).
  { intros a b [<-|[<-|[<-|[]]]] [<-|[<-|[<-|[]]]]; vm_compute; reflexivity. }
  split; [exact R|]. split; [reflexivity|]. split; [vm_compute; reflexivity|].
  destruct (category_pattern_of_least_priority_wins UtcHost.host Samples.patternEngine
              (Examples.purchase "SUPERMARKET CAFE") Samples.patternRank R eq_refl)
    as (before & item & after & E & _ & _ & _ & C).
  - eexists. split; [left; reflexivity|vm_compute; reflexivity].
  - exists before, item, after. split; assumption.
Defined.

(** X5. [batchCategorize] is idempotent: a second pass over the same
    array leaves every transaction object as the first pass left it. *)
Theorem batchCategorize_twice_is_once
  (host : Host.t) (engine : CategorizationEngine.t) (transactions : list nat) (store : Store) :
  CategorizationEngine.batchCategorize host engine transactions
    (CategorizationEngine.batchCategorize host engine transactions store)
  = CategorizationEngine.batchCategorize host engine transactions store.
Proof.
  apply nth_error_ext. intros ref.
  rewrite !nth_error_batchCategorize.
  destruct (existsb (Nat.eqb ref) transactions); [|reflexivity].
  destruct (nth_error store ref) as [t|]; [|reflexivity].
  cbn [option_map]. now rewrite visited_again.
Qed.

Lemma In_objects (store : Store) (transactions : list nat) (t : Transaction.t) :
  In t (AnalyticsCalculator.objects store transactions)
  <-> exists ref, In ref transactions /\ nth_error store ref = Some t.
Proof.
  unfold AnalyticsCalculator.objects. rewrite in_flat_map. split.
  - intros (ref & Hr & Hi). exists ref. split; [exact Hr|].
    destruct (nth_error store ref) as [o|]; [|destruct Hi].
    destruct Hi as [<-|[]]. reflexivity.
  - intros (ref & Hr & E). exists ref. split; [exact Hr|]. rewrite E. now left.
Qed.

(** X6. After [batchCategorize], a transaction of the array that
    [getUncategorizedTransactions] still returns is not excluded, and it
    is one that was flagged as manually categorized without a category, or
    one for which [categorize] returns [undefined] or the empty string. *)
Theorem uncategorized_after_batchCategorize
  (host : Host.t) (engine : CategorizationEngine.t) (transactions : list nat) (store : Store)
  (t : Transaction.t) :
  In t (CategorizationQueries.getUncategorizedTransactions
          (AnalyticsCalculator.objects
             (CategorizationEngine.batchCategorize host engine transactions store)
             transactions)) ->
  Transaction.isExcluded t = false
  /\ (Transaction.isManuallyCategorized t = true
      \/ CategorizationEngine.categorize host engine t = None
      \/ CategorizationEngine.categorize host engine t = Some "").
Proof.
  unfold CategorizationQueries.getUncategorizedTransactions.
  rewrite filter_In, In_objects. intros [(ref & Hr & E) H].
  apply andb_prop in H. destruct H as [Hn He].
  split; [now destruct (Transaction.isExcluded t)|].
  rewrite nth_error_batchCategorize in E.
  assert (X : existsb (Nat.eqb ref) transactions = true).
  { apply existsb_exists. exists ref. split; [exact Hr|apply Nat.eqb_refl]. }
  rewrite X in E. destruct (nth_error store ref) as [b|]; [|discriminate].
  cbn [option_map] in E. inversion E as [E']. clear E.
  unfold Invariants.visited, Invariants.eligible in *.
  destruct (Transaction.isManuallyCategorized b) eqn:Mb; cbn [negb andb] in *.
  - left. exact Mb.
  - destruct (CategorizationEngine.noCategory b) eqn:Nb.
    + right. rewrite categorize_setCategoryId.
      rewrite <- E' in Hn. unfold CategorizationEngine.noCategory in Hn. cbn in Hn.
      destruct (CategorizationEngine.categorize host engine b) as [[|c s]|];
        [now right|discriminate|now left].
    + rewrite <- E' in Hn. congruence.
Qed.

Lemma uncategorized_after_batchCategorize_witness :
  In (Examples.purchase "RENT")
     (CategorizationQueries.getUncategorizedTransactions
        (AnalyticsCalculator.objects
           (CategorizationEngine.batchCategorize UtcHost.host Examples.legacyEngine [0; 1]
              [Examples.purchase "SUPERMARKET CAFE"; Examples.purchase "RENT"])
           [0; 1]))
  /\ Transaction.isExcluded (Examples.purchase "RENT") = false
  /\ (Transaction.isManuallyCategorized (Examples.purchase "RENT") = true
      \/ CategorizationEngine.categorize UtcHost.host Examples.legacyEngine
           (Examples.purchase "RENT") = None
      \/ CategorizationEngine.categorize UtcHost.host Examples.legacyEngine
           (Examples.purchase "RENT") = Some "").
Proof.
  assert (H : In (Examples.purchase "RENT")
                (CategorizationQueries.getUncategorizedTransactions
                   (AnalyticsCalculator.objects
                      (CategorizationEngine.batchCategorize UtcHost.host Examples.legacyEngine
                         [0; 1]
                         [Examples.purchase "SUPERMARKET CAFE"; Examples.purchase "RENT"])
                      [0; 1]))).
  { vm_compute. left. reflexivity. }
  split; [exact H|].
  exact (uncategorized_after_batchCategorize UtcHost.host Examples.legacyEngine [0; 1]
           [Examples.purchase "SUPERMARKET CAFE"; Examples.purchase "RENT"]
           (Examples.purchase "RENT") H).
Defined.

Lemma escapeRegExp_injective (a b : string) :
  CategorizationEngine.escapeRegExp a = CategorizationEngine.escapeRegExp b -> a = b.
Proof.
  revert b. induction a as [|x a IH]; intros [|y b] H; cbn [CategorizationEngine.escapeRegExp] in H.
  - reflexivity.
  - destruct (CategorizationEngine.isRegExpSpecial y); discriminate.
  - destruct (CategorizationEngine.isRegExpSpecial x); discriminate.
  - destruct (CategorizationEngine.isRegExpSpecial x) eqn:Sx,
             (CategorizationEngine.isRegExpSpecial y) eqn:Sy.
    + inversion H. f_equal. now apply IH.
    + inversion H as [[Hy Hr]]. rewrite <- Hy in Sy. discriminate.
    + inversion H as [[Hx Hr]]. rewrite Hx in Sx. discriminate.
    + inversion H. f_equal. now apply IH.
Qed.

Lemma escapeRegExp_length (a : string) :
  String.length (CategorizationEngine.escapeRegExp a) <= 2 * String.length a.
Proof.
  induction a as [|x a IH]; [cbn; lia|].
  cbn [CategorizationEngine.escapeRegExp].
  destruct (CategorizationEngine.isRegExpSpecial x); cbn [String.length]; lia.
Qed.

(** X7. The rules that [learnFromManualCategorization] builds for two
    transactions have the same pattern exactly when the descriptions of
    the two have the same merchant key, the one that [normalizeMerchant]
    computes for the repeated expenses; the pattern has at most 60
    characters. *)
Theorem learned_pattern_follows_merchant_key
  (host host' : Host.t) (t t' : Transaction.t) (categoryId categoryId' : string) :
  (CategorizationRule.pattern
     (CategorizationEngine.learnFromManualCategorization host t categoryId)
   = CategorizationRule.pattern
       (CategorizationEngine.learnFromManualCategorization host' t' categoryId')
   <-> AnalyticsCalculator.normalizeMerchant (Transaction.description t)
       = AnalyticsCalculator.normalizeMerchant (Transaction.description t'))
  /\ String.length
       (CategorizationRule.pattern
          (CategorizationEngine.learnFromManualCategorization host t categoryId)) <= 60.
Proof.
  cbn [CategorizationEngine.learnFromManualCategorization CategorizationRule.pattern].
  unfold CategorizationEngine.extractMerchantPattern. split.
  - split; [apply escapeRegExp_injective|now intros ->].
  - pose proof (escapeRegExp_length
                  (AnalyticsCalculator.normalizeMerchant (Transaction.description t))) as L.
    unfold AnalyticsCalculator.normalizeMerchant in *.
    rewrite substring_length in L. lia.
Qed.

(** ** The QFX parser *)

Lemma suffixFrom_none_includes (needle content : string) :
  QfxParser.suffixFrom needle content = None <-> Strings.includes needle content = false.
Proof.
  induction content as [|c content IH].
  - cbn [QfxParser.suffixFrom Strings.includes]. unfold startsWith.
    destruct (stripPrefix needle ""); cbn; split; congruence.
  - cbn [QfxParser.suffixFrom Strings.includes]. unfold startsWith.
    destruct (stripPrefix needle (String c content)); cbn [orb].
    + split; discriminate.
    + exact IH.
Qed.

Lemma suffixFrom_header (header body : string) :
  Strings.without "<" header = true ->
  startsWith "<OFX>" body = true ->
  QfxParser.suffixFrom "<OFX>" (header ++ body) = Some body.
Proof.
  intros H B. induction header as [|c header IH].
  - cbn [append]. unfold startsWith in B.
    destruct body as [|b body]; cbn [QfxParser.suffixFrom].
    + cbn in B. discriminate.
    + destruct (stripPrefix "<OFX>" (String b body)); [reflexivity|discriminate].
  - cbn [Strings.without] in H. apply andb_prop in H. destruct H as [Hc H].
    cbn [append QfxParser.suffixFrom stripPrefix].
    rewrite Ascii.eqb_sym. apply negb_true_iff in Hc. rewrite Hc. now apply IH.
Qed.

(** X8. What precedes the [<OFX>] tag is ignored: a statement parses the
    same with and without a header that holds no [<]. *)
Theorem parseQFX_skips_the_header
  (host : Host.t) (header body : string) (filename : option string) :
  Strings.without "<" header = true ->
  startsWith "<OFX>" body = true ->
  QfxParser.parseQFX host (header ++ body) filename = QfxParser.parseQFX host body filename.
Proof.
  intros H B. unfold QfxParser.parseQFX, QfxParser.extractXMLFromOFX.
  rewrite (suffixFrom_header header body H B).
  pose proof (suffixFrom_header "" body eq_refl B) as S.
  cbn [append] in S. now rewrite S.
Qed.

Lemma parseQFX_skips_the_header_witness :
  Strings.without "<" ("OFXHEADER:100" ++ Examples.newline ++ "DATA:OFXSGML" ++ Examples.newline)
  = true
  /\ startsWith "<OFX>" (TagSoup.soup Examples.payroll) = true
  /\ QfxParser.parseQFX UtcHost.host
       (("OFXHEADER:100" ++ Examples.newline ++ "DATA:OFXSGML" ++ Examples.newline)
        ++ TagSoup.soup Examples.payroll) None
     = QfxParser.parseQFX UtcHost.host (TagSoup.soup Examples.payroll) None
  /\ map Transaction.description
       (ParseResult.transactions
          (QfxParser.parseQFX UtcHost.host (TagSoup.soup Examples.payroll) None))
     = ["PAYROLL"].
Proof.
  split; [reflexivity|]. split; [reflexivity|]. split.
  - exact (parseQFX_skips_the_header UtcHost.host
             ("OFXHEADER:100" ++ Examples.newline ++ "DATA:OFXSGML" ++ Examples.newline)
             (TagSoup.soup Examples.payroll) None eq_refl eq_refl).
  - vm_compute. reflexivity.
Defined.

Lemma parseTransactions_length (host : Host.t) (filename accountId : option string)
  (elements : list DOM.node) :
  List.length (fst (QfxParser.parseTransactions host filename accountId elements))
  + List.length (snd (QfxParser.parseTransactions host filename accountId elements))
  = List.length elements.
Proof.
  induction elements as [|e elements IH]; [reflexivity|].
  cbn [QfxParser.parseTransactions].
  destruct (QfxParser.parseTransactions host filename accountId elements) as [ts es].
  cbn [fst snd] in IH.
  destruct (QfxParser.parseTransaction host filename accountId e);
    cbn [fst snd List.length]; lia.
Qed.

Lemma parseQFX_not_silent (host : Host.t) (content : string) (filename : option string) :
  ParseResult.transactions (QfxParser.parseQFX host content filename) <> []
  \/ ParseResult.errors (QfxParser.parseQFX host content filename) <> [].
Proof.
  unfold QfxParser.parseQFX, QfxParser.extractXMLFromOFX.
  destruct (QfxParser.suffixFrom "<OFX>" content) as [sgml|]; cbn [option_map];
    [|right; discriminate].
  unfold QfxParser.readMarkup.
  destruct (DOM.parseFromString host (QfxParser.convertOFXToXML sgml)) as [text|xmlDoc];
    [right; discriminate|].
  destruct (DOM.documentQuerySelectorAll "parsererror" xmlDoc); [|right; discriminate].
  destruct (DOM.documentQuerySelectorAll "STMTTRN" xmlDoc) as [|e es];
    [right; discriminate|].
  destruct (QfxParser.parseTransactions host filename _ (e :: es)) as [[|t ts] errors];
    cbn [ParseResult.transactions ParseResult.errors].
  - right. intros E. apply app_eq_nil in E. destruct E as [_ E]. discriminate.
  - left. discriminate.
Qed.

(** X9. [parseQFX] never fails silently: a result without transactions
    carries an error or a warning. A file without the text [<OFX>] gives
    the one error of the exception that [extractXMLFromOFX] throws. *)
Theorem parseQFX_reports_what_it_drops
  (host : Host.t) (content : string) (filename : option string) :
  (ParseResult.transactions (QfxParser.parseQFX host content filename) <> []
   \/ ParseResult.errors (QfxParser.parseQFX host content filename) <> [])
  /\ (Strings.includes "<OFX>" content = false ->
      QfxParser.parseQFX host content filename
      = ParseResult.mk []
          [ParseError.mk None None
             "Error parsing QFX file: Error: Invalid OFX file: <OFX> tag not found" error]).
Proof.
  split; [apply parseQFX_not_silent|].
  unfold QfxParser.parseQFX, QfxParser.extractXMLFromOFX.
  intros I. apply suffixFrom_none_includes in I. rewrite I. reflexivity.
Qed.

Lemma replaceEntities_nonempty (c : ascii) (s : string) :
  QfxParser.decodeHTMLEntities (String c s) <> "".
Proof.
  unfold QfxParser.decodeHTMLEntities. cbn [QfxParser.replaceEntities].
  destruct (if Ascii.eqb c "&" then QfxParser.entityAt s else None) as [m|] eqn:E;
    [|discriminate].
  assert (Hm : exists r, m = String "&" r).
  { destruct (Ascii.eqb c "&"); [|discriminate]. unfold QfxParser.entityAt in E.
    destruct (QfxParser.spanEntityChars s) as [[|x run] [|y rest]]; try discriminate.
    destruct y as [[] [] [] [] [] [] [] []]; try discriminate.
    inversion E. eexists. reflexivity. }
  destruct Hm as [r ->].
  destruct (StringMap.get (String "&" r) QfxParser.entities) as [[|d q]|]; discriminate.
Qed.

Lemma parseTransaction_fields (host : Host.t) (filename accountId : option string)
  (e : DOM.node) (t : Transaction.t) :
  QfxParser.parseTransaction host filename accountId e = inl t ->
  Transaction.accountId t = accountId
  /\ Transaction.sourceFile t
     = option_map Utils.truncateFilename (QfxParser.orUndefined filename)
  /\ Transaction.categoryId t = None
  /\ Transaction.isExcluded t = false
  /\ Transaction.isManuallyCategorized t = false
  /\ Transaction.description t <> ""
  /\ Transaction.transactionId t <> None
  /\ Transaction.id t
     = Utils.generateTransactionId host (Transaction.date t) (Transaction.amount t)
         (Transaction.description t) accountId.
Proof.
  unfold QfxParser.parseTransaction.
  destruct (QfxParser.parseOFXDate host _) as [date|]; [|discriminate].
  destruct (isNaN _); [discriminate|].
  intros H. inversion H; subst; clear H. cbn.
  repeat split; try discriminate.
  unfold QfxParser.orElse.
  destruct (QfxParser.fieldText "NAME" e) as [[|c s]|]; apply replaceEntities_nonempty.
Qed.

Lemma parseQFX_account (host : Host.t) (content : string) (filename : option string) :
  exists accountId,
    forall t, In t (ParseResult.transactions (QfxParser.parseQFX host content filename)) ->
              exists e, QfxParser.parseTransaction host filename accountId e = inl t.
Proof.
  unfold QfxParser.parseQFX.
  destruct (QfxParser.extractXMLFromOFX content) as [xml|]; [|exists None; intros t []].
  unfold QfxParser.readMarkup.
  destruct (DOM.parseFromString host xml) as [text|xmlDoc]; [exists None; intros t []|].
  destruct (DOM.documentQuerySelectorAll "parsererror" xmlDoc);
    [|exists None; intros t []].
  destruct (DOM.documentQuerySelectorAll "STMTTRN" xmlDoc) as [|e es];
    [exists None; intros t []|].
  match goal with
  | |- context [QfxParser.parseTransactions host filename ?a (e :: es)] =>
      exists a; pose proof (In_parseTransactions host filename a (e :: es)) as I;
      destruct (QfxParser.parseTransactions host filename a (e :: es)) as [ts errors]
  end.
  cbn [fst ParseResult.transactions] in *. intros t Ht.
  apply I in Ht. destruct Ht as (x & _ & Hx). now exists x.
Qed.



Lemma replaceEntities_plain (p s : string) :
  Strings.without "&" p = true ->
  QfxParser.replaceEntities 0 (p ++ s) = p ++ QfxParser.replaceEntities 0 s.
Proof.
  intros H. induction p as [|c p IH]; [reflexivity|].
  cbn [Strings.without] in H. apply andb_prop in H. destruct H as [Hc H].
  apply negb_true_iff in Hc.
  cbn [append QfxParser.replaceEntities]. rewrite Hc. now rewrite IH.
Qed.

(** X11. [decodeHTMLEntities] makes one pass from left to right: text
    without an ampersand is kept as it is, each of the five entities
    [&amp;], [&lt;], [&gt;], [&quot;] and [&#39;] becomes its character, and
    what follows is decoded on its own, so that the result of a replacement
    is not decoded again. *)
Theorem decodeHTMLEntities_is_one_pass (plain rest : string) :
  Strings.without "&" plain = true ->
  QfxParser.decodeHTMLEntities plain = plain
  /\ QfxParser.decodeHTMLEntities (plain ++ rest)
     = plain ++ QfxParser.decodeHTMLEntities rest
  /\ QfxParser.decodeHTMLEntities (plain ++ "&amp;" ++ rest)
     = plain ++ "&" ++ QfxParser.decodeHTMLEntities rest
  /\ QfxParser.decodeHTMLEntities (plain ++ "&lt;" ++ rest)
     = plain ++ "<" ++ QfxParser.decodeHTMLEntities rest
  /\ QfxParser.decodeHTMLEntities (plain ++ "&gt;" ++ rest)
     = plain ++ ">" ++ QfxParser.decodeHTMLEntities rest
  /\ QfxParser.decodeHTMLEntities (plain ++ "&quot;" ++ rest)
     = plain ++ String (ascii_of_nat 34) (QfxParser.decodeHTMLEntities rest)
  /\ QfxParser.decodeHTMLEntities (plain ++ "&#39;" ++ rest)
     = plain ++ "'" ++ QfxParser.decodeHTMLEntities rest.
Proof.
  intros H. unfold QfxParser.decodeHTMLEntities.
  split.
  - rewrite <- (append_nil_r plain) at 1. rewrite (replaceEntities_plain plain "" H).
    cbn [QfxParser.replaceEntities]. apply append_nil_r.
  - rewrite !(replaceEntities_plain plain _ H). repeat split; reflexivity.
Qed.

Lemma decodeHTMLEntities_is_one_pass_witness :
  Strings.without "&" "AT" = true
  /\ QfxParser.decodeHTMLEntities ("AT" ++ "&amp;" ++ "T &amp;lt; SONS")
     = "AT" ++ "&" ++ QfxParser.decodeHTMLEntities "T &amp;lt; SONS"
  /\ QfxParser.decodeHTMLEntities "AT&amp;T &amp;lt; SONS" = "AT&T &lt; SONS".
Proof.
  split; [reflexivity|]. split.
  - exact (proj1 (proj2 (proj2 (decodeHTMLEntities_is_one_pass "AT" "T &amp;lt; SONS"
                                  eq_refl)))).
  - vm_compute. reflexivity.
Defined.

Lemma split_head (sep : ascii) (d rest : string) :
  Strings.without sep d = true ->
  List.hd "" (split sep (d ++ rest)) = d ++ List.hd "" (split sep rest).
Proof.
  intros H. induction d as [|c d IH]; [reflexivity|].
  cbn [Strings.without] in H. apply andb_prop in H. destruct H as [Hc H].
  apply negb_true_iff in Hc. cbn [append split]. rewrite Hc.
  specialize (IH H).
  destruct (split sep (d ++ rest)) as [|p ps]; cbn [List.hd] in *; now rewrite <- IH.
Qed.

Lemma substring_append (n m : nat) (d rest : string) :
  n + m <= String.length d -> substring n m (d ++ rest) = substring n m d.
Proof.
  revert n m. induction d as [|c d IH]; intros n m H; cbn [String.length] in H.
  - assert (n = 0) by lia. assert (m = 0) by lia. subst. cbn. now destruct rest.
  - destruct n as [|n]; cbn [append substring].
    + destruct m as [|m]; [reflexivity|]. f_equal. apply IH. cbn. lia.
    + apply IH. lia.
Qed.

Lemma allDigits_without (c : ascii) (d : string) :
  isDigit c = false -> Shapes.allDigits d = true -> Strings.without c d = true.
Proof.
  intros Hc. induction d as [|x d IH]; [reflexivity|].
  cbn [Shapes.allDigits Strings.without]. intros H. apply andb_prop in H. destruct H as [Hx H].
  rewrite (IH H), andb_true_r. apply negb_true_iff.
  destruct (Ascii.eqb_spec x c); [subst; congruence|reflexivity].
Qed.

Lemma cleaned_date (day rest : string) :
  Shapes.allDigits day = true ->
  exists tail,
    List.hd "" (split "." (List.hd "" (split "[" (day ++ rest)))) = day ++ tail.
Proof.
  intros D.
  rewrite (split_head "[" day rest (allDigits_without "[" day eq_refl D)).
  rewrite (split_head "." day _ (allDigits_without "." day eq_refl D)).
  eexists. reflexivity.
Qed.

(** X12. [parseOFXDate] reads the eight digits of the day and nothing
    else: the time of day, the fraction and the zone offset that follow
    them in [DTPOSTED] do not change the date. *)
Theorem parseOFXDate_reads_the_day_only (host : Host.t) (day rest : string) :
  String.length day = 8 ->
  Shapes.allDigits day = true ->
  QfxParser.parseOFXDate host (day ++ rest) = QfxParser.parseOFXDate host day.
Proof.
  intros L D.
  destruct (cleaned_date day rest D) as [tail E].
  destruct (cleaned_date day "" D) as [tail' E']. rewrite append_nil_r in E'.
  destruct day as [|c day]; [discriminate|].
  unfold QfxParser.parseOFXDate. cbn [append] in *.
  rewrite E, E'.
  change (String c (day ++ tail)) with (String c day ++ tail).
  change (String c (day ++ tail')) with (String c day ++ tail').
  rewrite !substring_append by (rewrite L; lia). reflexivity.
Qed.

Lemma parseOFXDate_reads_the_day_only_witness :
  String.length "20250111" = 8
  /\ Shapes.allDigits "20250111" = true
  /\ QfxParser.parseOFXDate UtcHost.host ("20250111" ++ "235959.000[-8:PST]")
     = QfxParser.parseOFXDate UtcHost.host "20250111"
  /\ QfxParser.parseOFXDate UtcHost.host "20250111" = Some 1736553600000%Z.
Proof.
  split; [reflexivity|]. split; [reflexivity|]. split.
  - exact (parseOFXDate_reads_the_day_only UtcHost.host "20250111" "235959.000[-8:PST]"
             eq_refl eq_refl).
  - vm_compute. reflexivity.
Defined.

(** ** The repair of the markup *)

Lemma splitAt_append (x : ascii) (s t a b : string) :
  DOM.splitAt x s = Some (a, b) -> DOM.splitAt x (s ++ t) = Some (a, b ++ t).
Proof.
  revert a b. induction s as [|c s IH]; intros a b H; [discriminate|].
  cbn [DOM.splitAt append] in *. destruct (Ascii.eqb c x).
  - inversion H. reflexivity.
  - destruct (DOM.splitAt x s) as [[a' b']|]; [|discriminate].
    rewrite (IH a' b' eq_refl). inversion H. reflexivity.
Qed.

Lemma splitAt_without (x : ascii) (s t : string) :
  DOM.splitAt x s = None -> Strings.without x t = true -> DOM.splitAt x (s ++ t) = None.
Proof.
  intros H T. induction s as [|c s IH]; cbn [append].
  - induction t as [|y t IHt]; [reflexivity|].
    cbn [Strings.without] in T. apply andb_prop in T. destruct T as [Hy T].
    apply negb_true_iff in Hy. cbn [DOM.splitAt]. rewrite Hy, (IHt T). reflexivity.
  - cbn [DOM.splitAt] in *. destruct (Ascii.eqb c x); [discriminate|].
    destruct (DOM.splitAt x s) as [[a b]|]; [discriminate|]. now rewrite IH.
Qed.

Lemma run_char (c : ascii) (rest : string) (tagStack : list string) (result : string) :
  Ascii.eqb c "<" = false ->
  Invariants.run (String c rest) tagStack result
  = Invariants.run rest tagStack (result ++ String c "").
Proof.
  intros H. unfold Invariants.run. cbn [String.length QfxParser.convertLoop]. now rewrite H.
Qed.

Lemma run_unterminated (rest : string) (tagStack : list string) (result : string) :
  DOM.splitAt ">" rest = None ->
  Invariants.run (String "<" rest) tagStack result = (tagStack, result).
Proof.
  intros H. unfold Invariants.run. cbn [String.length QfxParser.convertLoop].
  cbn [Ascii.eqb Bool.eqb]. now rewrite H.
Qed.

Lemma run_drops_unterminated (n : nat) :
  forall s r tagStack result,
    String.length s <= n ->
    Strings.without ">" r = true ->
    Invariants.run (s ++ String "<" r) tagStack result = Invariants.run s tagStack result.
Proof.
  induction n as [|n IH]; intros s r tagStack result L R.
  - destruct s; [|cbn in L; lia]. cbn [append].
    rewrite run_unterminated; [reflexivity|].
    apply (splitAt_without ">" "" r eq_refl R).
  - destruct s as [|c s]; cbn [append].
    + rewrite run_unterminated; [reflexivity|].
      apply (splitAt_without ">" "" r eq_refl R).
    + cbn [String.length] in L. destruct (Ascii.eqb c "<") eqn:Ec.
      * apply Ascii.eqb_eq in Ec. subst c.
        destruct (DOM.splitAt ">" s) as [[content rest']|] eqn:Es.
        -- rewrite (run_tag content _ _ _ _ (splitAt_append ">" s _ _ _ Es)).
           rewrite (run_tag content _ _ _ _ Es).
           apply IH; [|exact R]. apply splitAt_length in Es. lia.
        -- rewrite run_unterminated.
           ++ now rewrite run_unterminated.
           ++ apply splitAt_without; [exact Es|].
              cbn [Strings.without]. now rewrite R.
      * rewrite !run_char by exact Ec. apply IH; [lia|exact R].
Qed.

(** X13. [convertOFXToXML] stops at a [<] that no [>] follows: that
    character and all the text after it are dropped, and the tags that are
    open there are closed. *)
Theorem convertOFXToXML_drops_an_unterminated_tag (sgml rest : string) :
  Strings.without ">" rest = true ->
  QfxParser.convertOFXToXML (sgml ++ String "<" rest) = QfxParser.convertOFXToXML sgml.
Proof.
  intros R. unfold QfxParser.convertOFXToXML.
  change (QfxParser.convertLoop (String.length (sgml ++ String "<" rest))
            (sgml ++ String "<" rest) [] "")
    with (Invariants.run (sgml ++ String "<" rest) [] "").
  change (QfxParser.convertLoop (String.length sgml) sgml [] "")
    with (Invariants.run sgml [] "").
  now rewrite (run_drops_unterminated (String.length sgml) sgml rest [] "" (le_n _) R).
Qed.

Lemma convertOFXToXML_drops_an_unterminated_tag_witness :
  Strings.without ">" "/STMTTRN" = true
  /\ QfxParser.convertOFXToXML ("<OFX><STMTTRN><NAME>X" ++ String "<" "/STMTTRN")
     = QfxParser.convertOFXToXML "<OFX><STMTTRN><NAME>X"
  /\ QfxParser.convertOFXToXML "<OFX><STMTTRN><NAME>X"
     = "<OFX><STMTTRN><NAME>X</NAME></STMTTRN></OFX>".
Proof.
  split; [reflexivity|]. split.
  - exact (convertOFXToXML_drops_an_unterminated_tag "<OFX><STMTTRN><NAME>X" "/STMTTRN"
             eq_refl).
  - vm_compute. reflexivity.
Defined.

Section Closed.
Import QfxParser TagSoup Invariants ClosedMarkup.

Lemma closeUntil_leaf (name : string) (tagStack : list string) (result : string) :
  isContainer name = false ->
  closeUntil name (name :: tagStack) result
  = (tagStack, result ++ endTag name ++ endTag name).
Proof.
  intros H. cbn [closeUntil]. rewrite H, String.eqb_refl. cbn [negb].
  now rewrite append_assoc.
Qed.

Lemma run_endTag_leaf (name rest : string) (tagStack : list string) (result : string) :
  DOM.isName name = true -> isContainer name = false ->
  run (endTag name ++ rest) (name :: tagStack) result
  = run rest tagStack (result ++ endTag name ++ endTag name).
Proof.
  intros Hname Hleaf. unfold endTag at 1. simpl. rewrite append_assoc. simpl.
  rewrite (run_tag (String "/" name) _ rest).
  - change (processTag (String "/" name) (name :: tagStack) result)
      with (closeUntil name (name :: tagStack) result).
    now rewrite closeUntil_leaf.
  - simpl. rewrite splitAt_name; [reflexivity|]. now apply isName_allNameChars.
Qed.

Lemma redone_row (fs : list fragment) :
  Forall redone fs ->
  forall rest tagStack result,
    forallb wellFormed fs = true -> settled tagStack ->
    run (fold_right (fun c rest => closed c ++ rest) "" fs ++ rest) tagStack result
    = run rest tagStack (result ++ fold_right (fun c rest => doubled c ++ rest) "" fs).
Proof.
  induction 1 as [|f fs Hf _ IH]; intros rest tagStack result Hwf Hs; simpl.
  - now rewrite append_nil_r.
  - simpl in Hwf. apply andb_true_iff in Hwf. destruct Hwf as [Hwf Hwfs].
    rewrite append_assoc, Hf by assumption.
    rewrite IH by assumption. now rewrite !append_assoc.
Qed.

Lemma redone_all (f : fragment) : redone f.
Proof.
  induction f as [name value|name lead children trail IH] using fragment_induction;
    intros rest tagStack result Hwf Hs; simpl in Hwf.
  - apply andb_true_iff in Hwf. destruct Hwf as [Hwf Hvalue].
    apply andb_true_iff in Hwf. destruct Hwf as [Hname Hleaf].
    apply negb_true_iff in Hleaf.
    cbn [closed doubled]. rewrite !append_assoc.
    change tagStack with ([] ++ tagStack)%list at 1.
    rewrite run_startTag by (first [assumption | now left]).
    rewrite run_text by assumption.
    rewrite run_endTag_leaf by assumption.
    now rewrite !append_assoc.
  - apply andb_true_iff in Hwf. destruct Hwf as [Hwf Hchildren].
    apply andb_true_iff in Hwf. destruct Hwf as [Hwf Htrail].
    apply andb_true_iff in Hwf. destruct Hwf as [Hname Hlead].
    cbn [closed doubled]. rewrite !append_assoc.
    change tagStack with ([] ++ tagStack)%list at 1.
    rewrite run_startTag
      by (first [assumption | now apply isContainer_isName | now left]).
    rewrite run_text by assumption.
    rewrite (redone_row children IH) by assumption.
    change (name :: tagStack) with ([] ++ name :: tagStack)%list.
    rewrite run_endTag by (first [assumption | now left]).
    rewrite run_text by assumption.
    now rewrite !append_assoc.
Qed.

Lemma convertOFXToXML_closed (f : fragment) :
  wellFormed f = true -> convertOFXToXML (closed f) = doubled f.
Proof.
  intros Hwf. unfold convertOFXToXML.
  fold (run (closed f) [] "").
  pose proof (redone_all f "" [] "" Hwf I) as H.
  rewrite append_nil_r in H. rewrite H, run_nil. reflexivity.
Qed.

Lemma doubled_closed (f : fragment) : hasLeaf f = false -> doubled f = closed f.
Proof.
  induction f as [name value|name lead children trail IH] using fragment_induction;
    cbn [hasLeaf doubled closed]; intros H; [discriminate|].
  do 2 f_equal. f_equal.
  induction IH as [|c cs Hc _ IHcs]; [reflexivity|].
  cbn [existsb] in H. apply orb_false_iff in H. destruct H as [H1 H2].
  cbn [fold_right]. now rewrite Hc, IHcs.
Qed.

Lemma atTag_doubled (f : fragment) (rest : string) : atTag (doubled f ++ rest).
Proof. destruct f; reflexivity. Qed.

Lemma parse_endTag_mismatch (name open rest : string) (kids : list DOM.node)
  (stack : list DOM.frame) (root : option DOM.node) :
  DOM.isName name = true -> open <> name ->
  parse (endTag name ++ rest) ((open, kids) :: stack) root = None.
Proof.
  intros Hname Hneq. unfold endTag. simpl. rewrite append_assoc. simpl.
  rewrite (parse_tag (String "/" name) _ rest).
  - cbn [DOM.tag]. cbn [Ascii.eqb Bool.eqb andb].
    rewrite allNameChars_trimEndSpace by now apply isName_allNameChars.
    destruct (String.eqb_spec open name); [contradiction|reflexivity].
  - simpl. rewrite splitAt_name; [reflexivity|]. now apply isName_allNameChars.
Qed.

Lemma refused_row (fs : list fragment) :
  Forall refused fs ->
  forall rest name kids stack root,
    forallb wellFormed fs = true -> existsb hasLeaf fs = true ->
    isContainer name = true ->
    parse (fold_right (fun c r => doubled c ++ r) "" fs ++ rest) ((name, kids) :: stack) root
    = None.
Proof.
  induction 1 as [|f fs Hf _ IH]; intros rest name kids stack root Hwf Hl Hn;
    [discriminate|].
  cbn [forallb existsb fold_right] in *.
  apply andb_true_iff in Hwf. destruct Hwf as [Hwf Hwfs].
  rewrite append_assoc.
  destruct (hasLeaf f) eqn:Lf.
  - now apply Hf.
  - cbn [orb] in Hl. rewrite (doubled_closed f Lf).
    rewrite (parsed_all f);
      [|assumption|
       destruct fs as [|g gs]; [discriminate|];
       cbn [fold_right]; rewrite append_assoc; apply atTag_doubled].
    now apply IH.
Qed.

Lemma refused_all (f : fragment) : refused f.
Proof.
  induction f as [name value|name lead children trail IH] using fragment_induction;
    intros rest outer kids stack root Hwf Hl Ho; simpl in Hwf.
  - apply andb_true_iff in Hwf. destruct Hwf as [Hwf Hvalue].
    apply andb_true_iff in Hwf. destruct Hwf as [Hname Hleaf].
    apply negb_true_iff in Hleaf.
    cbn [doubled]. rewrite !append_assoc.
    rewrite parse_startTag by (first [assumption | left; discriminate]).
    rewrite parse_plainText by (first [assumption | reflexivity]).
    rewrite addChildren_frame.
    rewrite parse_endTag by assumption.
    cbn [DOM.addChild].
    apply parse_endTag_mismatch; [assumption|]. intros ->. congruence.
  - apply andb_true_iff in Hwf. destruct Hwf as [Hwf Hchildren].
    apply andb_true_iff in Hwf. destruct Hwf as [Hwf Htrail].
    apply andb_true_iff in Hwf. destruct Hwf as [Hname Hlead].
    cbn [doubled hasLeaf] in *. rewrite !append_assoc.
    rewrite parse_startTag by (first [now apply isContainer_isName | left; discriminate]).
    rewrite parse_plainText;
      [|assumption|
       destruct children as [|c cs]; [discriminate|];
       cbn [fold_right]; rewrite append_assoc; apply atTag_doubled].
    rewrite addChildren_frame.
    now apply (refused_row children IH).
Qed.

Lemma parseXML_doubled (lead trail : string) (children : list fragment) :
  wellFormed (Container "OFX" lead children trail) = true ->
  hasLeaf (Container "OFX" lead children trail) = true ->
  DOM.parseXML (doubled (Container "OFX" lead children trail)) = None.
Proof.
  intros Hwf Hl. cbn [wellFormed] in Hwf.
  apply andb_true_iff in Hwf. destruct Hwf as [Hwf Hchildren].
  apply andb_true_iff in Hwf. destruct Hwf as [Hwf Htrail].
  apply andb_true_iff in Hwf. destruct Hwf as [Hname Hlead].
  change (DOM.parseXML (doubled (Container "OFX" lead children trail)))
    with (parse (doubled (Container "OFX" lead children trail)) [] None).
  cbn [doubled hasLeaf] in *.
  rewrite parse_startTag by (first [reflexivity | now right]).
  rewrite parse_plainText;
    [|assumption|
     destruct children as [|c cs]; [discriminate|];
     cbn [fold_right]; rewrite append_assoc; apply atTag_doubled].
  rewrite addChildren_frame.
  apply (refused_row children); try assumption.
  apply Forall_forall. intros f _. apply refused_all.
Qed.

End Closed.

(** X14. A statement that closes its leaves itself is rejected: for
    [<OFX>] markup with every element closed and at least one leaf,
    [convertOFXToXML] writes the end tag of every leaf twice, the result is
    not well-formed, and [parseQFX] returns no transaction and the one
    error of the parser. *)
Theorem closed_leaves_are_rejected
  (host : Host.t) (filename : option string) (lead trail : string)
  (children : list TagSoup.fragment) :
  TagSoup.wellFormed (TagSoup.Container "OFX" lead children trail) = true ->
  ClosedMarkup.hasLeaf (TagSoup.Container "OFX" lead children trail) = true ->
  QfxParser.convertOFXToXML (TagSoup.closed (TagSoup.Container "OFX" lead children trail))
  = ClosedMarkup.doubled (TagSoup.Container "OFX" lead children trail)
  /\ DOM.parseXML (ClosedMarkup.doubled (TagSoup.Container "OFX" lead children trail)) = None
  /\ QfxParser.parseQFX host
       (TagSoup.closed (TagSoup.Container "OFX" lead children trail)) filename
     = ParseResult.mk []
         [ParseError.mk None None
            ("Error parsing QFX file: Error: Failed to parse OFX XML: "
             ++ Host.parserErrorText host
                  (ClosedMarkup.doubled (TagSoup.Container "OFX" lead children trail)))
            error].
Proof.
  intros Hwf Hl.
  pose proof (convertOFXToXML_closed _ Hwf) as C.
  pose proof (parseXML_doubled lead trail children Hwf Hl) as P.
  split; [exact C|]. split; [exact P|].
  unfold QfxParser.parseQFX, QfxParser.extractXMLFromOFX.
  assert (S : QfxParser.suffixFrom "<OFX>"
                (TagSoup.closed (TagSoup.Container "OFX" lead children trail))
              = Some (TagSoup.closed (TagSoup.Container "OFX" lead children trail))).
  { reflexivity. }
  rewrite S. cbn [option_map]. rewrite C.
  unfold QfxParser.readMarkup, DOM.parseFromString. rewrite P. reflexivity.
Qed.

Lemma closed_leaves_are_rejected_witness :
  TagSoup.wellFormed Examples.payroll = true
  /\ ClosedMarkup.hasLeaf Examples.payroll = true
  /\ ParseResult.transactions
       (QfxParser.parseQFX UtcHost.host (TagSoup.closed Examples.payroll) None) = []
  /\ map Transaction.description
       (ParseResult.transactions
          (QfxParser.parseQFX UtcHost.host (TagSoup.soup Examples.payroll) None))
     = ["PAYROLL"].
Proof.
  split; [reflexivity|]. split; [reflexivity|]. split.
  - destruct (closed_leaves_are_rejected UtcHost.host None ""%string ""%string
                [ TagSoup.Container "BANKTRANLIST" ""
                    [ TagSoup.Container "STMTTRN" ""
                        [ TagSoup.Leaf "TRNTYPE" "CREDIT";
                          TagSoup.Leaf "DTPOSTED" "20250115120000.000";
                          TagSoup.Leaf "TRNAMT" "250.00";
                          TagSoup.Leaf "FITID" "202501150001";
                          TagSoup.Leaf "NAME" "PAYROLL";
                          TagSoup.Leaf "MEMO" "January" ] "" ] "" ]
                eq_refl eq_refl) as (_ & _ & E).
    change (TagSoup.Container "OFX" "" _ "") with Examples.payroll in E.
    now rewrite E.
  - vm_compute. reflexivity.
Defined.

(** ** The CSV parser *)

Lemma parseRows_length (host : Host.t) (data : list (StringMap.t string)) :
  forall index,
    List.length (fst (CsvParser.parseRows host index data))
    + List.length (snd (CsvParser.parseRows host index data))
    = List.length data.
Proof.
  induction data as [|record data IH]; intros index; [reflexivity|].
  cbn [CsvParser.parseRows]. specialize (IH (index + 1)%Z).
  destruct (CsvParser.parseRows host (index + 1) data) as [ts es]. cbn [fst snd] in IH.
  destruct (CsvParser.parseRow host index record); cbn [fst snd List.length]; lia.
Qed.

Lemma parseRow_line (host : Host.t) (index : Z) (record : StringMap.t string)
  (e : ParseError.t) :
  CsvParser.parseRow host index record = inr e -> ParseError.line e = Some (index + 2)%Z.
Proof.
  unfold CsvParser.parseRow.
  destruct (CsvParser.missing _ || CsvParser.missing _ || CsvParser.missing _);
    [intros H; inversion H; reflexivity|].
  destruct (CsvParser.parseCSVDate host _); [|intros H; inversion H; reflexivity].
  destruct (isNaN _); [intros H; inversion H; reflexivity|discriminate].
Qed.

Lemma parseRows_lines (host : Host.t) (data : list (StringMap.t string)) :
  forall index e,
    In e (snd (CsvParser.parseRows host index data)) ->
    exists i, (index <= i < index + Z.of_nat (List.length data))%Z
              /\ ParseError.line e = Some (i + 2)%Z.
Proof.
  induction data as [|record data IH]; intros index e H; [destruct H|].
  cbn [CsvParser.parseRows] in H. specialize (IH (index + 1)%Z e).
  destruct (CsvParser.parseRows host (index + 1) data) as [ts es]. cbn [snd] in IH.
  assert (T : In e es ->
              exists i, (index <= i < index + Z.of_nat (List.length (record :: data)))%Z
                        /\ ParseError.line e = Some (i + 2)%Z).
  { intros He. destruct (IH He) as [i [Hi Hl]]. exists i. split; [|exact Hl].
    cbn [List.length]. lia. }
  destruct (CsvParser.parseRow host index record) as [t|e'] eqn:R; cbn [snd] in H.
  - now apply T.
  - destruct H as [<-|H]; [|now apply T].
    exists index. split; [cbn [List.length]; lia|]. now apply (parseRow_line host index record).
Qed.

Lemma complete_accounts (host : Host.t) (data : list (StringMap.t string))
  (parseErrors : list Papa.RowError) :
  exists rowErrors,
    ParseResult.errors (CsvParser.complete host data parseErrors)
    = (map (fun e => ParseError.mk (Papa.row e) None (Papa.message e) error) parseErrors
       ++ rowErrors
       ++ match ParseResult.transactions (CsvParser.complete host data parseErrors), data with
          | [], _ :: _ =>
              [ParseError.mk None None "No valid transactions found in CSV file" error]
          | _, _ => []
          end)%list
    /\ List.length (ParseResult.transactions (CsvParser.complete host data parseErrors))
       + List.length rowErrors = List.length data
    /\ forall e, In e rowErrors ->
                 exists i, (0 <= i < Z.of_nat (List.length data))%Z
                           /\ ParseError.line e = Some (i + 2)%Z.
Proof.
  unfold CsvParser.complete.
  pose proof (parseRows_length host data 0) as L.
  pose proof (parseRows_lines host data 0) as N.
  destruct (CsvParser.parseRows host 0 data) as [transactions rowErrors].
  cbn [fst snd ParseResult.errors ParseResult.transactions] in *.
  exists rowErrors. split; [reflexivity|]. split; [exact L|].
  intros e He. destruct (N e He) as [i [Hi Hl]]. exists i. split; [lia|exact Hl].
Qed.

(** The outcomes of the rows, one for each row and in their order, and
    how the loop splits them into transactions and errors. *)
Lemma parseRows_outcomes (host : Host.t) (data : list (StringMap.t string)) :
  forall index,
    exists outcomes : list (Transaction.t + ParseError.t),
      (forall i, nth_error outcomes i
                 = option_map (CsvParser.parseRow host (index + Z.of_nat i))
                     (nth_error data i))
      /\ fst (CsvParser.parseRows host index data)
         = flat_map (fun o => match o with inl t => [t] | inr _ => [] end) outcomes
      /\ snd (CsvParser.parseRows host index data)
         = flat_map (fun o => match o with inl _ => [] | inr e => [e] end) outcomes.
Proof.
  induction data as [|record data IH]; intros index.
  - exists []. split; [intros [|i]; reflexivity|]. split; reflexivity.
  - destruct (IH (index + 1)%Z) as (outcomes & N & T & E).
    exists (CsvParser.parseRow host index record :: outcomes). split; [|split].
    + intros [|i]; cbn [nth_error option_map].
      * now rewrite Z.add_0_r.
      * rewrite N. now replace (index + 1 + Z.of_nat i)%Z with (index + Z.of_nat (S i))%Z by lia.
    + cbn [CsvParser.parseRows flat_map].
      destruct (CsvParser.parseRows host (index + 1) data) as [ts es]. cbn [fst] in T.
      destruct (CsvParser.parseRow host index record); cbn [fst app]; now rewrite T.
    + cbn [CsvParser.parseRows flat_map].
      destruct (CsvParser.parseRows host (index + 1) data) as [ts es]. cbn [snd] in E.
      destruct (CsvParser.parseRow host index record); cbn [snd app]; now rewrite E.
Qed.

(** X15. [parseCSV] accounts for every row that Papa Parse hands over:
    the row of index [i] gives one outcome, a transaction or an error, and
    the error of that row carries the line [i + 2]. The transactions are
    those of the rows in the order of the rows; the errors are those of
    Papa Parse, then those of the rows in the order of the rows, then one
    more when there are rows and none gave a transaction; a fatal error of
    Papa Parse gives one error and no transaction. *)
Theorem parseCSV_accounts_for_every_row
  (host : Host.t) (papaParse : string -> Papa.outcome) (content : string) :
  match papaParse content with
  | Papa.Complete data parseErrors =>
      exists outcomes : list (Transaction.t + ParseError.t),
        List.length outcomes = List.length data
        /\ (forall i record,
               nth_error data i = Some record ->
               nth_error outcomes i = Some (CsvParser.parseRow host (Z.of_nat i) record))
        /\ (forall i e,
               nth_error outcomes i = Some (inr e) ->
               ParseError.line e = Some (Z.of_nat i + 2)%Z)
        /\ ParseResult.transactions (CsvParser.parseCSV host papaParse content)
           = flat_map (fun o => match o with inl t => [t] | inr _ => [] end) outcomes
        /\ ParseResult.errors (CsvParser.parseCSV host papaParse content)
           = (map (fun e => ParseError.mk (Papa.row e) None (Papa.message e) error) parseErrors
              ++ flat_map (fun o => match o with inl _ => [] | inr e => [e] end) outcomes
              ++ match ParseResult.transactions (CsvParser.parseCSV host papaParse content),
                       data with
                 | [], _ :: _ =>
                     [ParseError.mk None None "No valid transactions found in CSV file" error]
                 | _, _ => []
                 end)%list
        /\ List.length (ParseResult.transactions (CsvParser.parseCSV host papaParse content))
           + List.length
               (flat_map (fun o => match o with inl _ => [] | inr e => [e] end) outcomes)
           = List.length data
  | Papa.Fatal message =>
      CsvParser.parseCSV host papaParse content
      = ParseResult.mk []
          [ParseError.mk None None ("Error parsing CSV file: " ++ message) error]
  end.
Proof.
  unfold CsvParser.parseCSV.
  destruct (papaParse content) as [data parseErrors|message]; [|reflexivity].
  unfold CsvParser.complete.
  destruct (parseRows_outcomes host data 0) as (outcomes & N & T & E).
  pose proof (parseRows_length host data 0) as L.
  destruct (CsvParser.parseRows host 0 data) as [transactions rowErrors].
  cbn [fst snd ParseResult.errors ParseResult.transactions] in *.
  exists outcomes. split; [|split; [|split; [|split; [exact T|split]]]].
  - apply Nat.le_antisymm.
    + destruct (Nat.le_gt_cases (List.length outcomes) (List.length data)) as [H|H];
        [exact H|exfalso].
      specialize (N (List.length data)).
      rewrite (proj2 (nth_error_None data _) (Nat.le_refl _)) in N.
      cbn [option_map] in N. apply nth_error_None in N. lia.
    + destruct (Nat.le_gt_cases (List.length data) (List.length outcomes)) as [H|H];
        [exact H|exfalso].
      destruct (nth_error data (List.length outcomes)) as [record|] eqn:D.
      * specialize (N (List.length outcomes)). rewrite D in N. cbn [option_map] in N.
        assert (X : nth_error outcomes (List.length outcomes) = None)
          by (apply nth_error_None; lia).
        congruence.
      * apply nth_error_None in D. lia.
  - intros i record D. rewrite N, D. reflexivity.
  - intros i e O. rewrite N in O. destruct (nth_error data i) as [record|]; [|discriminate].
    cbn [option_map] in O. inversion O as [R]. now apply parseRow_line in R.
  - now rewrite E.
  - now rewrite <- E.
Qed.

Lemma trimEnd_idempotent (s : string) : trimEnd (trimEnd s) = trimEnd s.
Proof.
  induction s as [|c s IH]; [reflexivity|].
  cbn [trimEnd]. destruct (trimEnd s) as [|d t] eqn:E.
  - destruct (isWhiteSpace c) eqn:W; [reflexivity|]. cbn [trimEnd]. now rewrite W.
  - cbn [trimEnd]. cbn [trimEnd] in IH. rewrite IH. reflexivity.
Qed.

Lemma trimStart_fixed (s : string) :
  match s with
  | String c _ => isWhiteSpace c = false
  | EmptyString => True
  end -> trimStart s = s.
Proof. destruct s as [|c s]; [reflexivity|]. intros H. cbn [trimStart]. now rewrite H. Qed.

Lemma trimStart_head (s : string) :
  match trimStart s with
  | String c _ => isWhiteSpace c = false
  | EmptyString => True
  end.
Proof.
  induction s as [|c s IH]; [exact I|].
  cbn [trimStart]. destruct (isWhiteSpace c) eqn:W; [exact IH|exact W].
Qed.

Lemma trimEnd_head (s : string) :
  match s with
  | String c _ => isWhiteSpace c = false
  | EmptyString => True
  end ->
  match trimEnd s with
  | String c _ => isWhiteSpace c = false
  | EmptyString => True
  end.
Proof.
  destruct s as [|c s]; [intros _; exact I|]. intros H. cbn [trimEnd].
  destruct (trimEnd s); [rewrite H|]; exact H.
Qed.

Lemma trim_idempotent (s : string) : trim (trim s) = trim s.
Proof.
  unfold trim.
  rewrite (trimStart_fixed (trimEnd (trimStart s)) (trimEnd_head _ (trimStart_head s))).
  apply trimEnd_idempotent.
Qed.

Lemma parseRow_fields (host : Host.t) (index : Z) (record : StringMap.t string)
  (t : Transaction.t) :
  CsvParser.parseRow host index record = inl t ->
  exists raw,
    StringMap.get "Description" record = Some raw
    /\ raw <> ""
    /\ Transaction.description t = trim raw
    /\ Transaction.id t
       = Utils.generateTransactionId host (Transaction.date t) (Transaction.amount t) raw None
    /\ Transaction.accountId t = None
    /\ Transaction.sourceFile t = None
    /\ Transaction.transactionId t = None
    /\ Transaction.categoryId t = None
    /\ Transaction.isExcluded t = false
    /\ Transaction.isManuallyCategorized t = false.
Proof.
  unfold CsvParser.parseRow.
  destruct (StringMap.get "Description" record) as [[|c raw]|];
    cbn [CsvParser.missing orb]; try (rewrite ?orb_true_r; discriminate).
  destruct (CsvParser.missing _ || false || CsvParser.missing _); [discriminate|].
  destruct (CsvParser.parseCSVDate host _); [|discriminate].
  destruct (isNaN _); [discriminate|].
  intros H. inversion H; subst; clear H. cbn.
  exists (String c raw). repeat split. discriminate.
Qed.

(** X16. A transaction of [parseCSV] has no account id, no source file
    (the file name is not used) and no bank transaction id; it is
    uncategorized, not excluded and not manually categorized. Its
    description is the [Description] field trimmed, while its id is the
    fingerprint of its date, its amount and the field as the file has it,
    before trimming. *)
Theorem parseCSV_transaction_fields
  (host : Host.t) (papaParse : string -> Papa.outcome) (content : string)
  (t : Transaction.t) :
  In t (ParseResult.transactions (CsvParser.parseCSV host papaParse content)) ->
  Transaction.source t = CSV
  /\ Transaction.accountId t = None
  /\ Transaction.sourceFile t = None
  /\ Transaction.transactionId t = None
  /\ Transaction.categoryId t = None
  /\ Transaction.isExcluded t = false
  /\ Transaction.isManuallyCategorized t = false
  /\ trim (Transaction.description t) = Transaction.description t
  /\ exists raw,
       raw <> ""
       /\ Transaction.description t = trim raw
       /\ Transaction.id t
          = Utils.generateTransactionId host (Transaction.date t) (Transaction.amount t)
              raw None.
Proof.
  intros H. apply In_parseCSV in H. destruct H as (i & record & R).
  destruct (parseRow_amount host i record t R) as (_ & _ & _ & _ & _ & S).
  destruct (parseRow_fields host i record t R)
    as (raw & _ & N & D & I & A & F & T & C & X & M).
  repeat split; try assumption.
  - rewrite D. apply trim_idempotent.
  - exists raw. repeat split; assumption.
Qed.

Lemma parseCSV_transaction_fields_witness :
  exists t,
    In t (ParseResult.transactions
            (CsvParser.parseCSV UtcHost.host
               (fun _ => Papa.Complete
                           [[("Trans. Date", "01/11/2025"); ("Description", " MERCHANT X ");
                             ("Amount", "19.01")]] [])
               "the file"))
    /\ Transaction.description t = "MERCHANT X"
    /\ Transaction.id t
       = Utils.generateTransactionId UtcHost.host (Transaction.date t) (Transaction.amount t)
           " MERCHANT X " None
    /\ Transaction.id t
       <> Utils.generateTransactionId UtcHost.host (Transaction.date t) (Transaction.amount t)
            (Transaction.description t) None
    /\ Transaction.sourceFile t = None.
Proof.
  eexists. split; [vm_compute; left; reflexivity|].
  split; [vm_compute; reflexivity|].
  split; [vm_compute; reflexivity|].
  split; [vm_compute; discriminate|].
  apply (parseCSV_transaction_fields UtcHost.host
           (fun _ => Papa.Complete
                       [[("Trans. Date", "01/11/2025"); ("Description", " MERCHANT X ");
                         ("Amount", "19.01")]] [])
           "the file").
  vm_compute. left. reflexivity.
Defined.

(** ** The statistics *)

Lemma abs_not_negative (x : Number) : (abs x <? 0)%float = false.
Proof.
  rewrite ltb_spec, abs_spec. unfold SFltb.
  change (Prim2SF 0) with (S754_zero false).
  destruct (Prim2SF x) as [s|s| |s m e]; reflexivity.
Qed.

Lemma minimum_spec (ds : list Z) :
  forall d, (forall x, In x (d :: ds) -> (AnalyticsCalculator.minimum d ds <= x)%Z)
            /\ In (AnalyticsCalculator.minimum d ds) (d :: ds).
Proof.
  unfold AnalyticsCalculator.minimum.
  induction ds as [|y ds IH]; intros d; cbn [fold_left].
  - split; [intros x [<-|[]]; lia|now left].
  - destruct (IH (Z.min d y)) as [L M]. split.
    + intros x [<-|[<-|H]].
      * specialize (L (Z.min d y) (or_introl eq_refl)). lia.
      * specialize (L (Z.min d y) (or_introl eq_refl)). lia.
      * apply L. now right.
    + destruct M as [M|M]; [|now right; right].
      rewrite <- M. destruct (Z.min_spec d y) as [[_ ->]|[_ ->]]; [now left|right; now left].
Qed.

Lemma maximum_spec (ds : list Z) :
  forall d, (forall x, In x (d :: ds) -> (x <= AnalyticsCalculator.maximum d ds)%Z)
            /\ In (AnalyticsCalculator.maximum d ds) (d :: ds).
Proof.
  unfold AnalyticsCalculator.maximum.
  induction ds as [|y ds IH]; intros d; cbn [fold_left].
  - split; [intros x [<-|[]]; lia|now left].
  - destruct (IH (Z.max d y)) as [L M]. split.
    + intros x [<-|[<-|H]].
      * specialize (L (Z.max d y) (or_introl eq_refl)). lia.
      * specialize (L (Z.max d y) (or_introl eq_refl)). lia.
      * apply L. now right.
    + destruct M as [M|M]; [|now right; right].
      rewrite <- M. destruct (Z.max_spec d y) as [[_ ->]|[_ ->]]; [right; now left|now left].
Qed.

Lemma distinctCount_bounds (keys : list string) :
  AnalyticsCalculator.distinctCount keys <= List.length keys
  /\ (keys <> [] -> 1 <= AnalyticsCalculator.distinctCount keys).
Proof.
  unfold AnalyticsCalculator.distinctCount. split.
  - induction keys as [|k keys IH]; [cbn; lia|].
    cbn [nodup]. destruct (in_dec string_dec k keys); cbn [List.length]; lia.
  - destruct keys as [|k keys]; [congruence|]. intros _.
    assert (H : In k (nodup string_dec (k :: keys))) by (apply nodup_In; now left).
    destruct (nodup string_dec (k :: keys)); [destruct H|cbn; lia].
Qed.

(** X17. [computeOverallStats] counts the transactions that are not
    excluded; its total of debits is never negative, its credits and its
    net are 0; the months it counts are at least one when a transaction is
    counted and never more than the transactions; and the date range is
    absent exactly when nothing is counted, its ends being otherwise the
    earliest and the latest date of the counted transactions. *)
Theorem overall_stats_cover_the_counted_transactions
  (host : Host.t) (transactions : list Transaction.t) :
  let stats := AnalyticsCalculator.computeOverallStats host transactions in
  let counted := filter (fun t => negb (Transaction.isExcluded t)) transactions in
  OverallStats.transactionCount stats = List.length counted
  /\ (OverallStats.totalDebits stats <? 0)%float = false
  /\ OverallStats.totalCredits stats = 0%float
  /\ OverallStats.net stats = 0%float
  /\ OverallStats.monthCount stats <= OverallStats.transactionCount stats
  /\ (counted <> [] -> 1 <= OverallStats.monthCount stats)
  /\ match OverallStats.dateRange stats with
     | None => counted = []
     | Some (first, last) =>
         (forall t, In t counted -> (first <= Transaction.date t <= last)%Z)
         /\ (exists t, In t counted /\ Transaction.date t = first)
         /\ (exists t, In t counted /\ Transaction.date t = last)
     end.
Proof.
  cbv zeta. unfold AnalyticsCalculator.computeOverallStats.
  set (counted := filter (fun t => negb (Transaction.isExcluded t)) transactions).
  cbn [OverallStats.transactionCount OverallStats.totalDebits OverallStats.totalCredits
       OverallStats.net OverallStats.monthCount OverallStats.dateRange].
  destruct (distinctCount_bounds
              (map (fun t => Host.formatYearMonth host
                               (AnalyticsCalculator.ensureDate (Transaction.date t)))
                   counted)) as [B1 B2].
  rewrite length_map in B1.
  split; [reflexivity|]. split; [apply abs_not_negative|].
  split; [reflexivity|]. split; [reflexivity|]. split; [exact B1|]. split.
  - intros N. apply B2. destruct counted; [congruence|discriminate].
  - unfold AnalyticsCalculator.getTime, AnalyticsCalculator.ensureDate.
    destruct counted as [|t ts] eqn:E; [reflexivity|]. cbn [map].
    destruct (minimum_spec (map Transaction.date ts) (Transaction.date t)) as [L1 M1].
    destruct (maximum_spec (map Transaction.date ts) (Transaction.date t)) as [L2 M2].
    change (Transaction.date t :: map Transaction.date ts)
      with (map Transaction.date (t :: ts)) in *.
    repeat split.
    + apply L1. now apply in_map.
    + apply L2. now apply in_map.
    + apply in_map_iff in M1. destruct M1 as (x & Hx & Hi). now exists x.
    + apply in_map_iff in M2. destruct M2 as (x & Hx & Hi). now exists x.
Qed.

Lemma has_false_keys {V} (k : string) (m : StringMap.t V) :
  StringMap.has k m = false <-> ~ In k (map fst m).
Proof.
  unfold StringMap.has. induction m as [|[k' v] m IH]; cbn [existsb map fst In].
  - split; [tauto|reflexivity].
  - destruct (String.eqb_spec k' k) as [->|N]; cbn [orb].
    + split; [discriminate|tauto].
    + rewrite IH. tauto.
Qed.

Lemma update_keys {V} (k : string) (f : V -> V) (m : StringMap.t V) :
  map fst (StringMap.update k f m) = map fst m.
Proof.
  unfold StringMap.update. rewrite map_map. apply map_ext.
  intros [k' v]. cbn [fst]. now destruct (String.eqb k' k).
Qed.

Lemma addToGroup_keys (groups : StringMap.t (list Transaction.t)) (txn : Transaction.t) :
  NoDup (map fst groups) ->
  NoDup (map fst (AnalyticsCalculator.addToGroup groups txn)).
Proof.
  intros N. unfold AnalyticsCalculator.addToGroup. rewrite update_keys.
  destruct (StringMap.has _ groups) eqn:H; cbn [negb]; [exact N|].
  unfold StringMap.set. rewrite H, map_app. cbn [map fst].
  apply NoDup_app; [exact N|repeat constructor; intros []|].
  intros x Hx [<-|[]]. now apply has_false_keys in H.
Qed.

Lemma groupByMerchant_keys (transactions : list Transaction.t) :
  NoDup (map fst (AnalyticsCalculator.groupByMerchant transactions)).
Proof.
  unfold AnalyticsCalculator.groupByMerchant.
  generalize (filter (fun t => AnalyticsCalculator.isDebit t && negb (Transaction.isExcluded t))
                transactions).
  intros l.
  assert (G : forall groups : StringMap.t (list Transaction.t),
             NoDup (map fst groups) ->
             NoDup (map fst (fold_left AnalyticsCalculator.addToGroup l groups))).
  { induction l as [|t l IH]; intros groups N; cbn [fold_left]; [exact N|].
    apply IH. now apply addToGroup_keys. }
  apply G. constructor.
Qed.

Lemma visited_groups_keys (groups : StringMap.t (list Transaction.t)) :
  NoDup (map fst groups) ->
  NoDup (map RepeatedExpense.merchantPattern
           (flat_map AnalyticsCalculator.visitGroup groups))
  /\ forall k, In k (map RepeatedExpense.merchantPattern
                       (flat_map AnalyticsCalculator.visitGroup groups)) ->
               In k (map fst groups).
Proof.
  induction groups as [|[k g] groups IH]; intros N; cbn [flat_map map fst].
  - split; [constructor|intros k []].
  - inversion N as [|? ? Hk N']; subst. destruct (IH N') as [D S].
    assert (V : AnalyticsCalculator.visitGroup (k, g) = []
                \/ AnalyticsCalculator.visitGroup (k, g)
                   = [AnalyticsCalculator.repeatedExpense k g]).
    { unfold AnalyticsCalculator.visitGroup.
      destruct (List.length g <? 2)%nat; [now left|].
      destruct (AnalyticsCalculator.isSimilar _); [now right|now left]. }
    destruct V as [->| ->]; cbn [app map].
    + split; [exact D|intros x Hx; right; now apply S].
    + cbn [AnalyticsCalculator.repeatedExpense RepeatedExpense.merchantPattern]. split.
      * constructor; [|exact D]. intros H. apply Hk. now apply S.
      * intros x [<-|Hx]; [now left|right; now apply S].
Qed.

(** X18. [detectRepeatedExpenses] reports a merchant once at most: the
    merchant patterns of its result are pairwise different, and each has at
    most 30 characters. *)
Theorem repeated_expenses_name_each_merchant_once (transactions : list Transaction.t) :
  NoDup (map RepeatedExpense.merchantPattern
           (AnalyticsCalculator.detectRepeatedExpenses transactions))
  /\ forall r, In r (AnalyticsCalculator.detectRepeatedExpenses transactions) ->
               String.length (RepeatedExpense.merchantPattern r) <= 30.
Proof.
  split.
  - unfold AnalyticsCalculator.detectRepeatedExpenses.
    eapply Permutation_NoDup.
    + apply Permutation_map. apply Permutation_sym. apply sort_perm.
    + apply visited_groups_keys. apply groupByMerchant_keys.
  - intros r H. apply In_detectRepeatedExpenses in H.
    destruct H as (k & -> & L & _).
    cbn [AnalyticsCalculator.repeatedExpense RepeatedExpense.merchantPattern].
    destruct (Spec.merchantGroup k transactions) as [|t g] eqn:E; [cbn in L; lia|].
    assert (Ht : In t (Spec.merchantGroup k transactions)) by (rewrite E; now left).
    unfold Spec.merchantGroup in Ht. apply filter_In in Ht. destruct Ht as [_ Ht].
    apply andb_prop in Ht. destruct Ht as [_ Ht]. apply String.eqb_eq in Ht.
    rewrite <- Ht. unfold AnalyticsCalculator.normalizeMerchant.
    rewrite substring_length. lia.
Qed.

(** ** Sets and maps *)

Lemma has_add (x y : string) (s : StringSet.t) :
  StringSet.has x (StringSet.add y s) = String.eqb x y || StringSet.has x s.
Proof.
  unfold StringSet.add. destruct (StringSet.has y s) eqn:H.
  - destruct (String.eqb_spec x y) as [->|]; [now rewrite H|reflexivity].
  - unfold StringSet.has. rewrite existsb_app. cbn [existsb].
    rewrite orb_false_r. apply orb_comm.
Qed.

Lemma has_delete (x y : string) (s : StringSet.t) :
  StringSet.has x (StringSet.delete y s) = negb (String.eqb x y) && StringSet.has x s.
Proof.
  unfold StringSet.has, StringSet.delete. induction s as [|z s IH]; cbn [filter existsb].
  - now rewrite andb_false_r.
  - destruct (String.eqb_spec z y) as [->|N]; cbn [negb existsb].
    + rewrite IH. destruct (String.eqb_spec x y); reflexivity.
    + rewrite IH. destruct (String.eqb_spec x z) as [->|]; cbn [orb].
      * destruct (String.eqb_spec z y); [contradiction|reflexivity].
      * reflexivity.
Qed.

Lemma has_ofArray (x : string) (xs : list string) :
  StringSet.has x (StringSet.ofArray xs) = existsb (String.eqb x) xs.
Proof.
  unfold StringSet.ofArray.
  assert (G : forall s, StringSet.has x (fold_left (fun s y => StringSet.add y s) xs s)
                        = StringSet.has x s || existsb (String.eqb x) xs).
  { induction xs as [|y xs IH]; intros s; cbn [fold_left existsb].
    - now rewrite orb_false_r.
    - rewrite IH, has_add. now rewrite orb_assoc, (orb_comm (String.eqb x y)). }
  now rewrite G.
Qed.

Lemma has_In (x : string) (s : list string) : StringSet.has x s = true <-> In x s.
Proof.
  unfold StringSet.has. rewrite existsb_exists. split.
  - intros (y & Hy & E). apply String.eqb_eq in E. now subst.
  - intros H. exists x. split; [exact H|apply String.eqb_refl].
Qed.

Lemma get_set_same (k v : string) (m : StringMap.t string) :
  StringMap.get k (StringMap.set k v m) = Some v.
Proof.
  unfold StringMap.set, StringMap.get. destruct (StringMap.has k m) eqn:H.
  - unfold StringMap.has in H. induction m as [|[k' v'] m IH]; [discriminate|].
    cbn [existsb fst] in H. cbn [map find fst].
    destruct (String.eqb_spec k' k) as [->|N]; cbn [fst].
    + now rewrite String.eqb_refl.
    + destruct (String.eqb_spec k' k); [contradiction|]. cbn [orb] in H. now apply IH.
  - unfold StringMap.has in H. induction m as [|[k' v'] m IH]; cbn [app find fst].
    + now rewrite String.eqb_refl.
    + cbn [existsb fst] in H. apply orb_false_iff in H. destruct H as [H1 H2].
      rewrite H1. now apply IH.
Qed.

(** ** The exclusions of the state *)

Section Exclusions.
Variable host : Host.t.

Lemma applyExclusion_id (S : StringSet.t) (t : Transaction.t) :
  Transaction.id (AppReducer.applyExclusion host S t) = Transaction.id t.
Proof. reflexivity. Qed.

Lemma has_collectExcluded (S : StringSet.t) (x : string) (ts : list Transaction.t) :
  forall ids,
    StringSet.has x (fold_left (AppReducer.collectExcluded host S) ts ids)
    = StringSet.has x ids
      || existsb (fun t => String.eqb x (Transaction.id t)
                           && StringSet.has (AppReducer.signatureOf host t) S) ts.
Proof.
  induction ts as [|t ts IH]; intros ids; cbn [fold_left existsb].
  - now rewrite orb_false_r.
  - rewrite IH. unfold AppReducer.collectExcluded.
    destruct (StringSet.has (AppReducer.signatureOf host t) S).
    + rewrite has_add, andb_true_r. now rewrite orb_assoc, (orb_comm (String.eqb _ _)).
    + now rewrite andb_false_r.
Qed.

Lemma NoDup_ids (ts : list Transaction.t) (t u : Transaction.t) :
  NoDup (map Transaction.id ts) -> In t ts -> In u ts ->
  Transaction.id t = Transaction.id u -> t = u.
Proof.
  induction ts as [|a ts IH]; intros N Ht Hu E; [destruct Ht|].
  cbn [map] in N. inversion N as [|? ? Ha N']; subst.
  destruct Ht as [->|Ht], Hu as [->|Hu].
  - reflexivity.
  - exfalso. apply Ha. rewrite E. now apply in_map.
  - exfalso. apply Ha. rewrite <- E. now apply in_map.
  - now apply IH.
Qed.

Lemma collected_exactly (S : StringSet.t) (ts : list Transaction.t) (t : Transaction.t) :
  NoDup (map Transaction.id ts) -> In t ts ->
  existsb (fun u => String.eqb (Transaction.id t) (Transaction.id u)
                    && StringSet.has (AppReducer.signatureOf host u) S) ts
  = StringSet.has (AppReducer.signatureOf host t) S.
Proof.
  intros N Ht.
  destruct (StringSet.has (AppReducer.signatureOf host t) S) eqn:H.
  - apply existsb_exists. exists t. split; [exact Ht|]. now rewrite String.eqb_refl.
  - destruct (existsb _ ts) eqn:X; [|reflexivity].
    apply existsb_exists in X. destruct X as (u & Hu & E).
    apply andb_prop in E. destruct E as [E1 E2]. apply String.eqb_eq in E1.
    rewrite <- (NoDup_ids ts t u N Ht Hu E1) in E2. congruence.
Qed.

Lemma NoDup_filter_ids (p : Transaction.t -> bool) (ts : list Transaction.t) :
  NoDup (map Transaction.id ts) -> NoDup (map Transaction.id (filter p ts)).
Proof.
  induction ts as [|a ts IH]; intros N; [constructor|].
  cbn [map] in N. inversion N as [|? ? Ha N']; subst. cbn [filter].
  destruct (p a); [|now apply IH]. cbn [map]. constructor; [|now apply IH].
  intros H. apply Ha. apply in_map_iff in H. destruct H as (u & E & Hu).
  apply filter_In in Hu. apply in_map_iff. exists u. tauto.
Qed.

Lemma has_toggleAffected (cur : bool) (x : string) (affected : list Transaction.t) :
  forall signatures ids,
    StringSet.has x (snd (fold_left (AppReducer.toggleAffected host cur) affected
                            (signatures, ids)))
    = if existsb (fun t => String.eqb x (Transaction.id t)) affected
      then negb cur else StringSet.has x ids.
Proof.
  induction affected as [|t ts IH]; intros signatures ids; cbn [fold_left existsb];
    [reflexivity|].
  destruct (AppReducer.toggleAffected host cur (signatures, ids) t) as [signatures' ids']
    eqn:T.
  rewrite IH. destruct (existsb _ ts); [now rewrite orb_true_r|].
  rewrite orb_false_r. unfold AppReducer.toggleAffected in T.
  destruct cur; inversion T; subst; clear T.
  - rewrite has_delete. now destruct (String.eqb x (Transaction.id t)).
  - rewrite has_add. now destruct (String.eqb x (Transaction.id t)).
Qed.

End Exclusions.

Section Listed.
Variable host : Host.t.
Variable defaultPreferences : Preferences.t.

Lemma listed_same (s s' : AppState.t) :
  AppState.transactions s' = AppState.transactions s ->
  AppState.excludedIds s' = AppState.excludedIds s ->
  Consistency.excludedAsListed s -> Consistency.excludedAsListed s'.
Proof. unfold Consistency.excludedAsListed. intros -> ->. tauto. Qed.

Lemma listed_map (f : Transaction.t -> Transaction.t) (s s' : AppState.t) :
  (forall t, Transaction.id (f t) = Transaction.id t) ->
  (forall t, Transaction.isExcluded (f t) = Transaction.isExcluded t) ->
  AppState.transactions s' = map f (AppState.transactions s) ->
  AppState.excludedIds s' = AppState.excludedIds s ->
  Consistency.excludedAsListed s -> Consistency.excludedAsListed s'.
Proof.
  unfold Consistency.excludedAsListed. intros Hid Hex -> -> [I1 I2]. split.
  - intros t Ht. apply in_map_iff in Ht. destruct Ht as (u & <- & Hu).
    rewrite Hid, Hex. now apply I1.
  - intros x Hx. rewrite map_map. rewrite (map_ext _ Transaction.id) by exact Hid.
    now apply I2.
Qed.

Lemma listed_load (S : StringSet.t) (ts : list Transaction.t) (s' : AppState.t) :
  NoDup (map Transaction.id ts) ->
  AppState.transactions s' = map (AppReducer.applyExclusion host S) ts ->
  AppState.excludedIds s' = fold_left (AppReducer.collectExcluded host S) ts [] ->
  Consistency.excludedAsListed s'.
Proof.
  intros N Et Ei. unfold Consistency.excludedAsListed. rewrite Et, Ei. split.
  - intros t Ht. apply in_map_iff in Ht. destruct Ht as (u & <- & Hu).
    rewrite has_collectExcluded. cbn [StringSet.has existsb orb].
    cbn [AppReducer.applyExclusion Transaction.withIsExcluded Transaction.isExcluded
         Transaction.id].
    symmetry. now apply collected_exactly.
  - intros x Hx. rewrite has_collectExcluded in Hx. cbn [StringSet.has existsb orb] in Hx.
    apply existsb_exists in Hx. destruct Hx as (u & Hu & E).
    apply andb_prop in E. destruct E as [E _]. apply String.eqb_eq in E. subst x.
    rewrite map_map. apply in_map_iff. exists u. split; [reflexivity|exact Hu].
Qed.

Lemma listed_add (s s' : AppState.t) (payload : list Transaction.t) :
  let S := StringSet.ofArray
             (AppReducer.orEmptyArray
                (Preferences.excludedTransactionSignatures (AppState.preferences s))) in
  let fresh :=
    filter (fun t => negb (StringSet.has (Transaction.id t)
                             (StringSet.ofArray (map Transaction.id (AppState.transactions s)))))
      payload in
  NoDup (map Transaction.id payload) ->
  AppState.transactions s'
  = (AppState.transactions s ++ map (AppReducer.applyExclusion host S) fresh)%list ->
  AppState.excludedIds s'
  = fold_left (AppReducer.collectExcluded host S) fresh (AppState.excludedIds s) ->
  Consistency.excludedAsListed s -> Consistency.excludedAsListed s'.
Proof.
  intros S fresh N Et Ei [I1 I2]. unfold Consistency.excludedAsListed. rewrite Et, Ei.
  assert (F : forall u, In u fresh ->
                        ~ In (Transaction.id u) (map Transaction.id (AppState.transactions s))).
  { intros u Hu. apply filter_In in Hu. destruct Hu as [_ Hu].
    apply negb_true_iff in Hu. rewrite has_ofArray in Hu. intros H.
    apply has_In in H. unfold StringSet.has in H. congruence. }
  assert (Nf : NoDup (map Transaction.id fresh)) by now apply NoDup_filter_ids.
  split.
  - intros t Ht. rewrite has_collectExcluded. apply in_app_or in Ht. destruct Ht as [Ht|Ht].
    + rewrite (I1 t Ht).
      assert (X : existsb (fun u => String.eqb (Transaction.id t) (Transaction.id u)
                                    && StringSet.has (AppReducer.signatureOf host u) S) fresh
                  = false).
      { destruct (existsb _ fresh) eqn:X; [|reflexivity].
        apply existsb_exists in X. destruct X as (u & Hu & E).
        apply andb_prop in E. destruct E as [E _]. apply String.eqb_eq in E.
        exfalso. apply (F u Hu). rewrite <- E. now apply in_map. }
      rewrite X. now rewrite orb_false_r.
    + apply in_map_iff in Ht. destruct Ht as (u & <- & Hu).
      cbn [AppReducer.applyExclusion Transaction.withIsExcluded Transaction.isExcluded
           Transaction.id].
      rewrite (collected_exactly host S fresh u Nf Hu).
      destruct (StringSet.has (Transaction.id u) (AppState.excludedIds s)) eqn:H;
        [|reflexivity].
      exfalso. apply (F u Hu). now apply I2.
  - intros x Hx. rewrite has_collectExcluded in Hx. rewrite map_app. apply in_or_app.
    apply orb_prop in Hx. destruct Hx as [Hx|Hx]; [left; now apply I2|right].
    apply existsb_exists in Hx. destruct Hx as (u & Hu & E).
    apply andb_prop in E. destruct E as [E _]. apply String.eqb_eq in E. subst x.
    rewrite map_map. apply in_map_iff. exists u. split; [reflexivity|exact Hu].
Qed.

Lemma listed_toggle (s s' : AppState.t) (payload : string) (found : Transaction.t) :
  find (fun t => String.eqb (Transaction.id t) payload) (AppState.transactions s) = Some found ->
  AppState.transactions s'
  = map (fun t => if String.eqb (Transaction.id t) payload
                  then Transaction.withIsExcluded (negb (Transaction.isExcluded t)) t else t)
        (AppState.transactions s) ->
  AppState.excludedIds s'
  = (if StringSet.has payload (AppState.excludedIds s)
     then StringSet.delete payload (AppState.excludedIds s)
     else StringSet.add payload (AppState.excludedIds s)) ->
  Consistency.excludedAsListed s -> Consistency.excludedAsListed s'.
Proof.
  intros Hf Et Ei [I1 I2]. unfold Consistency.excludedAsListed. rewrite Et, Ei.
  apply find_some in Hf. destruct Hf as [Hin Hid]. apply String.eqb_eq in Hid.
  assert (M : forall x,
             StringSet.has x (if StringSet.has payload (AppState.excludedIds s)
                              then StringSet.delete payload (AppState.excludedIds s)
                              else StringSet.add payload (AppState.excludedIds s))
             = if String.eqb x payload
               then negb (StringSet.has payload (AppState.excludedIds s))
               else StringSet.has x (AppState.excludedIds s)).
  { intros x. destruct (StringSet.has payload (AppState.excludedIds s)) eqn:H.
    - rewrite has_delete. destruct (String.eqb_spec x payload); reflexivity.
    - rewrite has_add. destruct (String.eqb_spec x payload); reflexivity. }
  split.
  - intros t Ht. apply in_map_iff in Ht. destruct Ht as (u & <- & Hu).
    destruct (String.eqb_spec (Transaction.id u) payload) as [E|E].
    + cbn [Transaction.withIsExcluded Transaction.isExcluded Transaction.id].
      rewrite M, E, String.eqb_refl. rewrite (I1 u Hu), E. reflexivity.
    + rewrite M. destruct (String.eqb_spec (Transaction.id u) payload); [contradiction|].
      now apply I1.
  - intros x Hx. rewrite M in Hx.
    assert (K : forall l, map Transaction.id
                   (map (fun t => if String.eqb (Transaction.id t) payload
                                  then Transaction.withIsExcluded
                                         (negb (Transaction.isExcluded t)) t
                                  else t) l) = map Transaction.id l).
    { intros l. rewrite map_map. apply map_ext. intros t.
      now destruct (String.eqb (Transaction.id t) payload). }
    rewrite K. destruct (String.eqb_spec x payload) as [E|_].
    + rewrite E, <- Hid. now apply in_map.
    + now apply I2.
Qed.

Lemma listed_toggle_group (s s' : AppState.t) (cur : bool) (transactionIds signatures : list string) :
  AppState.transactions s'
  = map (fun t => if AppReducer.includes (Transaction.id t) transactionIds
                  then Transaction.withIsExcluded (negb cur) t else t)
        (AppState.transactions s) ->
  AppState.excludedIds s'
  = snd (fold_left (AppReducer.toggleAffected host cur)
           (filter (fun t => AppReducer.includes (Transaction.id t) transactionIds)
              (AppState.transactions s))
           (signatures, AppState.excludedIds s)) ->
  Consistency.excludedAsListed s -> Consistency.excludedAsListed s'.
Proof.
  intros Et Ei [I1 I2]. unfold Consistency.excludedAsListed. rewrite Et, Ei.
  assert (A : forall x,
             existsb (fun t => String.eqb x (Transaction.id t))
               (filter (fun t => AppReducer.includes (Transaction.id t) transactionIds)
                  (AppState.transactions s)) = true
             <-> AppReducer.includes x transactionIds = true
                 /\ In x (map Transaction.id (AppState.transactions s))).
  { intros x. rewrite existsb_exists. split.
    - intros (u & Hu & E). apply String.eqb_eq in E. subst x.
      apply filter_In in Hu. destruct Hu as [Hu Hi]. split; [exact Hi|now apply in_map].
    - intros [Hi Hx]. apply in_map_iff in Hx. destruct Hx as (u & <- & Hu).
      exists u. split; [apply filter_In; now split|apply String.eqb_refl]. }
  split.
  - intros t Ht. apply in_map_iff in Ht. destruct Ht as (u & <- & Hu).
    rewrite has_toggleAffected.
    destruct (AppReducer.includes (Transaction.id u) transactionIds) eqn:Hi.
    + cbn [Transaction.withIsExcluded Transaction.isExcluded Transaction.id].
      assert (X : existsb (fun t => String.eqb (Transaction.id u) (Transaction.id t))
                    (filter (fun t => AppReducer.includes (Transaction.id t) transactionIds)
                       (AppState.transactions s)) = true).
      { apply A. split; [exact Hi|now apply in_map]. }
      now rewrite X.
    + destruct (existsb _ _) eqn:X.
      * apply A in X. destruct X as [X _]. congruence.
      * now apply I1.
  - intros x Hx. rewrite has_toggleAffected in Hx.
    assert (K : forall l, map Transaction.id
                   (map (fun t => if AppReducer.includes (Transaction.id t) transactionIds
                                  then Transaction.withIsExcluded (negb cur) t else t) l)
                 = map Transaction.id l).
    { intros l. rewrite map_map. apply map_ext. intros t.
      now destruct (AppReducer.includes (Transaction.id t) transactionIds). }
    rewrite K. destruct (existsb _ _) eqn:X.
    + apply A in X. tauto.
    + now apply I2.
Qed.

End Listed.

(** X19. The reducer keeps the flags [isExcluded] and the set
    [excludedIds] in step: when, before an action, a stored transaction is
    flagged exactly if its id is in the set and the set holds ids of
    stored transactions only, the same holds after it, provided that the
    transactions that [LOAD_DATA] or [ADD_TRANSACTIONS] brings have
    pairwise different ids. *)
Theorem reducer_keeps_exclusions_in_step
  (host : Host.t) (defaultPreferences : Preferences.t) (state state' : AppState.t)
  (action : AppReducer.AppAction) :
  Consistency.excludedAsListed state ->
  Consistency.bringsDistinctIds action ->
  AppReducer.appReducer host defaultPreferences state action = Some state' ->
  Consistency.excludedAsListed state'.
Proof.
  intros I B H.
  destruct action; cbn [AppReducer.appReducer Consistency.bringsDistinctIds] in *;
    try (inversion H; subst; clear H; apply (listed_same state); [reflexivity..|exact I]).
  - inversion H; subst; clear H. eapply (listed_load host); [exact B|reflexivity..].
  - inversion H; subst; clear H. eapply (listed_add host state); [exact B|reflexivity..|exact I].
  - inversion H; subst; clear H.
    apply listed_map
      with (f := fun t => if String.eqb (Transaction.description t) description
                          then AppReducer.withCategory (Some categoryId) true t else t)
           (s := state); try reflexivity; try exact I;
      intros t; now destruct (String.eqb (Transaction.description t) description).
  - inversion H; subst; clear H.
    apply listed_map
      with (f := AppReducer.recategorize host
                   (CategorizationEngine.mk (AppState.categories state)
                      (AppState.rules state) (AppState.descriptionMappings state))
                   preserveManual)
           (s := state); try reflexivity; try exact I;
      intros t; unfold AppReducer.recategorize;
      (destruct (Transaction.isExcluded t) eqn:E;
       [now rewrite ?E
       |destruct (preserveManual && Transaction.isManuallyCategorized t);
        cbn; now rewrite ?E]).
  - destruct (find _ (AppState.transactions state)) as [found|] eqn:F.
    + destruct (Preferences.excludedTransactionSignatures (AppState.preferences state));
        [|discriminate].
      inversion H; subst; clear H.
      eapply (listed_toggle state _ payload found); [exact F|reflexivity..|exact I].
    + inversion H; subst. exact I.
  - destruct (Preferences.excludedRepeatedExpensePatterns (AppState.preferences state));
      [|discriminate].
    destruct (Preferences.excludedTransactionSignatures (AppState.preferences state))
      as [signatures|]; [|discriminate].
    destruct (fold_left _ _ _) as [nextSignatures nextExcludedIds] eqn:F in H.
    inversion H; subst; clear H.
    eapply (listed_toggle_group host state _ _ transactionIds signatures);
      [reflexivity| |exact I].
    cbn. now rewrite F.
  - inversion H; subst; clear H. split; [intros t []|intros x Hx; discriminate].
  - inversion H; subst; clear H. split; [intros t []|intros x Hx; discriminate].
Qed.

Lemma reducer_keeps_exclusions_in_step_witness :
  Consistency.excludedAsListed Samples.state
  /\ Consistency.bringsDistinctIds (AppReducer.TOGGLE_EXCLUSION "t2")
  /\ exists state',
       AppReducer.appReducer UtcHost.host Samples.preferences Samples.state
         (AppReducer.TOGGLE_EXCLUSION "t2") = Some state'
       /\ map Transaction.isExcluded (AppState.transactions state') = [false; true; false]
       /\ AppState.excludedIds state' = ["t2"]
       /\ Consistency.excludedAsListed state'.
Proof.
  assert (I : Consistency.excludedAsListed Samples.state).
  { split; [intros t [<-|[<-|[<-|[]]]]; reflexivity|intros x Hx; discriminate]. }
  split; [exact I|]. split; [exact Logic.I|].
  eexists. split; [vm_compute; reflexivity|].
  split; [reflexivity|]. split; [reflexivity|].
  apply (reducer_keeps_exclusions_in_step UtcHost.host Samples.preferences Samples.state _
           (AppReducer.TOGGLE_EXCLUSION "t2") I Logic.I).
  vm_compute. reflexivity.
Defined.

(** ** The categories, the rules and the facts of the state *)

(** X20. Every action but [CLEAR_ALL] keeps the categories and the rules
    of the state equal to those of its preferences; [LOAD_DATA] and
    [IMPORT_PREFERENCES] make them equal whatever the state was. *)
Theorem reducer_mirrors_the_preferences
  (host : Host.t) (defaultPreferences : Preferences.t) (state state' : AppState.t)
  (action : AppReducer.AppAction) :
  AppReducer.appReducer host defaultPreferences state action = Some state' ->
  match action with
  | AppReducer.CLEAR_ALL => state' = AppReducer.initialState defaultPreferences
  | AppReducer.LOAD_DATA _ _ _ _ => Consistency.mirrored state'
  | AppReducer.IMPORT_PREFERENCES _ => Consistency.mirrored state'
  | _ => Consistency.mirrored state -> Consistency.mirrored state'
  end.
Proof.
  intros H.
  destruct action; cbn [AppReducer.appReducer] in H;
    try (inversion H; subst; clear H; unfold Consistency.mirrored; cbn;
         first [ reflexivity | now split | tauto
               | intros [-> ->]; now split ]).
  - destruct (find _ _); [|inversion H; subst; tauto].
    destruct (Preferences.excludedTransactionSignatures _); [|discriminate].
    inversion H; subst; clear H. unfold Consistency.mirrored. cbn. tauto.
  - destruct (Preferences.excludedRepeatedExpensePatterns _); [|discriminate].
    destruct (Preferences.excludedTransactionSignatures _); [|discriminate].
    destruct (fold_left _ _ _). inversion H; subst; clear H.
    unfold Consistency.mirrored. cbn. tauto.
Qed.

Lemma reducer_mirrors_the_preferences_witness :
  Consistency.mirrored Samples.state
  /\ exists state',
       AppReducer.appReducer UtcHost.host Samples.preferences Samples.state
         (AppReducer.ADD_CATEGORY (Category.mk "pets" "Pets" [])) = Some state'
       /\ map Category.id (AppState.categories state') = ["pets"]
       /\ Consistency.mirrored state'.
Proof.
  assert (M : Consistency.mirrored Samples.state) by (split; reflexivity).
  split; [exact M|]. eexists. split; [reflexivity|]. split; [reflexivity|].
  exact (reducer_mirrors_the_preferences UtcHost.host Samples.preferences Samples.state _
           (AppReducer.ADD_CATEGORY (Category.mk "pets" "Pets" [])) eq_refl M).
Defined.

(** ** The entry point of the parsers *)

Section Entry.
Variable host : Host.t.
Variable papaParse : string -> Papa.outcome.

Lemma parseFiles_from (files : list File.t) :
  forall all,
    fold_left (Parsers.addResult host papaParse) files all
    = ParseResult.mk
        (ParseResult.transactions all
         ++ flat_map (fun f => ParseResult.transactions (Parsers.parseFile host papaParse f))
              files)%list
        (ParseResult.errors all
         ++ flat_map (fun f => ParseResult.errors (Parsers.parseFile host papaParse f))
              files)%list.
Proof.
  induction files as [|f files IH]; intros all; cbn [fold_left flat_map].
  - rewrite !app_nil_r. now destruct all.
  - rewrite IH. unfold Parsers.addResult. cbn [ParseResult.transactions ParseResult.errors].
    now rewrite !app_assoc.
Qed.

Lemma parseFiles_flat_map (files : list File.t) :
  Parsers.parseFiles host papaParse files
  = ParseResult.mk
      (flat_map (fun f => ParseResult.transactions (Parsers.parseFile host papaParse f)) files)
      (flat_map (fun f => ParseResult.errors (Parsers.parseFile host papaParse f)) files).
Proof. unfold Parsers.parseFiles. now rewrite parseFiles_from. Qed.

Lemma parseFile_cases (file : File.t) (t : Transaction.t) :
  In t (ParseResult.transactions (Parsers.parseFile host papaParse file)) ->
  (exists content,
      In t (ParseResult.transactions
              (QfxParser.parseQFX host content (Some (File.name file)))))
  \/ (exists content,
         In t (ParseResult.transactions (CsvParser.parseCSV host papaParse content))).
Proof.
  unfold Parsers.parseFile. destruct (File.text file) as [content|reason]; [|intros []].
  destruct (Parsers.detectFormat (File.name file) content); [| |intros []].
  - intros H. left. now exists content.
  - intros H. right. now exists content.
Qed.

End Entry.

(** X21. [parseFiles] gives the transactions of the files one file after
    the other, in the order of the files, and the errors likewise; the
    result for two lists of files is the result for the first followed by
    the result for the second. *)
Theorem parseFiles_concatenates_the_files
  (host : Host.t) (papaParse : string -> Papa.outcome) (files more : list File.t) :
  ParseResult.transactions (Parsers.parseFiles host papaParse files)
  = flat_map (fun f => ParseResult.transactions (Parsers.parseFile host papaParse f)) files
  /\ ParseResult.errors (Parsers.parseFiles host papaParse files)
     = flat_map (fun f => ParseResult.errors (Parsers.parseFile host papaParse f)) files
  /\ ParseResult.transactions (Parsers.parseFiles host papaParse (files ++ more))
     = (ParseResult.transactions (Parsers.parseFiles host papaParse files)
        ++ ParseResult.transactions (Parsers.parseFiles host papaParse more))%list
  /\ ParseResult.errors (Parsers.parseFiles host papaParse (files ++ more))
     = (ParseResult.errors (Parsers.parseFiles host papaParse files)
        ++ ParseResult.errors (Parsers.parseFiles host papaParse more))%list.
Proof.
  rewrite !parseFiles_flat_map. cbn [ParseResult.transactions ParseResult.errors].
  rewrite !flat_map_app. repeat split; reflexivity.
Qed.

(** X22. A file that [parseFile] reads into nothing at all, no
    transaction and no error, is a file taken for CSV in which Papa Parse
    found no row and no error: every other file gives a transaction or a
    message. *)
Theorem only_an_empty_csv_is_read_silently
  (host : Host.t) (papaParse : string -> Papa.outcome) (file : File.t) :
  Parsers.parseFile host papaParse file = ParseResult.mk [] [] ->
  exists content,
    File.text file = inl content
    /\ Parsers.detectFormat (File.name file) content = Parsers.CSV
    /\ papaParse content = Papa.Complete [] [].
Proof.
  unfold Parsers.parseFile. destruct (File.text file) as [content|reason]; [|discriminate].
  destruct (Parsers.detectFormat (File.name file) content) eqn:F; [| |discriminate].
  - intros H. exfalso.
    destruct (parseQFX_not_silent host content (Some (File.name file))) as [N|N];
      rewrite H in N; now apply N.
  - intros H. exists content. split; [reflexivity|]. split; [exact F|].
    unfold CsvParser.parseCSV in H.
    destruct (papaParse content) as [data parseErrors|message]; [|discriminate].
    destruct (complete_accounts host data parseErrors) as (rowErrors & E & L & _).
    rewrite H in E, L.
    cbn [ParseResult.errors ParseResult.transactions List.length] in E, L.
    destruct parseErrors; [|discriminate]. cbn [map app] in E.
    destruct rowErrors; [|discriminate]. cbn [List.length] in L.
    destruct data; [reflexivity|discriminate].
Qed.

Lemma only_an_empty_csv_is_read_silently_witness :
  Parsers.parseFile UtcHost.host (fun _ => Papa.Complete [] []) (File.mk "empty.csv" (inl ""))
  = ParseResult.mk [] []
  /\ exists content,
       File.text (File.mk "empty.csv" (inl "")) = inl content
       /\ Parsers.detectFormat "empty.csv" content = Parsers.CSV
       /\ (fun _ : string => Papa.Complete [] []) content = Papa.Complete [] [].
Proof.
  split; [reflexivity|].
  exact (only_an_empty_csv_is_read_silently UtcHost.host (fun _ => Papa.Complete [] [])
           (File.mk "empty.csv" (inl "")) eq_refl).
Defined.

(** ** Uploading files *)

Section Upload.
Variable host : Host.t.
Variable defaultPreferences : Preferences.t.
Variable papaParse : string -> Papa.outcome.

Lemma dispatchAll_app (actions more : list AppReducer.AppAction) :
  forall state,
    AppProvider.dispatchAll host defaultPreferences (actions ++ more) state
    = match AppProvider.dispatchAll host defaultPreferences actions state with
      | Some state' => AppProvider.dispatchAll host defaultPreferences more state'
      | None => None
      end.
Proof.
  induction actions as [|a actions IH]; intros state; cbn [app AppProvider.dispatchAll].
  - reflexivity.
  - destruct (AppReducer.appReducer host defaultPreferences state a); [apply IH|reflexivity].
Qed.

Lemma dispatchAll_errors (messages : list string) :
  forall state,
    AppProvider.dispatchAll host defaultPreferences (map AppReducer.ADD_ERROR messages) state
    = Some (AppState.withErrors (AppState.errors state ++ messages) state).
Proof.
  induction messages as [|m messages IH]; intros state; cbn [map AppProvider.dispatchAll].
  - rewrite app_nil_r. now destruct state.
  - cbn [AppReducer.appReducer]. rewrite IH. unfold AppState.withErrors.
    cbn [AppState.errors AppState.transactions AppState.categories AppState.rules
         AppState.preferences AppState.excludedIds AppState.excludedRepeatedExpenses
         AppState.manualOverrides AppState.descriptionMappings AppState.isLoading
         AppState.timeWindowFilter AppState.selectedCategories].
    now rewrite <- app_assoc.
Qed.

(** The objects of an array without aliases, after [batchCategorize]. *)
Lemma batchCategorize_all (engine : CategorizationEngine.t) (transactions : list Transaction.t) :
  CategorizationEngine.batchCategorize host engine (seq 0 (List.length transactions))
    transactions
  = map (Invariants.visited host engine) transactions.
Proof.
  apply nth_error_ext. intros n.
  rewrite nth_error_batchCategorize, nth_error_map.
  destruct (existsb (Nat.eqb n) (seq 0 (List.length transactions))) eqn:E; [reflexivity|].
  destruct (nth_error transactions n) as [t|] eqn:N; [|reflexivity].
  exfalso. assert (L : n < List.length transactions).
  { apply nth_error_Some. now rewrite N. }
  assert (X : existsb (Nat.eqb n) (seq 0 (List.length transactions)) = true).
  { apply existsb_exists. exists n. split; [apply in_seq; lia|apply Nat.eqb_refl]. }
  congruence.
Qed.

(** What the parsers return is uncategorized and carries no flag. *)
Lemma parseFile_fresh (file : File.t) (t : Transaction.t) :
  In t (ParseResult.transactions (Parsers.parseFile host papaParse file)) ->
  Transaction.categoryId t = None
  /\ Transaction.isExcluded t = false
  /\ Transaction.isManuallyCategorized t = false.
Proof.
  intros H. destruct (parseFile_cases host papaParse file t H) as [[content Q]|[content C]].
  - destruct (parseQFX_account host content (Some (File.name file))) as [accountId A].
    destruct (A t Q) as [e P]. apply parseTransaction_fields in P. tauto.
  - apply In_parseCSV in C. destruct C as (i & record & R).
    apply parseRow_fields in R. destruct R as (raw & R). tauto.
Qed.

Lemma parseFiles_fresh (files : list File.t) (t : Transaction.t) :
  In t (ParseResult.transactions (Parsers.parseFiles host papaParse files)) ->
  Transaction.categoryId t = None
  /\ Transaction.isExcluded t = false
  /\ Transaction.isManuallyCategorized t = false.
Proof.
  rewrite parseFiles_flat_map. cbn [ParseResult.transactions].
  intros H. apply in_flat_map in H. destruct H as (file & _ & H).
  now apply parseFile_fresh in H.
Qed.

End Upload.

Lemma id_visited (host : Host.t) (engine : CategorizationEngine.t) (t : Transaction.t) :
  Transaction.id (Invariants.visited host engine t) = Transaction.id t.
Proof. unfold Invariants.visited. now destruct (Invariants.eligible t). Qed.

(** The transactions that [ADD_TRANSACTIONS] appends. *)
Lemma appended_transactions (host : Host.t) (signatures ids : list string)
  (payload : list Transaction.t) :
  map (AppReducer.applyExclusion host (StringSet.ofArray signatures))
    (filter (fun t => negb (StringSet.has (Transaction.id t) (StringSet.ofArray ids))) payload)
  = map (fun t => Transaction.withIsExcluded
                    (AppReducer.includes (AppReducer.signatureOf host t) signatures) t)
      (filter (fun t => negb (AppReducer.includes (Transaction.id t) ids)) payload).
Proof.
  rewrite (filter_ext _ (fun t => negb (AppReducer.includes (Transaction.id t) ids)))
    by (intros t; now rewrite has_ofArray).
  apply map_ext. intros t. unfold AppReducer.applyExclusion. now rewrite has_ofArray.
Qed.

(** X23. [uploadFiles] ends with the loading flag off and with the
    messages of the parsers as the errors of the state. It appends the
    parsed transactions whose id the state does not have yet, each with
    the category that the engine of the captured state gives to it and
    excluded exactly when its signature is among the excluded signatures
    of the preferences; the transactions that were there, the categories,
    the rules, the preferences, the manual overrides and the description
    mappings are as before. *)
Theorem uploadFiles_appends_the_categorized_transactions
  (host : Host.t) (defaultPreferences : Preferences.t) (papaParse : string -> Papa.outcome)
  (files : list File.t) (captured state : AppState.t) :
  exists state',
    AppProvider.uploadFiles host defaultPreferences papaParse files captured state = Some state'
    /\ AppState.isLoading state' = false
    /\ AppState.errors state'
       = map ParseError.message (ParseResult.errors (Parsers.parseFiles host papaParse files))
    /\ AppState.transactions state'
       = (AppState.transactions state
          ++ map (fun t =>
                    Transaction.withIsExcluded
                      (AppReducer.includes (AppReducer.signatureOf host t)
                         (AppReducer.orEmptyArray
                            (Preferences.excludedTransactionSignatures
                               (AppState.preferences state))))
                      (Transaction.setCategoryId
                         (CategorizationEngine.categorize host (AppProvider.engineOf captured) t)
                         t))
               (filter (fun t => negb (AppReducer.includes (Transaction.id t)
                                         (map Transaction.id (AppState.transactions state))))
                  (ParseResult.transactions (Parsers.parseFiles host papaParse files))))%list
    /\ AppState.categories state' = AppState.categories state
    /\ AppState.rules state' = AppState.rules state
    /\ AppState.preferences state' = AppState.preferences state
    /\ AppState.manualOverrides state' = AppState.manualOverrides state
    /\ AppState.descriptionMappings state' = AppState.descriptionMappings state.
Proof.
  unfold AppProvider.uploadFiles, AppProvider.uploadActions.
  pose proof (parseFiles_fresh host papaParse files) as Fresh.
  destruct (Parsers.parseFiles host papaParse files) as [transactions errors].
  cbn [ParseResult.transactions ParseResult.errors] in *.
  cbn [app AppProvider.dispatchAll AppReducer.appReducer].
  rewrite dispatchAll_app, dispatchAll_errors.
  destruct transactions as [|t ts].
  - cbn [app AppProvider.dispatchAll AppReducer.appReducer filter map].
    eexists. split; [reflexivity|]. cbn. rewrite app_nil_r. repeat split; reflexivity.
  - assert (V : map (Invariants.visited host (AppProvider.engineOf captured)) (t :: ts)
                = map (fun u => Transaction.setCategoryId
                                  (CategorizationEngine.categorize host
                                     (AppProvider.engineOf captured) u) u) (t :: ts)).
    { apply map_ext_in. intros u Hu. destruct (Fresh u Hu) as (C & _ & M).
      unfold Invariants.visited, Invariants.eligible, CategorizationEngine.noCategory.
      now rewrite C, M. }
    cbn [app AppProvider.dispatchAll AppReducer.appReducer].
    eexists. split; [reflexivity|].
    cbn [AppState.isLoading AppState.errors AppState.transactions AppState.categories
         AppState.rules AppState.preferences AppState.manualOverrides
         AppState.descriptionMappings AppState.withIsLoading AppState.withErrors
         AppState.withExcludedIds AppState.withTransactions AppState.excludedIds
         AppState.excludedRepeatedExpenses AppState.timeWindowFilter
         AppState.selectedCategories].
    repeat split; try reflexivity.
    f_equal. rewrite batchCategorize_all, appended_transactions, V.
    rewrite filter_map_swap, map_map. reflexivity.
Qed.

(** ** Toggling an exclusion *)

Lemma includes_In (x : string) (xs : list string) : AppReducer.includes x xs = true <-> In x xs.
Proof. apply has_In. Qed.

Lemma includes_app (x : string) (xs ys : list string) :
  AppReducer.includes x (xs ++ ys) = AppReducer.includes x xs || AppReducer.includes x ys.
Proof. apply existsb_app. Qed.

Lemma removeFirst_last (x : string) (xs : list string) :
  AppReducer.includes x xs = false -> AppReducer.removeFirst x (xs ++ [x]) = xs.
Proof.
  induction xs as [|y xs IH]; cbn [AppReducer.includes existsb app AppReducer.removeFirst].
  - now rewrite String.eqb_refl.
  - intros H. apply orb_false_iff in H. destruct H as [N H].
    rewrite String.eqb_sym, N. f_equal. apply IH, H.
Qed.

Lemma removeFirst_perm (x : string) (xs : list string) :
  AppReducer.includes x xs = true -> Permutation xs (AppReducer.removeFirst x xs ++ [x]).
Proof.
  induction xs as [|y xs IH]; cbn [AppReducer.includes existsb AppReducer.removeFirst];
    [discriminate|].
  destruct (String.eqb_spec y x) as [->|N].
  - intros _. apply Permutation_cons_append.
  - destruct (String.eqb_spec x y) as [E|_]; [now subst|]. cbn [orb app].
    intros H. now apply perm_skip, IH.
Qed.

Lemma removeFirst_NoDup (x : string) (xs : list string) :
  NoDup xs -> AppReducer.includes x (AppReducer.removeFirst x xs) = false.
Proof.
  induction 1 as [|y xs Hy Hxs IH]; cbn [AppReducer.removeFirst]; [reflexivity|].
  destruct (String.eqb_spec y x) as [->|N].
  - destruct (AppReducer.includes x xs) eqn:I; [|reflexivity].
    now apply includes_In in I.
  - cbn [AppReducer.includes existsb]. change (existsb (String.eqb x)) with (AppReducer.includes x).
    rewrite IH. destruct (String.eqb_spec x y); [now subst|reflexivity].
Qed.

Lemma find_map_same {A : Type} (p : A -> bool) (f : A -> A) (l : list A) :
  (forall x, p (f x) = p x) -> find p (map f l) = option_map f (find p l).
Proof.
  intros H. induction l as [|x l IH]; cbn [map find]; [reflexivity|].
  rewrite H. now destruct (p x).
Qed.

Lemma toggled_twice (payload : string) (ts : list Transaction.t) :
  map (fun t => if String.eqb (Transaction.id t) payload
                then Transaction.withIsExcluded (negb (Transaction.isExcluded t)) t else t)
    (map (fun t => if String.eqb (Transaction.id t) payload
                   then Transaction.withIsExcluded (negb (Transaction.isExcluded t)) t else t)
       ts)
  = ts.
Proof.
  rewrite map_map. rewrite <- (map_id ts) at 2. apply map_ext. intros t.
  destruct (String.eqb (Transaction.id t) payload) eqn:E; [|now rewrite E].
  cbn [Transaction.id Transaction.withIsExcluded]. rewrite E.
  destruct t; cbn. now rewrite negb_involutive.
Qed.

(** X24. Toggling the exclusion of a transaction twice restores the
    stored transactions, the members of [excludedIds] and, when the list
    of excluded signatures lists none twice, its members. *)
Theorem toggling_an_exclusion_twice_restores_it
  (host : Host.t) (defaultPreferences : Preferences.t) (state : AppState.t)
  (id : string) (signatures : list string) :
  Preferences.excludedTransactionSignatures (AppState.preferences state) = Some signatures ->
  NoDup signatures ->
  exists state'' signatures'',
    AppProvider.dispatchAll host defaultPreferences
      [AppReducer.TOGGLE_EXCLUSION id; AppReducer.TOGGLE_EXCLUSION id] state = Some state''
    /\ AppState.transactions state'' = AppState.transactions state
    /\ (forall x, StringSet.has x (AppState.excludedIds state'')
                  = StringSet.has x (AppState.excludedIds state))
    /\ Preferences.excludedTransactionSignatures (AppState.preferences state'')
       = Some signatures''
    /\ Permutation signatures signatures''.
Proof.
  intros S N. cbn [AppProvider.dispatchAll AppReducer.appReducer].
  destruct (find (fun t => String.eqb (Transaction.id t) id) (AppState.transactions state))
    as [t|] eqn:F.
  - rewrite S.
    cbn [AppReducer.appReducer AppState.transactions AppState.withPreferences
         AppState.withExcludedIds AppState.withTransactions AppState.preferences
         AppState.excludedIds Preferences.excludedTransactionSignatures
         Preferences.withExclusions].
    rewrite find_map_same
      by (intros x; destruct (String.eqb (Transaction.id x) id) eqn:E; [exact E|now rewrite E]).
    rewrite F. cbn [option_map].
    destruct (find_some _ _ F) as [_ E]. cbn beta in E. rewrite E.
    change (AppReducer.signatureOf host
              (Transaction.withIsExcluded (negb (Transaction.isExcluded t)) t))
      with (AppReducer.signatureOf host t).
    set (signature := AppReducer.signatureOf host t).
    eexists. eexists. split; [reflexivity|].
    cbn [AppState.transactions AppState.withPreferences AppState.withExcludedIds
         AppState.withTransactions AppState.preferences AppState.excludedIds
         Preferences.excludedTransactionSignatures Preferences.withExclusions].
    split; [apply toggled_twice|]. split; [|split; [reflexivity|]].
    + intros x. destruct (StringSet.has id (AppState.excludedIds state)) eqn:H.
      * rewrite has_delete, String.eqb_refl. cbn [negb andb].
        rewrite has_add, has_delete.
        destruct (String.eqb_spec x id) as [->|]; [now rewrite H|reflexivity].
      * rewrite has_add, String.eqb_refl. cbn [orb].
        rewrite has_delete, has_add.
        destruct (String.eqb_spec x id) as [->|]; [now rewrite H|reflexivity].
    + destruct (AppReducer.includes signature signatures) eqn:I.
      * rewrite removeFirst_NoDup by exact N. now apply removeFirst_perm.
      * rewrite includes_app. cbn [AppReducer.includes existsb].
        rewrite String.eqb_refl, orb_true_r. cbn [orb].
        now rewrite removeFirst_last.
  - rewrite F. exists state, signatures. repeat split; [exact S|reflexivity].
Qed.

Lemma toggling_an_exclusion_twice_restores_it_witness :
  Preferences.excludedTransactionSignatures (AppState.preferences Samples.state) = Some []
  /\ NoDup (@nil string)
  /\ exists state'' signatures'',
       AppProvider.dispatchAll UtcHost.host Samples.preferences
         [AppReducer.TOGGLE_EXCLUSION "t2"; AppReducer.TOGGLE_EXCLUSION "t2"] Samples.state
       = Some state''
       /\ AppState.transactions state'' = AppState.transactions Samples.state
       /\ (forall x, StringSet.has x (AppState.excludedIds state'')
                     = StringSet.has x (AppState.excludedIds Samples.state))
       /\ Preferences.excludedTransactionSignatures (AppState.preferences state'')
          = Some signatures''
       /\ Permutation [] signatures''.
Proof.
  split; [reflexivity|]. split; [constructor|].
  exact (toggling_an_exclusion_twice_restores_it UtcHost.host Samples.preferences
           Samples.state "t2" [] eq_refl (NoDup_nil string)).
Defined.

(** X25. The exclusion of a transaction outlives the transactions: after
    the exclusion is toggled on and the transactions are cleared, the
    transactions that are added come excluded exactly when their
    signature, that of their date, amount and description, is the one of
    the excluded transaction or was excluded before. *)
Theorem an_exclusion_survives_clearing
  (host : Host.t) (defaultPreferences : Preferences.t) (state : AppState.t)
  (id : string) (t : Transaction.t) (signatures : list string)
  (payload : list Transaction.t) (errors : list string) :
  find (fun u => String.eqb (Transaction.id u) id) (AppState.transactions state) = Some t ->
  Preferences.excludedTransactionSignatures (AppState.preferences state) = Some signatures ->
  AppReducer.includes (AppReducer.signatureOf host t) signatures = false ->
  exists state',
    AppProvider.dispatchAll host defaultPreferences
      [AppReducer.TOGGLE_EXCLUSION id; AppReducer.CLEAR_TRANSACTIONS;
       AppReducer.ADD_TRANSACTIONS payload errors] state = Some state'
    /\ AppState.transactions state'
       = map (fun u =>
                Transaction.withIsExcluded
                  (AppReducer.includes (AppReducer.signatureOf host u) signatures
                   || String.eqb (AppReducer.signatureOf host u)
                        (AppReducer.signatureOf host t)) u)
           payload.
Proof.
  intros F S I. cbn [AppProvider.dispatchAll AppReducer.appReducer]. rewrite F, S, I.
  cbn [AppProvider.dispatchAll AppReducer.appReducer AppState.transactions
       AppState.withPreferences AppState.withExcludedIds AppState.withTransactions
       AppState.withManualOverrides AppState.withExcludedRepeatedExpenses
       AppState.preferences AppState.excludedIds Preferences.excludedTransactionSignatures
       Preferences.withExclusions AppReducer.orEmptyArray map app].
  eexists. split; [reflexivity|].
  cbn [AppState.transactions AppState.withErrors AppState.withExcludedIds
       AppState.withTransactions app].
  rewrite (appended_transactions host _ [] payload). cbn [AppReducer.includes existsb negb].
  rewrite forallb_filter_id by (apply forallb_forall; reflexivity).
  apply map_ext. intros u. rewrite includes_app. cbn [AppReducer.includes existsb].
  now rewrite orb_false_r.
Qed.

Lemma an_exclusion_survives_clearing_witness :
  AppReducer.includes
    (AppReducer.signatureOf UtcHost.host (Examples.debit "t2" 30 "NETFLIX.COM" (-9.49)))
    [] = false
  /\ exists state',
       AppProvider.dispatchAll UtcHost.host Samples.preferences
         [AppReducer.TOGGLE_EXCLUSION "t2"; AppReducer.CLEAR_TRANSACTIONS;
          AppReducer.ADD_TRANSACTIONS Examples.monthly []] Samples.state = Some state'
       /\ AppState.transactions state'
          = map (fun u =>
                   Transaction.withIsExcluded
                     (AppReducer.includes (AppReducer.signatureOf UtcHost.host u) []
                      || String.eqb (AppReducer.signatureOf UtcHost.host u)
                           (AppReducer.signatureOf UtcHost.host
                              (Examples.debit "t2" 30 "NETFLIX.COM" (-9.49)))) u)
              Examples.monthly
       /\ map Transaction.isExcluded (AppState.transactions state') = [false; true; false].
Proof.
  split; [reflexivity|].
  destruct (an_exclusion_survives_clearing UtcHost.host Samples.preferences Samples.state "t2"
              (Examples.debit "t2" 30 "NETFLIX.COM" (-9.49)) [] Examples.monthly []
              eq_refl eq_refl eq_refl) as (state' & D & T).
  exists state'. split; [exact D|]. split; [exact T|]. rewrite T. vm_compute. reflexivity.
Defined.

(** ** Categories of the stored transactions *)

Lemma description_recategorize (host : Host.t) (engine : CategorizationEngine.t)
  (preserveManual : bool) (t : Transaction.t) :
  Transaction.description (AppReducer.recategorize host engine preserveManual t)
  = Transaction.description t.
Proof.
  unfold AppReducer.recategorize. destruct (Transaction.isExcluded t); [reflexivity|].
  now destruct (preserveManual && Transaction.isManuallyCategorized t).
Qed.

Lemma categorize_mapped (host : Host.t) (engine : CategorizationEngine.t)
  (t : Transaction.t) (categoryId : string) :
  StringMap.get (Transaction.description t) (CategorizationEngine.descriptionMappings engine)
  = Some categoryId ->
  categoryId <> "" ->
  CategorizationEngine.categorize host engine t = Some categoryId.
Proof.
  intros G N. unfold CategorizationEngine.categorize. rewrite G.
  destruct categoryId; [contradiction|reflexivity].
Qed.

(** X26. A category given by hand holds against recategorization: after
    [CATEGORIZE_TRANSACTION] with a category id that is not empty, every
    stored transaction with the description of the action has that
    category, and has it still after [RECATEGORIZE_TRANSACTIONS], with or
    without [preserveManual], whatever the patterns and the rules say. *)
Theorem a_manual_category_survives_recategorization
  (host : Host.t) (defaultPreferences : Preferences.t) (state : AppState.t)
  (id categoryId description : string) (preserveManual : bool) :
  categoryId <> "" ->
  exists state',
    AppProvider.dispatchAll host defaultPreferences
      [AppReducer.CATEGORIZE_TRANSACTION id categoryId description;
       AppReducer.RECATEGORIZE_TRANSACTIONS preserveManual] state = Some state'
    /\ map Transaction.description (AppState.transactions state')
       = map Transaction.description (AppState.transactions state)
    /\ forall u, In u (AppState.transactions state') ->
                 Transaction.description u = description ->
                 Transaction.categoryId u = Some categoryId.
Proof.
  intros N. eexists. split; [reflexivity|].
  cbn [AppState.transactions AppState.withTransactions AppState.withManualOverrides
       AppState.withDescriptionMappings AppState.categories AppState.rules
       AppState.descriptionMappings].
  split.
  - rewrite !map_map. apply map_ext. intros t. rewrite description_recategorize.
    now destruct (String.eqb (Transaction.description t) description).
  - intros u Hu D. apply in_map_iff in Hu. destruct Hu as (v & <- & Hv).
    apply in_map_iff in Hv. destruct Hv as (w & <- & _).
    rewrite description_recategorize in D.
    destruct (String.eqb_spec (Transaction.description w) description) as [E|E];
      [|contradiction].
    unfold AppReducer.recategorize.
    cbn [Transaction.isExcluded Transaction.isManuallyCategorized AppReducer.withCategory].
    destruct (Transaction.isExcluded w); [reflexivity|].
    rewrite andb_true_r. destruct preserveManual; [reflexivity|].
    cbn [Transaction.categoryId AppReducer.withCategory].
    apply categorize_mapped; [|exact N].
    cbn [Transaction.description CategorizationEngine.descriptionMappings
         AppReducer.withCategory]. rewrite E.
    apply get_set_same.
Qed.

Lemma a_manual_category_survives_recategorization_witness :
  "pets" <> ""
  /\ exists state',
       AppProvider.dispatchAll UtcHost.host Samples.preferences
         [AppReducer.CATEGORIZE_TRANSACTION "t1" "pets" "NETFLIX.COM";
          AppReducer.RECATEGORIZE_TRANSACTIONS false] Samples.state = Some state'
       /\ map Transaction.description (AppState.transactions state')
          = map Transaction.description (AppState.transactions Samples.state)
       /\ forall u, In u (AppState.transactions state') ->
                    Transaction.description u = "NETFLIX.COM" ->
                    Transaction.categoryId u = Some "pets".
Proof.
  split; [discriminate|].
  apply (a_manual_category_survives_recategorization UtcHost.host Samples.preferences
           Samples.state "t1" "pets" "NETFLIX.COM" false).
  discriminate.
Defined.

Lemma recategorize_again (host : Host.t) (engine : CategorizationEngine.t)
  (preserveManual : bool) (t : Transaction.t) :
  AppReducer.recategorize host engine preserveManual
    (AppReducer.recategorize host engine preserveManual t)
  = AppReducer.recategorize host engine preserveManual t.
Proof.
  unfold AppReducer.recategorize.
  destruct (Transaction.isExcluded t) eqn:X; [now rewrite X|].
  destruct (preserveManual && Transaction.isManuallyCategorized t) eqn:M.
  - now rewrite X, M.
  - cbn [Transaction.isExcluded Transaction.isManuallyCategorized AppReducer.withCategory].
    rewrite X, andb_false_r. reflexivity.
Qed.

(** X27. Recategorizing twice gives what recategorizing once gives. *)
Theorem recategorizing_twice_is_once
  (host : Host.t) (defaultPreferences : Preferences.t) (state : AppState.t)
  (preserveManual : bool) :
  AppProvider.dispatchAll host defaultPreferences
    [AppReducer.RECATEGORIZE_TRANSACTIONS preserveManual;
     AppReducer.RECATEGORIZE_TRANSACTIONS preserveManual] state
  = AppProvider.dispatchAll host defaultPreferences
      [AppReducer.RECATEGORIZE_TRANSACTIONS preserveManual] state.
Proof.
  cbn [AppProvider.dispatchAll AppReducer.appReducer]. f_equal.
  cbn [AppState.transactions AppState.withTransactions AppState.categories AppState.rules
       AppState.descriptionMappings AppState.preferences AppState.excludedIds
       AppState.excludedRepeatedExpenses AppState.manualOverrides AppState.isLoading
       AppState.errors AppState.timeWindowFilter AppState.selectedCategories].
  unfold AppState.withTransactions. f_equal.
  rewrite map_map. apply map_ext. intros t. apply recategorize_again.
Qed.

(** ** What the reducer leaves alone *)

Lemma facts_map (f : Transaction.t -> Transaction.t) (ts : list Transaction.t) :
  (forall t, Consistency.facts (f t) = Consistency.facts t) ->
  map Consistency.facts (map f ts) = map Consistency.facts ts.
Proof. intros H. rewrite map_map. apply map_ext, H. Qed.

Lemma facts_recategorize (host : Host.t) (engine : CategorizationEngine.t)
  (preserveManual : bool) (t : Transaction.t) :
  Consistency.facts (AppReducer.recategorize host engine preserveManual t)
  = Consistency.facts t.
Proof.
  unfold AppReducer.recategorize. destruct (Transaction.isExcluded t); [reflexivity|].
  now destruct (preserveManual && Transaction.isManuallyCategorized t).
Qed.

(** X28. The reducer never alters what a parser read in a file: the id,
    the date, the description, the amount, the type, the source, the
    source file, the account id, the bank transaction id and the memo of
    the stored transactions are after an action what they were before it.
    [LOAD_DATA] stores the transactions it brings, [ADD_TRANSACTIONS]
    appends those whose id is new, as the reducer did before exclusions by
    signature were introduced, and the two [CLEAR] actions store none. *)
Theorem reducer_keeps_what_the_parsers_read
  (host : Host.t) (defaultPreferences : Preferences.t) (state state' : AppState.t)
  (action : AppReducer.AppAction) :
  AppReducer.appReducer host defaultPreferences state action = Some state' ->
  map Consistency.facts (AppState.transactions state')
  = match action with
    | AppReducer.LOAD_DATA transactions _ _ _ => map Consistency.facts transactions
    | AppReducer.ADD_TRANSACTIONS transactions _ =>
        map Consistency.facts
          (AppContext.addTransactions (AppState.transactions state) transactions)
    | AppReducer.CLEAR_TRANSACTIONS => []
    | AppReducer.CLEAR_ALL => []
    | _ => map Consistency.facts (AppState.transactions state)
    end.
Proof.
  destruct action; cbn [AppReducer.appReducer]; intros H;
    try (inversion H; subst state'; reflexivity).
  - inversion H; subst state'. cbn [AppState.transactions]. now apply facts_map.
  - inversion H; subst state'.
    cbn [AppState.transactions AppState.withErrors AppState.withExcludedIds
         AppState.withTransactions].
    unfold AppContext.addTransactions. rewrite !map_app. f_equal.
    rewrite facts_map by reflexivity. f_equal. apply filter_ext. intros t.
    now rewrite has_ofArray.
  - inversion H; subst state'.
    cbn [AppState.transactions AppState.withDescriptionMappings
         AppState.withManualOverrides AppState.withTransactions].
    apply facts_map. intros t.
    now destruct (String.eqb (Transaction.description t) description).
  - inversion H; subst state'. cbn [AppState.transactions AppState.withTransactions].
    apply facts_map. intros t. apply facts_recategorize.
  - destruct (find _ (AppState.transactions state)); [|now inversion H].
    destruct (Preferences.excludedTransactionSignatures (AppState.preferences state));
      [|discriminate].
    inversion H; subst state'.
    cbn [AppState.transactions AppState.withPreferences AppState.withExcludedIds
         AppState.withTransactions].
    apply facts_map. intros u. now destruct (String.eqb (Transaction.id u) payload).
  - destruct (Preferences.excludedRepeatedExpensePatterns (AppState.preferences state));
      [|discriminate].
    destruct (Preferences.excludedTransactionSignatures (AppState.preferences state));
      [|discriminate].
    destruct (fold_left _ _ _) as [nextSignatures nextExcludedIds].
    inversion H; subst state'.
    cbn [AppState.transactions AppState.withPreferences AppState.withExcludedIds
         AppState.withExcludedRepeatedExpenses AppState.withTransactions].
    apply facts_map. intros t.
    now destruct (AppReducer.includes (Transaction.id t) transactionIds).
Qed.

Lemma reducer_keeps_what_the_parsers_read_witness :
  exists state',
    AppReducer.appReducer UtcHost.host Samples.preferences Samples.state
      (AppReducer.CATEGORIZE_TRANSACTION "t1" "pets" "NETFLIX.COM") = Some state'
    /\ map Transaction.categoryId (AppState.transactions state')
       = [Some "pets"; Some "pets"; Some "pets"]
    /\ map Consistency.facts (AppState.transactions state')
       = map Consistency.facts (AppState.transactions Samples.state).
Proof.
  eexists. split; [reflexivity|]. split; [reflexivity|].
  exact (reducer_keeps_what_the_parsers_read UtcHost.host Samples.preferences Samples.state _
           (AppReducer.CATEGORIZE_TRANSACTION "t1" "pets" "NETFLIX.COM") eq_refl).
Defined.

Lemma find_stored (id : string) (ts : list Transaction.t) :
  In id (map Transaction.id ts) ->
  exists t, find (fun t => String.eqb (Transaction.id t) id) ts = Some t.
Proof.
  intros H. destruct (find _ ts) as [t|] eqn:F; [now exists t|].
  apply in_map_iff in H. destruct H as (t & <- & Ht).
  apply (find_none _ _ F) in Ht. cbn beta in Ht. now rewrite String.eqb_refl in Ht.
Qed.

(** X29. Preferences without the list of excluded signatures, which the
    import accepts, make the reducer throw later: once they are imported,
    toggling the exclusion of a stored transaction throws, and so does
    toggling the exclusion of a repeated expense. *)
Theorem toggling_throws_after_importing_old_preferences
  (host : Host.t) (defaultPreferences : Preferences.t) (state : AppState.t)
  (payload : Preferences.t) (id merchantPattern : string) (transactionIds : list string) :
  Preferences.excludedTransactionSignatures payload = None ->
  In id (map Transaction.id (AppState.transactions state)) ->
  AppProvider.dispatchAll host defaultPreferences
    [AppReducer.IMPORT_PREFERENCES payload; AppReducer.TOGGLE_EXCLUSION id] state = None
  /\ AppProvider.dispatchAll host defaultPreferences
       [AppReducer.IMPORT_PREFERENCES payload;
        AppReducer.TOGGLE_REPEATED_EXPENSE_EXCLUSION merchantPattern transactionIds] state
     = None.
Proof.
  intros S H. apply find_stored in H. destruct H as [t F].
  cbn [AppProvider.dispatchAll AppReducer.appReducer AppState.transactions
       AppState.preferences AppState.withTimeWindowFilter AppState.withRules
       AppState.withCategories AppState.withPreferences].
  rewrite F, S. split; [reflexivity|].
  now destruct (Preferences.excludedRepeatedExpensePatterns payload).
Qed.

Lemma toggling_throws_after_importing_old_preferences_witness :
  In "t1" (map Transaction.id (AppState.transactions Samples.state))
  /\ AppProvider.dispatchAll UtcHost.host Samples.preferences
       [AppReducer.IMPORT_PREFERENCES Samples.oldPreferences;
        AppReducer.TOGGLE_EXCLUSION "t1"] Samples.state = None
  /\ AppProvider.dispatchAll UtcHost.host Samples.preferences
       [AppReducer.IMPORT_PREFERENCES Samples.oldPreferences;
        AppReducer.TOGGLE_REPEATED_EXPENSE_EXCLUSION "NETFLIX.COM" ["t1"]] Samples.state
     = None.
Proof.
  split; [left; reflexivity|].
  apply (toggling_throws_after_importing_old_preferences UtcHost.host Samples.preferences
           Samples.state Samples.oldPreferences "t1" "NETFLIX.COM" ["t1"]);
    [reflexivity|left; reflexivity].
Defined.
